(** * ChipletPart cost model: a shallow embedding of [design.py]

    The classes of [design.py] (WaferProcess, IO, Layer, Assembly, Test and
    Chip) are embedded as records with the methods as functions over them,
    and the readers of [readDesignFromFile.py] as functions over the
    attributes of the nodes they read.

    Conventions.
    - Python floats are idealised as real numbers ([R]); Python ints are [Z]
      and are injected with [IZR] where the source mixes them with floats.
      The module [Binary64] embeds [Layer.compute_cost_per_mm2] a second
      time over the binary64 numbers themselves, for the statements that
      depend on how a comparison of floats is rounded.
    - A method that can raise, call [sys.exit] or loop returns a [result]:
      [Ok v], [Raise e] for an exception or a [SystemExit], [ComplexResult]
      when [**] leaves the reals or a division of numpy floats gives [inf]
      or [nan], and [OutOfFuel] when the fuel given to a [while] loop is
      used up.
    - A setter returns the integer the method returns together with the
      object after the call. *)

From Stdlib Require Import Reals Lra Lia ZArith List String Bool Psatz.
From Stdlib Require Floats.
Import ListNotations.

Set Warnings "-register-all".

Open Scope R_scope.

(** ** Exceptions and results *)

Inductive exn : Type :=
| ZeroDivisionError
| ValueError
| TypeError
| AttributeError
| UnboundLocalError
| NameError
| IndexError
| KeyError
| OverflowError
| SystemExit (status : Z).

Inductive result (A : Type) : Type :=
| Ok (a : A)
| Raise (e : exn)
| ComplexResult
| OutOfFuel.

Arguments Ok {A} a.
Arguments Raise {A} e.
Arguments ComplexResult {A}.
Arguments OutOfFuel {A}.

Definition bind {A B : Type} (m : result A) (k : A -> result B) : result B :=
  match m with
  | Ok a => k a
  | Raise e => Raise e
  | ComplexResult => ComplexResult
  | OutOfFuel => OutOfFuel
  end.

Notation "x <- m ;; k" := (bind m (fun x => k))
  (at level 61, m at next level, right associativity).
Notation "' pat <- m ;; k" := (bind m (fun x => match x with pat => k end))
  (at level 61, pat pattern, m at next level, right associativity).

(** [sys.exit(1)] *)
Definition sys_exit {A : Type} : result A := Raise (SystemExit 1).

(** ** Arithmetic of the source *)

Definition Rltb (x y : R) : bool := if Rlt_dec x y then true else false.
Definition Rleb (x y : R) : bool := if Rle_dec x y then true else false.
Definition Reqb (x y : R) : bool := if Req_dec_T x y then true else false.

(** [math.floor] and [math.ceil] return ints. *)
Definition py_floor (x : R) : Z := (up x - 1)%Z.
Definition py_ceil (x : R) : Z := (- py_floor (- x))%Z.

(** [x / y] *)
Definition py_div (x y : R) : result R :=
  if Reqb y 0 then Raise ZeroDivisionError else Ok (x / y).

(** [x // y] on floats *)
Definition py_floordiv (x y : R) : result R :=
  if Reqb y 0 then Raise ZeroDivisionError else Ok (IZR (py_floor (x / y))).

(** [math.sqrt(x)] *)
Definition py_sqrt (x : R) : result R :=
  if Rltb x 0 then Raise ValueError else Ok (sqrt x).

(** [math.log(x)] *)
Definition py_log (x : R) : result R :=
  if Rleb x 0 then Raise ValueError else Ok (ln x).

Definition is_integral (y : R) : bool := Reqb (IZR (py_floor y)) y.

(** [x ** y] on floats: [x ** 0] is 1 for every [x]; zero to a negative
    power raises; a negative base with a fractional exponent gives a
    complex number. *)
Definition py_pow (x y : R) : result R :=
  if Reqb y 0 then Ok 1
  else if Rltb 0 x then Ok (Rpower x y)
  else if Reqb x 0 then
    (if Rltb y 0 then Raise ZeroDivisionError else Ok 0)
  else if is_integral y then Ok (powerRZ x (py_floor y))
  else ComplexResult.

(** ** Python values

    The values a loosely typed argument or attribute of the source takes. *)

Inductive pyval : Type :=
| PyNone
| PyBool (b : bool)
| PyInt (z : Z)
| PyFloat (r : R)
| PyStr (s : string).

(** [v == s] for a string literal [s] *)
Definition py_eq_str (v : pyval) (s : string) : bool :=
  match v with
  | PyStr s' => String.eqb s' s
  | _ => false
  end.

(** The truth value of [v] in [if v:] *)
Definition truthy (v : pyval) : bool :=
  match v with
  | PyNone => false
  | PyBool b => b
  | PyInt z => negb (z =? 0)%Z
  | PyFloat r => negb (Reqb r 0)
  | PyStr s => negb (String.eqb s "")
  end.

Definition is_none (v : pyval) : bool :=
  match v with
  | PyNone => true
  | _ => false
  end.

(** A number read from an attribute that may hold [None]: arithmetic on
    [None] raises TypeError. *)
Definition num (o : option R) : result R :=
  match o with
  | Some x => Ok x
  | None => Raise TypeError
  end.

Definition numZ (o : option Z) : result R :=
  match o with
  | Some z => Ok (IZR z)
  | None => Raise TypeError
  end.

(** An attribute that is assigned later in the constructor: reading it
    before raises AttributeError. *)
Definition attr {A : Type} (o : option A) : result A :=
  match o with
  | Some a => Ok a
  | None => Raise AttributeError
  end.

(** [a or b] with the evaluation of [b] skipped when [a] is true *)
Definition or_else (a b : result bool) : result bool :=
  x <- a ;; if x then Ok true else b.

Definition is_None {A : Type} (o : option A) : bool :=
  match o with
  | Some _ => false
  | None => true
  end.

(** A two-dimensional numpy array, as the list of its rows. *)
Definition matrix : Type := list (list R).

(** [sum(row)] *)
Definition py_sum (row : list R) : R := fold_left Rplus row 0.

(** The successive values the functions of [random] return: the [k]-th
    draw of a run gives [rnd k], and a draw moves the state from [k] to
    [S k]. *)
Definition random_source : Type := nat -> R.

(** ** WaferProcess *)

(** A wafer process whose parameters are all defined. *)

Module WaferProcess.

Record t : Type := mk {
  name : string;
  wafer_diameter : R;
  edge_exclusion : R;
  wafer_process_yield : R;
  dicing_distance : R;
  reticle_x : R;
  reticle_y : R;
  wafer_fill_grid : bool;
  nre_front_end_cost_per_mm2_memory : R;
  nre_back_end_cost_per_mm2_memory : R;
  nre_front_end_cost_per_mm2_logic : R;
  nre_back_end_cost_per_mm2_logic : R;
  nre_front_end_cost_per_mm2_analog : R;
  nre_back_end_cost_per_mm2_analog : R;
  static : bool
}.

Definition with_name (v : string) (self : t) : t :=
  mk
    v (wafer_diameter self) (edge_exclusion self) (wafer_process_yield self)
    (dicing_distance self) (reticle_x self) (reticle_y self)
    (wafer_fill_grid self) (nre_front_end_cost_per_mm2_memory self)
    (nre_back_end_cost_per_mm2_memory self)
    (nre_front_end_cost_per_mm2_logic self)
    (nre_back_end_cost_per_mm2_logic self)
    (nre_front_end_cost_per_mm2_analog self)
    (nre_back_end_cost_per_mm2_analog self) (static self).

Definition with_wafer_diameter (v : R) (self : t) : t :=
  mk
    (name self) v (edge_exclusion self) (wafer_process_yield self)
    (dicing_distance self) (reticle_x self) (reticle_y self)
    (wafer_fill_grid self) (nre_front_end_cost_per_mm2_memory self)
    (nre_back_end_cost_per_mm2_memory self)
    (nre_front_end_cost_per_mm2_logic self)
    (nre_back_end_cost_per_mm2_logic self)
    (nre_front_end_cost_per_mm2_analog self)
    (nre_back_end_cost_per_mm2_analog self) (static self).

Definition with_edge_exclusion (v : R) (self : t) : t :=
  mk
    (name self) (wafer_diameter self) v (wafer_process_yield self)
    (dicing_distance self) (reticle_x self) (reticle_y self)
    (wafer_fill_grid self) (nre_front_end_cost_per_mm2_memory self)
    (nre_back_end_cost_per_mm2_memory self)
    (nre_front_end_cost_per_mm2_logic self)
    (nre_back_end_cost_per_mm2_logic self)
    (nre_front_end_cost_per_mm2_analog self)
    (nre_back_end_cost_per_mm2_analog self) (static self).

Definition with_wafer_process_yield (v : R) (self : t) : t :=
  mk
    (name self) (wafer_diameter self) (edge_exclusion self) v
    (dicing_distance self) (reticle_x self) (reticle_y self)
    (wafer_fill_grid self) (nre_front_end_cost_per_mm2_memory self)
    (nre_back_end_cost_per_mm2_memory self)
    (nre_front_end_cost_per_mm2_logic self)
    (nre_back_end_cost_per_mm2_logic self)
    (nre_front_end_cost_per_mm2_analog self)
    (nre_back_end_cost_per_mm2_analog self) (static self).

Definition with_dicing_distance (v : R) (self : t) : t :=
  mk
    (name self) (wafer_diameter self) (edge_exclusion self)
    (wafer_process_yield self) v (reticle_x self) (reticle_y self)
    (wafer_fill_grid self) (nre_front_end_cost_per_mm2_memory self)
    (nre_back_end_cost_per_mm2_memory self)
    (nre_front_end_cost_per_mm2_logic self)
    (nre_back_end_cost_per_mm2_logic self)
    (nre_front_end_cost_per_mm2_analog self)
    (nre_back_end_cost_per_mm2_analog self) (static self).

Definition with_reticle_x (v : R) (self : t) : t :=
  mk
    (name self) (wafer_diameter self) (edge_exclusion self)
    (wafer_process_yield self) (dicing_distance self) v (reticle_y self)
    (wafer_fill_grid self) (nre_front_end_cost_per_mm2_memory self)
    (nre_back_end_cost_per_mm2_memory self)
    (nre_front_end_cost_per_mm2_logic self)
    (nre_back_end_cost_per_mm2_logic self)
    (nre_front_end_cost_per_mm2_analog self)
    (nre_back_end_cost_per_mm2_analog self) (static self).

Definition with_reticle_y (v : R) (self : t) : t :=
  mk
    (name self) (wafer_diameter self) (edge_exclusion self)
    (wafer_process_yield self) (dicing_distance self) (reticle_x self) v
    (wafer_fill_grid self) (nre_front_end_cost_per_mm2_memory self)
    (nre_back_end_cost_per_mm2_memory self)
    (nre_front_end_cost_per_mm2_logic self)
    (nre_back_end_cost_per_mm2_logic self)
    (nre_front_end_cost_per_mm2_analog self)
    (nre_back_end_cost_per_mm2_analog self) (static self).

Definition with_wafer_fill_grid (v : bool) (self : t) : t :=
  mk
    (name self) (wafer_diameter self) (edge_exclusion self)
    (wafer_process_yield self) (dicing_distance self) (reticle_x self)
    (reticle_y self) v (nre_front_end_cost_per_mm2_memory self)
    (nre_back_end_cost_per_mm2_memory self)
    (nre_front_end_cost_per_mm2_logic self)
    (nre_back_end_cost_per_mm2_logic self)
    (nre_front_end_cost_per_mm2_analog self)
    (nre_back_end_cost_per_mm2_analog self) (static self).

Definition with_nre_front_end_cost_per_mm2_memory (v : R) (self : t) : t :=
  mk
    (name self) (wafer_diameter self) (edge_exclusion self)
    (wafer_process_yield self) (dicing_distance self) (reticle_x self)
    (reticle_y self) (wafer_fill_grid self) v
    (nre_back_end_cost_per_mm2_memory self)
    (nre_front_end_cost_per_mm2_logic self)
    (nre_back_end_cost_per_mm2_logic self)
    (nre_front_end_cost_per_mm2_analog self)
    (nre_back_end_cost_per_mm2_analog self) (static self).

Definition with_nre_back_end_cost_per_mm2_memory (v : R) (self : t) : t :=
  mk
    (name self) (wafer_diameter self) (edge_exclusion self)
    (wafer_process_yield self) (dicing_distance self) (reticle_x self)
    (reticle_y self) (wafer_fill_grid self)
    (nre_front_end_cost_per_mm2_memory self) v
    (nre_front_end_cost_per_mm2_logic self)
    (nre_back_end_cost_per_mm2_logic self)
    (nre_front_end_cost_per_mm2_analog self)
    (nre_back_end_cost_per_mm2_analog self) (static self).

Definition with_nre_front_end_cost_per_mm2_logic (v : R) (self : t) : t :=
  mk
    (name self) (wafer_diameter self) (edge_exclusion self)
    (wafer_process_yield self) (dicing_distance self) (reticle_x self)
    (reticle_y self) (wafer_fill_grid self)
    (nre_front_end_cost_per_mm2_memory self)
    (nre_back_end_cost_per_mm2_memory self) v
    (nre_back_end_cost_per_mm2_logic self)
    (nre_front_end_cost_per_mm2_analog self)
    (nre_back_end_cost_per_mm2_analog self) (static self).

Definition with_nre_back_end_cost_per_mm2_logic (v : R) (self : t) : t :=
  mk
    (name self) (wafer_diameter self) (edge_exclusion self)
    (wafer_process_yield self) (dicing_distance self) (reticle_x self)
    (reticle_y self) (wafer_fill_grid self)
    (nre_front_end_cost_per_mm2_memory self)
    (nre_back_end_cost_per_mm2_memory self)
    (nre_front_end_cost_per_mm2_logic self) v
    (nre_front_end_cost_per_mm2_analog self)
    (nre_back_end_cost_per_mm2_analog self) (static self).

Definition with_nre_front_end_cost_per_mm2_analog (v : R) (self : t) : t :=
  mk
    (name self) (wafer_diameter self) (edge_exclusion self)
    (wafer_process_yield self) (dicing_distance self) (reticle_x self)
    (reticle_y self) (wafer_fill_grid self)
    (nre_front_end_cost_per_mm2_memory self)
    (nre_back_end_cost_per_mm2_memory self)
    (nre_front_end_cost_per_mm2_logic self)
    (nre_back_end_cost_per_mm2_logic self) v
    (nre_back_end_cost_per_mm2_analog self) (static self).

Definition with_nre_back_end_cost_per_mm2_analog (v : R) (self : t) : t :=
  mk
    (name self) (wafer_diameter self) (edge_exclusion self)
    (wafer_process_yield self) (dicing_distance self) (reticle_x self)
    (reticle_y self) (wafer_fill_grid self)
    (nre_front_end_cost_per_mm2_memory self)
    (nre_back_end_cost_per_mm2_memory self)
    (nre_front_end_cost_per_mm2_logic self)
    (nre_back_end_cost_per_mm2_logic self)
    (nre_front_end_cost_per_mm2_analog self) v (static self).

Definition with_static (v : bool) (self : t) : t :=
  mk
    (name self) (wafer_diameter self) (edge_exclusion self)
    (wafer_process_yield self) (dicing_distance self) (reticle_x self)
    (reticle_y self) (wafer_fill_grid self)
    (nre_front_end_cost_per_mm2_memory self)
    (nre_back_end_cost_per_mm2_memory self)
    (nre_front_end_cost_per_mm2_logic self)
    (nre_back_end_cost_per_mm2_logic self)
    (nre_front_end_cost_per_mm2_analog self)
    (nre_back_end_cost_per_mm2_analog self) v.

(** Setters: 1 and no change when the object is static, else the
    assignment and 0. *)

Definition set_name (self : t) (value : string) : Z * t :=
  if static self then (1%Z, self)
  else (0%Z, with_name value self).

Definition set_wafer_diameter (self : t) (value : R) : Z * t :=
  if static self then (1%Z, self)
  else (0%Z, with_wafer_diameter value self).

Definition set_edge_exclusion (self : t) (value : R) : Z * t :=
  if static self then (1%Z, self)
  else (0%Z, with_edge_exclusion value self).

Definition set_dicing_distance (self : t) (value : R) : Z * t :=
  if static self then (1%Z, self)
  else (0%Z, with_dicing_distance value self).

Definition set_reticle_x (self : t) (value : R) : Z * t :=
  if static self then (1%Z, self)
  else (0%Z, with_reticle_x value self).

Definition set_reticle_y (self : t) (value : R) : Z * t :=
  if static self then (1%Z, self)
  else (0%Z, with_reticle_y value self).

Definition set_nre_front_end_cost_per_mm2_memory (self : t) (value : R) : Z * t :=
  if static self then (1%Z, self)
  else (0%Z, with_nre_front_end_cost_per_mm2_memory value self).

Definition set_nre_back_end_cost_per_mm2_memory (self : t) (value : R) : Z * t :=
  if static self then (1%Z, self)
  else (0%Z, with_nre_back_end_cost_per_mm2_memory value self).

Definition set_nre_front_end_cost_per_mm2_logic (self : t) (value : R) : Z * t :=
  if static self then (1%Z, self)
  else (0%Z, with_nre_front_end_cost_per_mm2_logic value self).

Definition set_nre_back_end_cost_per_mm2_logic (self : t) (value : R) : Z * t :=
  if static self then (1%Z, self)
  else (0%Z, with_nre_back_end_cost_per_mm2_logic value self).

Definition set_nre_front_end_cost_per_mm2_analog (self : t) (value : R) : Z * t :=
  if static self then (1%Z, self)
  else (0%Z, with_nre_front_end_cost_per_mm2_analog value self).

Definition set_nre_back_end_cost_per_mm2_analog (self : t) (value : R) : Z * t :=
  if static self then (1%Z, self)
  else (0%Z, with_nre_back_end_cost_per_mm2_analog value self).

Definition set_wafer_process_yield (self : t) (value : R) : Z * t :=
  if static self then (1%Z, self)
  else if Rltb value 0 || Rltb 1 value then (1%Z, self)
  else (0%Z, with_wafer_process_yield value self).

Definition set_wafer_fill_grid (self : t) (value : pyval) : Z * t :=
  if static self then (1%Z, self)
  else if py_eq_str value "True" || py_eq_str value "true"
  then (0%Z, with_wafer_fill_grid true self)
  else (0%Z, with_wafer_fill_grid false self).

(** No parameter of a [t] is [None], so the exit of [set_static] is not
    taken. *)
Definition set_static (self : t) : Z * t := (0%Z, with_static true self).

(** One constructor per setter of the class, with the argument of the
    call. *)
Inductive call : Type :=
| call_set_name (value : string)
| call_set_wafer_diameter (value : R)
| call_set_edge_exclusion (value : R)
| call_set_wafer_process_yield (value : R)
| call_set_dicing_distance (value : R)
| call_set_reticle_x (value : R)
| call_set_reticle_y (value : R)
| call_set_wafer_fill_grid (value : pyval)
| call_set_nre_front_end_cost_per_mm2_memory (value : R)
| call_set_nre_back_end_cost_per_mm2_memory (value : R)
| call_set_nre_front_end_cost_per_mm2_logic (value : R)
| call_set_nre_back_end_cost_per_mm2_logic (value : R)
| call_set_nre_front_end_cost_per_mm2_analog (value : R)
| call_set_nre_back_end_cost_per_mm2_analog (value : R)
| call_set_static.

(** The setter call [c] on [self]: the integer returned and the object
    after the call. *)
Definition run (c : call) (self : t) : result (Z * t) :=
  match c with
  | call_set_name value => Ok (set_name self value)
  | call_set_wafer_diameter value => Ok (set_wafer_diameter self value)
  | call_set_edge_exclusion value => Ok (set_edge_exclusion self value)
  | call_set_wafer_process_yield value => Ok (set_wafer_process_yield self value)
  | call_set_dicing_distance value => Ok (set_dicing_distance self value)
  | call_set_reticle_x value => Ok (set_reticle_x self value)
  | call_set_reticle_y value => Ok (set_reticle_y self value)
  | call_set_wafer_fill_grid value => Ok (set_wafer_fill_grid self value)
  | call_set_nre_front_end_cost_per_mm2_memory value => Ok (set_nre_front_end_cost_per_mm2_memory self value)
  | call_set_nre_back_end_cost_per_mm2_memory value => Ok (set_nre_back_end_cost_per_mm2_memory self value)
  | call_set_nre_front_end_cost_per_mm2_logic value => Ok (set_nre_front_end_cost_per_mm2_logic self value)
  | call_set_nre_back_end_cost_per_mm2_logic value => Ok (set_nre_back_end_cost_per_mm2_logic self value)
  | call_set_nre_front_end_cost_per_mm2_analog value => Ok (set_nre_front_end_cost_per_mm2_analog self value)
  | call_set_nre_back_end_cost_per_mm2_analog value => Ok (set_nre_back_end_cost_per_mm2_analog self value)
  | call_set_static => Ok (set_static self)
  end.

(** The setters whose body starts with the test of [self.static]. *)
Definition latched (c : call) : bool :=
  match c with
  | call_set_name _ => true
  | call_set_wafer_diameter _ => true
  | call_set_edge_exclusion _ => true
  | call_set_wafer_process_yield _ => true
  | call_set_dicing_distance _ => true
  | call_set_reticle_x _ => true
  | call_set_reticle_y _ => true
  | call_set_wafer_fill_grid _ => true
  | call_set_nre_front_end_cost_per_mm2_memory _ => true
  | call_set_nre_back_end_cost_per_mm2_memory _ => true
  | call_set_nre_front_end_cost_per_mm2_logic _ => true
  | call_set_nre_back_end_cost_per_mm2_logic _ => true
  | call_set_nre_front_end_cost_per_mm2_analog _ => true
  | call_set_nre_back_end_cost_per_mm2_analog _ => true
  | call_set_static => false
  end.

(** [WaferProcess.__init__] with every parameter given: [wafer_fill_grid]
    is read as a string, and [static] is kept as no parameter is
    [None]. *)
Definition init (name : string)
    (wafer_diameter edge_exclusion wafer_process_yield dicing_distance
       reticle_x reticle_y : R)
    (wafer_fill_grid : pyval)
    (nre_front_end_cost_per_mm2_memory nre_back_end_cost_per_mm2_memory
       nre_front_end_cost_per_mm2_logic nre_back_end_cost_per_mm2_logic
       nre_front_end_cost_per_mm2_analog nre_back_end_cost_per_mm2_analog : R)
    (static : bool) : t :=
  let self_wafer_fill_grid :=
    if py_eq_str wafer_fill_grid "True" || py_eq_str wafer_fill_grid "true"
    then true else false in
  mk name wafer_diameter edge_exclusion wafer_process_yield dicing_distance
     reticle_x reticle_y self_wafer_fill_grid
     nre_front_end_cost_per_mm2_memory nre_back_end_cost_per_mm2_memory
     nre_front_end_cost_per_mm2_logic nre_back_end_cost_per_mm2_logic
     nre_front_end_cost_per_mm2_analog nre_back_end_cost_per_mm2_analog
     static.

End WaferProcess.

(** ** IO *)

(** An interconnect type. [bidirectional] holds whatever Python value was
    stored. *)

Module IO.

Record t : Type := mk {
  type : string;
  rx_area : R;
  tx_area : R;
  shoreline : R;
  bandwidth : R;
  wire_count : Z;
  bidirectional : pyval;
  energy_per_bit : R;
  reach : R;
  static : bool
}.

Definition with_type (v : string) (self : t) : t :=
  mk
    v (rx_area self) (tx_area self) (shoreline self) (bandwidth self)
    (wire_count self) (bidirectional self) (energy_per_bit self) (reach self)
    (static self).

Definition with_rx_area (v : R) (self : t) : t :=
  mk
    (type self) v (tx_area self) (shoreline self) (bandwidth self)
    (wire_count self) (bidirectional self) (energy_per_bit self) (reach self)
    (static self).

Definition with_tx_area (v : R) (self : t) : t :=
  mk
    (type self) (rx_area self) v (shoreline self) (bandwidth self)
    (wire_count self) (bidirectional self) (energy_per_bit self) (reach self)
    (static self).

Definition with_shoreline (v : R) (self : t) : t :=
  mk
    (type self) (rx_area self) (tx_area self) v (bandwidth self)
    (wire_count self) (bidirectional self) (energy_per_bit self) (reach self)
    (static self).

Definition with_bandwidth (v : R) (self : t) : t :=
  mk
    (type self) (rx_area self) (tx_area self) (shoreline self) v
    (wire_count self) (bidirectional self) (energy_per_bit self) (reach self)
    (static self).

Definition with_wire_count (v : Z) (self : t) : t :=
  mk
    (type self) (rx_area self) (tx_area self) (shoreline self)
    (bandwidth self) v (bidirectional self) (energy_per_bit self)
    (reach self) (static self).

Definition with_bidirectional (v : pyval) (self : t) : t :=
  mk
    (type self) (rx_area self) (tx_area self) (shoreline self)
    (bandwidth self) (wire_count self) v (energy_per_bit self) (reach self)
    (static self).

Definition with_energy_per_bit (v : R) (self : t) : t :=
  mk
    (type self) (rx_area self) (tx_area self) (shoreline self)
    (bandwidth self) (wire_count self) (bidirectional self) v (reach self)
    (static self).

Definition with_reach (v : R) (self : t) : t :=
  mk
    (type self) (rx_area self) (tx_area self) (shoreline self)
    (bandwidth self) (wire_count self) (bidirectional self)
    (energy_per_bit self) v (static self).

Definition with_static (v : bool) (self : t) : t :=
  mk
    (type self) (rx_area self) (tx_area self) (shoreline self)
    (bandwidth self) (wire_count self) (bidirectional self)
    (energy_per_bit self) (reach self) v.

(** Setters: 1 and no change when the object is static, else the
    assignment and 0. *)

Definition set_type (self : t) (value : string) : Z * t :=
  if static self then (1%Z, self)
  else (0%Z, with_type value self).

Definition set_rx_area (self : t) (value : R) : Z * t :=
  if static self then (1%Z, self)
  else (0%Z, with_rx_area value self).

Definition set_tx_area (self : t) (value : R) : Z * t :=
  if static self then (1%Z, self)
  else (0%Z, with_tx_area value self).

Definition set_shoreline (self : t) (value : R) : Z * t :=
  if static self then (1%Z, self)
  else (0%Z, with_shoreline value self).

Definition set_bandwidth (self : t) (value : R) : Z * t :=
  if static self then (1%Z, self)
  else (0%Z, with_bandwidth value self).

Definition set_wire_count (self : t) (value : Z) : Z * t :=
  if static self then (1%Z, self)
  else (0%Z, with_wire_count value self).

Definition set_energy_per_bit (self : t) (value : R) : Z * t :=
  if static self then (1%Z, self)
  else (0%Z, with_energy_per_bit value self).

Definition set_reach (self : t) (value : R) : Z * t :=
  if static self then (1%Z, self)
  else (0%Z, with_reach value self).

Definition set_bidirectional (self : t) (value : pyval) : Z * t :=
  if static self then (1%Z, self)
  else if py_eq_str value "True" || py_eq_str value "true"
  then (0%Z, with_bidirectional (PyBool true) self)
  else (0%Z, with_bidirectional (PyBool false) self).

Definition set_static (self : t) : Z * t := (0%Z, with_static true self).

Definition get_bidirectional (self : t) : pyval := bidirectional self.

(** [IO.__init__]. The boolean read from the string is assigned to
    [self.bidirectional] and then the argument itself is assigned to it.
    When a parameter is [None] the warning is printed, [static] is cleared
    and the second message reads [self.area], an attribute no IO has. *)
Definition init (type : option string)
    (rx_area tx_area shoreline bandwidth : option R) (wire_count : option Z)
    (bidirectional : pyval) (energy_per_bit reach : option R)
    (static : bool) : result t :=
  let self_bidirectional :=
    if py_eq_str bidirectional "True" || py_eq_str bidirectional "true"
    then PyBool true else PyBool false in
  let self_bidirectional := bidirectional in
  match type, rx_area, tx_area, shoreline, bandwidth, wire_count,
        is_none self_bidirectional, energy_per_bit, reach with
  | Some type, Some rx_area, Some tx_area, Some shoreline, Some bandwidth,
    Some wire_count, false, Some energy_per_bit, Some reach =>
      Ok (mk type rx_area tx_area shoreline bandwidth wire_count
             self_bidirectional energy_per_bit reach static)
  | _, _, _, _, _, _, _, _, _ => Raise AttributeError
  end.

(** One constructor per setter of the class, with the argument of the
    call. *)
Inductive call : Type :=
| call_set_type (value : string)
| call_set_rx_area (value : R)
| call_set_tx_area (value : R)
| call_set_shoreline (value : R)
| call_set_bandwidth (value : R)
| call_set_wire_count (value : Z)
| call_set_bidirectional (value : pyval)
| call_set_energy_per_bit (value : R)
| call_set_reach (value : R)
| call_set_static.

(** The setter call [c] on [self]: the integer returned and the object
    after the call. *)
Definition run (c : call) (self : t) : result (Z * t) :=
  match c with
  | call_set_type value => Ok (set_type self value)
  | call_set_rx_area value => Ok (set_rx_area self value)
  | call_set_tx_area value => Ok (set_tx_area self value)
  | call_set_shoreline value => Ok (set_shoreline self value)
  | call_set_bandwidth value => Ok (set_bandwidth self value)
  | call_set_wire_count value => Ok (set_wire_count self value)
  | call_set_bidirectional value => Ok (set_bidirectional self value)
  | call_set_energy_per_bit value => Ok (set_energy_per_bit self value)
  | call_set_reach value => Ok (set_reach self value)
  | call_set_static => Ok (set_static self)
  end.

(** The setters whose body starts with the test of [self.static]. *)
Definition latched (c : call) : bool :=
  match c with
  | call_set_type _ => true
  | call_set_rx_area _ => true
  | call_set_tx_area _ => true
  | call_set_shoreline _ => true
  | call_set_bandwidth _ => true
  | call_set_wire_count _ => true
  | call_set_bidirectional _ => true
  | call_set_energy_per_bit _ => true
  | call_set_reach _ => true
  | call_set_static => false
  end.

End IO.

(** ** Layer *)

(** A process layer whose parameters are all defined. *)

Module Layer.

Record t : Type := mk {
  name : string;
  active : bool;
  cost_per_mm2 : R;
  defect_density : R;
  critical_area_ratio : R;
  clustering_factor : R;
  litho_percent : R;
  mask_cost : R;
  stitching_yield : R;
  static : bool
}.

Definition with_name (v : string) (self : t) : t :=
  mk
    v (active self) (cost_per_mm2 self) (defect_density self)
    (critical_area_ratio self) (clustering_factor self) (litho_percent self)
    (mask_cost self) (stitching_yield self) (static self).

Definition with_active (v : bool) (self : t) : t :=
  mk
    (name self) v (cost_per_mm2 self) (defect_density self)
    (critical_area_ratio self) (clustering_factor self) (litho_percent self)
    (mask_cost self) (stitching_yield self) (static self).

Definition with_cost_per_mm2 (v : R) (self : t) : t :=
  mk
    (name self) (active self) v (defect_density self)
    (critical_area_ratio self) (clustering_factor self) (litho_percent self)
    (mask_cost self) (stitching_yield self) (static self).

Definition with_defect_density (v : R) (self : t) : t :=
  mk
    (name self) (active self) (cost_per_mm2 self) v
    (critical_area_ratio self) (clustering_factor self) (litho_percent self)
    (mask_cost self) (stitching_yield self) (static self).

Definition with_critical_area_ratio (v : R) (self : t) : t :=
  mk
    (name self) (active self) (cost_per_mm2 self) (defect_density self) v
    (clustering_factor self) (litho_percent self) (mask_cost self)
    (stitching_yield self) (static self).

Definition with_clustering_factor (v : R) (self : t) : t :=
  mk
    (name self) (active self) (cost_per_mm2 self) (defect_density self)
    (critical_area_ratio self) v (litho_percent self) (mask_cost self)
    (stitching_yield self) (static self).

Definition with_litho_percent (v : R) (self : t) : t :=
  mk
    (name self) (active self) (cost_per_mm2 self) (defect_density self)
    (critical_area_ratio self) (clustering_factor self) v (mask_cost self)
    (stitching_yield self) (static self).

Definition with_mask_cost (v : R) (self : t) : t :=
  mk
    (name self) (active self) (cost_per_mm2 self) (defect_density self)
    (critical_area_ratio self) (clustering_factor self) (litho_percent self)
    v (stitching_yield self) (static self).

Definition with_stitching_yield (v : R) (self : t) : t :=
  mk
    (name self) (active self) (cost_per_mm2 self) (defect_density self)
    (critical_area_ratio self) (clustering_factor self) (litho_percent self)
    (mask_cost self) v (static self).

Definition with_static (v : bool) (self : t) : t :=
  mk
    (name self) (active self) (cost_per_mm2 self) (defect_density self)
    (critical_area_ratio self) (clustering_factor self) (litho_percent self)
    (mask_cost self) (stitching_yield self) v.

(** Setters: 1 and no change when the object is static, else the
    assignment and 0. *)

Definition set_name (self : t) (value : string) : Z * t :=
  if static self then (1%Z, self)
  else (0%Z, with_name value self).

Definition set_active (self : t) (value : bool) : Z * t :=
  if static self then (1%Z, self)
  else (0%Z, with_active value self).

Definition set_cost_per_mm2 (self : t) (value : R) : Z * t :=
  if static self then (1%Z, self)
  else (0%Z, with_cost_per_mm2 value self).

Definition set_defect_density (self : t) (value : R) : Z * t :=
  if static self then (1%Z, self)
  else (0%Z, with_defect_density value self).

Definition set_critical_area_ratio (self : t) (value : R) : Z * t :=
  if static self then (1%Z, self)
  else (0%Z, with_critical_area_ratio value self).

Definition set_clustering_factor (self : t) (value : R) : Z * t :=
  if static self then (1%Z, self)
  else (0%Z, with_clustering_factor value self).

Definition set_litho_percent (self : t) (value : R) : Z * t :=
  if static self then (1%Z, self)
  else (0%Z, with_litho_percent value self).

Definition set_mask_cost (self : t) (value : R) : Z * t :=
  if static self then (1%Z, self)
  else (0%Z, with_mask_cost value self).

Definition set_stitching_yield (self : t) (value : R) : Z * t :=
  if static self then (1%Z, self)
  else (0%Z, with_stitching_yield value self).

Definition set_static (self : t) : Z * t := (0%Z, with_static true self).

Definition layer_yield (self : t) (area : R) : result R :=
  let num_stitches := 0%Z in
  q <- py_div (defect_density self * area * critical_area_ratio self)
              (clustering_factor self) ;;
  defect_yield <- py_pow (1 + q) (-1 * clustering_factor self) ;;
  stitching_yield <- py_pow (stitching_yield self) (IZR num_stitches) ;;
  let final_layer_yield := stitching_yield * defect_yield in
  Ok final_layer_yield.

(** [while reticle_area < area: reticle_area += reticle_x*reticle_y] *)
Fixpoint grow_reticle (fuel : nat) (reticle_area step area : R) : result R :=
  if Rltb reticle_area area then
    match fuel with
    | O => OutOfFuel
    | S fuel' => grow_reticle fuel' (reticle_area + step) step area
    end
  else Ok reticle_area.

Definition reticle_utilization (fuel : nat) (self : t)
    (area reticle_x reticle_y : R) : result R :=
  let reticle_area := reticle_x * reticle_y in
  reticle_area <- grow_reticle fuel reticle_area (reticle_x * reticle_y) area ;;
  number_chips_in_reticle <- py_floordiv reticle_area area ;;
  let unutilized_reticle := reticle_area - number_chips_in_reticle * area in
  py_div (reticle_area - unutilized_reticle) reticle_area.

(** One pass of the body of the row loops of [compute_cost_per_mm2]: the
    chord at height [row_chord_height] and the squares it adds, with the
    [starting_distance_from_left] the iteration starts from. *)
Definition fill_row (grid_fill : bool)
    (usable_wafer_diameter square_side row_chord_height : R)
    (starting_distance_from_left : option R) (num_squares : Z)
    : result (option R * Z) :=
  r2 <- py_pow (usable_wafer_diameter / 2) 2 ;;
  h2 <- py_pow row_chord_height 2 ;;
  s <- py_sqrt (r2 - h2) ;;
  let chord_length := s * 2 in
  if negb grid_fill then
    q <- py_div chord_length square_side ;;
    Ok (starting_distance_from_left, (num_squares + 2 * py_floor q)%Z)
  else
    match starting_distance_from_left with
    | None =>
        let starting_distance_from_left :=
          (usable_wafer_diameter - chord_length) / 2 in
        q <- py_div chord_length square_side ;;
        Ok (Some starting_distance_from_left,
            (num_squares + 2 * py_floor q)%Z)
    | Some sdl =>
        let location_of_first_fit_candidate :=
          (usable_wafer_diameter - chord_length) / 2 in
        q1 <- py_div (location_of_first_fit_candidate - sdl) square_side ;;
        let starting_location := IZR (py_ceil q1) * square_side + sdl in
        let effective_cord_length :=
          chord_length - (starting_location - location_of_first_fit_candidate) in
        q2 <- py_div effective_cord_length square_side ;;
        Ok (Some sdl, (num_squares + 2 * py_floor q2)%Z)
    end.

(** The loop of case 1 sets [starting_distance_from_left = None] at the top
    of every iteration. *)
Fixpoint rows_case_1 (fuel : nat) (grid_fill : bool)
    (usable_wafer_diameter square_side row_chord_height : R)
    (num_squares : Z) : result Z :=
  if Rltb row_chord_height (usable_wafer_diameter / 2) then
    match fuel with
    | O => OutOfFuel
    | S fuel' =>
        '(_, num_squares) <- fill_row grid_fill usable_wafer_diameter
                               square_side row_chord_height None num_squares ;;
        rows_case_1 fuel' grid_fill usable_wafer_diameter square_side
                    (row_chord_height + square_side) num_squares
    end
  else Ok num_squares.

(** The loop of case 2 keeps [starting_distance_from_left] across
    iterations. *)
Fixpoint rows_case_2 (fuel : nat) (grid_fill : bool)
    (usable_wafer_diameter square_side row_chord_height : R)
    (starting_distance_from_left : option R) (num_squares : Z) : result Z :=
  if Rltb row_chord_height (usable_wafer_diameter / 2) then
    match fuel with
    | O => OutOfFuel
    | S fuel' =>
        '(sdl, num_squares) <- fill_row grid_fill usable_wafer_diameter
                                 square_side row_chord_height
                                 starting_distance_from_left num_squares ;;
        rows_case_2 fuel' grid_fill usable_wafer_diameter square_side
                    (row_chord_height + square_side) sdl num_squares
    end
  else Ok num_squares.

Definition sentinel_cost : R := 1000000000.

Definition compute_cost_per_mm2 (fuel : nat) (self : t) (square_area : R)
    (wafer_process : WaferProcess.t) : result R :=
  let wafer_diameter := WaferProcess.wafer_diameter wafer_process in
  let grid_fill := WaferProcess.wafer_fill_grid wafer_process in
  let usable_wafer_diameter :=
    wafer_diameter - 2 * WaferProcess.edge_exclusion wafer_process in
  s <- py_sqrt square_area ;;
  let square_side := s + WaferProcess.dicing_distance wafer_process in
  if Rltb (usable_wafer_diameter / 2) (square_side * sqrt 2) then
    Ok sentinel_cost
  else
    (* Case 1 *)
    let num_squares_case_1 := 0%Z in
    let row_chord_height := square_side / 2 in
    r2 <- py_pow (usable_wafer_diameter / 2) 2 ;;
    h2 <- py_pow row_chord_height 2 ;;
    c <- py_sqrt (r2 - h2) ;;
    let chord_length := c * 2 in
    q <- py_div chord_length square_side ;;
    let num_squares_case_1 := (num_squares_case_1 + py_floor q)%Z in
    let row_chord_height := row_chord_height + square_side in
    num_squares_case_1 <- rows_case_1 fuel grid_fill usable_wafer_diameter
                            square_side row_chord_height num_squares_case_1 ;;
    (* Case 2 *)
    let num_squares_case_2 := 0%Z in
    let row_chord_height := square_side in
    r2 <- py_pow (usable_wafer_diameter / 2) 2 ;;
    h2 <- py_pow row_chord_height 2 ;;
    c <- py_sqrt (r2 - h2) ;;
    let chord_length := c * 2 in
    q <- py_div chord_length square_side ;;
    let num_squares_case_2 := (num_squares_case_2 + 2 * py_floor q)%Z in
    let row_chord_height := row_chord_height + square_side in
    num_squares_case_2 <- rows_case_2 fuel grid_fill usable_wafer_diameter
                            square_side row_chord_height None
                            num_squares_case_2 ;;
    let num_squares := Z.max num_squares_case_1 num_squares_case_2 in
    if Reqb square_area 0 then sys_exit
    else if (num_squares =? 0)%Z then sys_exit
    else
      let used_area := IZR num_squares * square_area in
      w2 <- py_pow (wafer_diameter / 2) 2 ;;
      let circle_area := PI * w2 in
      py_div (cost_per_mm2 self * circle_area) used_area.

Definition layer_cost (fuel : nat) (self : t) (area : R)
    (wafer_process : WaferProcess.t) : result R :=
  if Reqb area 0 then Ok 0
  else if Rltb 0 area then
    c <- compute_cost_per_mm2 fuel self area wafer_process ;;
    let layer_cost := area * c in
    reticle_utilization <-
      (if Reqb (litho_percent self) 0 then Ok 1
       else if Rltb 0 (litho_percent self) then
         reticle_utilization fuel self area
           (WaferProcess.reticle_x wafer_process)
           (WaferProcess.reticle_y wafer_process)
       else sys_exit) ;;
    scaled <- py_div (layer_cost * litho_percent self) reticle_utilization ;;
    Ok (layer_cost * (1 - litho_percent self) + scaled)
  else sys_exit.


(** One constructor per setter of the class, with the argument of the
    call. *)
Inductive call : Type :=
| call_set_name (value : string)
| call_set_active (value : bool)
| call_set_cost_per_mm2 (value : R)
| call_set_defect_density (value : R)
| call_set_critical_area_ratio (value : R)
| call_set_clustering_factor (value : R)
| call_set_litho_percent (value : R)
| call_set_mask_cost (value : R)
| call_set_stitching_yield (value : R)
| call_set_static.

(** The setter call [c] on [self]: the integer returned and the object
    after the call. *)
Definition run (c : call) (self : t) : result (Z * t) :=
  match c with
  | call_set_name value => Ok (set_name self value)
  | call_set_active value => Ok (set_active self value)
  | call_set_cost_per_mm2 value => Ok (set_cost_per_mm2 self value)
  | call_set_defect_density value => Ok (set_defect_density self value)
  | call_set_critical_area_ratio value => Ok (set_critical_area_ratio self value)
  | call_set_clustering_factor value => Ok (set_clustering_factor self value)
  | call_set_litho_percent value => Ok (set_litho_percent self value)
  | call_set_mask_cost value => Ok (set_mask_cost self value)
  | call_set_stitching_yield value => Ok (set_stitching_yield self value)
  | call_set_static => Ok (set_static self)
  end.

(** The setters whose body starts with the test of [self.static]. *)
Definition latched (c : call) : bool :=
  match c with
  | call_set_name _ => true
  | call_set_active _ => true
  | call_set_cost_per_mm2 _ => true
  | call_set_defect_density _ => true
  | call_set_critical_area_ratio _ => true
  | call_set_clustering_factor _ => true
  | call_set_litho_percent _ => true
  | call_set_mask_cost _ => true
  | call_set_stitching_yield _ => true
  | call_set_static => false
  end.

(** [Layer.__init__] with every parameter given: [static] is kept. *)
Definition init (name : string) (active : bool)
    (cost_per_mm2 defect_density critical_area_ratio clustering_factor
       litho_percent mask_cost stitching_yield : R)
    (static : bool) : t :=
  mk name active cost_per_mm2 defect_density critical_area_ratio
     clustering_factor litho_percent mask_cost stitching_yield static.

End Layer.

(** ** Assembly *)

(** An assembly process. A parameter is [None] until it is given: the
    constructor accepts [None] for each of them. *)

Module Assembly.

Record t : Type := mk {
  name : string;
  materials_cost_per_mm2 : option R;
  picknplace_machine_cost : option R;
  picknplace_machine_lifetime : option R;
  picknplace_machine_uptime : option R;
  picknplace_technician_yearly_cost : option R;
  picknplace_time : option R;
  picknplace_group : option Z;
  bonding_machine_cost : option R;
  bonding_machine_lifetime : option R;
  bonding_machine_uptime : option R;
  bonding_machine_technician_yearly_cost : option R;
  bonding_time : option R;
  bonding_group : option Z;
  die_separation : option R;
  edge_exclusion : option R;
  max_pad_current_density : option R;
  bonding_pitch : option R;
  picknplace_cost_per_second : option R;
  bonding_cost_per_second : option R;
  bonding_yield : option R;
  alignment_yield : option R;
  dielectric_bond_defect_density : option R;
  static : bool
}.

Definition with_name (v : string) (self : t) : t :=
  mk
    v (materials_cost_per_mm2 self) (picknplace_machine_cost self)
    (picknplace_machine_lifetime self) (picknplace_machine_uptime self)
    (picknplace_technician_yearly_cost self) (picknplace_time self)
    (picknplace_group self) (bonding_machine_cost self)
    (bonding_machine_lifetime self) (bonding_machine_uptime self)
    (bonding_machine_technician_yearly_cost self) (bonding_time self)
    (bonding_group self) (die_separation self) (edge_exclusion self)
    (max_pad_current_density self) (bonding_pitch self)
    (picknplace_cost_per_second self) (bonding_cost_per_second self)
    (bonding_yield self) (alignment_yield self)
    (dielectric_bond_defect_density self) (static self).

Definition with_materials_cost_per_mm2 (v : option R) (self : t) : t :=
  mk
    (name self) v (picknplace_machine_cost self)
    (picknplace_machine_lifetime self) (picknplace_machine_uptime self)
    (picknplace_technician_yearly_cost self) (picknplace_time self)
    (picknplace_group self) (bonding_machine_cost self)
    (bonding_machine_lifetime self) (bonding_machine_uptime self)
    (bonding_machine_technician_yearly_cost self) (bonding_time self)
    (bonding_group self) (die_separation self) (edge_exclusion self)
    (max_pad_current_density self) (bonding_pitch self)
    (picknplace_cost_per_second self) (bonding_cost_per_second self)
    (bonding_yield self) (alignment_yield self)
    (dielectric_bond_defect_density self) (static self).

Definition with_picknplace_machine_cost (v : option R) (self : t) : t :=
  mk
    (name self) (materials_cost_per_mm2 self) v
    (picknplace_machine_lifetime self) (picknplace_machine_uptime self)
    (picknplace_technician_yearly_cost self) (picknplace_time self)
    (picknplace_group self) (bonding_machine_cost self)
    (bonding_machine_lifetime self) (bonding_machine_uptime self)
    (bonding_machine_technician_yearly_cost self) (bonding_time self)
    (bonding_group self) (die_separation self) (edge_exclusion self)
    (max_pad_current_density self) (bonding_pitch self)
    (picknplace_cost_per_second self) (bonding_cost_per_second self)
    (bonding_yield self) (alignment_yield self)
    (dielectric_bond_defect_density self) (static self).

Definition with_picknplace_machine_lifetime (v : option R) (self : t) : t :=
  mk
    (name self) (materials_cost_per_mm2 self) (picknplace_machine_cost self)
    v (picknplace_machine_uptime self)
    (picknplace_technician_yearly_cost self) (picknplace_time self)
    (picknplace_group self) (bonding_machine_cost self)
    (bonding_machine_lifetime self) (bonding_machine_uptime self)
    (bonding_machine_technician_yearly_cost self) (bonding_time self)
    (bonding_group self) (die_separation self) (edge_exclusion self)
    (max_pad_current_density self) (bonding_pitch self)
    (picknplace_cost_per_second self) (bonding_cost_per_second self)
    (bonding_yield self) (alignment_yield self)
    (dielectric_bond_defect_density self) (static self).

Definition with_picknplace_machine_uptime (v : option R) (self : t) : t :=
  mk
    (name self) (materials_cost_per_mm2 self) (picknplace_machine_cost self)
    (picknplace_machine_lifetime self) v
    (picknplace_technician_yearly_cost self) (picknplace_time self)
    (picknplace_group self) (bonding_machine_cost self)
    (bonding_machine_lifetime self) (bonding_machine_uptime self)
    (bonding_machine_technician_yearly_cost self) (bonding_time self)
    (bonding_group self) (die_separation self) (edge_exclusion self)
    (max_pad_current_density self) (bonding_pitch self)
    (picknplace_cost_per_second self) (bonding_cost_per_second self)
    (bonding_yield self) (alignment_yield self)
    (dielectric_bond_defect_density self) (static self).

Definition with_picknplace_technician_yearly_cost (v : option R) (self : t) : t :=
  mk
    (name self) (materials_cost_per_mm2 self) (picknplace_machine_cost self)
    (picknplace_machine_lifetime self) (picknplace_machine_uptime self) v
    (picknplace_time self) (picknplace_group self)
    (bonding_machine_cost self) (bonding_machine_lifetime self)
    (bonding_machine_uptime self)
    (bonding_machine_technician_yearly_cost self) (bonding_time self)
    (bonding_group self) (die_separation self) (edge_exclusion self)
    (max_pad_current_density self) (bonding_pitch self)
    (picknplace_cost_per_second self) (bonding_cost_per_second self)
    (bonding_yield self) (alignment_yield self)
    (dielectric_bond_defect_density self) (static self).

Definition with_picknplace_time (v : option R) (self : t) : t :=
  mk
    (name self) (materials_cost_per_mm2 self) (picknplace_machine_cost self)
    (picknplace_machine_lifetime self) (picknplace_machine_uptime self)
    (picknplace_technician_yearly_cost self) v (picknplace_group self)
    (bonding_machine_cost self) (bonding_machine_lifetime self)
    (bonding_machine_uptime self)
    (bonding_machine_technician_yearly_cost self) (bonding_time self)
    (bonding_group self) (die_separation self) (edge_exclusion self)
    (max_pad_current_density self) (bonding_pitch self)
    (picknplace_cost_per_second self) (bonding_cost_per_second self)
    (bonding_yield self) (alignment_yield self)
    (dielectric_bond_defect_density self) (static self).

Definition with_picknplace_group (v : option Z) (self : t) : t :=
  mk
    (name self) (materials_cost_per_mm2 self) (picknplace_machine_cost self)
    (picknplace_machine_lifetime self) (picknplace_machine_uptime self)
    (picknplace_technician_yearly_cost self) (picknplace_time self) v
    (bonding_machine_cost self) (bonding_machine_lifetime self)
    (bonding_machine_uptime self)
    (bonding_machine_technician_yearly_cost self) (bonding_time self)
    (bonding_group self) (die_separation self) (edge_exclusion self)
    (max_pad_current_density self) (bonding_pitch self)
    (picknplace_cost_per_second self) (bonding_cost_per_second self)
    (bonding_yield self) (alignment_yield self)
    (dielectric_bond_defect_density self) (static self).

Definition with_bonding_machine_cost (v : option R) (self : t) : t :=
  mk
    (name self) (materials_cost_per_mm2 self) (picknplace_machine_cost self)
    (picknplace_machine_lifetime self) (picknplace_machine_uptime self)
    (picknplace_technician_yearly_cost self) (picknplace_time self)
    (picknplace_group self) v (bonding_machine_lifetime self)
    (bonding_machine_uptime self)
    (bonding_machine_technician_yearly_cost self) (bonding_time self)
    (bonding_group self) (die_separation self) (edge_exclusion self)
    (max_pad_current_density self) (bonding_pitch self)
    (picknplace_cost_per_second self) (bonding_cost_per_second self)
    (bonding_yield self) (alignment_yield self)
    (dielectric_bond_defect_density self) (static self).

Definition with_bonding_machine_lifetime (v : option R) (self : t) : t :=
  mk
    (name self) (materials_cost_per_mm2 self) (picknplace_machine_cost self)
    (picknplace_machine_lifetime self) (picknplace_machine_uptime self)
    (picknplace_technician_yearly_cost self) (picknplace_time self)
    (picknplace_group self) (bonding_machine_cost self) v
    (bonding_machine_uptime self)
    (bonding_machine_technician_yearly_cost self) (bonding_time self)
    (bonding_group self) (die_separation self) (edge_exclusion self)
    (max_pad_current_density self) (bonding_pitch self)
    (picknplace_cost_per_second self) (bonding_cost_per_second self)
    (bonding_yield self) (alignment_yield self)
    (dielectric_bond_defect_density self) (static self).

Definition with_bonding_machine_uptime (v : option R) (self : t) : t :=
  mk
    (name self) (materials_cost_per_mm2 self) (picknplace_machine_cost self)
    (picknplace_machine_lifetime self) (picknplace_machine_uptime self)
    (picknplace_technician_yearly_cost self) (picknplace_time self)
    (picknplace_group self) (bonding_machine_cost self)
    (bonding_machine_lifetime self) v
    (bonding_machine_technician_yearly_cost self) (bonding_time self)
    (bonding_group self) (die_separation self) (edge_exclusion self)
    (max_pad_current_density self) (bonding_pitch self)
    (picknplace_cost_per_second self) (bonding_cost_per_second self)
    (bonding_yield self) (alignment_yield self)
    (dielectric_bond_defect_density self) (static self).

Definition with_bonding_machine_technician_yearly_cost (v : option R) (self : t) : t :=
  mk
    (name self) (materials_cost_per_mm2 self) (picknplace_machine_cost self)
    (picknplace_machine_lifetime self) (picknplace_machine_uptime self)
    (picknplace_technician_yearly_cost self) (picknplace_time self)
    (picknplace_group self) (bonding_machine_cost self)
    (bonding_machine_lifetime self) (bonding_machine_uptime self) v
    (bonding_time self) (bonding_group self) (die_separation self)
    (edge_exclusion self) (max_pad_current_density self) (bonding_pitch self)
    (picknplace_cost_per_second self) (bonding_cost_per_second self)
    (bonding_yield self) (alignment_yield self)
    (dielectric_bond_defect_density self) (static self).

Definition with_bonding_time (v : option R) (self : t) : t :=
  mk
    (name self) (materials_cost_per_mm2 self) (picknplace_machine_cost self)
    (picknplace_machine_lifetime self) (picknplace_machine_uptime self)
    (picknplace_technician_yearly_cost self) (picknplace_time self)
    (picknplace_group self) (bonding_machine_cost self)
    (bonding_machine_lifetime self) (bonding_machine_uptime self)
    (bonding_machine_technician_yearly_cost self) v (bonding_group self)
    (die_separation self) (edge_exclusion self)
    (max_pad_current_density self) (bonding_pitch self)
    (picknplace_cost_per_second self) (bonding_cost_per_second self)
    (bonding_yield self) (alignment_yield self)
    (dielectric_bond_defect_density self) (static self).

Definition with_bonding_group (v : option Z) (self : t) : t :=
  mk
    (name self) (materials_cost_per_mm2 self) (picknplace_machine_cost self)
    (picknplace_machine_lifetime self) (picknplace_machine_uptime self)
    (picknplace_technician_yearly_cost self) (picknplace_time self)
    (picknplace_group self) (bonding_machine_cost self)
    (bonding_machine_lifetime self) (bonding_machine_uptime self)
    (bonding_machine_technician_yearly_cost self) (bonding_time self) v
    (die_separation self) (edge_exclusion self)
    (max_pad_current_density self) (bonding_pitch self)
    (picknplace_cost_per_second self) (bonding_cost_per_second self)
    (bonding_yield self) (alignment_yield self)
    (dielectric_bond_defect_density self) (static self).

Definition with_die_separation (v : option R) (self : t) : t :=
  mk
    (name self) (materials_cost_per_mm2 self) (picknplace_machine_cost self)
    (picknplace_machine_lifetime self) (picknplace_machine_uptime self)
    (picknplace_technician_yearly_cost self) (picknplace_time self)
    (picknplace_group self) (bonding_machine_cost self)
    (bonding_machine_lifetime self) (bonding_machine_uptime self)
    (bonding_machine_technician_yearly_cost self) (bonding_time self)
    (bonding_group self) v (edge_exclusion self)
    (max_pad_current_density self) (bonding_pitch self)
    (picknplace_cost_per_second self) (bonding_cost_per_second self)
    (bonding_yield self) (alignment_yield self)
    (dielectric_bond_defect_density self) (static self).

Definition with_edge_exclusion (v : option R) (self : t) : t :=
  mk
    (name self) (materials_cost_per_mm2 self) (picknplace_machine_cost self)
    (picknplace_machine_lifetime self) (picknplace_machine_uptime self)
    (picknplace_technician_yearly_cost self) (picknplace_time self)
    (picknplace_group self) (bonding_machine_cost self)
    (bonding_machine_lifetime self) (bonding_machine_uptime self)
    (bonding_machine_technician_yearly_cost self) (bonding_time self)
    (bonding_group self) (die_separation self) v
    (max_pad_current_density self) (bonding_pitch self)
    (picknplace_cost_per_second self) (bonding_cost_per_second self)
    (bonding_yield self) (alignment_yield self)
    (dielectric_bond_defect_density self) (static self).

Definition with_max_pad_current_density (v : option R) (self : t) : t :=
  mk
    (name self) (materials_cost_per_mm2 self) (picknplace_machine_cost self)
    (picknplace_machine_lifetime self) (picknplace_machine_uptime self)
    (picknplace_technician_yearly_cost self) (picknplace_time self)
    (picknplace_group self) (bonding_machine_cost self)
    (bonding_machine_lifetime self) (bonding_machine_uptime self)
    (bonding_machine_technician_yearly_cost self) (bonding_time self)
    (bonding_group self) (die_separation self) (edge_exclusion self) v
    (bonding_pitch self) (picknplace_cost_per_second self)
    (bonding_cost_per_second self) (bonding_yield self)
    (alignment_yield self) (dielectric_bond_defect_density self)
    (static self).

Definition with_bonding_pitch (v : option R) (self : t) : t :=
  mk
    (name self) (materials_cost_per_mm2 self) (picknplace_machine_cost self)
    (picknplace_machine_lifetime self) (picknplace_machine_uptime self)
    (picknplace_technician_yearly_cost self) (picknplace_time self)
    (picknplace_group self) (bonding_machine_cost self)
    (bonding_machine_lifetime self) (bonding_machine_uptime self)
    (bonding_machine_technician_yearly_cost self) (bonding_time self)
    (bonding_group self) (die_separation self) (edge_exclusion self)
    (max_pad_current_density self) v (picknplace_cost_per_second self)
    (bonding_cost_per_second self) (bonding_yield self)
    (alignment_yield self) (dielectric_bond_defect_density self)
    (static self).

Definition with_picknplace_cost_per_second (v : option R) (self : t) : t :=
  mk
    (name self) (materials_cost_per_mm2 self) (picknplace_machine_cost self)
    (picknplace_machine_lifetime self) (picknplace_machine_uptime self)
    (picknplace_technician_yearly_cost self) (picknplace_time self)
    (picknplace_group self) (bonding_machine_cost self)
    (bonding_machine_lifetime self) (bonding_machine_uptime self)
    (bonding_machine_technician_yearly_cost self) (bonding_time self)
    (bonding_group self) (die_separation self) (edge_exclusion self)
    (max_pad_current_density self) (bonding_pitch self) v
    (bonding_cost_per_second self) (bonding_yield self)
    (alignment_yield self) (dielectric_bond_defect_density self)
    (static self).

Definition with_bonding_cost_per_second (v : option R) (self : t) : t :=
  mk
    (name self) (materials_cost_per_mm2 self) (picknplace_machine_cost self)
    (picknplace_machine_lifetime self) (picknplace_machine_uptime self)
    (picknplace_technician_yearly_cost self) (picknplace_time self)
    (picknplace_group self) (bonding_machine_cost self)
    (bonding_machine_lifetime self) (bonding_machine_uptime self)
    (bonding_machine_technician_yearly_cost self) (bonding_time self)
    (bonding_group self) (die_separation self) (edge_exclusion self)
    (max_pad_current_density self) (bonding_pitch self)
    (picknplace_cost_per_second self) v (bonding_yield self)
    (alignment_yield self) (dielectric_bond_defect_density self)
    (static self).

Definition with_bonding_yield (v : option R) (self : t) : t :=
  mk
    (name self) (materials_cost_per_mm2 self) (picknplace_machine_cost self)
    (picknplace_machine_lifetime self) (picknplace_machine_uptime self)
    (picknplace_technician_yearly_cost self) (picknplace_time self)
    (picknplace_group self) (bonding_machine_cost self)
    (bonding_machine_lifetime self) (bonding_machine_uptime self)
    (bonding_machine_technician_yearly_cost self) (bonding_time self)
    (bonding_group self) (die_separation self) (edge_exclusion self)
    (max_pad_current_density self) (bonding_pitch self)
    (picknplace_cost_per_second self) (bonding_cost_per_second self) v
    (alignment_yield self) (dielectric_bond_defect_density self)
    (static self).

Definition with_alignment_yield (v : option R) (self : t) : t :=
  mk
    (name self) (materials_cost_per_mm2 self) (picknplace_machine_cost self)
    (picknplace_machine_lifetime self) (picknplace_machine_uptime self)
    (picknplace_technician_yearly_cost self) (picknplace_time self)
    (picknplace_group self) (bonding_machine_cost self)
    (bonding_machine_lifetime self) (bonding_machine_uptime self)
    (bonding_machine_technician_yearly_cost self) (bonding_time self)
    (bonding_group self) (die_separation self) (edge_exclusion self)
    (max_pad_current_density self) (bonding_pitch self)
    (picknplace_cost_per_second self) (bonding_cost_per_second self)
    (bonding_yield self) v (dielectric_bond_defect_density self)
    (static self).

Definition with_dielectric_bond_defect_density (v : option R) (self : t) : t :=
  mk
    (name self) (materials_cost_per_mm2 self) (picknplace_machine_cost self)
    (picknplace_machine_lifetime self) (picknplace_machine_uptime self)
    (picknplace_technician_yearly_cost self) (picknplace_time self)
    (picknplace_group self) (bonding_machine_cost self)
    (bonding_machine_lifetime self) (bonding_machine_uptime self)
    (bonding_machine_technician_yearly_cost self) (bonding_time self)
    (bonding_group self) (die_separation self) (edge_exclusion self)
    (max_pad_current_density self) (bonding_pitch self)
    (picknplace_cost_per_second self) (bonding_cost_per_second self)
    (bonding_yield self) (alignment_yield self) v (static self).

Definition with_static (v : bool) (self : t) : t :=
  mk
    (name self) (materials_cost_per_mm2 self) (picknplace_machine_cost self)
    (picknplace_machine_lifetime self) (picknplace_machine_uptime self)
    (picknplace_technician_yearly_cost self) (picknplace_time self)
    (picknplace_group self) (bonding_machine_cost self)
    (bonding_machine_lifetime self) (bonding_machine_uptime self)
    (bonding_machine_technician_yearly_cost self) (bonding_time self)
    (bonding_group self) (die_separation self) (edge_exclusion self)
    (max_pad_current_density self) (bonding_pitch self)
    (picknplace_cost_per_second self) (bonding_cost_per_second self)
    (bonding_yield self) (alignment_yield self)
    (dielectric_bond_defect_density self) v.

(** Setters: 1 and no change when the object is static, else the
    assignment and 0. *)

Definition set_name (self : t) (value : string) : Z * t :=
  if static self then (1%Z, self)
  else (0%Z, with_name value self).

Definition set_materials_cost_per_mm2 (self : t) (value : R) : Z * t :=
  if static self then (1%Z, self)
  else (0%Z, with_materials_cost_per_mm2 (Some value) self).

Definition set_picknplace_machine_cost (self : t) (value : R) : Z * t :=
  if static self then (1%Z, self)
  else (0%Z, with_picknplace_machine_cost (Some value) self).

Definition set_picknplace_machine_lifetime (self : t) (value : R) : Z * t :=
  if static self then (1%Z, self)
  else (0%Z, with_picknplace_machine_lifetime (Some value) self).

Definition set_picknplace_machine_uptime (self : t) (value : R) : Z * t :=
  if static self then (1%Z, self)
  else (0%Z, with_picknplace_machine_uptime (Some value) self).

Definition set_picknplace_technician_yearly_cost (self : t) (value : R) : Z * t :=
  if static self then (1%Z, self)
  else (0%Z, with_picknplace_technician_yearly_cost (Some value) self).

Definition set_picknplace_time (self : t) (value : R) : Z * t :=
  if static self then (1%Z, self)
  else (0%Z, with_picknplace_time (Some value) self).

Definition set_picknplace_group (self : t) (value : Z) : Z * t :=
  if static self then (1%Z, self)
  else (0%Z, with_picknplace_group (Some value) self).

Definition set_bonding_machine_cost (self : t) (value : R) : Z * t :=
  if static self then (1%Z, self)
  else (0%Z, with_bonding_machine_cost (Some value) self).

Definition set_bonding_machine_lifetime (self : t) (value : R) : Z * t :=
  if static self then (1%Z, self)
  else (0%Z, with_bonding_machine_lifetime (Some value) self).

Definition set_bonding_machine_uptime (self : t) (value : R) : Z * t :=
  if static self then (1%Z, self)
  else (0%Z, with_bonding_machine_uptime (Some value) self).

Definition set_bonding_technician_yearly_cost (self : t) (value : R) : Z * t :=
  if static self then (1%Z, self)
  else (0%Z, with_bonding_machine_technician_yearly_cost (Some value) self).

Definition set_bonding_time (self : t) (value : R) : Z * t :=
  if static self then (1%Z, self)
  else (0%Z, with_bonding_time (Some value) self).

Definition set_bonding_group (self : t) (value : Z) : Z * t :=
  if static self then (1%Z, self)
  else (0%Z, with_bonding_group (Some value) self).

Definition set_die_separation (self : t) (value : R) : Z * t :=
  if static self then (1%Z, self)
  else (0%Z, with_die_separation (Some value) self).

Definition set_edge_exclusion (self : t) (value : R) : Z * t :=
  if static self then (1%Z, self)
  else (0%Z, with_edge_exclusion (Some value) self).

Definition set_bonding_pitch (self : t) (value : R) : Z * t :=
  if static self then (1%Z, self)
  else (0%Z, with_bonding_pitch (Some value) self).

Definition set_max_pad_current_density (self : t) (value : R) : Z * t :=
  if static self then (1%Z, self)
  else (0%Z, with_max_pad_current_density (Some value) self).

Definition set_alignment_yield (self : t) (value : R) : Z * t :=
  if static self then (1%Z, self)
  else (0%Z, with_alignment_yield (Some value) self).

Definition set_bonding_yield (self : t) (value : R) : Z * t :=
  if static self then (1%Z, self)
  else (0%Z, with_bonding_yield (Some value) self).

Definition set_dielectric_bond_defect_density (self : t) (value : R) : Z * t :=
  if static self then (1%Z, self)
  else (0%Z, with_dielectric_bond_defect_density (Some value) self).

Definition get_power_per_pad (self : t) (core_voltage : R) : result R :=
  bonding_pitch <- num (bonding_pitch self) ;;
  sq <- py_pow (bonding_pitch / 4) 2 ;;
  let pad_area := PI * sq in
  density <- num (max_pad_current_density self) ;;
  let current_per_pad := density * pad_area in
  let power_per_pad := current_per_pad * core_voltage in
  Ok power_per_pad.

Definition compute_picknplace_time (self : t) (n_chips : R) : result R :=
  group <- numZ (picknplace_group self) ;;
  q <- py_div n_chips group ;;
  let picknplace_steps := py_ceil q in
  picknplace_time <- num (picknplace_time self) ;;
  Ok (picknplace_time * IZR picknplace_steps).

Definition compute_bonding_time (self : t) (n_chips : R) : result R :=
  group <- numZ (bonding_group self) ;;
  q <- py_div n_chips group ;;
  let bonding_steps := py_ceil q in
  bonding_time <- num (bonding_time self) ;;
  Ok (bonding_time * IZR bonding_steps).

(** The value and the object with the value stored in
    [picknplace_cost_per_second]. *)
Definition compute_picknplace_cost_per_second (self : t) : result (R * t) :=
  machine_cost <- num (picknplace_machine_cost self) ;;
  machine_lifetime <- num (picknplace_machine_lifetime self) ;;
  machine_cost_per_year <- py_div machine_cost machine_lifetime ;;
  technician_cost_per_year <- num (picknplace_technician_yearly_cost self) ;;
  let picknplace_cost_per_year :=
    machine_cost_per_year + technician_cost_per_year in
  uptime <- num (picknplace_machine_uptime self) ;;
  let picknplace_cost_per_second :=
    picknplace_cost_per_year / (365 * 24 * 60 * 60) * uptime in
  Ok (picknplace_cost_per_second,
      with_picknplace_cost_per_second (Some picknplace_cost_per_second) self).

Definition compute_bonding_cost_per_second (self : t) : result (R * t) :=
  machine_cost <- num (bonding_machine_cost self) ;;
  machine_lifetime <- num (bonding_machine_lifetime self) ;;
  machine_cost_per_year <- py_div machine_cost machine_lifetime ;;
  technician_cost_per_year <-
    num (bonding_machine_technician_yearly_cost self) ;;
  let bonding_cost_per_year :=
    machine_cost_per_year + technician_cost_per_year in
  uptime <- num (bonding_machine_uptime self) ;;
  let bonding_cost_per_second :=
    bonding_cost_per_year / (365 * 24 * 60 * 60) * uptime in
  Ok (bonding_cost_per_second,
      with_bonding_cost_per_second (Some bonding_cost_per_second) self).

(** The getters of the two rates compute and store the rate when it is
    [None]. Only the value is returned here: the stored value is the
    one returned, so the calls that follow read the same rate. *)
Definition get_picknplace_cost_per_second (self : t) : result R :=
  match picknplace_cost_per_second self with
  | None => '(v, _) <- compute_picknplace_cost_per_second self ;; Ok v
  | Some v => Ok v
  end.

Definition get_bonding_cost_per_second (self : t) : result R :=
  match bonding_cost_per_second self with
  | None => '(v, _) <- compute_bonding_cost_per_second self ;; Ok v
  | Some v => Ok v
  end.

(** The two setters of the rates and [set_static] have no test of
    [self.static]. *)
Definition set_picknplace_cost_per_second (self : t) : result (Z * t) :=
  '(v, self) <- compute_picknplace_cost_per_second self ;;
  Ok (0%Z, with_picknplace_cost_per_second (Some v) self).

Definition set_bonding_cost_per_second (self : t) : result (Z * t) :=
  '(v, self) <- compute_bonding_cost_per_second self ;;
  Ok (0%Z, with_bonding_cost_per_second (Some v) self).

Definition set_static (self : t) : Z * t := (0%Z, with_static true self).

Definition assembly_cost (self : t) (n_chips area : R) : result R :=
  picknplace_rate <- get_picknplace_cost_per_second self ;;
  picknplace_time <- compute_picknplace_time self n_chips ;;
  bonding_rate <- get_bonding_cost_per_second self ;;
  bonding_time <- compute_bonding_time self n_chips ;;
  let assembly_cost :=
    picknplace_rate * picknplace_time + bonding_rate * bonding_time in
  materials <- num (materials_cost_per_mm2 self) ;;
  Ok (assembly_cost + materials * area).

Definition assembly_yield (self : t) (n_chips n_bonds area : R) : result R :=
  let assem_yield := 1 in
  alignment_yield <- num (alignment_yield self) ;;
  p <- py_pow alignment_yield n_chips ;;
  let assem_yield := assem_yield * p in
  bonding_yield <- num (bonding_yield self) ;;
  p <- py_pow bonding_yield n_bonds ;;
  let assem_yield := assem_yield * p in
  let dielectric_bond_area := area in
  density <- num (dielectric_bond_defect_density self) ;;
  let dielectric_bond_yield := 1 - density * dielectric_bond_area in
  let assem_yield := assem_yield * dielectric_bond_yield in
  Ok assem_yield.

(** [Assembly.__init__]. Its completeness test reads four attributes,
    [machine_cost_list], [machine_lifetime_list], [machine_uptime_list] and
    [technician_yearly_cost_list]; [init_with] takes what reading each of
    them gives. *)
Definition init_with
    (machine_cost_list machine_lifetime_list machine_uptime_list
       technician_yearly_cost_list : result (list R))
    (name : string) (materials_cost_per_mm2 picknplace_machine_cost
       picknplace_machine_lifetime picknplace_machine_uptime
       picknplace_technician_yearly_cost picknplace_time : option R)
    (picknplace_group : option Z)
    (bonding_machine_cost bonding_machine_lifetime bonding_machine_uptime
       bonding_machine_technician_yearly_cost bonding_time : option R)
    (bonding_group : option Z)
    (die_separation edge_exclusion max_pad_current_density bonding_pitch
       alignment_yield bonding_yield dielectric_bond_defect_density : option R)
    (static : bool) : result t :=
  let self :=
    mk name materials_cost_per_mm2 picknplace_machine_cost
       picknplace_machine_lifetime picknplace_machine_uptime
       picknplace_technician_yearly_cost picknplace_time picknplace_group
       bonding_machine_cost bonding_machine_lifetime bonding_machine_uptime
       bonding_machine_technician_yearly_cost bonding_time bonding_group
       die_separation edge_exclusion max_pad_current_density bonding_pitch
       None None bonding_yield alignment_yield
       dielectric_bond_defect_density static in
  let is_empty (l : result (list R)) : result bool :=
    l <- l ;; Ok (match l with [] => true | _ => false end) in
  incomplete <-
    or_else (Ok (String.eqb name ""))
   (or_else (is_empty machine_cost_list)
   (or_else (is_empty machine_lifetime_list)
   (or_else (is_empty machine_uptime_list)
   (or_else (is_empty technician_yearly_cost_list)
   (or_else (Ok (is_None materials_cost_per_mm2))
   (or_else (Ok (is_None picknplace_time))
   (or_else (Ok (is_None picknplace_group))
   (or_else (Ok (is_None bonding_time))
            (Ok (is_None bonding_group)))))))))) ;;
  if incomplete then Ok (with_static false self)
  else
    '(_, self) <- compute_picknplace_cost_per_second self ;;
    '(_, self) <- compute_bonding_cost_per_second self ;;
    Ok (with_static false self).

(** No statement of the class assigns one of the four attributes (the
    assignments are commented out): reading [self.machine_cost_list]
    raises AttributeError. *)
Definition init :=
  init_with (Raise AttributeError) (Raise AttributeError)
            (Raise AttributeError) (Raise AttributeError).

(** One constructor per setter of the class, with the argument of the
    call. *)
Inductive call : Type :=
| call_set_name (value : string)
| call_set_materials_cost_per_mm2 (value : R)
| call_set_picknplace_machine_cost (value : R)
| call_set_picknplace_machine_lifetime (value : R)
| call_set_picknplace_machine_uptime (value : R)
| call_set_picknplace_technician_yearly_cost (value : R)
| call_set_picknplace_time (value : R)
| call_set_picknplace_group (value : Z)
| call_set_bonding_machine_cost (value : R)
| call_set_bonding_machine_lifetime (value : R)
| call_set_bonding_machine_uptime (value : R)
| call_set_bonding_technician_yearly_cost (value : R)
| call_set_bonding_time (value : R)
| call_set_bonding_group (value : Z)
| call_set_die_separation (value : R)
| call_set_edge_exclusion (value : R)
| call_set_bonding_pitch (value : R)
| call_set_max_pad_current_density (value : R)
| call_set_alignment_yield (value : R)
| call_set_bonding_yield (value : R)
| call_set_dielectric_bond_defect_density (value : R)
| call_set_picknplace_cost_per_second
| call_set_bonding_cost_per_second
| call_set_static.

(** The setter call [c] on [self]: the integer returned and the object
    after the call. *)
Definition run (c : call) (self : t) : result (Z * t) :=
  match c with
  | call_set_name value => Ok (set_name self value)
  | call_set_materials_cost_per_mm2 value => Ok (set_materials_cost_per_mm2 self value)
  | call_set_picknplace_machine_cost value => Ok (set_picknplace_machine_cost self value)
  | call_set_picknplace_machine_lifetime value => Ok (set_picknplace_machine_lifetime self value)
  | call_set_picknplace_machine_uptime value => Ok (set_picknplace_machine_uptime self value)
  | call_set_picknplace_technician_yearly_cost value => Ok (set_picknplace_technician_yearly_cost self value)
  | call_set_picknplace_time value => Ok (set_picknplace_time self value)
  | call_set_picknplace_group value => Ok (set_picknplace_group self value)
  | call_set_bonding_machine_cost value => Ok (set_bonding_machine_cost self value)
  | call_set_bonding_machine_lifetime value => Ok (set_bonding_machine_lifetime self value)
  | call_set_bonding_machine_uptime value => Ok (set_bonding_machine_uptime self value)
  | call_set_bonding_technician_yearly_cost value => Ok (set_bonding_technician_yearly_cost self value)
  | call_set_bonding_time value => Ok (set_bonding_time self value)
  | call_set_bonding_group value => Ok (set_bonding_group self value)
  | call_set_die_separation value => Ok (set_die_separation self value)
  | call_set_edge_exclusion value => Ok (set_edge_exclusion self value)
  | call_set_bonding_pitch value => Ok (set_bonding_pitch self value)
  | call_set_max_pad_current_density value => Ok (set_max_pad_current_density self value)
  | call_set_alignment_yield value => Ok (set_alignment_yield self value)
  | call_set_bonding_yield value => Ok (set_bonding_yield self value)
  | call_set_dielectric_bond_defect_density value => Ok (set_dielectric_bond_defect_density self value)
  | call_set_picknplace_cost_per_second => set_picknplace_cost_per_second self
  | call_set_bonding_cost_per_second => set_bonding_cost_per_second self
  | call_set_static => Ok (set_static self)
  end.

(** The setters whose body starts with the test of [self.static]. *)
Definition latched (c : call) : bool :=
  match c with
  | call_set_name _ => true
  | call_set_materials_cost_per_mm2 _ => true
  | call_set_picknplace_machine_cost _ => true
  | call_set_picknplace_machine_lifetime _ => true
  | call_set_picknplace_machine_uptime _ => true
  | call_set_picknplace_technician_yearly_cost _ => true
  | call_set_picknplace_time _ => true
  | call_set_picknplace_group _ => true
  | call_set_bonding_machine_cost _ => true
  | call_set_bonding_machine_lifetime _ => true
  | call_set_bonding_machine_uptime _ => true
  | call_set_bonding_technician_yearly_cost _ => true
  | call_set_bonding_time _ => true
  | call_set_bonding_group _ => true
  | call_set_die_separation _ => true
  | call_set_edge_exclusion _ => true
  | call_set_bonding_pitch _ => true
  | call_set_max_pad_current_density _ => true
  | call_set_alignment_yield _ => true
  | call_set_bonding_yield _ => true
  | call_set_dielectric_bond_defect_density _ => true
  | call_set_picknplace_cost_per_second => false
  | call_set_bonding_cost_per_second => false
  | call_set_static => false
  end.

End Assembly.

(** ** Test *)

(** A test process whose parameters are all defined. *)

Module Test.

Record t : Type := mk {
  name : string;
  static : bool;
  test_self : bool;
  test_assembly : bool;
  self_defect_coverage : R;
  assembly_defect_coverage : R;
  self_test_cost_per_mm2 : R;
  assembly_test_cost_per_mm2 : R;
  self_pattern_count : Z;
  assembly_pattern_count : Z;
  self_test_failure_dist : Z;
  assembly_test_failure_dist : Z
}.

Definition with_name (v : string) (self : t) : t :=
  mk
    v (static self) (test_self self) (test_assembly self)
    (self_defect_coverage self) (assembly_defect_coverage self)
    (self_test_cost_per_mm2 self) (assembly_test_cost_per_mm2 self)
    (self_pattern_count self) (assembly_pattern_count self)
    (self_test_failure_dist self) (assembly_test_failure_dist self).

Definition with_static (v : bool) (self : t) : t :=
  mk
    (name self) v (test_self self) (test_assembly self)
    (self_defect_coverage self) (assembly_defect_coverage self)
    (self_test_cost_per_mm2 self) (assembly_test_cost_per_mm2 self)
    (self_pattern_count self) (assembly_pattern_count self)
    (self_test_failure_dist self) (assembly_test_failure_dist self).

Definition with_test_self (v : bool) (self : t) : t :=
  mk
    (name self) (static self) v (test_assembly self)
    (self_defect_coverage self) (assembly_defect_coverage self)
    (self_test_cost_per_mm2 self) (assembly_test_cost_per_mm2 self)
    (self_pattern_count self) (assembly_pattern_count self)
    (self_test_failure_dist self) (assembly_test_failure_dist self).

Definition with_test_assembly (v : bool) (self : t) : t :=
  mk
    (name self) (static self) (test_self self) v (self_defect_coverage self)
    (assembly_defect_coverage self) (self_test_cost_per_mm2 self)
    (assembly_test_cost_per_mm2 self) (self_pattern_count self)
    (assembly_pattern_count self) (self_test_failure_dist self)
    (assembly_test_failure_dist self).

Definition with_self_defect_coverage (v : R) (self : t) : t :=
  mk
    (name self) (static self) (test_self self) (test_assembly self) v
    (assembly_defect_coverage self) (self_test_cost_per_mm2 self)
    (assembly_test_cost_per_mm2 self) (self_pattern_count self)
    (assembly_pattern_count self) (self_test_failure_dist self)
    (assembly_test_failure_dist self).

Definition with_assembly_defect_coverage (v : R) (self : t) : t :=
  mk
    (name self) (static self) (test_self self) (test_assembly self)
    (self_defect_coverage self) v (self_test_cost_per_mm2 self)
    (assembly_test_cost_per_mm2 self) (self_pattern_count self)
    (assembly_pattern_count self) (self_test_failure_dist self)
    (assembly_test_failure_dist self).

Definition with_self_test_cost_per_mm2 (v : R) (self : t) : t :=
  mk
    (name self) (static self) (test_self self) (test_assembly self)
    (self_defect_coverage self) (assembly_defect_coverage self) v
    (assembly_test_cost_per_mm2 self) (self_pattern_count self)
    (assembly_pattern_count self) (self_test_failure_dist self)
    (assembly_test_failure_dist self).

Definition with_assembly_test_cost_per_mm2 (v : R) (self : t) : t :=
  mk
    (name self) (static self) (test_self self) (test_assembly self)
    (self_defect_coverage self) (assembly_defect_coverage self)
    (self_test_cost_per_mm2 self) v (self_pattern_count self)
    (assembly_pattern_count self) (self_test_failure_dist self)
    (assembly_test_failure_dist self).

Definition with_self_pattern_count (v : Z) (self : t) : t :=
  mk
    (name self) (static self) (test_self self) (test_assembly self)
    (self_defect_coverage self) (assembly_defect_coverage self)
    (self_test_cost_per_mm2 self) (assembly_test_cost_per_mm2 self) v
    (assembly_pattern_count self) (self_test_failure_dist self)
    (assembly_test_failure_dist self).

Definition with_assembly_pattern_count (v : Z) (self : t) : t :=
  mk
    (name self) (static self) (test_self self) (test_assembly self)
    (self_defect_coverage self) (assembly_defect_coverage self)
    (self_test_cost_per_mm2 self) (assembly_test_cost_per_mm2 self)
    (self_pattern_count self) v (self_test_failure_dist self)
    (assembly_test_failure_dist self).

Definition with_self_test_failure_dist (v : Z) (self : t) : t :=
  mk
    (name self) (static self) (test_self self) (test_assembly self)
    (self_defect_coverage self) (assembly_defect_coverage self)
    (self_test_cost_per_mm2 self) (assembly_test_cost_per_mm2 self)
    (self_pattern_count self) (assembly_pattern_count self) v
    (assembly_test_failure_dist self).

Definition with_assembly_test_failure_dist (v : Z) (self : t) : t :=
  mk
    (name self) (static self) (test_self self) (test_assembly self)
    (self_defect_coverage self) (assembly_defect_coverage self)
    (self_test_cost_per_mm2 self) (assembly_test_cost_per_mm2 self)
    (self_pattern_count self) (assembly_pattern_count self)
    (self_test_failure_dist self) v.

(** Setters: 1 and no change when the object is static, else the
    assignment and 0. *)

Definition set_name (self : t) (value : string) : Z * t :=
  if static self then (1%Z, self)
  else (0%Z, with_name value self).

Definition set_test_self (self : t) (value : bool) : Z * t :=
  if static self then (1%Z, self)
  else (0%Z, with_test_self value self).

Definition set_test_assembly (self : t) (value : bool) : Z * t :=
  if static self then (1%Z, self)
  else (0%Z, with_test_assembly value self).

Definition set_self_defect_coverage (self : t) (value : R) : Z * t :=
  if static self then (1%Z, self)
  else (0%Z, with_self_defect_coverage value self).

Definition set_assembly_defect_coverage (self : t) (value : R) : Z * t :=
  if static self then (1%Z, self)
  else (0%Z, with_assembly_defect_coverage value self).

Definition set_self_test_cost_per_mm2 (self : t) (value : R) : Z * t :=
  if static self then (1%Z, self)
  else (0%Z, with_self_test_cost_per_mm2 value self).

Definition set_assembly_test_cost_per_mm2 (self : t) (value : R) : Z * t :=
  if static self then (1%Z, self)
  else (0%Z, with_assembly_test_cost_per_mm2 value self).

Definition set_self_pattern_count (self : t) (value : Z) : Z * t :=
  if static self then (1%Z, self)
  else (0%Z, with_self_pattern_count value self).

Definition set_assembly_pattern_count (self : t) (value : Z) : Z * t :=
  if static self then (1%Z, self)
  else (0%Z, with_assembly_pattern_count value self).

Definition set_self_test_failure_dist (self : t) (value : Z) : Z * t :=
  if static self then (1%Z, self)
  else (0%Z, with_self_test_failure_dist value self).

Definition set_assembly_test_failure_dist (self : t) (value : Z) : Z * t :=
  if static self then (1%Z, self)
  else (0%Z, with_assembly_test_failure_dist value self).

Definition set_static (self : t) : Z * t := (0%Z, with_static true self).

(** One constructor per setter of the class, with the argument of the
    call. *)
Inductive call : Type :=
| call_set_name (value : string)
| call_set_static
| call_set_test_self (value : bool)
| call_set_test_assembly (value : bool)
| call_set_self_defect_coverage (value : R)
| call_set_assembly_defect_coverage (value : R)
| call_set_self_test_cost_per_mm2 (value : R)
| call_set_assembly_test_cost_per_mm2 (value : R)
| call_set_self_pattern_count (value : Z)
| call_set_assembly_pattern_count (value : Z)
| call_set_self_test_failure_dist (value : Z)
| call_set_assembly_test_failure_dist (value : Z).

(** The setter call [c] on [self]: the integer returned and the object
    after the call. *)
Definition run (c : call) (self : t) : result (Z * t) :=
  match c with
  | call_set_name value => Ok (set_name self value)
  | call_set_static => Ok (set_static self)
  | call_set_test_self value => Ok (set_test_self self value)
  | call_set_test_assembly value => Ok (set_test_assembly self value)
  | call_set_self_defect_coverage value => Ok (set_self_defect_coverage self value)
  | call_set_assembly_defect_coverage value => Ok (set_assembly_defect_coverage self value)
  | call_set_self_test_cost_per_mm2 value => Ok (set_self_test_cost_per_mm2 self value)
  | call_set_assembly_test_cost_per_mm2 value => Ok (set_assembly_test_cost_per_mm2 self value)
  | call_set_self_pattern_count value => Ok (set_self_pattern_count self value)
  | call_set_assembly_pattern_count value => Ok (set_assembly_pattern_count self value)
  | call_set_self_test_failure_dist value => Ok (set_self_test_failure_dist self value)
  | call_set_assembly_test_failure_dist value => Ok (set_assembly_test_failure_dist self value)
  end.

(** The setters whose body starts with the test of [self.static]. *)
Definition latched (c : call) : bool :=
  match c with
  | call_set_name _ => true
  | call_set_static => false
  | call_set_test_self _ => true
  | call_set_test_assembly _ => true
  | call_set_self_defect_coverage _ => true
  | call_set_assembly_defect_coverage _ => true
  | call_set_self_test_cost_per_mm2 _ => true
  | call_set_assembly_test_cost_per_mm2 _ => true
  | call_set_self_pattern_count _ => true
  | call_set_assembly_pattern_count _ => true
  | call_set_self_test_failure_dist _ => true
  | call_set_assembly_test_failure_dist _ => true
  end.

(** [Test.__init__] with a name: [static] is kept. *)
Definition init (name : string) (test_self test_assembly : bool)
    (self_defect_coverage assembly_defect_coverage self_test_cost_per_mm2
       assembly_test_cost_per_mm2 : R)
    (self_pattern_count assembly_pattern_count self_test_failure_dist
       assembly_test_failure_dist : Z)
    (static : bool) : t :=
  mk name static test_self test_assembly self_defect_coverage
     assembly_defect_coverage self_test_cost_per_mm2
     assembly_test_cost_per_mm2 self_pattern_count assembly_pattern_count
     self_test_failure_dist assembly_test_failure_dist.

End Test.

(** ** The chip definition tree and the catalogs *)

(** A node of the chip definition tree ([xml.etree.ElementTree.Element]):
    the tag, the attributes and the child nodes. The node carries every
    attribute the constructor reads, with the numbers already read from
    their strings; a black-box attribute, the aspect ratio and a location
    are [None] when the string is empty, and [stackup] is the list of the
    [count:layer_name] pairs of the stackup string. *)
Module Element.

Inductive t : Type := mk {
  tag : string;
  wafer_process : string;
  assembly_process : string;
  test_process : string;
  stackup : list (Z * string);
  bb_area : option R;
  bb_cost : option R;
  bb_quality : option R;
  bb_power : option R;
  aspect_ratio : option R;
  x_location : option R;
  y_location : option R;
  name : string;
  core_area : R;
  fraction_memory : R;
  fraction_logic : R;
  fraction_analog : R;
  reticle_share : R;
  quantity : Z;
  buried : string;
  power : R;
  core_voltage : R;
  children : list t
}.

End Element.

(** The optional arguments of [Chip.__init__] that hold the catalogs and the
    global interconnect model; [None] is the default of each. *)
Module Catalogs.

Record t : Type := mk {
  wafer_process_list : option (list WaferProcess.t);
  assembly_process_list : option (list Assembly.t);
  test_process_list : option (list Test.t);
  layers : option (list Layer.t);
  ios : option (list IO.t);
  adjacency_matrix_definitions : option (list (string * matrix));
  average_bandwidth_utilization : option (list (string * matrix));
  block_names : option (list string)
}.

End Catalogs.


(** ** Chip *)

(** A chip. [parent_chip] is the parent as far as a child reads it: the
    assembly process of the parent, [None] for the root. The attributes the
    constructor computes ([stack_power] ... [cost]) are [None] until they are
    assigned; reading one before raises AttributeError. *)

Module Chip.

(** An entry of the list [get_chip_list] returns: the name of the chip
    itself, or the whole list of a child (the source appends the list of
    the child, it does not extend with it). *)
Inductive name_item : Type :=
| Name (s : string)
| Names (l : list name_item).

Inductive t : Type := mk {
  static : bool;
  parent_chip : option Assembly.t;
  wafer_process : WaferProcess.t;
  assembly_process : Assembly.t;
  test_process : Test.t;
  stackup : list Layer.t;
  chips : list t;
  bb_area : option R;
  bb_cost : option R;
  bb_quality : option R;
  bb_power : option R;
  aspect_ratio : R;
  x_location : option R;
  y_location : option R;
  name : string;
  core_area : R;
  fraction_memory : R;
  fraction_logic : R;
  fraction_analog : R;
  reticle_share : R;
  quantity : Z;
  buried : bool;
  global_adjacency_matrix : list (string * matrix);
  average_bandwidth_utilization : list (string * matrix);
  block_names : list string;
  io_list : list IO.t;
  power : R;
  core_voltage : R;
  stack_power : option R;
  io_power : option R;
  total_power : option R;
  nre_design_cost : option R;
  area : option R;
  self_true_yield : option R;
  self_test_yield : option R;
  self_quality : option R;
  chip_true_yield : option R;
  chip_test_yield : option R;
  quality : option R;
  self_cost : option R;
  cost : option R
}.

Definition with_static (v : bool) (self : t) : t :=
  mk
    v (parent_chip self) (wafer_process self) (assembly_process self)
    (test_process self) (stackup self) (chips self) (bb_area self)
    (bb_cost self) (bb_quality self) (bb_power self) (aspect_ratio self)
    (x_location self) (y_location self) (name self) (core_area self)
    (fraction_memory self) (fraction_logic self) (fraction_analog self)
    (reticle_share self) (quantity self) (buried self)
    (global_adjacency_matrix self) (average_bandwidth_utilization self)
    (block_names self) (io_list self) (power self) (core_voltage self)
    (stack_power self) (io_power self) (total_power self)
    (nre_design_cost self) (area self) (self_true_yield self)
    (self_test_yield self) (self_quality self) (chip_true_yield self)
    (chip_test_yield self) (quality self) (self_cost self) (cost self).

Definition with_parent_chip (v : option Assembly.t) (self : t) : t :=
  mk
    (static self) v (wafer_process self) (assembly_process self)
    (test_process self) (stackup self) (chips self) (bb_area self)
    (bb_cost self) (bb_quality self) (bb_power self) (aspect_ratio self)
    (x_location self) (y_location self) (name self) (core_area self)
    (fraction_memory self) (fraction_logic self) (fraction_analog self)
    (reticle_share self) (quantity self) (buried self)
    (global_adjacency_matrix self) (average_bandwidth_utilization self)
    (block_names self) (io_list self) (power self) (core_voltage self)
    (stack_power self) (io_power self) (total_power self)
    (nre_design_cost self) (area self) (self_true_yield self)
    (self_test_yield self) (self_quality self) (chip_true_yield self)
    (chip_test_yield self) (quality self) (self_cost self) (cost self).

Definition with_wafer_process (v : WaferProcess.t) (self : t) : t :=
  mk
    (static self) (parent_chip self) v (assembly_process self)
    (test_process self) (stackup self) (chips self) (bb_area self)
    (bb_cost self) (bb_quality self) (bb_power self) (aspect_ratio self)
    (x_location self) (y_location self) (name self) (core_area self)
    (fraction_memory self) (fraction_logic self) (fraction_analog self)
    (reticle_share self) (quantity self) (buried self)
    (global_adjacency_matrix self) (average_bandwidth_utilization self)
    (block_names self) (io_list self) (power self) (core_voltage self)
    (stack_power self) (io_power self) (total_power self)
    (nre_design_cost self) (area self) (self_true_yield self)
    (self_test_yield self) (self_quality self) (chip_true_yield self)
    (chip_test_yield self) (quality self) (self_cost self) (cost self).

Definition with_assembly_process (v : Assembly.t) (self : t) : t :=
  mk
    (static self) (parent_chip self) (wafer_process self) v
    (test_process self) (stackup self) (chips self) (bb_area self)
    (bb_cost self) (bb_quality self) (bb_power self) (aspect_ratio self)
    (x_location self) (y_location self) (name self) (core_area self)
    (fraction_memory self) (fraction_logic self) (fraction_analog self)
    (reticle_share self) (quantity self) (buried self)
    (global_adjacency_matrix self) (average_bandwidth_utilization self)
    (block_names self) (io_list self) (power self) (core_voltage self)
    (stack_power self) (io_power self) (total_power self)
    (nre_design_cost self) (area self) (self_true_yield self)
    (self_test_yield self) (self_quality self) (chip_true_yield self)
    (chip_test_yield self) (quality self) (self_cost self) (cost self).

Definition with_test_process (v : Test.t) (self : t) : t :=
  mk
    (static self) (parent_chip self) (wafer_process self)
    (assembly_process self) v (stackup self) (chips self) (bb_area self)
    (bb_cost self) (bb_quality self) (bb_power self) (aspect_ratio self)
    (x_location self) (y_location self) (name self) (core_area self)
    (fraction_memory self) (fraction_logic self) (fraction_analog self)
    (reticle_share self) (quantity self) (buried self)
    (global_adjacency_matrix self) (average_bandwidth_utilization self)
    (block_names self) (io_list self) (power self) (core_voltage self)
    (stack_power self) (io_power self) (total_power self)
    (nre_design_cost self) (area self) (self_true_yield self)
    (self_test_yield self) (self_quality self) (chip_true_yield self)
    (chip_test_yield self) (quality self) (self_cost self) (cost self).

Definition with_stackup (v : list Layer.t) (self : t) : t :=
  mk
    (static self) (parent_chip self) (wafer_process self)
    (assembly_process self) (test_process self) v (chips self) (bb_area self)
    (bb_cost self) (bb_quality self) (bb_power self) (aspect_ratio self)
    (x_location self) (y_location self) (name self) (core_area self)
    (fraction_memory self) (fraction_logic self) (fraction_analog self)
    (reticle_share self) (quantity self) (buried self)
    (global_adjacency_matrix self) (average_bandwidth_utilization self)
    (block_names self) (io_list self) (power self) (core_voltage self)
    (stack_power self) (io_power self) (total_power self)
    (nre_design_cost self) (area self) (self_true_yield self)
    (self_test_yield self) (self_quality self) (chip_true_yield self)
    (chip_test_yield self) (quality self) (self_cost self) (cost self).

Definition with_chips (v : list t) (self : t) : t :=
  mk
    (static self) (parent_chip self) (wafer_process self)
    (assembly_process self) (test_process self) (stackup self) v
    (bb_area self) (bb_cost self) (bb_quality self) (bb_power self)
    (aspect_ratio self) (x_location self) (y_location self) (name self)
    (core_area self) (fraction_memory self) (fraction_logic self)
    (fraction_analog self) (reticle_share self) (quantity self) (buried self)
    (global_adjacency_matrix self) (average_bandwidth_utilization self)
    (block_names self) (io_list self) (power self) (core_voltage self)
    (stack_power self) (io_power self) (total_power self)
    (nre_design_cost self) (area self) (self_true_yield self)
    (self_test_yield self) (self_quality self) (chip_true_yield self)
    (chip_test_yield self) (quality self) (self_cost self) (cost self).

Definition with_bb_area (v : option R) (self : t) : t :=
  mk
    (static self) (parent_chip self) (wafer_process self)
    (assembly_process self) (test_process self) (stackup self) (chips self) v
    (bb_cost self) (bb_quality self) (bb_power self) (aspect_ratio self)
    (x_location self) (y_location self) (name self) (core_area self)
    (fraction_memory self) (fraction_logic self) (fraction_analog self)
    (reticle_share self) (quantity self) (buried self)
    (global_adjacency_matrix self) (average_bandwidth_utilization self)
    (block_names self) (io_list self) (power self) (core_voltage self)
    (stack_power self) (io_power self) (total_power self)
    (nre_design_cost self) (area self) (self_true_yield self)
    (self_test_yield self) (self_quality self) (chip_true_yield self)
    (chip_test_yield self) (quality self) (self_cost self) (cost self).

Definition with_bb_cost (v : option R) (self : t) : t :=
  mk
    (static self) (parent_chip self) (wafer_process self)
    (assembly_process self) (test_process self) (stackup self) (chips self)
    (bb_area self) v (bb_quality self) (bb_power self) (aspect_ratio self)
    (x_location self) (y_location self) (name self) (core_area self)
    (fraction_memory self) (fraction_logic self) (fraction_analog self)
    (reticle_share self) (quantity self) (buried self)
    (global_adjacency_matrix self) (average_bandwidth_utilization self)
    (block_names self) (io_list self) (power self) (core_voltage self)
    (stack_power self) (io_power self) (total_power self)
    (nre_design_cost self) (area self) (self_true_yield self)
    (self_test_yield self) (self_quality self) (chip_true_yield self)
    (chip_test_yield self) (quality self) (self_cost self) (cost self).

Definition with_bb_quality (v : option R) (self : t) : t :=
  mk
    (static self) (parent_chip self) (wafer_process self)
    (assembly_process self) (test_process self) (stackup self) (chips self)
    (bb_area self) (bb_cost self) v (bb_power self) (aspect_ratio self)
    (x_location self) (y_location self) (name self) (core_area self)
    (fraction_memory self) (fraction_logic self) (fraction_analog self)
    (reticle_share self) (quantity self) (buried self)
    (global_adjacency_matrix self) (average_bandwidth_utilization self)
    (block_names self) (io_list self) (power self) (core_voltage self)
    (stack_power self) (io_power self) (total_power self)
    (nre_design_cost self) (area self) (self_true_yield self)
    (self_test_yield self) (self_quality self) (chip_true_yield self)
    (chip_test_yield self) (quality self) (self_cost self) (cost self).

Definition with_bb_power (v : option R) (self : t) : t :=
  mk
    (static self) (parent_chip self) (wafer_process self)
    (assembly_process self) (test_process self) (stackup self) (chips self)
    (bb_area self) (bb_cost self) (bb_quality self) v (aspect_ratio self)
    (x_location self) (y_location self) (name self) (core_area self)
    (fraction_memory self) (fraction_logic self) (fraction_analog self)
    (reticle_share self) (quantity self) (buried self)
    (global_adjacency_matrix self) (average_bandwidth_utilization self)
    (block_names self) (io_list self) (power self) (core_voltage self)
    (stack_power self) (io_power self) (total_power self)
    (nre_design_cost self) (area self) (self_true_yield self)
    (self_test_yield self) (self_quality self) (chip_true_yield self)
    (chip_test_yield self) (quality self) (self_cost self) (cost self).

Definition with_aspect_ratio (v : R) (self : t) : t :=
  mk
    (static self) (parent_chip self) (wafer_process self)
    (assembly_process self) (test_process self) (stackup self) (chips self)
    (bb_area self) (bb_cost self) (bb_quality self) (bb_power self) v
    (x_location self) (y_location self) (name self) (core_area self)
    (fraction_memory self) (fraction_logic self) (fraction_analog self)
    (reticle_share self) (quantity self) (buried self)
    (global_adjacency_matrix self) (average_bandwidth_utilization self)
    (block_names self) (io_list self) (power self) (core_voltage self)
    (stack_power self) (io_power self) (total_power self)
    (nre_design_cost self) (area self) (self_true_yield self)
    (self_test_yield self) (self_quality self) (chip_true_yield self)
    (chip_test_yield self) (quality self) (self_cost self) (cost self).

Definition with_x_location (v : option R) (self : t) : t :=
  mk
    (static self) (parent_chip self) (wafer_process self)
    (assembly_process self) (test_process self) (stackup self) (chips self)
    (bb_area self) (bb_cost self) (bb_quality self) (bb_power self)
    (aspect_ratio self) v (y_location self) (name self) (core_area self)
    (fraction_memory self) (fraction_logic self) (fraction_analog self)
    (reticle_share self) (quantity self) (buried self)
    (global_adjacency_matrix self) (average_bandwidth_utilization self)
    (block_names self) (io_list self) (power self) (core_voltage self)
    (stack_power self) (io_power self) (total_power self)
    (nre_design_cost self) (area self) (self_true_yield self)
    (self_test_yield self) (self_quality self) (chip_true_yield self)
    (chip_test_yield self) (quality self) (self_cost self) (cost self).

Definition with_y_location (v : option R) (self : t) : t :=
  mk
    (static self) (parent_chip self) (wafer_process self)
    (assembly_process self) (test_process self) (stackup self) (chips self)
    (bb_area self) (bb_cost self) (bb_quality self) (bb_power self)
    (aspect_ratio self) (x_location self) v (name self) (core_area self)
    (fraction_memory self) (fraction_logic self) (fraction_analog self)
    (reticle_share self) (quantity self) (buried self)
    (global_adjacency_matrix self) (average_bandwidth_utilization self)
    (block_names self) (io_list self) (power self) (core_voltage self)
    (stack_power self) (io_power self) (total_power self)
    (nre_design_cost self) (area self) (self_true_yield self)
    (self_test_yield self) (self_quality self) (chip_true_yield self)
    (chip_test_yield self) (quality self) (self_cost self) (cost self).

Definition with_name (v : string) (self : t) : t :=
  mk
    (static self) (parent_chip self) (wafer_process self)
    (assembly_process self) (test_process self) (stackup self) (chips self)
    (bb_area self) (bb_cost self) (bb_quality self) (bb_power self)
    (aspect_ratio self) (x_location self) (y_location self) v
    (core_area self) (fraction_memory self) (fraction_logic self)
    (fraction_analog self) (reticle_share self) (quantity self) (buried self)
    (global_adjacency_matrix self) (average_bandwidth_utilization self)
    (block_names self) (io_list self) (power self) (core_voltage self)
    (stack_power self) (io_power self) (total_power self)
    (nre_design_cost self) (area self) (self_true_yield self)
    (self_test_yield self) (self_quality self) (chip_true_yield self)
    (chip_test_yield self) (quality self) (self_cost self) (cost self).

Definition with_core_area (v : R) (self : t) : t :=
  mk
    (static self) (parent_chip self) (wafer_process self)
    (assembly_process self) (test_process self) (stackup self) (chips self)
    (bb_area self) (bb_cost self) (bb_quality self) (bb_power self)
    (aspect_ratio self) (x_location self) (y_location self) (name self) v
    (fraction_memory self) (fraction_logic self) (fraction_analog self)
    (reticle_share self) (quantity self) (buried self)
    (global_adjacency_matrix self) (average_bandwidth_utilization self)
    (block_names self) (io_list self) (power self) (core_voltage self)
    (stack_power self) (io_power self) (total_power self)
    (nre_design_cost self) (area self) (self_true_yield self)
    (self_test_yield self) (self_quality self) (chip_true_yield self)
    (chip_test_yield self) (quality self) (self_cost self) (cost self).

Definition with_fraction_memory (v : R) (self : t) : t :=
  mk
    (static self) (parent_chip self) (wafer_process self)
    (assembly_process self) (test_process self) (stackup self) (chips self)
    (bb_area self) (bb_cost self) (bb_quality self) (bb_power self)
    (aspect_ratio self) (x_location self) (y_location self) (name self)
    (core_area self) v (fraction_logic self) (fraction_analog self)
    (reticle_share self) (quantity self) (buried self)
    (global_adjacency_matrix self) (average_bandwidth_utilization self)
    (block_names self) (io_list self) (power self) (core_voltage self)
    (stack_power self) (io_power self) (total_power self)
    (nre_design_cost self) (area self) (self_true_yield self)
    (self_test_yield self) (self_quality self) (chip_true_yield self)
    (chip_test_yield self) (quality self) (self_cost self) (cost self).

Definition with_fraction_logic (v : R) (self : t) : t :=
  mk
    (static self) (parent_chip self) (wafer_process self)
    (assembly_process self) (test_process self) (stackup self) (chips self)
    (bb_area self) (bb_cost self) (bb_quality self) (bb_power self)
    (aspect_ratio self) (x_location self) (y_location self) (name self)
    (core_area self) (fraction_memory self) v (fraction_analog self)
    (reticle_share self) (quantity self) (buried self)
    (global_adjacency_matrix self) (average_bandwidth_utilization self)
    (block_names self) (io_list self) (power self) (core_voltage self)
    (stack_power self) (io_power self) (total_power self)
    (nre_design_cost self) (area self) (self_true_yield self)
    (self_test_yield self) (self_quality self) (chip_true_yield self)
    (chip_test_yield self) (quality self) (self_cost self) (cost self).

Definition with_fraction_analog (v : R) (self : t) : t :=
  mk
    (static self) (parent_chip self) (wafer_process self)
    (assembly_process self) (test_process self) (stackup self) (chips self)
    (bb_area self) (bb_cost self) (bb_quality self) (bb_power self)
    (aspect_ratio self) (x_location self) (y_location self) (name self)
    (core_area self) (fraction_memory self) (fraction_logic self) v
    (reticle_share self) (quantity self) (buried self)
    (global_adjacency_matrix self) (average_bandwidth_utilization self)
    (block_names self) (io_list self) (power self) (core_voltage self)
    (stack_power self) (io_power self) (total_power self)
    (nre_design_cost self) (area self) (self_true_yield self)
    (self_test_yield self) (self_quality self) (chip_true_yield self)
    (chip_test_yield self) (quality self) (self_cost self) (cost self).

Definition with_reticle_share (v : R) (self : t) : t :=
  mk
    (static self) (parent_chip self) (wafer_process self)
    (assembly_process self) (test_process self) (stackup self) (chips self)
    (bb_area self) (bb_cost self) (bb_quality self) (bb_power self)
    (aspect_ratio self) (x_location self) (y_location self) (name self)
    (core_area self) (fraction_memory self) (fraction_logic self)
    (fraction_analog self) v (quantity self) (buried self)
    (global_adjacency_matrix self) (average_bandwidth_utilization self)
    (block_names self) (io_list self) (power self) (core_voltage self)
    (stack_power self) (io_power self) (total_power self)
    (nre_design_cost self) (area self) (self_true_yield self)
    (self_test_yield self) (self_quality self) (chip_true_yield self)
    (chip_test_yield self) (quality self) (self_cost self) (cost self).

Definition with_quantity (v : Z) (self : t) : t :=
  mk
    (static self) (parent_chip self) (wafer_process self)
    (assembly_process self) (test_process self) (stackup self) (chips self)
    (bb_area self) (bb_cost self) (bb_quality self) (bb_power self)
    (aspect_ratio self) (x_location self) (y_location self) (name self)
    (core_area self) (fraction_memory self) (fraction_logic self)
    (fraction_analog self) (reticle_share self) v (buried self)
    (global_adjacency_matrix self) (average_bandwidth_utilization self)
    (block_names self) (io_list self) (power self) (core_voltage self)
    (stack_power self) (io_power self) (total_power self)
    (nre_design_cost self) (area self) (self_true_yield self)
    (self_test_yield self) (self_quality self) (chip_true_yield self)
    (chip_test_yield self) (quality self) (self_cost self) (cost self).

Definition with_buried (v : bool) (self : t) : t :=
  mk
    (static self) (parent_chip self) (wafer_process self)
    (assembly_process self) (test_process self) (stackup self) (chips self)
    (bb_area self) (bb_cost self) (bb_quality self) (bb_power self)
    (aspect_ratio self) (x_location self) (y_location self) (name self)
    (core_area self) (fraction_memory self) (fraction_logic self)
    (fraction_analog self) (reticle_share self) (quantity self) v
    (global_adjacency_matrix self) (average_bandwidth_utilization self)
    (block_names self) (io_list self) (power self) (core_voltage self)
    (stack_power self) (io_power self) (total_power self)
    (nre_design_cost self) (area self) (self_true_yield self)
    (self_test_yield self) (self_quality self) (chip_true_yield self)
    (chip_test_yield self) (quality self) (self_cost self) (cost self).

Definition with_global_adjacency_matrix (v : list (string * matrix)) (self : t) : t :=
  mk
    (static self) (parent_chip self) (wafer_process self)
    (assembly_process self) (test_process self) (stackup self) (chips self)
    (bb_area self) (bb_cost self) (bb_quality self) (bb_power self)
    (aspect_ratio self) (x_location self) (y_location self) (name self)
    (core_area self) (fraction_memory self) (fraction_logic self)
    (fraction_analog self) (reticle_share self) (quantity self) (buried self)
    v (average_bandwidth_utilization self) (block_names self) (io_list self)
    (power self) (core_voltage self) (stack_power self) (io_power self)
    (total_power self) (nre_design_cost self) (area self)
    (self_true_yield self) (self_test_yield self) (self_quality self)
    (chip_true_yield self) (chip_test_yield self) (quality self)
    (self_cost self) (cost self).

Definition with_average_bandwidth_utilization (v : list (string * matrix)) (self : t) : t :=
  mk
    (static self) (parent_chip self) (wafer_process self)
    (assembly_process self) (test_process self) (stackup self) (chips self)
    (bb_area self) (bb_cost self) (bb_quality self) (bb_power self)
    (aspect_ratio self) (x_location self) (y_location self) (name self)
    (core_area self) (fraction_memory self) (fraction_logic self)
    (fraction_analog self) (reticle_share self) (quantity self) (buried self)
    (global_adjacency_matrix self) v (block_names self) (io_list self)
    (power self) (core_voltage self) (stack_power self) (io_power self)
    (total_power self) (nre_design_cost self) (area self)
    (self_true_yield self) (self_test_yield self) (self_quality self)
    (chip_true_yield self) (chip_test_yield self) (quality self)
    (self_cost self) (cost self).

Definition with_block_names (v : list string) (self : t) : t :=
  mk
    (static self) (parent_chip self) (wafer_process self)
    (assembly_process self) (test_process self) (stackup self) (chips self)
    (bb_area self) (bb_cost self) (bb_quality self) (bb_power self)
    (aspect_ratio self) (x_location self) (y_location self) (name self)
    (core_area self) (fraction_memory self) (fraction_logic self)
    (fraction_analog self) (reticle_share self) (quantity self) (buried self)
    (global_adjacency_matrix self) (average_bandwidth_utilization self) v
    (io_list self) (power self) (core_voltage self) (stack_power self)
    (io_power self) (total_power self) (nre_design_cost self) (area self)
    (self_true_yield self) (self_test_yield self) (self_quality self)
    (chip_true_yield self) (chip_test_yield self) (quality self)
    (self_cost self) (cost self).

Definition with_io_list (v : list IO.t) (self : t) : t :=
  mk
    (static self) (parent_chip self) (wafer_process self)
    (assembly_process self) (test_process self) (stackup self) (chips self)
    (bb_area self) (bb_cost self) (bb_quality self) (bb_power self)
    (aspect_ratio self) (x_location self) (y_location self) (name self)
    (core_area self) (fraction_memory self) (fraction_logic self)
    (fraction_analog self) (reticle_share self) (quantity self) (buried self)
    (global_adjacency_matrix self) (average_bandwidth_utilization self)
    (block_names self) v (power self) (core_voltage self) (stack_power self)
    (io_power self) (total_power self) (nre_design_cost self) (area self)
    (self_true_yield self) (self_test_yield self) (self_quality self)
    (chip_true_yield self) (chip_test_yield self) (quality self)
    (self_cost self) (cost self).

Definition with_power (v : R) (self : t) : t :=
  mk
    (static self) (parent_chip self) (wafer_process self)
    (assembly_process self) (test_process self) (stackup self) (chips self)
    (bb_area self) (bb_cost self) (bb_quality self) (bb_power self)
    (aspect_ratio self) (x_location self) (y_location self) (name self)
    (core_area self) (fraction_memory self) (fraction_logic self)
    (fraction_analog self) (reticle_share self) (quantity self) (buried self)
    (global_adjacency_matrix self) (average_bandwidth_utilization self)
    (block_names self) (io_list self) v (core_voltage self)
    (stack_power self) (io_power self) (total_power self)
    (nre_design_cost self) (area self) (self_true_yield self)
    (self_test_yield self) (self_quality self) (chip_true_yield self)
    (chip_test_yield self) (quality self) (self_cost self) (cost self).

Definition with_core_voltage (v : R) (self : t) : t :=
  mk
    (static self) (parent_chip self) (wafer_process self)
    (assembly_process self) (test_process self) (stackup self) (chips self)
    (bb_area self) (bb_cost self) (bb_quality self) (bb_power self)
    (aspect_ratio self) (x_location self) (y_location self) (name self)
    (core_area self) (fraction_memory self) (fraction_logic self)
    (fraction_analog self) (reticle_share self) (quantity self) (buried self)
    (global_adjacency_matrix self) (average_bandwidth_utilization self)
    (block_names self) (io_list self) (power self) v (stack_power self)
    (io_power self) (total_power self) (nre_design_cost self) (area self)
    (self_true_yield self) (self_test_yield self) (self_quality self)
    (chip_true_yield self) (chip_test_yield self) (quality self)
    (self_cost self) (cost self).

Definition with_stack_power (v : option R) (self : t) : t :=
  mk
    (static self) (parent_chip self) (wafer_process self)
    (assembly_process self) (test_process self) (stackup self) (chips self)
    (bb_area self) (bb_cost self) (bb_quality self) (bb_power self)
    (aspect_ratio self) (x_location self) (y_location self) (name self)
    (core_area self) (fraction_memory self) (fraction_logic self)
    (fraction_analog self) (reticle_share self) (quantity self) (buried self)
    (global_adjacency_matrix self) (average_bandwidth_utilization self)
    (block_names self) (io_list self) (power self) (core_voltage self) v
    (io_power self) (total_power self) (nre_design_cost self) (area self)
    (self_true_yield self) (self_test_yield self) (self_quality self)
    (chip_true_yield self) (chip_test_yield self) (quality self)
    (self_cost self) (cost self).

Definition with_io_power (v : option R) (self : t) : t :=
  mk
    (static self) (parent_chip self) (wafer_process self)
    (assembly_process self) (test_process self) (stackup self) (chips self)
    (bb_area self) (bb_cost self) (bb_quality self) (bb_power self)
    (aspect_ratio self) (x_location self) (y_location self) (name self)
    (core_area self) (fraction_memory self) (fraction_logic self)
    (fraction_analog self) (reticle_share self) (quantity self) (buried self)
    (global_adjacency_matrix self) (average_bandwidth_utilization self)
    (block_names self) (io_list self) (power self) (core_voltage self)
    (stack_power self) v (total_power self) (nre_design_cost self)
    (area self) (self_true_yield self) (self_test_yield self)
    (self_quality self) (chip_true_yield self) (chip_test_yield self)
    (quality self) (self_cost self) (cost self).

Definition with_total_power (v : option R) (self : t) : t :=
  mk
    (static self) (parent_chip self) (wafer_process self)
    (assembly_process self) (test_process self) (stackup self) (chips self)
    (bb_area self) (bb_cost self) (bb_quality self) (bb_power self)
    (aspect_ratio self) (x_location self) (y_location self) (name self)
    (core_area self) (fraction_memory self) (fraction_logic self)
    (fraction_analog self) (reticle_share self) (quantity self) (buried self)
    (global_adjacency_matrix self) (average_bandwidth_utilization self)
    (block_names self) (io_list self) (power self) (core_voltage self)
    (stack_power self) (io_power self) v (nre_design_cost self) (area self)
    (self_true_yield self) (self_test_yield self) (self_quality self)
    (chip_true_yield self) (chip_test_yield self) (quality self)
    (self_cost self) (cost self).

Definition with_nre_design_cost (v : option R) (self : t) : t :=
  mk
    (static self) (parent_chip self) (wafer_process self)
    (assembly_process self) (test_process self) (stackup self) (chips self)
    (bb_area self) (bb_cost self) (bb_quality self) (bb_power self)
    (aspect_ratio self) (x_location self) (y_location self) (name self)
    (core_area self) (fraction_memory self) (fraction_logic self)
    (fraction_analog self) (reticle_share self) (quantity self) (buried self)
    (global_adjacency_matrix self) (average_bandwidth_utilization self)
    (block_names self) (io_list self) (power self) (core_voltage self)
    (stack_power self) (io_power self) (total_power self) v (area self)
    (self_true_yield self) (self_test_yield self) (self_quality self)
    (chip_true_yield self) (chip_test_yield self) (quality self)
    (self_cost self) (cost self).

Definition with_area (v : option R) (self : t) : t :=
  mk
    (static self) (parent_chip self) (wafer_process self)
    (assembly_process self) (test_process self) (stackup self) (chips self)
    (bb_area self) (bb_cost self) (bb_quality self) (bb_power self)
    (aspect_ratio self) (x_location self) (y_location self) (name self)
    (core_area self) (fraction_memory self) (fraction_logic self)
    (fraction_analog self) (reticle_share self) (quantity self) (buried self)
    (global_adjacency_matrix self) (average_bandwidth_utilization self)
    (block_names self) (io_list self) (power self) (core_voltage self)
    (stack_power self) (io_power self) (total_power self)
    (nre_design_cost self) v (self_true_yield self) (self_test_yield self)
    (self_quality self) (chip_true_yield self) (chip_test_yield self)
    (quality self) (self_cost self) (cost self).

Definition with_self_true_yield (v : option R) (self : t) : t :=
  mk
    (static self) (parent_chip self) (wafer_process self)
    (assembly_process self) (test_process self) (stackup self) (chips self)
    (bb_area self) (bb_cost self) (bb_quality self) (bb_power self)
    (aspect_ratio self) (x_location self) (y_location self) (name self)
    (core_area self) (fraction_memory self) (fraction_logic self)
    (fraction_analog self) (reticle_share self) (quantity self) (buried self)
    (global_adjacency_matrix self) (average_bandwidth_utilization self)
    (block_names self) (io_list self) (power self) (core_voltage self)
    (stack_power self) (io_power self) (total_power self)
    (nre_design_cost self) (area self) v (self_test_yield self)
    (self_quality self) (chip_true_yield self) (chip_test_yield self)
    (quality self) (self_cost self) (cost self).

Definition with_self_test_yield (v : option R) (self : t) : t :=
  mk
    (static self) (parent_chip self) (wafer_process self)
    (assembly_process self) (test_process self) (stackup self) (chips self)
    (bb_area self) (bb_cost self) (bb_quality self) (bb_power self)
    (aspect_ratio self) (x_location self) (y_location self) (name self)
    (core_area self) (fraction_memory self) (fraction_logic self)
    (fraction_analog self) (reticle_share self) (quantity self) (buried self)
    (global_adjacency_matrix self) (average_bandwidth_utilization self)
    (block_names self) (io_list self) (power self) (core_voltage self)
    (stack_power self) (io_power self) (total_power self)
    (nre_design_cost self) (area self) (self_true_yield self) v
    (self_quality self) (chip_true_yield self) (chip_test_yield self)
    (quality self) (self_cost self) (cost self).

Definition with_self_quality (v : option R) (self : t) : t :=
  mk
    (static self) (parent_chip self) (wafer_process self)
    (assembly_process self) (test_process self) (stackup self) (chips self)
    (bb_area self) (bb_cost self) (bb_quality self) (bb_power self)
    (aspect_ratio self) (x_location self) (y_location self) (name self)
    (core_area self) (fraction_memory self) (fraction_logic self)
    (fraction_analog self) (reticle_share self) (quantity self) (buried self)
    (global_adjacency_matrix self) (average_bandwidth_utilization self)
    (block_names self) (io_list self) (power self) (core_voltage self)
    (stack_power self) (io_power self) (total_power self)
    (nre_design_cost self) (area self) (self_true_yield self)
    (self_test_yield self) v (chip_true_yield self) (chip_test_yield self)
    (quality self) (self_cost self) (cost self).

Definition with_chip_true_yield (v : option R) (self : t) : t :=
  mk
    (static self) (parent_chip self) (wafer_process self)
    (assembly_process self) (test_process self) (stackup self) (chips self)
    (bb_area self) (bb_cost self) (bb_quality self) (bb_power self)
    (aspect_ratio self) (x_location self) (y_location self) (name self)
    (core_area self) (fraction_memory self) (fraction_logic self)
    (fraction_analog self) (reticle_share self) (quantity self) (buried self)
    (global_adjacency_matrix self) (average_bandwidth_utilization self)
    (block_names self) (io_list self) (power self) (core_voltage self)
    (stack_power self) (io_power self) (total_power self)
    (nre_design_cost self) (area self) (self_true_yield self)
    (self_test_yield self) (self_quality self) v (chip_test_yield self)
    (quality self) (self_cost self) (cost self).

Definition with_chip_test_yield (v : option R) (self : t) : t :=
  mk
    (static self) (parent_chip self) (wafer_process self)
    (assembly_process self) (test_process self) (stackup self) (chips self)
    (bb_area self) (bb_cost self) (bb_quality self) (bb_power self)
    (aspect_ratio self) (x_location self) (y_location self) (name self)
    (core_area self) (fraction_memory self) (fraction_logic self)
    (fraction_analog self) (reticle_share self) (quantity self) (buried self)
    (global_adjacency_matrix self) (average_bandwidth_utilization self)
    (block_names self) (io_list self) (power self) (core_voltage self)
    (stack_power self) (io_power self) (total_power self)
    (nre_design_cost self) (area self) (self_true_yield self)
    (self_test_yield self) (self_quality self) (chip_true_yield self) v
    (quality self) (self_cost self) (cost self).

Definition with_quality (v : option R) (self : t) : t :=
  mk
    (static self) (parent_chip self) (wafer_process self)
    (assembly_process self) (test_process self) (stackup self) (chips self)
    (bb_area self) (bb_cost self) (bb_quality self) (bb_power self)
    (aspect_ratio self) (x_location self) (y_location self) (name self)
    (core_area self) (fraction_memory self) (fraction_logic self)
    (fraction_analog self) (reticle_share self) (quantity self) (buried self)
    (global_adjacency_matrix self) (average_bandwidth_utilization self)
    (block_names self) (io_list self) (power self) (core_voltage self)
    (stack_power self) (io_power self) (total_power self)
    (nre_design_cost self) (area self) (self_true_yield self)
    (self_test_yield self) (self_quality self) (chip_true_yield self)
    (chip_test_yield self) v (self_cost self) (cost self).

Definition with_self_cost (v : option R) (self : t) : t :=
  mk
    (static self) (parent_chip self) (wafer_process self)
    (assembly_process self) (test_process self) (stackup self) (chips self)
    (bb_area self) (bb_cost self) (bb_quality self) (bb_power self)
    (aspect_ratio self) (x_location self) (y_location self) (name self)
    (core_area self) (fraction_memory self) (fraction_logic self)
    (fraction_analog self) (reticle_share self) (quantity self) (buried self)
    (global_adjacency_matrix self) (average_bandwidth_utilization self)
    (block_names self) (io_list self) (power self) (core_voltage self)
    (stack_power self) (io_power self) (total_power self)
    (nre_design_cost self) (area self) (self_true_yield self)
    (self_test_yield self) (self_quality self) (chip_true_yield self)
    (chip_test_yield self) (quality self) v (cost self).

Definition with_cost (v : option R) (self : t) : t :=
  mk
    (static self) (parent_chip self) (wafer_process self)
    (assembly_process self) (test_process self) (stackup self) (chips self)
    (bb_area self) (bb_cost self) (bb_quality self) (bb_power self)
    (aspect_ratio self) (x_location self) (y_location self) (name self)
    (core_area self) (fraction_memory self) (fraction_logic self)
    (fraction_analog self) (reticle_share self) (quantity self) (buried self)
    (global_adjacency_matrix self) (average_bandwidth_utilization self)
    (block_names self) (io_list self) (power self) (core_voltage self)
    (stack_power self) (io_power self) (total_power self)
    (nre_design_cost self) (area self) (self_true_yield self)
    (self_test_yield self) (self_quality self) (chip_true_yield self)
    (chip_test_yield self) (quality self) (self_cost self) v.

(** Setters: 1 and no change when the object is static, else the
    assignment and 0. *)

Definition set_name (self : t) (value : string) : Z * t :=
  if static self then (1%Z, self)
  else (0%Z, with_name value self).

Definition set_aspect_ratio (self : t) (value : R) : Z * t :=
  if static self then (1%Z, self)
  else (0%Z, with_aspect_ratio value self).

Definition set_x_location (self : t) (value : option R) : Z * t :=
  if static self then (1%Z, self)
  else (0%Z, with_x_location value self).

Definition set_y_location (self : t) (value : option R) : Z * t :=
  if static self then (1%Z, self)
  else (0%Z, with_y_location value self).

Definition set_core_area (self : t) (value : R) : Z * t :=
  if static self then (1%Z, self)
  else (0%Z, with_core_area value self).

Definition set_fraction_memory (self : t) (value : R) : Z * t :=
  if static self then (1%Z, self)
  else (0%Z, with_fraction_memory value self).

Definition set_fraction_logic (self : t) (value : R) : Z * t :=
  if static self then (1%Z, self)
  else (0%Z, with_fraction_logic value self).

Definition set_fraction_analog (self : t) (value : R) : Z * t :=
  if static self then (1%Z, self)
  else (0%Z, with_fraction_analog value self).

Definition set_reticle_share (self : t) (value : R) : Z * t :=
  if static self then (1%Z, self)
  else (0%Z, with_reticle_share value self).

Definition set_buried (self : t) (value : bool) : Z * t :=
  if static self then (1%Z, self)
  else (0%Z, with_buried value self).

Definition set_self_cost (self : t) (value : R) : Z * t :=
  if static self then (1%Z, self)
  else (0%Z, with_self_cost (Some value) self).

Definition set_cost (self : t) (value : R) : Z * t :=
  if static self then (1%Z, self)
  else (0%Z, with_cost (Some value) self).

Definition set_self_true_yield (self : t) (value : R) : Z * t :=
  if static self then (1%Z, self)
  else (0%Z, with_self_true_yield (Some value) self).

Definition set_chip_true_yield (self : t) (value : R) : Z * t :=
  if static self then (1%Z, self)
  else (0%Z, with_chip_true_yield (Some value) self).

Definition set_self_test_yield (self : t) (value : R) : Z * t :=
  if static self then (1%Z, self)
  else (0%Z, with_self_test_yield (Some value) self).

Definition set_chip_test_yield (self : t) (value : R) : Z * t :=
  if static self then (1%Z, self)
  else (0%Z, with_chip_test_yield (Some value) self).

Definition set_self_quality (self : t) (value : R) : Z * t :=
  if static self then (1%Z, self)
  else (0%Z, with_self_quality (Some value) self).

Definition set_quality (self : t) (value : R) : Z * t :=
  if static self then (1%Z, self)
  else (0%Z, with_quality (Some value) self).

Definition set_assembly_process (self : t) (value : Assembly.t) : Z * t :=
  if static self then (1%Z, self)
  else (0%Z, with_assembly_process value self).

Definition set_stackup (self : t) (value : list Layer.t) : Z * t :=
  if static self then (1%Z, self)
  else (0%Z, with_stackup value self).

Definition set_test_process (self : t) (value : Test.t) : Z * t :=
  if static self then (1%Z, self)
  else (0%Z, with_test_process value self).

Definition set_power (self : t) (value : R) : Z * t :=
  if static self then (1%Z, self)
  else (0%Z, with_power value self).

Definition set_core_voltage (self : t) (value : R) : Z * t :=
  if static self then (1%Z, self)
  else (0%Z, with_core_voltage value self).

Definition set_io_power (self : t) (value : R) : Z * t :=
  if static self then (1%Z, self)
  else (0%Z, with_io_power (Some value) self).

Definition set_total_power (self : t) (value : R) : Z * t :=
  if static self then (1%Z, self)
  else (0%Z, with_total_power (Some value) self).

Definition set_quantity (self : t) (value : Z) : Z * t :=
  if static self then (1%Z, self)
  else (0%Z, with_quantity value self).

(** *** Getters *)

Definition get_name (self : t) : string := name self.
Definition get_parent_chip (self : t) : option Assembly.t := parent_chip self.
Definition get_aspect_ratio (self : t) : R := aspect_ratio self.
Definition get_core_area (self : t) : R := core_area self.
Definition get_fraction_memory (self : t) : R := fraction_memory self.
Definition get_fraction_logic (self : t) : R := fraction_logic self.
Definition get_fraction_analog (self : t) : R := fraction_analog self.
Definition get_reticle_share (self : t) : R := reticle_share self.
Definition get_buried (self : t) : bool := buried self.
Definition get_quantity (self : t) : Z := quantity self.
Definition get_power (self : t) : R := power self.
Definition get_core_voltage (self : t) : R := core_voltage self.
Definition get_test_process (self : t) : Test.t := test_process self.
Definition get_chips (self : t) : list t := chips self.
Definition get_chips_len (self : t) : Z := Z.of_nat (List.length (chips self)).
Definition get_static (self : t) : bool := static self.
Definition get_wafer_process_yield (self : t) : R :=
  WaferProcess.wafer_process_yield (wafer_process self).

Definition get_self_cost (self : t) : result R := attr (self_cost self).
Definition get_cost (self : t) : result R := attr (cost self).
Definition get_self_true_yield (self : t) : result R :=
  attr (self_true_yield self).
Definition get_chip_true_yield (self : t) : result R :=
  attr (chip_true_yield self).
Definition get_self_test_yield (self : t) : result R :=
  attr (self_test_yield self).
Definition get_chip_test_yield (self : t) : result R :=
  attr (chip_test_yield self).
Definition get_self_quality (self : t) : result R := attr (self_quality self).
Definition get_quality (self : t) : result R := attr (quality self).
Definition get_stack_power (self : t) : result R := attr (stack_power self).
Definition get_io_power (self : t) : result R := attr (io_power self).
Definition get_total_power (self : t) : result R := attr (total_power self).
Definition get_area (self : t) : result R := attr (area self).
Definition get_nre_design_cost (self : t) : result R :=
  attr (nre_design_cost self).

(** *** Catalog look-up *)

Fixpoint find_process {A : Type} (get_name : A -> string)
    (process_name : string) (process_list : list A) : option A :=
  match process_list with
  | [] => None
  | p :: rest =>
      if String.eqb (get_name p) process_name then Some p
      else find_process get_name process_name rest
  end.

Definition find_wafer_process (wafer_process_name : string)
    (wafer_process_list : list WaferProcess.t) : result WaferProcess.t :=
  match find_process WaferProcess.name wafer_process_name
                     wafer_process_list with
  | Some p => Ok p
  | None => sys_exit
  end.

Definition find_assembly_process (assembly_process_name : string)
    (assembly_process_list : list Assembly.t) : result Assembly.t :=
  match find_process Assembly.name assembly_process_name
                     assembly_process_list with
  | Some p => Ok p
  | None => sys_exit
  end.

Definition find_test_process (test_process_name : string)
    (test_process_list : list Test.t) : result Test.t :=
  match find_process Test.name test_process_name test_process_list with
  | Some p => Ok p
  | None => sys_exit
  end.

(** The first loop of [build_stackup]: the layer names, each as many times
    as its count says; a negative count exits. *)
Fixpoint stackup_names (stackup_string : list (Z * string))
    : result (list string) :=
  match stackup_string with
  | [] => Ok []
  | (count, layer_name) :: rest =>
      if (0 <=? count)%Z then
        names <- stackup_names rest ;;
        Ok (repeat layer_name (Z.to_nat count) ++ names)
      else sys_exit
  end.

Fixpoint find_layers (names : list string) (layers : list Layer.t)
    : result (list Layer.t) :=
  match names with
  | [] => Ok []
  | layer :: rest =>
      match find_process Layer.name layer layers with
      | Some l => stackup <- find_layers rest layers ;; Ok (l :: stackup)
      | None => sys_exit
      end
  end.

Definition build_stackup (stackup_string : list (Z * string))
    (layers : list Layer.t) : result (list Layer.t) :=
  names <- stackup_names stackup_string ;;
  find_layers names layers.

(** *** Power of the stack *)

Fixpoint sum_total_power (chips : list t) (stack_power : R) : result R :=
  match chips with
  | [] => Ok stack_power
  | chip :: rest =>
      p <- get_total_power chip ;;
      sum_total_power rest (stack_power + p)
  end.

Definition compute_stack_power (self : t) : result R :=
  sum_total_power (chips self) 0.

(** *** Areas *)

(** [expandedArea(area, border, aspect_ratio)]; [border] is read after the
    two square roots. *)
Definition expandedArea (area : R) (border : option R) (aspect_ratio : R)
    : result R :=
  x <- py_sqrt (area * aspect_ratio) ;;
  q <- py_div area aspect_ratio ;;
  y <- py_sqrt q ;;
  border <- num border ;;
  let new_area := (x + 2 * border) * (y + 2 * border) in
  Ok new_area.

Fixpoint stack_dies (assembly_process : Assembly.t) (chips : list t)
    (stacked_die_area : R) : result R :=
  match chips with
  | [] => Ok stacked_die_area
  | chip :: rest =>
      if negb (get_buried chip) then
        chip_area <- get_area chip ;;
        die_separation <- num (Assembly.die_separation assembly_process) ;;
        e <- expandedArea chip_area (Some (die_separation / 2))
                          (get_aspect_ratio chip) ;;
        stack_dies assembly_process rest (stacked_die_area + e)
      else stack_dies assembly_process rest stacked_die_area
  end.

Definition get_stacked_die_area (self : t) : result R :=
  stacked_die_area <- stack_dies (assembly_process self) (chips self) 0 ;;
  expandedArea stacked_die_area
               (Assembly.edge_exclusion (assembly_process self)) 1.

(** *** NRE design cost *)

Definition compute_nre_front_end_cost (self : t) : R :=
  let wp := wafer_process self in
  get_core_area self
  * (WaferProcess.nre_front_end_cost_per_mm2_memory wp * get_fraction_memory self
     + WaferProcess.nre_front_end_cost_per_mm2_logic wp * get_fraction_logic self
     + WaferProcess.nre_front_end_cost_per_mm2_analog wp
       * get_fraction_analog self).

Definition compute_nre_back_end_cost (self : t) : R :=
  let wp := wafer_process self in
  get_core_area self
  * (WaferProcess.nre_back_end_cost_per_mm2_memory wp * get_fraction_memory self
     + WaferProcess.nre_back_end_cost_per_mm2_logic wp * get_fraction_logic self
     + WaferProcess.nre_back_end_cost_per_mm2_analog wp
       * get_fraction_analog self).

Definition compute_nre_design_cost (self : t) : R :=
  compute_nre_front_end_cost self + compute_nre_back_end_cost self.

(** *** The global interconnect model *)

(** [l[:]] *)
Definition whole {A : Type} (l : list A) : list A := l.

(** [m[i]] on a list or an array *)
Definition item {A : Type} (l : list A) (i : nat) : result A :=
  match nth_error l i with
  | Some a => Ok a
  | None => Raise IndexError
  end.

(** [d[key]] on a dict with string keys *)
Fixpoint lookup {A : Type} (d : list (string * A)) (key : string)
    : result A :=
  match d with
  | [] => Raise KeyError
  | (k, v) :: rest => if String.eqb k key then Ok v else lookup rest key
  end.

(** The first [i] with [block_names[i] == name] (the loop of [get_io_area]
    breaks at it). *)
Fixpoint first_index (block_names : list string) (name : string) (i : nat)
    : option nat :=
  match block_names with
  | [] => None
  | b :: rest =>
      if String.eqb b name then Some i else first_index rest name (S i)
  end.

(** The last [i] with [block_names[i] == name] (the loops of
    [get_signal_count] and [get_signal_power] do not break). *)
Fixpoint last_index (block_names : list string) (name : string) (i : nat)
    (block_index : option nat) : option nat :=
  match block_names with
  | [] => block_index
  | b :: rest =>
      last_index rest name (S i)
                 (if String.eqb b name then Some i else block_index)
  end.

(** [name in internal_block_list]: a string equals no list, so only the
    entries that are names count. *)
Definition in_items (name : string) (internal_block_list : list name_item)
    : bool :=
  existsb (fun it => match it with
                     | Name s => String.eqb name s
                     | Names _ => false
                     end) internal_block_list.

Fixpoint internal_indices (block_names : list string)
    (internal_block_list : list name_item) (i : nat) : list nat :=
  match block_names with
  | [] => []
  | b :: rest =>
      if in_items b internal_block_list
      then i :: internal_indices rest internal_block_list (S i)
      else internal_indices rest internal_block_list (S i)
  end.

(** [for io in self.io_list: if io.get_type() == io_type: break], then the
    use of [io]: the IO found, else the last one of the list, else an
    unbound variable. *)
Definition select_io (io_list : list IO.t) (io_type : string)
    : result IO.t :=
  match find (fun io => String.eqb (IO.type io) io_type) io_list with
  | Some io => Ok io
  | None =>
      match rev io_list with
      | io :: _ => Ok io
      | [] => Raise UnboundLocalError
      end
  end.

Fixpoint io_area_types (io_list : list IO.t) (block_index : nat)
    (adjacency : list (string * matrix)) (io_area : R) : result R :=
  match adjacency with
  | [] => Ok io_area
  | (io_type, m) :: rest =>
      tx_row <- item m block_index ;;
      io <- select_io io_list io_type ;;
      rx_row <- item (whole m) block_index ;;
      io_area_types io_list block_index rest
        (io_area + (py_sum (whole tx_row) * IO.tx_area io
                    + py_sum rx_row * IO.rx_area io))
  end.

Definition get_io_area (self : t) : result R :=
  match first_index (block_names self) (get_name self) 0 with
  | None => Ok 0
  | Some block_index =>
      io_area_types (io_list self) block_index
                    (global_adjacency_matrix self) 0
  end.

Fixpoint get_chip_list (self : t) : list name_item :=
  map (fun chip => Names (get_chip_list chip)) (chips self)
  ++ [Name (get_name self)].

(** [signal_with_reach_count], keyed by the reach (the source keys it by
    [str(reach)], which differs for different floats), in insertion order. *)
Fixpoint reach_add (d : list (R * R)) (reach v : R) : list (R * R) :=
  match d with
  | [] => [(reach, v)]
  | (k, c) :: rest =>
      if Reqb k reach then (k, c + v) :: rest
      else (k, c) :: reach_add rest reach v
  end.

Fixpoint reach_get (d : list (R * R)) (reach : R) : result R :=
  match d with
  | [] => Raise KeyError
  | (k, c) :: rest => if Reqb k reach then Ok c else reach_get rest reach
  end.

Definition bidirectional_factor (io : IO.t) : R :=
  if truthy (IO.get_bidirectional io) then 1 / 2 else 1.

Fixpoint signal_count_columns (m : matrix) (io : IO.t) (block_index : nat)
    (internal_block_list_indices : list nat) (columns : list nat)
    (signal_count : R) (signal_with_reach_count : list (R * R))
    : result (R * list (R * R)) :=
  match columns with
  | [] => Ok (signal_count, signal_with_reach_count)
  | j :: rest =>
      if negb (existsb (Nat.eqb j) internal_block_list_indices) then
        r <- item m block_index ;;
        out <- item r j ;;
        r' <- item m j ;;
        inc <- item r' block_index ;;
        let v := (out + inc) * IZR (IO.wire_count io)
                 * bidirectional_factor io in
        signal_count_columns m io block_index internal_block_list_indices
          rest (signal_count + v)
          (reach_add signal_with_reach_count (IO.reach io) v)
      else
        signal_count_columns m io block_index internal_block_list_indices
          rest signal_count signal_with_reach_count
  end.

Fixpoint signal_count_types (io_list : list IO.t) (block_index : nat)
    (internal_block_list_indices : list nat)
    (adjacency : list (string * matrix))
    (signal_count : R) (signal_with_reach_count : list (R * R))
    : result (R * list (R * R)) :=
  match adjacency with
  | [] => Ok (signal_count, signal_with_reach_count)
  | (io_type, m) :: rest =>
      io <- select_io io_list io_type ;;
      r <- item m block_index ;;
      '(signal_count, signal_with_reach_count) <-
        signal_count_columns m io block_index internal_block_list_indices
          (seq 0 (List.length (whole r))) signal_count signal_with_reach_count ;;
      signal_count_types io_list block_index internal_block_list_indices
        rest signal_count signal_with_reach_count
  end.

Definition get_signal_count (self : t)
    (internal_block_list : list name_item) : result (R * list (R * R)) :=
  let block_index := last_index (block_names self) (get_name self) 0 None in
  let internal_block_list_indices :=
    internal_indices (block_names self) internal_block_list 0 in
  match block_index with
  | None => Ok (0, [])
  | Some block_index =>
      signal_count_types (io_list self) block_index
        internal_block_list_indices (global_adjacency_matrix self) 0 []
  end.

(** [a*b] on two rows of numpy arrays *)
Definition np_mul (a b : list R) : result (list R) :=
  if (List.length a =? List.length b)%nat then Ok (map (fun p => fst p * snd p) (combine a b))
  else match a, b with
       | [x], _ => Ok (map (fun y => x * y) b)
       | _, [y] => Ok (map (fun x => x * y) a)
       | _, _ => Raise ValueError
       end.

Fixpoint link_weighted (m : matrix) (utilization : result matrix)
    (indices : list nat) (link_weighted_sum : R) : result R :=
  match indices with
  | [] => Ok link_weighted_sum
  | index :: rest =>
      a <- item (whole m) index ;;
      u <- utilization ;;
      b <- item (whole u) index ;;
      p1 <- np_mul a b ;;
      a' <- item m index ;;
      b' <- item u index ;;
      p2 <- np_mul (whole a') (whole b') ;;
      let value := py_sum p1 + py_sum p2 in
      link_weighted m utilization rest (link_weighted_sum + value)
  end.

Fixpoint signal_power_types (io_list : list IO.t)
    (utilization : list (string * matrix))
    (internal_block_list_indices : list nat)
    (adjacency : list (string * matrix)) (signal_power : R) : result R :=
  match adjacency with
  | [] => Ok signal_power
  | (io_type, m) :: rest =>
      io <- select_io io_list io_type ;;
      let bidirectional_factor := bidirectional_factor io in
      link_weighted_sum <-
        link_weighted m (lookup utilization io_type)
                      internal_block_list_indices 0 ;;
      signal_power_types io_list utilization internal_block_list_indices rest
        (signal_power
         + link_weighted_sum * IO.bandwidth io * IO.energy_per_bit io
           * bidirectional_factor)
  end.

Definition get_signal_power (self : t)
    (internal_block_list : list name_item) : result R :=
  let internal_block_list_indices :=
    internal_indices (block_names self) internal_block_list 0 in
  signal_power_types (io_list self) (average_bandwidth_utilization self)
    internal_block_list_indices (global_adjacency_matrix self) 0.

Fixpoint sum_signal_count (internal_chip_list : list name_item)
    (chips : list t) (signal_count : R) : result R :=
  match chips with
  | [] => Ok signal_count
  | chip :: rest =>
      '(c, _) <- get_signal_count chip internal_chip_list ;;
      sum_signal_count internal_chip_list rest (signal_count + c)
  end.

Definition get_chips_signal_count (self : t) : result R :=
  let internal_chip_list := get_chip_list self in
  sum_signal_count internal_chip_list (chips self) 0.

(** *** Pads *)

Definition get_power_pads (self : t) : result Z :=
  power <- get_total_power self ;;
  power_per_pad <-
    Assembly.get_power_per_pad (assembly_process self)
                               (get_core_voltage self) ;;
  q <- py_div power power_per_pad ;;
  let power_pads := py_ceil q in
  let power_pads := (power_pads * 2)%Z in
  Ok power_pads.

(** [reaches.sort()] *)
Fixpoint insert_sorted (x : R) (l : list R) : list R :=
  match l with
  | [] => [x]
  | y :: rest => if Rleb x y then x :: l else y :: insert_sorted x rest
  end.

Definition sort_reaches (l : list R) : list R :=
  fold_right insert_sorted [] l.

(** The body of [for reach in reaches:] in [get_pad_area], from the state
    [(current_x, current_y, current_count)] to the next one. *)
Definition place_reach (aspect_ratio : R) (die_separation : option R)
    (bonding_pitch area_per_pad : R)
    (signal_with_reach_count : list (R * R)) (reach : R)
    (state : R * R * R) : result (R * R * R) :=
  let '(current_x, current_y, current_count) := state in
  die_separation <- num die_separation ;;
  let reach_with_separation := reach - die_separation in
  if Rltb reach_with_separation 0 then sys_exit
  else
    c <- reach_get signal_with_reach_count reach ;;
    let current_count := current_count + c in
    let required_area := current_count * area_per_pad in
    usable_area <-
      (if Rltb reach_with_separation current_x
          && Rltb reach_with_separation current_y
       then
         sq <- py_pow reach_with_separation 2 ;;
         Ok (reach_with_separation * (current_x + current_y) - sq)
       else Ok (current_x * current_y)) ;;
    if Rleb usable_area required_area then
      required_x <- py_sqrt (required_area * aspect_ratio) ;;
      q <- py_div required_area aspect_ratio ;;
      required_y <- py_sqrt q ;;
      '(new_req_x, new_req_y) <-
        (if Rltb reach_with_separation required_x
            && Rltb reach_with_separation required_y
         then
           q1 <- py_div (2 * required_area) reach_with_separation ;;
           new_req_y <- py_div (q1 + 2 * reach_with_separation)
                               (2 * aspect_ratio + 2) ;;
           let new_req_x := aspect_ratio * new_req_y in
           Ok (new_req_x, new_req_y)
         else Ok (required_x, required_y)) ;;
      qx <- py_div new_req_x bonding_pitch ;;
      let new_req_x := IZR (py_ceil qx) * bonding_pitch in
      qy <- py_div new_req_y bonding_pitch ;;
      let new_req_y := IZR (py_ceil qy) * bonding_pitch in
      let current_x :=
        if Rltb current_x new_req_x then new_req_x else current_x in
      let current_y :=
        if Rltb current_y new_req_y then new_req_y else current_y in
      Ok (current_x, current_y, current_count)
    else Ok (current_x, current_y, current_count).

Fixpoint place_reaches (aspect_ratio : R) (die_separation : option R)
    (bonding_pitch area_per_pad : R)
    (signal_with_reach_count : list (R * R)) (reaches : list R)
    (state : R * R * R) : result (R * R * R) :=
  match reaches with
  | [] => Ok state
  | reach :: rest =>
      state <- place_reach aspect_ratio die_separation bonding_pitch
                 area_per_pad signal_with_reach_count reach state ;;
      place_reaches aspect_ratio die_separation bonding_pitch area_per_pad
        signal_with_reach_count rest state
  end.

(** The grid that holds [required_area], after the loop over the reaches. *)
Definition pad_grid (bonding_pitch required_area current_x current_y : R)
    : result (Z * Z) :=
  if Rleb required_area (current_x * current_y) then
    qx <- py_div current_x bonding_pitch ;;
    qy <- py_div current_y bonding_pitch ;;
    Ok (py_ceil qx, py_ceil qy)
  else if Rltb current_x current_y then
    sq <- py_pow current_y 2 ;;
    if Rleb sq required_area then
      qy <- py_div current_y bonding_pitch ;;
      q <- py_div required_area current_y ;;
      qx <- py_div q bonding_pitch ;;
      Ok (py_ceil qx, py_ceil qy)
    else
      required_side <- py_sqrt required_area ;;
      q <- py_div required_side bonding_pitch ;;
      Ok (py_ceil q, py_ceil q)
  else if Rltb current_y current_x then
    sq <- py_pow current_x 2 ;;
    if Rleb sq required_area then
      qx <- py_div current_x bonding_pitch ;;
      q <- py_div required_area current_x ;;
      qy <- py_div q bonding_pitch ;;
      Ok (py_ceil qx, py_ceil qy)
    else
      required_side <- py_sqrt required_area ;;
      q <- py_div required_side bonding_pitch ;;
      Ok (py_ceil q, py_ceil q)
  else
    required_side <- py_sqrt required_area ;;
    q <- py_div required_side bonding_pitch ;;
    Ok (py_ceil q, py_ceil q).

Definition get_pad_area (self : t) : result R :=
  num_power_pads <- get_power_pads self ;;
  '(signal_pads, signal_with_reach_count) <-
    get_signal_count self (get_chip_list self) ;;
  let num_pads := signal_pads + IZR num_power_pads in
  let parent_chip := get_parent_chip self in
  let pitch_process :=
    match parent_chip with
    | Some parent_assembly_process => parent_assembly_process
    | None => assembly_process self
    end in
  bonding_pitch <- num (Assembly.bonding_pitch pitch_process) ;;
  area_per_pad <- py_pow bonding_pitch 2 ;;
  let reaches := map fst signal_with_reach_count in
  let reaches := sort_reaches reaches in
  '(current_x, current_y, _) <-
    place_reaches (get_aspect_ratio self)
      (Assembly.die_separation pitch_process) bonding_pitch area_per_pad
      signal_with_reach_count reaches (0, 0, 0) ;;
  let required_area := area_per_pad * num_pads in
  '(grid_x, grid_y) <-
    pad_grid bonding_pitch required_area current_x current_y ;;
  let pad_area := IZR (grid_x * grid_y) * area_per_pad in
  Ok pad_area.

Definition compute_area (self : t) : result R :=
  match bb_area self with
  | Some bb_area => Ok bb_area
  | None =>
      io_area <- get_io_area self ;;
      let chip_io_area := get_core_area self + io_area in
      pad_required_area <- get_pad_area self ;;
      stacked_die_bound_area <- get_stacked_die_area self ;;
      let chip_area :=
        Rmax (Rmax stacked_die_bound_area pad_required_area) chip_io_area in
      Ok chip_area
  end.

(** *** Yield *)

Fixpoint layers_yield (self : t) (stackup : list Layer.t) (layer_yield : R)
    : result R :=
  match stackup with
  | [] => Ok layer_yield
  | layer :: rest =>
      io_area <- get_io_area self ;;
      y <- Layer.layer_yield layer (get_core_area self + io_area) ;;
      layers_yield self rest (layer_yield * y)
  end.

Definition compute_layer_aware_yield (self : t) : result R :=
  layers_yield self (stackup self) 1.

Fixpoint product_quality (chips : list t) (quality_yield : R) : result R :=
  match chips with
  | [] => Ok quality_yield
  | chip :: rest =>
      q <- get_quality chip ;;
      product_quality rest (quality_yield * q)
  end.

Definition quality_yield (self : t) : result R :=
  product_quality (chips self) 1.

Definition compute_chip_yield (self : t) : result R :=
  chip_true_yield <- get_self_quality self ;;
  quality_yield <- quality_yield self ;;
  n_bonds <- get_chips_signal_count self ;;
  stacked_die_area <- get_stacked_die_area self ;;
  assembly_yield <-
    Assembly.assembly_yield (assembly_process self)
      (IZR (get_chips_len self)) n_bonds stacked_die_area ;;
  let chip_true_yield :=
    chip_true_yield
    * (quality_yield * assembly_yield * get_wafer_process_yield self) in
  Ok chip_true_yield.

(** *** The methods of class Test that take a chip *)

Definition Test_compute_self_test_yield (self : Test.t) (chip : t)
    : result R :=
  if Test.test_self self then
    true_yield <- get_self_true_yield chip ;;
    Ok (1 - (1 - true_yield) * Test.self_defect_coverage self)
  else Ok 1.

Definition Test_compute_self_quality (self : Test.t) (chip : t) : result R :=
  test_yield <- get_self_test_yield chip ;;
  true_yield <- get_self_true_yield chip ;;
  py_div true_yield test_yield.

Definition Test_compute_assembly_test_yield (self : Test.t) (chip : t)
    : result R :=
  assembly_true_yield <- get_chip_true_yield chip ;;
  if Test.test_assembly self then
    Ok (1 - (1 - assembly_true_yield) * Test.assembly_defect_coverage self)
  else Ok 1.

Definition Test_compute_assembly_quality (self : Test.t) (chip : t)
    : result R :=
  assembly_true_yield <- get_chip_true_yield chip ;;
  assembly_test_yield <- get_chip_test_yield chip ;;
  py_div assembly_true_yield assembly_test_yield.

(** [random.gauss(mu, sigma)], [random.expovariate(lambd)] and
    [random.lognormvariate(mu, sigma)]: the next value of the source. *)
Definition draw (rnd : random_source) (seed : nat) : R * nat :=
  (rnd seed, S seed).

Definition Test_compute_self_test_cost (rnd : random_source) (self : Test.t)
    (chip : t) (seed : nat) : result (R * nat) :=
  if negb (Test.test_self self) then Ok (0, seed)
  else
    let test_cost :=
      get_core_area chip * Test.self_test_cost_per_mm2 self
      * IZR (Test.self_pattern_count self) in
    let dist := Test.self_test_failure_dist self in
    '(derating_factor, seed) <-
      (if (dist =? 1)%Z then
         y <- get_chip_true_yield chip ;;
         y' <- get_chip_true_yield chip ;;
         let sigma := y' * (5 / 100) in
         Ok (draw rnd seed)
       else if (dist =? 2)%Z then Ok (1, seed)
       else if (dist =? 3)%Z then
         y <- get_chip_true_yield chip ;;
         lambd <- py_div 1 y ;;
         Ok (draw rnd seed)
       else if (dist =? 4)%Z then
         y <- get_chip_true_yield chip ;;
         mu <- py_log y ;;
         Ok (draw rnd seed)
       else Raise UnboundLocalError) ;;
    Ok (derating_factor * test_cost, seed).

Fixpoint sum_core_area (chips : list t) (area : R) : R :=
  match chips with
  | [] => area
  | c :: rest => sum_core_area rest (area + get_core_area c)
  end.

(** The second branch of the source repeats the test [== 1] of the first
    and is never taken. *)
Definition Test_compute_assembly_test_cost (rnd : random_source)
    (self : Test.t) (chip : t) (seed : nat) : result (R * nat) :=
  if negb (Test.test_assembly self) then Ok (0, seed)
  else
    let area := get_core_area chip in
    let chips := get_chips chip in
    let area := sum_core_area chips area in
    let test_cost :=
      area * Test.assembly_test_cost_per_mm2 self
      * IZR (Test.assembly_pattern_count self) in
    let dist := Test.assembly_test_failure_dist self in
    '(derating_factor, seed) <-
      (if (dist =? 1)%Z then
         y <- get_chip_true_yield chip ;;
         y' <- get_chip_true_yield chip ;;
         let sigma := y' * (5 / 100) in
         Ok (draw rnd seed)
       else if (dist =? 1)%Z then Ok (1, seed)
       else if (dist =? 2)%Z then
         y <- get_chip_true_yield chip ;;
         lambd <- py_div 1 y ;;
         Ok (draw rnd seed)
       else if (dist =? 3)%Z then
         y <- get_chip_true_yield chip ;;
         mu <- py_log y ;;
         Ok (draw rnd seed)
       else Raise UnboundLocalError) ;;
    Ok (derating_factor * test_cost, seed).

(** *** Cost *)

Fixpoint sum_layer_cost (fuel : nat) (self : t) (stackup : list Layer.t)
    (cost : R) : result R :=
  match stackup with
  | [] => Ok cost
  | layer :: rest =>
      chip_area <- get_area self ;;
      c <- Layer.layer_cost fuel layer chip_area (wafer_process self) ;;
      sum_layer_cost fuel self rest (cost + c)
  end.

Definition get_layer_aware_cost (fuel : nat) (self : t) : result R :=
  sum_layer_cost fuel self (stackup self) 0.

Definition get_mask_cost (self : t) : R :=
  let cost := fold_left (fun cost layer => cost + Layer.mask_cost layer)
                        (stackup self) 0 in
  cost * get_reticle_share self.

Definition compute_nre_cost (self : t) : result R :=
  nre_design_cost <- get_nre_design_cost self ;;
  py_div (nre_design_cost + get_mask_cost self) (IZR (get_quantity self)).

Definition compute_self_cost (fuel : nat) (rnd : random_source) (self : t)
    (seed : nat) : result (R * nat) :=
  let cost := 0 in
  match bb_cost self with
  | Some bb_cost => Ok (bb_cost, seed)
  | None =>
      self_layer_cost <- get_layer_aware_cost fuel self ;;
      let cost := cost + self_layer_cost in
      nre_cost <- compute_nre_cost self ;;
      let cost := cost + nre_cost in
      '(self_test_cost, seed) <-
        Test_compute_self_test_cost rnd (get_test_process self) self seed ;;
      let cost := cost + self_test_cost in
      self_test_yield <- get_self_test_yield self ;;
      cost <- py_div cost self_test_yield ;;
      Ok (cost, seed)
  end.

Fixpoint sum_cost (chips : list t) (stack_cost : R) : result R :=
  match chips with
  | [] => Ok stack_cost
  | chip :: rest =>
      c <- get_cost chip ;;
      sum_cost rest (stack_cost + c)
  end.

Definition compute_cost (rnd : random_source) (self : t) (seed : nat)
    : result (R * nat) :=
  cost <- get_self_cost self ;;
  stack_cost <- sum_cost (chips self) 0 ;;
  let cost := cost + stack_cost in
  stacked_die_area <- get_stacked_die_area self ;;
  assembly_cost <-
    Assembly.assembly_cost (assembly_process self)
                           (IZR (get_chips_len self)) stacked_die_area ;;
  let cost := cost + assembly_cost in
  '(assembly_test_cost, seed) <-
    Test_compute_assembly_test_cost rnd (get_test_process self) self seed ;;
  let cost := cost + assembly_test_cost in
  chip_test_yield <- get_chip_test_yield self ;;
  cost <- py_div cost chip_test_yield ;;
  Ok (cost, seed).

(** *** The setters that are not of the common shape *)

(** [set_chip_definitions] calls [self.buildChips], which no class
    defines. *)
Definition set_chip_definitions (self : t)
    (chip_definitions : list Element.t) : result (Z * t) :=
  if static self then Ok (1%Z, self) else Raise AttributeError.

(** [set_stack_power], [set_area], [set_nre_design_cost] and [set_static]
    have no test of [self.static]; the first three store what they compute
    from the object, and [set_stack_power] does not use its argument. *)
Definition set_stack_power (self : t) (value : R) : result (Z * t) :=
  stack_power <- compute_stack_power self ;;
  Ok (0%Z, with_stack_power (Some stack_power) self).

Definition set_area (self : t) : result (Z * t) :=
  area <- compute_area self ;;
  Ok (0%Z, with_area (Some area) self).

Definition set_nre_design_cost (self : t) : result (Z * t) :=
  Ok (0%Z, with_nre_design_cost (Some (compute_nre_design_cost self)) self).

Definition set_static (self : t) : Z * t := (0%Z, with_static true self).

(** *** The constructor *)

(** [sub in s] on strings *)
Definition contains (sub s : string) : bool :=
  match String.index 0 sub s with
  | Some _ => true
  | None => false
  end.

(** The constructor from [set_stack_power] to [set_self_quality]: the
    power, NRE design cost, area, and the own yield and quality of the
    chip, each stored by its setter while [static] is still [False]. *)
Definition init_self_metrics (self : t) : result t :=
  v <- compute_stack_power self ;;
  '(_, self) <- set_stack_power self v ;;
  v <- get_signal_power self (get_chip_list self) ;;
  let '(_, self) := set_io_power self v in
  v <- match bb_power self with
       | None =>
           io_power <- get_io_power self ;;
           stack_power <- get_stack_power self ;;
           Ok (get_power self + io_power + stack_power)
       | Some bb_power =>
           stack_power <- get_stack_power self ;;
           Ok (bb_power + stack_power)
       end ;;
  let '(_, self) := set_total_power self v in
  '(_, self) <- set_nre_design_cost self ;;
  '(_, self) <- set_area self ;;
  v <- compute_layer_aware_yield self ;;
  let '(_, self) := set_self_true_yield self v in
  v <- Test_compute_self_test_yield (get_test_process self) self ;;
  let '(_, self) := set_self_test_yield self v in
  v <- match bb_quality self with
       | None => Test_compute_self_quality (get_test_process self) self
       | Some bb_quality => Ok bb_quality
       end ;;
  let '(_, self) := set_self_quality self v in
  Ok self.

(** The constructor from [set_chip_true_yield] to the end: the yield,
    quality and cost of the chip with what is stacked on it, then
    [self.static = static]. *)
Definition init_yield_and_cost (fuel : nat) (rnd : random_source)
    (static : bool) (self : t) (seed : nat) : result (t * nat) :=
  v <- compute_chip_yield self ;;
  let '(_, self) := set_chip_true_yield self v in
  v <- Test_compute_assembly_test_yield (get_test_process self) self ;;
  let '(_, self) := set_chip_test_yield self v in
  v <- Test_compute_assembly_quality (get_test_process self) self ;;
  let '(_, self) := set_quality self v in
  '(v, seed) <- compute_self_cost fuel rnd self seed ;;
  let '(_, self) := set_self_cost self v in
  '(v, seed) <- compute_cost rnd self seed ;;
  let '(_, self) := set_cost self v in
  let self := with_static static self in
  Ok (self, seed).

(** The constructor once the processes are found and the chips stacked on
    this one are built: the attributes read from the node, with
    [static = False], then the computed ones in the order of the source. *)
Definition init_self (fuel : nat) (rnd : random_source)
    (attributes : Element.t) (parent_chip : option Assembly.t)
    (wafer_process : WaferProcess.t) (assembly_process : Assembly.t)
    (test_process : Test.t) (stackup : list Layer.t) (chips : list t)
    (ios : list IO.t) (adjacency_matrix_definitions : list (string * matrix))
    (average_bandwidth_utilization : list (string * matrix))
    (block_names : list string) (static : bool) (seed : nat)
    : result (t * nat) :=
  let aspect_ratio :=
    match Element.aspect_ratio attributes with
    | None => 1
    | Some a => a
    end in
  buried <-
    (if String.eqb (Element.buried attributes) "True" then Ok true
     else if String.eqb (Element.buried attributes) "False" then Ok false
     else sys_exit) ;;
  let self :=
    mk false parent_chip wafer_process assembly_process test_process stackup
       chips (Element.bb_area attributes) (Element.bb_cost attributes)
       (Element.bb_quality attributes) (Element.bb_power attributes)
       aspect_ratio (Element.x_location attributes)
       (Element.y_location attributes) (Element.name attributes)
       (Element.core_area attributes) (Element.fraction_memory attributes)
       (Element.fraction_logic attributes)
       (Element.fraction_analog attributes)
       (Element.reticle_share attributes) (Element.quantity attributes)
       buried adjacency_matrix_definitions average_bandwidth_utilization
       block_names ios (Element.power attributes)
       (Element.core_voltage attributes)
       None None None None None None None None None None None None None in
  if String.eqb (name self) "" then sys_exit
  else
    self <- init_self_metrics self ;;
    init_yield_and_cost fuel rnd static self seed.

(** The node [root] and the nodes below it, children first. A child is
    built with the assembly process of [root] as its parent. *)
Fixpoint build (fuel : nat) (rnd : random_source) (root : Element.t)
    (parent_chip : option Assembly.t)
    (wafer_process_list : list WaferProcess.t)
    (assembly_process_list : list Assembly.t)
    (test_process_list : list Test.t) (layers : list Layer.t)
    (ios : list IO.t) (adjacency_matrix_definitions : list (string * matrix))
    (average_bandwidth_utilization : list (string * matrix))
    (block_names : list string) (static : bool) (seed : nat) {struct root}
    : result (t * nat) :=
  wafer_process <-
    find_wafer_process (Element.wafer_process root) wafer_process_list ;;
  assembly_process <-
    find_assembly_process (Element.assembly_process root)
                          assembly_process_list ;;
  test_process <-
    find_test_process (Element.test_process root) test_process_list ;;
  stackup <- build_stackup (Element.stackup root) layers ;;
  '(chips, seed) <-
    (fix build_chips (chip_defs : list Element.t) (seed : nat)
       : result (list t * nat) :=
       match chip_defs with
       | [] => Ok ([], seed)
       | chip_def :: rest =>
           if contains "chip" (Element.tag chip_def) then
             '(chip, seed) <-
               build fuel rnd chip_def (Some assembly_process)
                     wafer_process_list assembly_process_list
                     test_process_list layers ios
                     adjacency_matrix_definitions
                     average_bandwidth_utilization block_names static seed ;;
             '(chips, seed) <- build_chips rest seed ;;
             Ok (chip :: chips, seed)
           else build_chips rest seed
       end) (Element.children root) seed ;;
  init_self fuel rnd root parent_chip wafer_process assembly_process
            test_process stackup chips ios adjacency_matrix_definitions
            average_bandwidth_utilization block_names static seed.

(** A catalog argument left at [None] exits. *)
Definition required {A : Type} (o : option A) : result A :=
  match o with
  | Some a => Ok a
  | None => sys_exit
  end.

(** [Chip.__init__] from a node ([filename] is [None]): the tests of the
    catalog arguments, the test of [etree], then the construction. The
    calls for the children pass the same catalogs, so their tests pass. *)
Definition init (fuel : nat) (rnd : random_source) (etree : option Element.t)
    (parent_chip : option Assembly.t) (catalogs : Catalogs.t)
    (static : bool) (seed : nat) : result (t * nat) :=
  wafer_process_list <- required (Catalogs.wafer_process_list catalogs) ;;
  assembly_process_list <-
    required (Catalogs.assembly_process_list catalogs) ;;
  test_process_list <- required (Catalogs.test_process_list catalogs) ;;
  layers <- required (Catalogs.layers catalogs) ;;
  ios <- required (Catalogs.ios catalogs) ;;
  adjacency_matrix_definitions <-
    required (Catalogs.adjacency_matrix_definitions catalogs) ;;
  average_bandwidth_utilization <-
    required (Catalogs.average_bandwidth_utilization catalogs) ;;
  block_names <- required (Catalogs.block_names catalogs) ;;
  match etree with
  | None => sys_exit
  | Some root =>
      build fuel rnd root parent_chip wafer_process_list
            assembly_process_list test_process_list layers ios
            adjacency_matrix_definitions average_bandwidth_utilization
            block_names static seed
  end.

(** One constructor per setter of the class, with the argument of the
    call. *)
Inductive call : Type :=
| call_set_name (value : string)
| call_set_aspect_ratio (value : R)
| call_set_x_location (value : option R)
| call_set_y_location (value : option R)
| call_set_core_area (value : R)
| call_set_fraction_memory (value : R)
| call_set_fraction_logic (value : R)
| call_set_fraction_analog (value : R)
| call_set_reticle_share (value : R)
| call_set_buried (value : bool)
| call_set_self_cost (value : R)
| call_set_cost (value : R)
| call_set_self_true_yield (value : R)
| call_set_chip_true_yield (value : R)
| call_set_self_test_yield (value : R)
| call_set_chip_test_yield (value : R)
| call_set_self_quality (value : R)
| call_set_quality (value : R)
| call_set_assembly_process (value : Assembly.t)
| call_set_stackup (value : list Layer.t)
| call_set_test_process (value : Test.t)
| call_set_chip_definitions (value : list Element.t)
| call_set_power (value : R)
| call_set_core_voltage (value : R)
| call_set_stack_power (value : R)
| call_set_io_power (value : R)
| call_set_total_power (value : R)
| call_set_area
| call_set_quantity (value : Z)
| call_set_nre_design_cost
| call_set_static.

(** The setter call [c] on [self]: the integer returned and the object
    after the call. *)
Definition run (c : call) (self : t) : result (Z * t) :=
  match c with
  | call_set_name value => Ok (set_name self value)
  | call_set_aspect_ratio value => Ok (set_aspect_ratio self value)
  | call_set_x_location value => Ok (set_x_location self value)
  | call_set_y_location value => Ok (set_y_location self value)
  | call_set_core_area value => Ok (set_core_area self value)
  | call_set_fraction_memory value => Ok (set_fraction_memory self value)
  | call_set_fraction_logic value => Ok (set_fraction_logic self value)
  | call_set_fraction_analog value => Ok (set_fraction_analog self value)
  | call_set_reticle_share value => Ok (set_reticle_share self value)
  | call_set_buried value => Ok (set_buried self value)
  | call_set_self_cost value => Ok (set_self_cost self value)
  | call_set_cost value => Ok (set_cost self value)
  | call_set_self_true_yield value => Ok (set_self_true_yield self value)
  | call_set_chip_true_yield value => Ok (set_chip_true_yield self value)
  | call_set_self_test_yield value => Ok (set_self_test_yield self value)
  | call_set_chip_test_yield value => Ok (set_chip_test_yield self value)
  | call_set_self_quality value => Ok (set_self_quality self value)
  | call_set_quality value => Ok (set_quality self value)
  | call_set_assembly_process value => Ok (set_assembly_process self value)
  | call_set_stackup value => Ok (set_stackup self value)
  | call_set_test_process value => Ok (set_test_process self value)
  | call_set_chip_definitions value => set_chip_definitions self value
  | call_set_power value => Ok (set_power self value)
  | call_set_core_voltage value => Ok (set_core_voltage self value)
  | call_set_stack_power value => set_stack_power self value
  | call_set_io_power value => Ok (set_io_power self value)
  | call_set_total_power value => Ok (set_total_power self value)
  | call_set_area => set_area self
  | call_set_quantity value => Ok (set_quantity self value)
  | call_set_nre_design_cost => set_nre_design_cost self
  | call_set_static => Ok (set_static self)
  end.

(** The setters whose body starts with the test of [self.static]. *)
Definition latched (c : call) : bool :=
  match c with
  | call_set_name _ => true
  | call_set_aspect_ratio _ => true
  | call_set_x_location _ => true
  | call_set_y_location _ => true
  | call_set_core_area _ => true
  | call_set_fraction_memory _ => true
  | call_set_fraction_logic _ => true
  | call_set_fraction_analog _ => true
  | call_set_reticle_share _ => true
  | call_set_buried _ => true
  | call_set_self_cost _ => true
  | call_set_cost _ => true
  | call_set_self_true_yield _ => true
  | call_set_chip_true_yield _ => true
  | call_set_self_test_yield _ => true
  | call_set_chip_test_yield _ => true
  | call_set_self_quality _ => true
  | call_set_quality _ => true
  | call_set_assembly_process _ => true
  | call_set_stackup _ => true
  | call_set_test_process _ => true
  | call_set_chip_definitions _ => true
  | call_set_power _ => true
  | call_set_core_voltage _ => true
  | call_set_stack_power _ => false
  | call_set_io_power _ => true
  | call_set_total_power _ => true
  | call_set_area => false
  | call_set_quantity _ => true
  | call_set_nre_design_cost => false
  | call_set_static => false
  end.

End Chip.

(** ** readDesignFromFile.py

    The functions that read the library files and the netlist. A file is
    given by the nodes below the root of its tree
    ([ET.parse(filename).getroot()]), each with the attributes the function
    reads: the numbers are already read from their strings ([float(...)],
    [int(...)]), and an attribute the source hands on as a string is a
    string. *)

Module readDesignFromFile.

Module WaferProcessDef.
Record t : Type := mk {
  name : string;
  wafer_diameter : R;
  edge_exclusion : R;
  wafer_process_yield : R;
  dicing_distance : R;
  reticle_x : R;
  reticle_y : R;
  wafer_fill_grid : string;
  nre_front_end_cost_per_mm2_memory : R;
  nre_back_end_cost_per_mm2_memory : R;
  nre_front_end_cost_per_mm2_logic : R;
  nre_back_end_cost_per_mm2_logic : R;
  nre_front_end_cost_per_mm2_analog : R;
  nre_back_end_cost_per_mm2_analog : R
}.
End WaferProcessDef.

Module IODef.
Record t : Type := mk {
  type : string;
  rx_area : R;
  tx_area : R;
  shoreline : R;
  bandwidth : R;
  wire_count : Z;
  bidirectional : string;
  energy_per_bit : R;
  reach : R
}.
End IODef.

Module LayerDef.
Record t : Type := mk {
  name : string;
  active : string;
  cost_per_mm2 : R;
  defect_density : R;
  critical_area_ratio : R;
  clustering_factor : R;
  litho_percent : R;
  nre_mask_cost : R;
  stitching_yield : R
}.
End LayerDef.

Module AssemblyDef.
Record t : Type := mk {
  name : string;
  materials_cost_per_mm2 : R;
  picknplace_machine_cost : R;
  picknplace_machine_lifetime : R;
  picknplace_machine_uptime : R;
  picknplace_technician_yearly_cost : R;
  picknplace_time : R;
  picknplace_group : Z;
  bonding_machine_cost : R;
  bonding_machine_lifetime : R;
  bonding_machine_uptime : R;
  bonding_technician_yearly_cost : R;
  bonding_time : R;
  bonding_group : Z;
  die_separation : R;
  edge_exclusion : R;
  bonding_pitch : R;
  max_pad_current_density : R;
  alignment_yield : R;
  bonding_yield : R;
  dielectric_bond_defect_density : R
}.
End AssemblyDef.

Module TestDef.
Record t : Type := mk {
  name : string;
  test_self : string;
  test_assembly : string;
  self_defect_coverage : R;
  assembly_defect_coverage : R;
  self_test_cost_per_mm2 : R;
  assembly_test_cost_per_mm2 : R;
  self_pattern_count : Z;
  assembly_pattern_count : Z;
  self_test_failure_dist : Z;
  assembly_test_failure_dist : Z
}.
End TestDef.

(** A net of the netlist; [bb_count] is [None] for the empty string. *)
Module Net.
Record t : Type := mk {
  type : string;
  block0 : string;
  block1 : string;
  bandwidth : R;
  bb_count : option Z;
  average_bandwidth_utilization : R
}.
End Net.

(** [bool(s)] on a string *)
Definition py_bool (s : string) : bool := truthy (PyStr s).

(** The body of the loop of [wafer_process_definition_list_from_file]: the
    object with the defaults, the setters, whose returned integers the
    source drops, and [set_static]. *)
Definition read_wafer_process (attributes : WaferProcessDef.t)
    : WaferProcess.t :=
  let wp :=
    WaferProcess.init "" 0 0 0 0 0 0 (PyBool false) 0 0 0 0 0 0 false in
  let '(_, wp) :=
    WaferProcess.set_name wp (WaferProcessDef.name attributes) in
  let '(_, wp) :=
    WaferProcess.set_wafer_diameter wp
      (WaferProcessDef.wafer_diameter attributes) in
  let '(_, wp) :=
    WaferProcess.set_edge_exclusion wp
      (WaferProcessDef.edge_exclusion attributes) in
  let '(_, wp) :=
    WaferProcess.set_wafer_process_yield wp
      (WaferProcessDef.wafer_process_yield attributes) in
  let '(_, wp) :=
    WaferProcess.set_dicing_distance wp
      (WaferProcessDef.dicing_distance attributes) in
  let '(_, wp) :=
    WaferProcess.set_reticle_x wp (WaferProcessDef.reticle_x attributes) in
  let '(_, wp) :=
    WaferProcess.set_reticle_y wp (WaferProcessDef.reticle_y attributes) in
  let '(_, wp) :=
    WaferProcess.set_wafer_fill_grid wp
      (PyStr (WaferProcessDef.wafer_fill_grid attributes)) in
  let '(_, wp) :=
    WaferProcess.set_nre_front_end_cost_per_mm2_memory wp
      (WaferProcessDef.nre_front_end_cost_per_mm2_memory attributes) in
  let '(_, wp) :=
    WaferProcess.set_nre_back_end_cost_per_mm2_memory wp
      (WaferProcessDef.nre_back_end_cost_per_mm2_memory attributes) in
  let '(_, wp) :=
    WaferProcess.set_nre_front_end_cost_per_mm2_logic wp
      (WaferProcessDef.nre_front_end_cost_per_mm2_logic attributes) in
  let '(_, wp) :=
    WaferProcess.set_nre_back_end_cost_per_mm2_logic wp
      (WaferProcessDef.nre_back_end_cost_per_mm2_logic attributes) in
  let '(_, wp) :=
    WaferProcess.set_nre_front_end_cost_per_mm2_analog wp
      (WaferProcessDef.nre_front_end_cost_per_mm2_analog attributes) in
  let '(_, wp) :=
    WaferProcess.set_nre_back_end_cost_per_mm2_analog wp
      (WaferProcessDef.nre_back_end_cost_per_mm2_analog attributes) in
  let '(_, wp) := WaferProcess.set_static wp in
  wp.

Definition wafer_process_definition_list_from_file
    (root : list WaferProcessDef.t) : list WaferProcess.t :=
  map read_wafer_process root.

(** The body of the loop of [io_definition_list_from_file]. The setter of
    [bidirectional] is given [bool(attributes["bidirectional"])]. *)
Definition read_io (attributes : IODef.t) : result IO.t :=
  io <- IO.init (Some ""%string) (Some 0) (Some 0) (Some 0) (Some 0)
                (Some 0%Z) (PyBool false) (Some 0) (Some 0) false ;;
  let '(_, io) := IO.set_type io (IODef.type attributes) in
  let '(_, io) := IO.set_rx_area io (IODef.rx_area attributes) in
  let '(_, io) := IO.set_tx_area io (IODef.tx_area attributes) in
  let '(_, io) := IO.set_shoreline io (IODef.shoreline attributes) in
  let '(_, io) := IO.set_bandwidth io (IODef.bandwidth attributes) in
  let '(_, io) := IO.set_wire_count io (IODef.wire_count attributes) in
  let '(_, io) :=
    IO.set_bidirectional io
      (PyBool (py_bool (IODef.bidirectional attributes))) in
  let '(_, io) :=
    IO.set_energy_per_bit io (IODef.energy_per_bit attributes) in
  let '(_, io) := IO.set_reach io (IODef.reach attributes) in
  let '(_, io) := IO.set_static io in
  Ok io.

Fixpoint io_definition_list_from_file (root : list IODef.t)
    : result (list IO.t) :=
  match root with
  | [] => Ok []
  | io_def :: rest =>
      io <- read_io io_def ;;
      io_list <- io_definition_list_from_file rest ;;
      Ok (io :: io_list)
  end.

(** The body of the loop of [layer_definition_list_from_file]. The setter
    of [active] is given [bool(attributes["active"])]. *)
Definition read_layer (attributes : LayerDef.t) : Layer.t :=
  let layer := Layer.init "" false 0 0 0 0 0 0 0 false in
  let '(_, layer) := Layer.set_name layer (LayerDef.name attributes) in
  let '(_, layer) :=
    Layer.set_active layer (py_bool (LayerDef.active attributes)) in
  let '(_, layer) :=
    Layer.set_cost_per_mm2 layer (LayerDef.cost_per_mm2 attributes) in
  let '(_, layer) :=
    Layer.set_defect_density layer (LayerDef.defect_density attributes) in
  let '(_, layer) :=
    Layer.set_critical_area_ratio layer
      (LayerDef.critical_area_ratio attributes) in
  let '(_, layer) :=
    Layer.set_clustering_factor layer
      (LayerDef.clustering_factor attributes) in
  let '(_, layer) :=
    Layer.set_litho_percent layer (LayerDef.litho_percent attributes) in
  let '(_, layer) :=
    Layer.set_mask_cost layer (LayerDef.nre_mask_cost attributes) in
  let '(_, layer) :=
    Layer.set_stitching_yield layer (LayerDef.stitching_yield attributes) in
  let '(_, layer) := Layer.set_static layer in
  layer.

Definition layer_definition_list_from_file (root : list LayerDef.t)
    : list Layer.t :=
  map read_layer root.

(** The body of the loop of [assembly_process_definition_list_from_file]:
    the two rates are computed and stored once the machine parameters are
    set, before the remaining setters. *)
Definition read_assembly_process (attributes : AssemblyDef.t)
    : result Assembly.t :=
  ap <- Assembly.init "" (Some 0) (Some 0) (Some 0) (Some 0) (Some 0)
          (Some 0) (Some 0%Z) (Some 0) (Some 0) (Some 0) (Some 0) (Some 0)
          (Some 0%Z) (Some 0) (Some 0) (Some 0) (Some 0) (Some 0) (Some 0)
          (Some 0) false ;;
  let '(_, ap) := Assembly.set_name ap (AssemblyDef.name attributes) in
  let '(_, ap) :=
    Assembly.set_materials_cost_per_mm2 ap
      (AssemblyDef.materials_cost_per_mm2 attributes) in
  let '(_, ap) :=
    Assembly.set_picknplace_machine_cost ap
      (AssemblyDef.picknplace_machine_cost attributes) in
  let '(_, ap) :=
    Assembly.set_picknplace_machine_lifetime ap
      (AssemblyDef.picknplace_machine_lifetime attributes) in
  let '(_, ap) :=
    Assembly.set_picknplace_machine_uptime ap
      (AssemblyDef.picknplace_machine_uptime attributes) in
  let '(_, ap) :=
    Assembly.set_picknplace_technician_yearly_cost ap
      (AssemblyDef.picknplace_technician_yearly_cost attributes) in
  let '(_, ap) :=
    Assembly.set_picknplace_time ap (AssemblyDef.picknplace_time attributes) in
  let '(_, ap) :=
    Assembly.set_picknplace_group ap
      (AssemblyDef.picknplace_group attributes) in
  let '(_, ap) :=
    Assembly.set_bonding_machine_cost ap
      (AssemblyDef.bonding_machine_cost attributes) in
  let '(_, ap) :=
    Assembly.set_bonding_machine_lifetime ap
      (AssemblyDef.bonding_machine_lifetime attributes) in
  let '(_, ap) :=
    Assembly.set_bonding_machine_uptime ap
      (AssemblyDef.bonding_machine_uptime attributes) in
  let '(_, ap) :=
    Assembly.set_bonding_technician_yearly_cost ap
      (AssemblyDef.bonding_technician_yearly_cost attributes) in
  let '(_, ap) :=
    Assembly.set_bonding_time ap (AssemblyDef.bonding_time attributes) in
  let '(_, ap) :=
    Assembly.set_bonding_group ap (AssemblyDef.bonding_group attributes) in
  '(_, ap) <- Assembly.compute_picknplace_cost_per_second ap ;;
  '(_, ap) <- Assembly.compute_bonding_cost_per_second ap ;;
  let '(_, ap) :=
    Assembly.set_die_separation ap (AssemblyDef.die_separation attributes) in
  let '(_, ap) :=
    Assembly.set_edge_exclusion ap (AssemblyDef.edge_exclusion attributes) in
  let '(_, ap) :=
    Assembly.set_bonding_pitch ap (AssemblyDef.bonding_pitch attributes) in
  let '(_, ap) :=
    Assembly.set_max_pad_current_density ap
      (AssemblyDef.max_pad_current_density attributes) in
  let '(_, ap) :=
    Assembly.set_alignment_yield ap (AssemblyDef.alignment_yield attributes) in
  let '(_, ap) :=
    Assembly.set_bonding_yield ap (AssemblyDef.bonding_yield attributes) in
  let '(_, ap) :=
    Assembly.set_dielectric_bond_defect_density ap
      (AssemblyDef.dielectric_bond_defect_density attributes) in
  let '(_, ap) := Assembly.set_static ap in
  Ok ap.

Fixpoint assembly_process_definition_list_from_file
    (root : list AssemblyDef.t) : result (list Assembly.t) :=
  match root with
  | [] => Ok []
  | assembly_process_def :: rest =>
      assembly_process <- read_assembly_process assembly_process_def ;;
      assembly_process_list <-
        assembly_process_definition_list_from_file rest ;;
      Ok (assembly_process :: assembly_process_list)
  end.

(** [True if s == "True" or s == "TRUE" or s == "true" else False] *)
Definition is_true_string (s : string) : bool :=
  String.eqb s "True" || String.eqb s "TRUE" || String.eqb s "true".

(** The body of the loop of [test_process_definition_list_from_file]. *)
Definition read_test_process (attributes : TestDef.t) : Test.t :=
  let test_process := Test.init "" false false 0 0 0 0 0 0 0 0 false in
  let '(_, test_process) :=
    Test.set_name test_process (TestDef.name attributes) in
  let '(_, test_process) :=
    Test.set_test_self test_process
      (is_true_string (TestDef.test_self attributes)) in
  let '(_, test_process) :=
    Test.set_test_assembly test_process
      (is_true_string (TestDef.test_assembly attributes)) in
  let '(_, test_process) :=
    Test.set_self_defect_coverage test_process
      (TestDef.self_defect_coverage attributes) in
  let '(_, test_process) :=
    Test.set_assembly_defect_coverage test_process
      (TestDef.assembly_defect_coverage attributes) in
  let '(_, test_process) :=
    Test.set_self_test_cost_per_mm2 test_process
      (TestDef.self_test_cost_per_mm2 attributes) in
  let '(_, test_process) :=
    Test.set_assembly_test_cost_per_mm2 test_process
      (TestDef.assembly_test_cost_per_mm2 attributes) in
  let '(_, test_process) :=
    Test.set_self_pattern_count test_process
      (TestDef.self_pattern_count attributes) in
  let '(_, test_process) :=
    Test.set_assembly_pattern_count test_process
      (TestDef.assembly_pattern_count attributes) in
  let '(_, test_process) :=
    Test.set_self_test_failure_dist test_process
      (TestDef.self_test_failure_dist attributes) in
  let '(_, test_process) :=
    Test.set_assembly_test_failure_dist test_process
      (TestDef.assembly_test_failure_dist attributes) in
  let '(_, test_process) := Test.set_static test_process in
  test_process.

Definition test_process_definition_list_from_file (root : list TestDef.t)
    : list Test.t :=
  map read_test_process root.

(** *** The netlist *)

(** A dict from the IO type to a matrix, in insertion order. *)
Definition matrices : Type := list (string * matrix).

(** [key in d] *)
Definition has_key (d : matrices) (key : string) : bool :=
  existsb (fun kv => String.eqb (fst kv) key) d.

(** [d[key] = m]: the entry of [key] is replaced where it is, a new key
    goes to the end. *)
Fixpoint assign (d : matrices) (key : string) (m : matrix) : matrices :=
  match d with
  | [] => [(key, m)]
  | (k, x) :: rest =>
      if String.eqb k key then (k, m) :: rest
      else (k, x) :: assign rest key m
  end.

(** [np.zeros((n, n))] *)
Definition np_zeros (n : nat) : matrix := repeat (repeat 0 n) n.

(** [np.pad(m, ((0,1),(0,1)), 'constant', constant_values=0)]: a zero on
    the right of every row and a row of zeros below. The width of an array
    without rows is 0, as for [np.zeros((0, 0))]. *)
Definition np_pad (m : matrix) : matrix :=
  let width :=
    match m with
    | [] => O
    | row :: _ => List.length row
    end in
  map (fun row => row ++ [0]) m ++ [repeat 0 (S width)].

(** [l[i] = v] on a list of length above [i] *)
Fixpoint set_nth {A : Type} (l : list A) (i : nat) (v : A) : list A :=
  match l, i with
  | [], _ => []
  | _ :: rest, O => v :: rest
  | x :: rest, S i' => x :: set_nth rest i' v
  end.

(** [m[i, j]] *)
Definition get_entry (m : matrix) (i j : nat) : result R :=
  row <- Chip.item m i ;;
  Chip.item row j.

(** [m[i, j] = v] *)
Definition set_entry (m : matrix) (i j : nat) (v : R) : result matrix :=
  row <- Chip.item m i ;;
  _ <- Chip.item row j ;;
  Ok (set_nth m i (set_nth row j v)).

(** A division of numpy floats: by zero it gives [inf] or [nan] with a
    warning, no exception; the reals have neither, and the outcome is
    [ComplexResult] as for every value outside the reals. *)
Definition np_div (x y : R) : result R :=
  if Reqb y 0 then ComplexResult else Ok (x / y).

(** [for key in global_adjacency_matrix:] with the two [np.pad]
    assignments, over the keys [keys] that are left. *)
Fixpoint pad_keys (keys : list string)
    (global_adjacency_matrix average_bandwidth_utilization : matrices)
    : result (matrices * matrices) :=
  match keys with
  | [] => Ok (global_adjacency_matrix, average_bandwidth_utilization)
  | key :: rest =>
      m <- Chip.lookup global_adjacency_matrix key ;;
      let global_adjacency_matrix :=
        assign global_adjacency_matrix key (np_pad m) in
      u <- Chip.lookup average_bandwidth_utilization key ;;
      let average_bandwidth_utilization :=
        assign average_bandwidth_utilization key (np_pad u) in
      pad_keys rest global_adjacency_matrix average_bandwidth_utilization
  end.

(** [if block not in block_names:] with its body. *)
Definition add_block (block : string)
    (state : matrices * matrices * list string)
    : result (matrices * matrices * list string) :=
  let '(global_adjacency_matrix, average_bandwidth_utilization,
        block_names) := state in
  if negb (existsb (String.eqb block) block_names) then
    let block_names := block_names ++ [block] in
    '(global_adjacency_matrix, average_bandwidth_utilization) <-
      pad_keys (map fst global_adjacency_matrix) global_adjacency_matrix
               average_bandwidth_utilization ;;
    Ok (global_adjacency_matrix, average_bandwidth_utilization, block_names)
  else Ok state.

(** [for io in io_list: if link_type == io.get_type(): ...]: the loop has
    no [break], the last IO of the type is the one kept. *)
Fixpoint match_io (io_list : list IO.t) (link_type : string)
    (io_bandwidth : option R) (bidirectional : pyval) : option R * pyval :=
  match io_list with
  | [] => (io_bandwidth, bidirectional)
  | io :: rest =>
      if String.eqb link_type (IO.type io) then
        match_io rest link_type (Some (IO.bandwidth io))
                 (IO.get_bidirectional io)
      else match_io rest link_type io_bandwidth bidirectional
  end.

(** [block_names.index(block)] *)
Definition index (block_names : list string) (block : string)
    : result nat :=
  match Chip.first_index block_names block 0 with
  | Some i => Ok i
  | None => Raise ValueError
  end.

(** The update of the entry [[i, j]] of the two matrices of [link_type]:
    the utilization becomes the one of the link when it was 0, else the
    average weighted by the IO counts, and the count grows by
    [ios_to_add]. *)
Definition add_link
    (global_adjacency_matrix average_bandwidth_utilization : matrices)
    (link_type : string) (i j : nat)
    (link_average_bandwidth_utilization : R) (ios_to_add : Z)
    : result (matrices * matrices) :=
  u <- Chip.lookup average_bandwidth_utilization link_type ;;
  old <- get_entry u i j ;;
  v <- (if Reqb old 0 then Ok link_average_bandwidth_utilization
        else
          m <- Chip.lookup global_adjacency_matrix link_type ;;
          count <- get_entry m i j ;;
          np_div (old * count
                  + link_average_bandwidth_utilization * IZR ios_to_add)
                 (count + IZR ios_to_add)) ;;
  u <- set_entry u i j v ;;
  let average_bandwidth_utilization :=
    assign average_bandwidth_utilization link_type u in
  m <- Chip.lookup global_adjacency_matrix link_type ;;
  count <- get_entry m i j ;;
  m <- set_entry m i j (count + IZR ios_to_add) ;;
  let global_adjacency_matrix :=
    assign global_adjacency_matrix link_type m in
  Ok (global_adjacency_matrix, average_bandwidth_utilization).

(** The body of [for net_def in root:]. *)
Definition add_net (io_list : list IO.t) (net_def : Net.t)
    (state : matrices * matrices * list string)
    : result (matrices * matrices * list string) :=
  let '(global_adjacency_matrix, average_bandwidth_utilization,
        block_names) := state in
  let link_average_bandwidth_utilization :=
    Net.average_bandwidth_utilization net_def in
  let link_type := Net.type net_def in
  let '(global_adjacency_matrix, average_bandwidth_utilization) :=
    if negb (has_key global_adjacency_matrix link_type) then
      (assign global_adjacency_matrix link_type
              (np_zeros (List.length block_names)),
       assign average_bandwidth_utilization link_type
              (np_zeros (List.length block_names)))
    else (global_adjacency_matrix, average_bandwidth_utilization) in
  '(global_adjacency_matrix, average_bandwidth_utilization, block_names) <-
    add_block (Net.block0 net_def)
      (global_adjacency_matrix, average_bandwidth_utilization,
       block_names) ;;
  '(global_adjacency_matrix, average_bandwidth_utilization, block_names) <-
    add_block (Net.block1 net_def)
      (global_adjacency_matrix, average_bandwidth_utilization,
       block_names) ;;
  let '(io_bandwidth, bidirectional) :=
    match_io io_list link_type None PyNone in
  match io_bandwidth with
  | None => sys_exit
  | Some io_bandwidth =>
      if is_none bidirectional then sys_exit
      else
        block1_index <- index block_names (Net.block0 net_def) ;;
        block2_index <- index block_names (Net.block1 net_def) ;;
        ios_to_add <-
          match Net.bb_count net_def with
          | None =>
              q <- py_div (Net.bandwidth net_def) io_bandwidth ;;
              Ok (py_ceil q)
          | Some bb_count => Ok bb_count
          end ;;
        peak_utilization_factor <-
          py_div (Net.bandwidth net_def) (IZR ios_to_add * io_bandwidth) ;;
        let link_average_bandwidth_utilization :=
          link_average_bandwidth_utilization * peak_utilization_factor in
        if negb (truthy bidirectional) then
          '(global_adjacency_matrix, average_bandwidth_utilization) <-
            add_link global_adjacency_matrix average_bandwidth_utilization
              link_type block1_index block2_index
              link_average_bandwidth_utilization ios_to_add ;;
          Ok (global_adjacency_matrix, average_bandwidth_utilization,
              block_names)
        else
          '(global_adjacency_matrix, average_bandwidth_utilization) <-
            add_link global_adjacency_matrix average_bandwidth_utilization
              link_type block1_index block2_index
              link_average_bandwidth_utilization ios_to_add ;;
          '(global_adjacency_matrix, average_bandwidth_utilization) <-
            add_link global_adjacency_matrix average_bandwidth_utilization
              link_type block2_index block1_index
              link_average_bandwidth_utilization ios_to_add ;;
          Ok (global_adjacency_matrix, average_bandwidth_utilization,
              block_names)
  end.

Fixpoint add_nets (io_list : list IO.t) (root : list Net.t)
    (state : matrices * matrices * list string)
    : result (matrices * matrices * list string) :=
  match root with
  | [] => Ok state
  | net_def :: rest =>
      state <- add_net io_list net_def state ;;
      add_nets io_list rest state
  end.

(** The adjacency matrices, the utilization matrices and the block names,
    from the nets of the netlist. *)
Definition global_adjacency_matrix_from_file (root : list Net.t)
    (io_list : list IO.t) : result (matrices * matrices * list string) :=
  add_nets io_list root ([], [], []).

(** [chip_from_dict]: the root chip from its node and the catalogs. *)
Definition chip_from_dict (fuel : nat) (rnd : random_source)
    (etree : Element.t) (io_list : list IO.t) (layer_list : list Layer.t)
    (wafer_process_list : list WaferProcess.t)
    (assembly_process_list : list Assembly.t)
    (test_process_list : list Test.t)
    (global_adjacency_matrix average_bandwidth_utilization : matrices)
    (block_names : list string) (seed : nat) : result (Chip.t * nat) :=
  Chip.init fuel rnd (Some etree) None
    (Catalogs.mk (Some wafer_process_list) (Some assembly_process_list)
       (Some test_process_list) (Some layer_list) (Some io_list)
       (Some global_adjacency_matrix) (Some average_bandwidth_utilization)
       (Some block_names))
    false seed.

End readDesignFromFile.

(** ** Statements of the specification

    The sums the specification describes for the IO area, over a chosen set
    of blocks, to be compared with [Chip.get_io_area]. *)

Module Spec.

(** [m[i][j]] of a matrix: 0 outside. *)
Definition entry (m : matrix) (i j : nat) : R := nth j (nth i m []) 0.

Definition sum_over (f : nat -> R) (blocks : list nat) : R :=
  fold_right (fun j acc => f j + acc) 0 blocks.

(** The names of the chips of the subtree of [self]. *)
Fixpoint subtree_names (self : Chip.t) : list string :=
  Chip.name self :: flat_map subtree_names (Chip.chips self).

(** Every block of the block-name list. *)
Definition all_blocks (self : Chip.t) : list nat :=
  seq 0 (List.length (Chip.block_names self)).

(** The blocks whose name is not the name of a chip of the subtree. *)
Definition external_blocks (self : Chip.t) : list nat :=
  filter (fun j =>
            negb (existsb (String.eqb (nth j (Chip.block_names self) ""%string))
                          (subtree_names self)))
         (all_blocks self).

(** The interconnect of type [io_type] of the IO list. *)
Definition io_of (self : Chip.t) (io_type : string) : option IO.t :=
  find (fun io => String.eqb (IO.type io) io_type) (Chip.io_list self).

(** Over every interconnect type of the global adjacency model and over the
    blocks [blocks]: the row entries at [block_index] weighted by the tx pad
    area plus the column entries at [block_index] weighted by the rx pad
    area. *)
Definition io_area_over (blocks : list nat) (self : Chip.t)
    (block_index : nat) : R :=
  fold_right
    (fun (tm : string * matrix) acc =>
       match io_of self (fst tm) with
       | Some io =>
           sum_over (fun j => entry (snd tm) block_index j * IO.tx_area io
                              + entry (snd tm) j block_index * IO.rx_area io)
                    blocks
       | None => 0
       end + acc)
    0 (Chip.global_adjacency_matrix self).

(** What [get_io_area] asks of an adjacency matrix for the sum over the
    blocks: its interconnect type is in the IO list, it is square of the
    size of the block-name list, and its row and its column at
    [block_index] agree. *)
Definition symmetric_at (self : Chip.t) (block_index : nat)
    (tm : string * matrix) : Prop :=
  let n := List.length (Chip.block_names self) in
  (exists io : IO.t, io_of self (fst tm) = Some io)
  /\ List.length (snd tm) = n
  /\ (forall row : list R, In row (snd tm) -> List.length row = n)
  /\ (forall j : nat, (j < n)%nat ->
        entry (snd tm) j block_index = entry (snd tm) block_index j).

(** The condition of the specification on [compute_cost_per_mm2], over the
    real numbers: the diagonal of the square exceeds half the usable wafer
    diameter. *)
Definition diagonal_exceeds
    (square_area dicing_distance wafer_diameter edge_exclusion : R) : Prop :=
  (sqrt square_area + dicing_distance) * sqrt 2
  > (wafer_diameter - 2 * edge_exclusion) / 2.

End Spec.

(** ** Shapes of matrices

    The vocabulary of the statements about the matrices of the netlist. *)

Module Shape.

(** [n] rows of [n] entries *)
Definition square (n : nat) (m : matrix) : Prop :=
  List.length m = n /\ Forall (fun row => List.length row = n) m.

(** [m[i][j] == m[j][i]] for all [i] and [j] *)
Definition symmetric (m : matrix) : Prop :=
  forall i j : nat, Spec.entry m i j = Spec.entry m j i.

(** The two dicts of a netlist over [n] blocks: the same keys in the same
    order, each key once, and square matrices of side [n]. *)
Definition consistent (n : nat) (global_adjacency_matrix
    average_bandwidth_utilization : list (string * matrix)) : Prop :=
  map fst global_adjacency_matrix = map fst average_bandwidth_utilization
  /\ NoDup (map fst global_adjacency_matrix)
  /\ Forall (square n) (map snd global_adjacency_matrix)
  /\ Forall (square n) (map snd average_bandwidth_utilization).

End Shape.

(** ** Signals and bonds

    The vocabulary of the statements about [get_signal_count] and the bond
    count of an assembly. *)

Module Bond.

(** The wires between the blocks [block_index] and [j] in the matrix [m] of
    the interconnect [io]: the row entry plus the column entry, times the
    wire count, halved when the interconnect is bidirectional. *)
Definition signal_term (m : matrix) (io : IO.t) (block_index j : nat) : R :=
  (Spec.entry m block_index j + Spec.entry m j block_index)
  * IZR (IO.wire_count io) * Chip.bidirectional_factor io.

(** The signals of the block [block_index] of [chip] towards the blocks
    [blocks], over every interconnect type of the global adjacency
    model. *)
Definition signal_count_over (blocks : list nat) (chip : Chip.t)
    (block_index : nat) : R :=
  fold_right
    (fun (tm : string * matrix) acc =>
       match Spec.io_of chip (fst tm) with
       | Some io => Spec.sum_over (signal_term (snd tm) io block_index) blocks
       | None => 0
       end + acc)
    0 (Chip.global_adjacency_matrix chip).

(** The blocks of the block-name list of [chip] that the test
    [j not in internal_block_list_indices] of [get_signal_count] lets
    through. *)
Definition counted_blocks (chip : Chip.t)
    (internal_block_list : list Chip.name_item) : list nat :=
  filter (fun j =>
            negb (existsb (Nat.eqb j)
                    (Chip.internal_indices (Chip.block_names chip)
                       internal_block_list 0)))
         (Spec.all_blocks chip).

(** The blocks of the block-name list of [chip] whose name is not the name
    of a chip of the subtree of [self]. *)
Definition blocks_outside (self chip : Chip.t) : list nat :=
  filter (fun j =>
            negb (existsb
                    (String.eqb (nth j (Chip.block_names chip) ""%string))
                    (Spec.subtree_names self)))
         (Spec.all_blocks chip).

(** What [get_signal_count] asks of the netlist of [chip]: every matrix has
    its interconnect type in the IO list and is square of the size of the
    block-name list. *)
Definition netlist_fits (chip : Chip.t) : Prop :=
  Forall (fun tm : string * matrix =>
            (exists io : IO.t, Spec.io_of chip (fst tm) = Some io)
            /\ Shape.square (List.length (Chip.block_names chip)) (snd tm))
         (Chip.global_adjacency_matrix chip).

(** No wire runs between [chip], a chip stacked on [self], and a block that
    carries the name of a chip stacked on [self] (its own block
    included). *)
Definition no_wire_inside (self chip : Chip.t) : Prop :=
  forall (block_index j : nat) (tm : string * matrix),
    Chip.last_index (Chip.block_names chip) (Chip.get_name chip) 0 None
    = Some block_index ->
    In tm (Chip.global_adjacency_matrix chip) ->
    (j < List.length (Chip.block_names chip))%nat ->
    In (nth j (Chip.block_names chip) ""%string)
       (flat_map Spec.subtree_names (Chip.chips self)) ->
    Spec.entry (snd tm) block_index j = 0
    /\ Spec.entry (snd tm) j block_index = 0.

(** The bonds of the assembly of [self]: for every chip stacked on it that
    the block-name list names, the signals of that chip towards the blocks
    outside the subtree of [self]. *)
Definition bond_count (self : Chip.t) : R :=
  fold_right
    (fun (chip : Chip.t) acc =>
       match Chip.last_index (Chip.block_names chip) (Chip.get_name chip)
                             0 None with
       | Some block_index =>
           signal_count_over (blocks_outside self chip) chip block_index
       | None => 0
       end + acc)
    0 (Chip.chips self).

End Bond.

(** ** Fixtures

    The records of the unit tests of the repository and the small records
    the examples below use. *)

Definition fixture_layer : Layer.t :=
  Layer.mk "test_layer_process" true (1234 / 10000) (321 / 10000) (1 / 2) 2
           (3 / 10) 100000 (98 / 100) true.

(** A layer whose critical area ratio is 0: defect density and clustering
    factor are positive, yet the yield is 1 at every area. *)
Definition flat_layer : Layer.t :=
  Layer.mk "flat" true 1 1 0 1 0 0 1 true.

Definition fixture_wafer_process : WaferProcess.t :=
  WaferProcess.mk "test_wafer_process" 234 (12 / 10) (98 / 100) (87 / 100)
                  32 23 false (1 / 10) (2 / 10) (3 / 10) (4 / 10) (5 / 10)
                  (6 / 10) true.

(** A layer whose litho percent is negative. *)
Definition negative_litho_layer : Layer.t :=
  Layer.mk "negative_litho" true 1 1 1 1 (-1) 0 1 true.

(** The assembly process of the fixtures: alignment yield 0.987, bonding
    yield 0.999, dielectric bond defect density 0.0003. *)
Definition fixture_assembly : Assembly.t :=
  Assembly.mk "test_assembly_process" (Some (1 / 10)) (Some 1000000) (Some 5)
    (Some (9 / 10)) (Some 200000) (Some 10) (Some 1%Z) (Some 2000000)
    (Some 5) (Some (8 / 10)) (Some 210000) (Some 20) (Some 2%Z)
    (Some (2 / 10)) (Some (3 / 10)) (Some (4 / 10)) (Some (5 / 10))
    None None (Some (999 / 1000)) (Some (987 / 1000)) (Some (3 / 10000))
    true.

(** An assembly process with perfect alignment and bonding and a dielectric
    bond defect density of 1 per mm2. *)
Definition lossy_bond_assembly : Assembly.t :=
  Assembly.mk "lossy_bond" None None None None None None None None None None
    None None None None None None None None None (Some 1) (Some 1) (Some 1)
    true.

(** An assembly process after [Assembly(name = "")], the setters of the
    pick-and-place machine parameters and [set_static()]: static, with the
    pick-and-place rate still [None]. *)
Definition latched_assembly : Assembly.t :=
  Assembly.mk "" None (Some 10) (Some 5) (Some 1) (Some 0) None None None
    None None None None None None None None None None None None None None
    true.

(** A package with one die stacked on it, both black boxes, with no IO
    connection in the global adjacency model; the assembly test is enabled
    with the failure distribution 1. *)
Definition unit_wafer_process : WaferProcess.t :=
  WaferProcess.mk "wp" 300 3 1 (1 / 10) 26 33 false 0 0 0 0 0 0 true.

Definition unit_assembly : Assembly.t :=
  Assembly.mk "ap" (Some 1) (Some 0) (Some 1) (Some 1) (Some 31536000)
    (Some 1) (Some 1%Z) (Some 0) (Some 1) (Some 1) (Some 31536000) (Some 1)
    (Some 1%Z) (Some 0) (Some 0) (Some 1) (Some 1) (Some 1) (Some 1)
    (Some 1) (Some 1) (Some 0) true.

Definition unit_test : Test.t :=
  Test.mk "tp" true false true 0 0 0 1 0%Z 1%Z 2%Z 1%Z.

Definition die_element : Element.t :=
  Element.mk "chip" "wp" "ap" "tp" [(0%Z, "none"%string)] (Some 1) (Some 1)
    (Some 1) (Some 0) None None None "die" 1 0 0 0 1 1%Z "False" 0 1 [].

Definition package_element : Element.t :=
  Element.mk "chip" "wp" "ap" "tp" [(0%Z, "none"%string)] (Some 4) (Some 1)
    (Some 1) (Some 0) None None None "package" 1 0 0 0 1 1%Z "False" 0 1
    [die_element].

Definition unit_catalogs : Catalogs.t :=
  Catalogs.mk (Some [unit_wafer_process]) (Some [unit_assembly])
    (Some [unit_test]) (Some []) (Some []) (Some []) (Some []) (Some []).

(** A random source whose draws are all 1. *)
Definition ones : random_source := fun _ => 1.

(** The chips the constructor returns for the two nodes. *)
Definition die_chip : Chip.t :=
  Chip.mk true (Some unit_assembly) unit_wafer_process unit_assembly
    unit_test [] [] (Some 1) (Some 1) (Some 1) (Some 0) 1 None None "die" 1
    0 0 0 1 1%Z false [] [] [] [] 0 1
    (Some 0) (Some 0) (Some 0) (Some 0) (Some 1) (Some 1) (Some 1) (Some 1)
    (Some 1) (Some 1) (Some 1) (Some 1) (Some 2).

Definition package_chip : Chip.t :=
  Chip.mk true None unit_wafer_process unit_assembly unit_test [] [die_chip]
    (Some 4) (Some 1) (Some 1) (Some 0) 1 None None "package" 1 0 0 0 1 1%Z
    false [] [] [] [] 0 1
    (Some 0) (Some 0) (Some 0) (Some 0) (Some 4) (Some 1) (Some 1) (Some 1)
    (Some 1) (Some 1) (Some 1) (Some 1) (Some 8).

(** The same package and die with one interconnect type between the two
    blocks: two wires each way, and no bandwidth utilization. *)
Definition link_io : IO.t :=
  IO.mk "link" 1 1 0 1 1%Z (PyBool true) 1 1 true.

Definition link_matrix : matrix := [[0; 2]; [2; 0]].

Definition zero_utilization : matrix := [[0; 0]; [0; 0]].

Definition link_catalogs : Catalogs.t :=
  Catalogs.mk (Some [unit_wafer_process]) (Some [unit_assembly])
    (Some [unit_test]) (Some []) (Some [link_io])
    (Some [("link"%string, link_matrix)])
    (Some [("link"%string, zero_utilization)])
    (Some ["package"%string; "die"%string]).

Definition linked_die_chip : Chip.t :=
  Chip.mk true (Some unit_assembly) unit_wafer_process unit_assembly
    unit_test [] [] (Some 1) (Some 1) (Some 1) (Some 0) 1 None None "die" 1
    0 0 0 1 1%Z false [("link"%string, link_matrix)]
    [("link"%string, zero_utilization)] ["package"%string; "die"%string]
    [link_io] 0 1
    (Some 0) (Some 0) (Some 0) (Some 0) (Some 1) (Some 1) (Some 1) (Some 1)
    (Some 1) (Some 1) (Some 1) (Some 1) (Some 2).

Definition linked_package_chip : Chip.t :=
  Chip.mk true None unit_wafer_process unit_assembly unit_test []
    [linked_die_chip] (Some 4) (Some 1) (Some 1) (Some 0) 1 None None
    "package" 1 0 0 0 1 1%Z false [("link"%string, link_matrix)]
    [("link"%string, zero_utilization)] ["package"%string; "die"%string]
    [link_io] 0 1
    (Some 0) (Some 0) (Some 0) (Some 0) (Some 4) (Some 1) (Some 1) (Some 1)
    (Some 1) (Some 1) (Some 1) (Some 1) (Some 8).

(** The wafer process of the fixtures before [set_static()]. *)
Definition open_wafer_process : WaferProcess.t :=
  WaferProcess.with_static false fixture_wafer_process.

(** An assembly process that is not static and has its two rates stored:
    1 per second each. *)
Definition rated_assembly : Assembly.t :=
  Assembly.with_static false
    (Assembly.with_bonding_cost_per_second (Some 1)
       (Assembly.with_picknplace_cost_per_second (Some 1) unit_assembly)).

(** A test process with the self test and the assembly test on and defect
    coverages 0.99 and 0.98. *)
Definition fixture_test : Test.t :=
  Test.mk "test_process" true true true (99 / 100) (98 / 100) (1 / 100)
          (2 / 100) 1%Z 1%Z 1%Z 1%Z.

(** A die whose own true yield is 1/2, before its self test. *)
Definition tested_die : Chip.t :=
  Chip.with_self_true_yield (Some (1 / 2)) die_chip.

(** The package of the linked example under a name the netlist does not
    have. *)
Definition interposer_chip : Chip.t :=
  Chip.with_name "interposer" linked_package_chip.

(** The die of the example drawing a total power of 1 W. *)
Definition powered_die : Chip.t := Chip.with_total_power (Some 1) die_chip.

(** The die of the example with the layer of the fixtures as its
    stackup. *)
Definition layered_die : Chip.t := Chip.with_stackup [fixture_layer] die_chip.

(** The die of the example assembled with the assembly process of the
    fixtures. *)
Definition leaf_die : Chip.t :=
  Chip.with_assembly_process fixture_assembly die_chip.

(** The net of the linked example: two IOs of type [link] between the
    package and the die. *)
Definition link_net : readDesignFromFile.Net.t :=
  readDesignFromFile.Net.mk "link" "package" "die" 2 (Some 2%Z) 1.

(** A net of a type the IO list of the example does not have. *)
Definition optical_net : readDesignFromFile.Net.t :=
  readDesignFromFile.Net.mk "optical" "package" "die" 2 (Some 2%Z) 1.

(** The same net without traffic: the netlist of the linked package and
    die. *)
Definition idle_net : readDesignFromFile.Net.t :=
  readDesignFromFile.Net.mk "link" "package" "die" 2 (Some 2%Z) 0.

(** A wafer of diameter 4 without edge exclusion or dicing distance: seven
    squares of side 1 fit on it. *)
Definition small_wafer_process : WaferProcess.t :=
  WaferProcess.mk "small_wafer_process" 4 0 1 0 4 4 false 0 0 0 0 0 0 true.

(** The interconnect of the linked example built with the string
    ["False"] for [bidirectional], and the die of the example with it. *)
Definition false_io : IO.t :=
  IO.mk "link" 1 1 0 1 1%Z (PyStr "False") 1 1 true.

Definition false_linked_die : Chip.t :=
  Chip.with_io_list [false_io] linked_die_chip.

(** The package and the die on a board: the netlist has the three blocks,
    two wires each way between the package and the die and between the die
    and the board, and the assembly process loses half of the assemblies
    per bond. *)
Definition lossy_assembly : Assembly.t :=
  Assembly.with_bonding_yield (Some (1 / 2)) unit_assembly.

Definition board_matrix : matrix := [[0; 2; 0]; [2; 0; 2]; [0; 2; 0]].

Definition board_utilization : matrix := [[0; 0; 0]; [0; 0; 0]; [0; 0; 0]].

Definition board_names : list string :=
  ["package"%string; "die"%string; "board"%string].

Definition board_catalogs : Catalogs.t :=
  Catalogs.mk (Some [unit_wafer_process]) (Some [lossy_assembly])
    (Some [unit_test]) (Some []) (Some [link_io])
    (Some [("link"%string, board_matrix)])
    (Some [("link"%string, board_utilization)])
    (Some board_names).

Definition boarded_die_chip : Chip.t :=
  Chip.mk true (Some lossy_assembly) unit_wafer_process lossy_assembly
    unit_test [] [] (Some 1) (Some 1) (Some 1) (Some 0) 1 None None "die" 1
    0 0 0 1 1%Z false [("link"%string, board_matrix)]
    [("link"%string, board_utilization)] board_names
    [link_io] 0 1
    (Some 0) (Some 0) (Some 0) (Some 0) (Some 1) (Some 1) (Some 1) (Some 1)
    (Some 1) (Some 1) (Some 1) (Some 1) (Some 2).

Definition boarded_package_chip : Chip.t :=
  Chip.mk true None unit_wafer_process lossy_assembly unit_test []
    [boarded_die_chip] (Some 4) (Some 1) (Some 1) (Some 0) 1 None None
    "package" 1 0 0 0 1 1%Z false [("link"%string, board_matrix)]
    [("link"%string, board_utilization)] board_names
    [link_io] 0 1
    (Some 0) (Some 0) (Some 0) (Some 0) (Some 4) (Some 1) (Some 1) (Some 1)
    (Some (1 / 4)) (Some 1) (Some (1 / 4)) (Some 1) (Some 8).

(** Two dies on the package: the netlist has the package and the two dies
    as blocks, two wires each way between the first die and the package
    and between the two dies. *)
Definition twin_element : Element.t :=
  Element.mk "chip" "wp" "ap" "tp" [(0%Z, "none"%string)] (Some 1) (Some 1)
    (Some 1) (Some 0) None None None "twin" 1 0 0 0 1 1%Z "False" 0 1 [].

Definition twin_package_element : Element.t :=
  Element.mk "chip" "wp" "ap" "tp" [(0%Z, "none"%string)] (Some 4) (Some 1)
    (Some 1) (Some 0) None None None "package" 1 0 0 0 1 1%Z "False" 0 1
    [die_element; twin_element].

Definition twin_names : list string :=
  ["package"%string; "die"%string; "twin"%string].

Definition twin_catalogs : Catalogs.t :=
  Catalogs.mk (Some [unit_wafer_process]) (Some [lossy_assembly])
    (Some [unit_test]) (Some []) (Some [link_io])
    (Some [("link"%string, board_matrix)])
    (Some [("link"%string, board_utilization)])
    (Some twin_names).

Definition first_die_chip : Chip.t :=
  Chip.mk true (Some lossy_assembly) unit_wafer_process lossy_assembly
    unit_test [] [] (Some 1) (Some 1) (Some 1) (Some 0) 1 None None "die" 1
    0 0 0 1 1%Z false [("link"%string, board_matrix)]
    [("link"%string, board_utilization)] twin_names
    [link_io] 0 1
    (Some 0) (Some 0) (Some 0) (Some 0) (Some 1) (Some 1) (Some 1) (Some 1)
    (Some 1) (Some 1) (Some 1) (Some 1) (Some 2).

Definition second_die_chip : Chip.t :=
  Chip.mk true (Some lossy_assembly) unit_wafer_process lossy_assembly
    unit_test [] [] (Some 1) (Some 1) (Some 1) (Some 0) 1 None None "twin" 1
    0 0 0 1 1%Z false [("link"%string, board_matrix)]
    [("link"%string, board_utilization)] twin_names
    [link_io] 0 1
    (Some 0) (Some 0) (Some 0) (Some 0) (Some 1) (Some 1) (Some 1) (Some 1)
    (Some 1) (Some 1) (Some 1) (Some 1) (Some 2).

Definition twin_package_chip : Chip.t :=
  Chip.mk true None unit_wafer_process lossy_assembly unit_test []
    [first_die_chip; second_die_chip] (Some 4) (Some 1) (Some 1) (Some 0) 1
    None None "package" 1 0 0 0 1 1%Z false [("link"%string, board_matrix)]
    [("link"%string, board_utilization)] twin_names
    [link_io] 0 1
    (Some 0) (Some 0) (Some 0) (Some 0) (Some 4) (Some 1) (Some 1) (Some 1)
    (Some (1 / 16)) (Some 1) (Some (1 / 16)) (Some 1) (Some 14).

(** * The wafer fill over binary64

    The guard of [Layer.compute_cost_per_mm2] and the conditions of its
    loops compare floats, and where the two sides of a comparison round to
    the same double the program and the real numbers part. This module
    embeds the method over the IEEE 754 binary64 numbers of the program
    ([PrimFloat]): [+], [-], [*], [/] and [math.sqrt] round to nearest
    even as the program's do, and comparisons are those of the doubles. *)
Module Binary64.

Import Floats.
#[local] Open Scope float_scope.

(** ** Python arithmetic on floats *)

(** [math.sqrt(x)] raises [ValueError] on a negative argument. *)
Definition math_sqrt (x : float) : result float :=
  if x <? 0 then Raise ValueError else Ok (sqrt x).

(** [x / y] raises [ZeroDivisionError] when [y] is zero. *)
Definition truediv (x y : float) : result float :=
  if y =? 0 then Raise ZeroDivisionError else Ok (x / y).

(** The integer with sign [s] and magnitude [m]. *)
Definition signed (s : bool) (m : positive) : Z :=
  if s then Z.neg m else Z.pos m.

(** [math.floor(x)], an int: [OverflowError] on an infinity, [ValueError]
    on a nan. *)
Definition math_floor (x : float) : result Z :=
  match Prim2SF x with
  | S754_zero _ => Ok 0%Z
  | S754_infinity _ => Raise OverflowError
  | S754_nan => Raise ValueError
  | S754_finite s m e =>
      Ok (if (0 <=? e)%Z then (signed s m * 2 ^ e)%Z
          else (signed s m / 2 ^ (- e))%Z)
  end.

(** [math.ceil(x)], an int. *)
Definition math_ceil (x : float) : result Z :=
  match Prim2SF x with
  | S754_zero _ => Ok 0%Z
  | S754_infinity _ => Raise OverflowError
  | S754_nan => Raise ValueError
  | S754_finite s m e =>
      Ok (if (0 <=? e)%Z then (signed s m * 2 ^ e)%Z
          else (- ((- signed s m) / 2 ^ (- e)))%Z)
  end.

(** The float of an int where the source multiplies an int by a float: the
    nearest double, ties to even, and [OverflowError] when the int is too
    large. *)
Definition int_to_float (n : Z) : result float :=
  let x := SF2Prim (binary_normalize prec emax n 0 false) in
  if is_infinity x then Raise OverflowError else Ok x.

(** The real number a double stands for (0 for an infinity or a nan). *)
Definition to_R (x : float) : R :=
  match Prim2SF x with
  | S754_finite s m e => (IZR (signed s m) * powerRZ 2 e)%R
  | _ => 0%R
  end.

(** [math.pi] *)
Definition math_pi : float := 0x1.921fb54442d18p+1.

(** [x ** 2] on a float [x]: the cases [float_pow] of the interpreter
    settles itself (a nan, an infinity, a zero, 1.0 after the sign is
    dropped), then [pow(|x|, 2.0)] of the C library, here [libm_pow], and
    [OverflowError] when that is out of range. *)
Definition float_pow_2 (libm_pow : float -> float -> float) (x : float)
    : result float :=
  if is_nan x then Ok x
  else if is_infinity x then Ok infinity
  else if x =? 0 then Ok 0
  else
    let iv := if x <? 0 then - x else x in
    if iv =? 1 then Ok 1
    else
      let ix := libm_pow iv 2 in
      if is_infinity ix then Raise OverflowError else Ok ix.

(** ** WaferProcess and Layer *)

(** The attributes of the wafer process [compute_cost_per_mm2] reads. *)
Module WaferProcess.

Record t : Type := mk {
  wafer_diameter : float;
  edge_exclusion : float;
  wafer_fill_grid : bool;
  dicing_distance : float
}.

Definition get_wafer_diameter (self : t) : float := wafer_diameter self.

Definition get_edge_exclusion (self : t) : float := edge_exclusion self.

Definition get_wafer_fill_grid (self : t) : bool := wafer_fill_grid self.

Definition get_dicing_distance (self : t) : float := dicing_distance self.

End WaferProcess.

Module Layer.

(** The attribute of the layer [compute_cost_per_mm2] reads. *)
Record t : Type := mk {
  cost_per_mm2 : float
}.

Section Methods.

(** [pow] of the C library, which [**] calls on floats. *)
Variable libm_pow : float -> float -> float.

(** [math.sqrt((usable_wafer_diameter/2)**2 - (row_chord_height)**2)*2] *)
Definition chord (usable_wafer_diameter row_chord_height : float)
    : result float :=
  r2 <- float_pow_2 libm_pow (usable_wafer_diameter / 2) ;;
  h2 <- float_pow_2 libm_pow row_chord_height ;;
  s <- math_sqrt (r2 - h2) ;;
  Ok (s * 2).

(** [2*math.floor(chord_length/square_side)] *)
Definition squares_along (chord_length square_side : float) : result Z :=
  q <- truediv chord_length square_side ;;
  n <- math_floor q ;;
  Ok (2 * n)%Z.

(** One pass of the body of the row loops: the chord at height
    [row_chord_height] and the squares it adds, with the
    [starting_distance_from_left] the iteration starts from. *)
Definition fill_row (grid_fill : bool)
    (usable_wafer_diameter square_side row_chord_height : float)
    (starting_distance_from_left : option float) (num_squares : Z)
    : result (option float * Z) :=
  chord_length <- chord usable_wafer_diameter row_chord_height ;;
  if negb grid_fill then
    n <- squares_along chord_length square_side ;;
    Ok (starting_distance_from_left, (num_squares + n)%Z)
  else
    match starting_distance_from_left with
    | None =>
        let starting_distance_from_left :=
          (usable_wafer_diameter - chord_length) / 2 in
        n <- squares_along chord_length square_side ;;
        Ok (Some starting_distance_from_left, (num_squares + n)%Z)
    | Some sdl =>
        let location_of_first_fit_candidate :=
          (usable_wafer_diameter - chord_length) / 2 in
        q <- truediv (location_of_first_fit_candidate - sdl) square_side ;;
        k <- math_ceil q ;;
        k <- int_to_float k ;;
        let starting_location := k * square_side + sdl in
        let effective_cord_length :=
          chord_length
          - (starting_location - location_of_first_fit_candidate) in
        n <- squares_along effective_cord_length square_side ;;
        Ok (Some sdl, (num_squares + n)%Z)
    end.

(** The loop of case 1 sets [starting_distance_from_left = None] at the top
    of every iteration. *)
Fixpoint rows_case_1 (fuel : nat) (grid_fill : bool)
    (usable_wafer_diameter square_side row_chord_height : float)
    (num_squares : Z) : result Z :=
  if row_chord_height <? usable_wafer_diameter / 2 then
    match fuel with
    | O => OutOfFuel
    | S fuel' =>
        '(_, num_squares) <- fill_row grid_fill usable_wafer_diameter
                               square_side row_chord_height None num_squares ;;
        rows_case_1 fuel' grid_fill usable_wafer_diameter square_side
                    (row_chord_height + square_side) num_squares
    end
  else Ok num_squares.

(** The loop of case 2 keeps [starting_distance_from_left] across
    iterations. *)
Fixpoint rows_case_2 (fuel : nat) (grid_fill : bool)
    (usable_wafer_diameter square_side row_chord_height : float)
    (starting_distance_from_left : option float) (num_squares : Z)
    : result Z :=
  if row_chord_height <? usable_wafer_diameter / 2 then
    match fuel with
    | O => OutOfFuel
    | S fuel' =>
        '(sdl, num_squares) <- fill_row grid_fill usable_wafer_diameter
                                 square_side row_chord_height
                                 starting_distance_from_left num_squares ;;
        rows_case_2 fuel' grid_fill usable_wafer_diameter square_side
                    (row_chord_height + square_side) sdl num_squares
    end
  else Ok num_squares.

Definition sentinel_cost : float := 1e9.

Definition compute_cost_per_mm2 (fuel : nat) (self : t)
    (square_area : float) (wafer_process : WaferProcess.t) : result float :=
  let wafer_diameter := WaferProcess.get_wafer_diameter wafer_process in
  let grid_fill := WaferProcess.get_wafer_fill_grid wafer_process in
  let usable_wafer_diameter :=
    wafer_diameter - 2 * WaferProcess.get_edge_exclusion wafer_process in
  s <- math_sqrt square_area ;;
  let square_side := s + WaferProcess.get_dicing_distance wafer_process in
  if usable_wafer_diameter / 2 <? square_side * sqrt 2 then
    Ok sentinel_cost
  else
    (* Case 1 *)
    let num_squares_case_1 := 0%Z in
    let row_chord_height := square_side / 2 in
    chord_length <- chord usable_wafer_diameter row_chord_height ;;
    q <- truediv chord_length square_side ;;
    n <- math_floor q ;;
    let num_squares_case_1 := (num_squares_case_1 + n)%Z in
    let row_chord_height := row_chord_height + square_side in
    num_squares_case_1 <- rows_case_1 fuel grid_fill usable_wafer_diameter
                            square_side row_chord_height num_squares_case_1 ;;
    (* Case 2 *)
    let num_squares_case_2 := 0%Z in
    let row_chord_height := square_side in
    chord_length <- chord usable_wafer_diameter row_chord_height ;;
    n <- squares_along chord_length square_side ;;
    let num_squares_case_2 := (num_squares_case_2 + n)%Z in
    let row_chord_height := row_chord_height + square_side in
    num_squares_case_2 <- rows_case_2 fuel grid_fill usable_wafer_diameter
                            square_side row_chord_height None
                            num_squares_case_2 ;;
    let num_squares := Z.max num_squares_case_1 num_squares_case_2 in
    if square_area =? 0 then sys_exit
    else if (num_squares =? 0)%Z then sys_exit
    else
      n <- int_to_float num_squares ;;
      let used_area := n * square_area in
      w2 <- float_pow_2 libm_pow (wafer_diameter / 2) ;;
      let circle_area := math_pi * w2 in
      truediv (cost_per_mm2 self * circle_area) used_area.

End Methods.

End Layer.

(** ** Examples *)

(** A wafer of diameter 4 with no edge exclusion and no dicing distance. *)
Definition small_wafer : WaferProcess.t := WaferProcess.mk 4 0 false 0.

(** A wafer of diameter 65.05382386916237: half of it is the double the
    diagonal of a square of area 529 rounds to. *)
Definition tight_wafer : WaferProcess.t :=
  WaferProcess.mk 0x1.04371d9ab72fbp+6 0 false 0.

Definition unit_layer : Layer.t := Layer.mk 1.

(** A layer that costs 0.1234 per mm2. *)
Definition priced_layer : Layer.t := Layer.mk 0x1.f972474538ef3p-4.

(** A [pow] that rounds a square correctly. *)
Definition square_pow (x y : float) : float := x * x.

End Binary64.

(** * Properties *)

(** ** Arithmetic helpers *)

Lemma Rltb_true (x y : R) : x < y -> Rltb x y = true.
Proof. intros H. unfold Rltb. destruct (Rlt_dec x y); [reflexivity | contradiction]. Qed.

Lemma Rltb_false (x y : R) : y <= x -> Rltb x y = false.
Proof. intros H. unfold Rltb. destruct (Rlt_dec x y); [lra | reflexivity]. Qed.

Lemma Rleb_true (x y : R) : x <= y -> Rleb x y = true.
Proof. intros H. unfold Rleb. destruct (Rle_dec x y); [reflexivity | contradiction]. Qed.

Lemma Rleb_false (x y : R) : y < x -> Rleb x y = false.
Proof. intros H. unfold Rleb. destruct (Rle_dec x y); [lra | reflexivity]. Qed.

Lemma Reqb_true (x y : R) : x = y -> Reqb x y = true.
Proof. intros H. unfold Reqb. destruct (Req_dec_T x y); [reflexivity | contradiction]. Qed.

Lemma Reqb_false (x y : R) : x <> y -> Reqb x y = false.
Proof. intros H. unfold Reqb. destruct (Req_dec_T x y); [contradiction | reflexivity]. Qed.

Lemma py_div_ok (x y : R) : y <> 0 -> py_div x y = Ok (x / y).
Proof. intros H. unfold py_div. now rewrite Reqb_false. Qed.

Lemma py_sqrt_ok (x : R) : 0 <= x -> py_sqrt x = Ok (sqrt x).
Proof. intros H. unfold py_sqrt. now rewrite Rltb_false. Qed.

Lemma py_pow_zero (x : R) : py_pow x 0 = Ok 1.
Proof. unfold py_pow. now rewrite Reqb_true. Qed.

Lemma py_pow_pos (x y : R) : 0 < x -> py_pow x y = Ok (Rpower x y).
Proof.
  intros Hx. unfold py_pow.
  destruct (Req_dec_T y 0) as [-> | Hy].
  - rewrite Reqb_true by reflexivity. now rewrite Rpower_O.
  - rewrite Reqb_false by assumption. now rewrite Rltb_true.
Qed.

Lemma py_floor_spec (x : R) : IZR (py_floor x) <= x < IZR (py_floor x) + 1.
Proof.
  unfold py_floor. rewrite minus_IZR.
  destruct (archimed x) as [H1 H2]. lra.
Qed.

Lemma py_floor_unique (x : R) (z : Z) : IZR z <= x < IZR z + 1 -> py_floor x = z.
Proof.
  intros [H1 H2]. unfold py_floor.
  assert (Hup : (z + 1)%Z = up x).
  { apply tech_up; rewrite plus_IZR; lra. }
  lia.
Qed.

Lemma py_floor_IZR (z : Z) : py_floor (IZR z) = z.
Proof. apply py_floor_unique. lra. Qed.

(** ** Layer *)

Section LayerYield.

Import Layer.

Variable self : Layer.t.

Local Abbreviation base a :=
  (1 + defect_density self * a * critical_area_ratio self
       / clustering_factor self).

Hypothesis Hd : 0 <= defect_density self.
Hypothesis Hr : 0 <= critical_area_ratio self.
Hypothesis Hc : 0 < clustering_factor self.

Lemma base_ge_1 (a : R) : 0 <= a -> 1 <= base a.
Proof.
  intros Ha.
  assert (0 <= defect_density self * a * critical_area_ratio self
               / clustering_factor self).
  { unfold Rdiv. apply Rmult_le_pos; [| left; now apply Rinv_0_lt_compat].
    apply Rmult_le_pos; [apply Rmult_le_pos |]; lra. }
  lra.
Qed.

Lemma base_monotone (a b : R) : a <= b -> base a <= base b.
Proof.
  intros Hab.
  apply Rplus_le_compat_l. unfold Rdiv.
  apply Rmult_le_compat_r; [left; now apply Rinv_0_lt_compat |].
  apply Rmult_le_compat_r; [lra |]. apply Rmult_le_compat_l; lra.
Qed.

Lemma layer_yield_eval (a : R) :
  0 <= a ->
  layer_yield self a = Ok (1 * Rpower (base a) (- clustering_factor self)).
Proof.
  intros Ha. unfold layer_yield.
  rewrite py_div_ok by lra. cbn [bind].
  rewrite py_pow_pos
    by (pose proof (base_ge_1 a Ha) as Hb; set (x := base a) in *; lra).
  cbn [bind]. rewrite py_pow_zero. cbn [bind].
  do 3 f_equal. ring.
Qed.

Lemma defect_yield_bounds (a : R) :
  0 <= a -> 0 < Rpower (base a) (- clustering_factor self) <= 1.
Proof.
  intros Ha. pose proof (base_ge_1 a Ha) as Hb.
  set (x := base a) in *.
  split; [apply exp_pos |].
  rewrite Rpower_Ropp.
  assert (H1 : 1 <= Rpower x (clustering_factor self)).
  { rewrite <- (Rpower_O 1) at 1 by lra.
    replace (Rpower 1 0) with (Rpower 1 (clustering_factor self)).
    - apply Rle_Rpower_l; lra.
    - unfold Rpower. rewrite ln_1. now rewrite !Rmult_0_r. }
  rewrite <- Rinv_1. apply Rinv_le_contravar; lra.
Qed.

Lemma defect_yield_monotone (a b : R) :
  0 <= a -> a <= b ->
  Rpower (base b) (- clustering_factor self)
  <= Rpower (base a) (- clustering_factor self).
Proof.
  intros Ha Hab. pose proof (base_ge_1 a Ha) as Hb.
  pose proof (base_monotone a b Hab) as Hle.
  set (x := base a) in *. set (y := base b) in *.
  rewrite !Rpower_Ropp.
  apply Rinv_le_contravar; [apply exp_pos |].
  apply Rle_Rpower_l; lra.
Qed.

End LayerYield.

(** C3 (amended): for every area [a >= 0] and every Layer with defect
    density > 0, critical area ratio > 0 and clustering factor > 0,
    [layer_yield(a)] returns
    [stitching_yield^0 * (1 + defect_density*a*critical_area_ratio/clustering_factor)^(-clustering_factor)],
    the value lies in [0,1], no larger area gives a larger yield, and
    [layer_yield(0)] is 1. The bounds and the order are the ones the
    doubles of the program keep as well: there the yields of two close
    areas can be the same double and the yield of a very large area is
    0.0. *)
Theorem layer_yield_negative_binomial (self : Layer.t) (a : R) :
  0 <= a ->
  0 < Layer.defect_density self ->
  0 < Layer.critical_area_ratio self ->
  0 < Layer.clustering_factor self ->
  exists y : R,
    Layer.layer_yield self a = Ok y
    /\ y = Layer.stitching_yield self ^ 0
           * Rpower (1 + Layer.defect_density self * a
                         * Layer.critical_area_ratio self
                         / Layer.clustering_factor self)
                    (- Layer.clustering_factor self)
    /\ 0 <= y <= 1
    /\ (forall b : R, a <= b ->
          exists y' : R, Layer.layer_yield self b = Ok y' /\ y' <= y)
    /\ Layer.layer_yield self 0 = Ok 1.
Proof.
  intros Ha Hd Hr' Hc.
  assert (Hd' : 0 <= Layer.defect_density self) by lra.
  assert (Hr : 0 <= Layer.critical_area_ratio self) by lra.
  eexists. split; [apply layer_yield_eval; assumption |].
  split; [simpl; reflexivity |].
  pose proof (defect_yield_bounds self Hd' Hr Hc a Ha) as Hb.
  split; [lra |].
  split.
  - intros b Hab. eexists.
    split; [apply layer_yield_eval; try assumption; lra |].
    pose proof (defect_yield_monotone self Hd' Hr Hc a b Ha Hab). lra.
  - rewrite layer_yield_eval by (assumption || lra).
    f_equal. rewrite Rmult_1_l.
    replace (1 + Layer.defect_density self * 0 * Layer.critical_area_ratio self
                 / Layer.clustering_factor self) with 1
      by (unfold Rdiv; ring).
    unfold Rpower. rewrite ln_1, Rmult_0_r. apply exp_0.
Qed.

Lemma layer_yield_negative_binomial_witness :
  exists y : R,
    Layer.layer_yield fixture_layer 10 = Ok y
    /\ y = Layer.stitching_yield fixture_layer ^ 0
           * Rpower (1 + Layer.defect_density fixture_layer * 10
                         * Layer.critical_area_ratio fixture_layer
                         / Layer.clustering_factor fixture_layer)
                    (- Layer.clustering_factor fixture_layer)
    /\ 0 <= y <= 1
    /\ (forall b : R, 10 <= b ->
          exists y' : R, Layer.layer_yield fixture_layer b = Ok y' /\ y' <= y)
    /\ Layer.layer_yield fixture_layer 0 = Ok 1.
Proof.
  apply (layer_yield_negative_binomial fixture_layer 10); simpl; lra.
Defined.

(** C3 as stated fails: with defect density > 0 and clustering factor > 0
    but critical area ratio 0, the yields at areas 0 and 1 are both 1, so
    the yield is not strictly decreasing in the area. *)
Lemma layer_yield_not_strictly_decreasing :
  0 < Layer.defect_density flat_layer
  /\ 0 < Layer.clustering_factor flat_layer
  /\ Layer.layer_yield flat_layer 0 = Ok 1
  /\ Layer.layer_yield flat_layer 1 = Ok 1
  /\ ~ (forall (self : Layer.t) (a b y y' : R),
          0 < Layer.defect_density self -> 0 < Layer.clustering_factor self ->
          0 <= a -> a < b ->
          Layer.layer_yield self a = Ok y -> Layer.layer_yield self b = Ok y' ->
          y' < y).
Proof.
  assert (H : forall a, Layer.layer_yield flat_layer a = Ok 1).
  { intros a. unfold Layer.layer_yield. simpl.
    rewrite py_div_ok by lra. cbn [bind].
    replace (1 + 1 * a * 0 / 1) with 1 by (unfold Rdiv; ring).
    rewrite py_pow_pos by lra. cbn [bind]. rewrite py_pow_zero. cbn [bind].
    f_equal. unfold Rpower. rewrite ln_1, Rmult_0_r, exp_0. ring. }
  split; [simpl; lra |]. split; [simpl; lra |].
  split; [apply H |]. split; [apply H |].
  intros Hall.
  specialize (Hall flat_layer 0 1 1 1).
  simpl in Hall. rewrite !H in Hall.
  assert (1 < 1) by (apply Hall; (lra || reflexivity)).
  lra.
Qed.

Lemma diagonal_guard_returns_sentinel (fuel : nat) (self : Layer.t)
    (wafer_process : WaferProcess.t) (square_area : R) :
  0 <= square_area ->
  (sqrt square_area + WaferProcess.dicing_distance wafer_process) * sqrt 2
  > (WaferProcess.wafer_diameter wafer_process
     - 2 * WaferProcess.edge_exclusion wafer_process) / 2 ->
  Layer.compute_cost_per_mm2 fuel self square_area wafer_process
  = Ok Layer.sentinel_cost.
Proof.
  intros Ha Hdiag. unfold Layer.compute_cost_per_mm2.
  rewrite py_sqrt_ok by assumption. cbn [bind].
  rewrite Rltb_true by lra. reflexivity.
Qed.

(** ** The diagonal guard over binary64 *)

Lemma sqrt_529 : sqrt 529 = 23.
Proof. replace 529 with (23 * 23) by lra. apply sqrt_square. lra. Qed.

Lemma exact_diagonal_exceeds :
  Spec.diagonal_exceeds 529 0 (4577755889627899 / 70368744177664) 0.
Proof.
  unfold Spec.diagonal_exceeds. rewrite sqrt_529.
  set (c := 4577755889627899 / 70368744177664 / 46).
  assert (Hc : 0 <= c) by (unfold c; lra).
  assert (H : c < sqrt 2).
  { rewrite <- (sqrt_square c Hc). apply sqrt_lt_1; unfold c; lra. }
  unfold c in H. lra.
Qed.

Section WaferFillBinary64.

Import Floats.
#[local] Open Scope float_scope.

(** The square root of a negative double is a nan, and no comparison with
    a nan holds. *)
Lemma negative_area_fails_the_guard (square_area d u : float) :
  (square_area <? 0) = true -> (u <? (sqrt square_area + d) * sqrt 2) = false.
Proof.
  intros H. rewrite ltb_spec in *. rewrite mul_spec, add_spec, sqrt_spec.
  change (Prim2SF 0) with (S754_zero false) in H.
  destruct (Prim2SF square_area) as [s | s | | s m e]; try discriminate H.
  - destruct s; [| discriminate H].
    cbn. destruct (Prim2SF u); reflexivity.
  - destruct s; [| discriminate H].
    cbn. destruct (Prim2SF u); reflexivity.
Qed.

(** C7 (amended): when [(sqrt(square_area) + dicing_distance) * sqrt(2)]
    exceeds half the usable wafer diameter
    [(wafer_diameter - 2*edge_exclusion) / 2], both sides as the program
    computes them in binary64, [compute_cost_per_mm2] returns the sentinel
    1e9: no exception, no power, no division, whatever the fuel. *)
Theorem compute_cost_per_mm2_sentinel (libm_pow : float -> float -> float)
    (fuel : nat) (self : Binary64.Layer.t) (square_area : float)
    (wafer_process : Binary64.WaferProcess.t) :
  ((Binary64.WaferProcess.wafer_diameter wafer_process
    - 2 * Binary64.WaferProcess.edge_exclusion wafer_process) / 2
   <? (sqrt square_area
       + Binary64.WaferProcess.dicing_distance wafer_process) * sqrt 2)
  = true ->
  Binary64.Layer.compute_cost_per_mm2 libm_pow fuel self square_area
    wafer_process
  = Ok 1e9.
Proof.
  intros Hguard.
  unfold Binary64.Layer.compute_cost_per_mm2, Binary64.math_sqrt.
  destruct (square_area <? 0) eqn:Hneg.
  - rewrite (negative_area_fails_the_guard _ _ _ Hneg) in Hguard.
    discriminate Hguard.
  - cbn [bind].
    unfold Binary64.WaferProcess.get_wafer_diameter,
      Binary64.WaferProcess.get_edge_exclusion,
      Binary64.WaferProcess.get_dicing_distance.
    rewrite Hguard. reflexivity.
Qed.

Lemma compute_cost_per_mm2_sentinel_witness :
  ((Binary64.WaferProcess.wafer_diameter Binary64.small_wafer
    - 2 * Binary64.WaferProcess.edge_exclusion Binary64.small_wafer) / 2
   <? (sqrt 100
       + Binary64.WaferProcess.dicing_distance Binary64.small_wafer)
      * sqrt 2)
  = true
  /\ Binary64.Layer.compute_cost_per_mm2 Binary64.square_pow 0
       Binary64.unit_layer 100 Binary64.small_wafer
     = Ok 1e9.
Proof.
  split; [vm_compute; reflexivity |].
  apply (compute_cost_per_mm2_sentinel Binary64.square_pow 0
           Binary64.unit_layer 100 Binary64.small_wafer).
  vm_compute. reflexivity.
Defined.

Lemma to_R_529 : Binary64.to_R 529 = 529%R.
Proof.
  unfold Binary64.to_R.
  replace (Prim2SF 529) with (S754_finite false 4653133208748032 (-43))
    by (vm_compute; reflexivity).
  cbn [Binary64.signed]. simpl powerRZ. lra.
Qed.

Lemma to_R_tight_diameter :
  Binary64.to_R (Binary64.WaferProcess.wafer_diameter Binary64.tight_wafer)
  = (4577755889627899 / 70368744177664)%R.
Proof.
  unfold Binary64.to_R.
  replace (Prim2SF
             (Binary64.WaferProcess.wafer_diameter Binary64.tight_wafer))
    with (S754_finite false 4577755889627899 (-46))
    by (vm_compute; reflexivity).
  cbn [Binary64.signed]. simpl powerRZ. lra.
Qed.

(** C7 as stated fails. On a wafer of diameter 65.05382386916237 with no
    edge exclusion and no dicing distance, and for a square of area 529,
    the diagonal 23 * sqrt(2) exceeds half the diameter over the real
    numbers, by less than the doubles tell apart: the program computes the
    double 32.526911934581186 on both sides, does not take the guard and,
    for a layer of 0.1234 per mm2, returns 0.19383626672649024. *)
Lemma compute_cost_per_mm2_guard_is_rounded :
  Spec.diagonal_exceeds
    (Binary64.to_R 529)
    (Binary64.to_R
       (Binary64.WaferProcess.dicing_distance Binary64.tight_wafer))
    (Binary64.to_R
       (Binary64.WaferProcess.wafer_diameter Binary64.tight_wafer))
    (Binary64.to_R
       (Binary64.WaferProcess.edge_exclusion Binary64.tight_wafer))
  /\ (sqrt 529 + Binary64.WaferProcess.dicing_distance Binary64.tight_wafer)
     * sqrt 2
     = (Binary64.WaferProcess.wafer_diameter Binary64.tight_wafer
        - 2 * Binary64.WaferProcess.edge_exclusion Binary64.tight_wafer) / 2
  /\ (forall fuel : nat,
        Binary64.Layer.compute_cost_per_mm2 Binary64.square_pow fuel
          Binary64.priced_layer 529 Binary64.tight_wafer
        = Ok 0x1.8cfa0752f3bacp-3)
  /\ Ok 0x1.8cfa0752f3bacp-3 <> Ok 1e9.
Proof.
  split.
  { rewrite to_R_529, to_R_tight_diameter.
    change (Binary64.to_R
              (Binary64.WaferProcess.dicing_distance Binary64.tight_wafer))
      with 0%R.
    change (Binary64.to_R
              (Binary64.WaferProcess.edge_exclusion Binary64.tight_wafer))
      with 0%R.
    exact exact_diagonal_exceeds. }
  split; [vm_compute; reflexivity |].
  split.
  { intros fuel. destruct fuel; vm_compute; reflexivity. }
  intros H.
  apply (f_equal (fun r => match r with
                           | Ok x => x =? 1e9
                           | _ => false
                           end)) in H.
  vm_compute in H. discriminate H.
Qed.

End WaferFillBinary64.

Lemma sqrt_40000 : sqrt 40000 = 200.
Proof. replace 40000 with (200 * 200) by lra. apply sqrt_square. lra. Qed.

Lemma sqrt_2_ge_1 : 1 <= sqrt 2.
Proof. rewrite <- sqrt_1 at 1. apply sqrt_le_1; lra. Qed.

Lemma fixture_diagonal_too_long :
  (sqrt 40000 + WaferProcess.dicing_distance fixture_wafer_process) * sqrt 2
  > (WaferProcess.wafer_diameter fixture_wafer_process
     - 2 * WaferProcess.edge_exclusion fixture_wafer_process) / 2.
Proof.
  rewrite sqrt_40000. simpl. pose proof sqrt_2_ge_1. nra.
Qed.

(** ** Layer cost *)

Lemma grow_reticle_terminates (step area : R) :
  0 < step ->
  forall (fuel : nat) (r : R),
    area <= r + INR fuel * step ->
    exists r' : R,
      Layer.grow_reticle fuel r step area = Ok r' /\ area <= r' /\ r <= r'.
Proof.
  intros Hstep. induction fuel as [| fuel IH]; intros r Hr.
  - simpl in Hr. simpl. rewrite Rltb_false by lra.
    exists r. repeat split; lra.
  - cbn [Layer.grow_reticle].
    destruct (Rlt_dec r area) as [Hlt | Hge].
    + rewrite Rltb_true by assumption.
      destruct (IH (r + step)) as (r' & Hrun & H1 & H2).
      { rewrite S_INR in Hr. lra. }
      exists r'. repeat split; try assumption; lra.
    + rewrite Rltb_false by lra. exists r. repeat split; lra.
Qed.

Lemma reticle_utilization_terminates (fuel : nat) (self : Layer.t)
    (area reticle_x reticle_y : R) :
  0 < area ->
  0 < reticle_x * reticle_y ->
  area <= reticle_x * reticle_y + INR fuel * (reticle_x * reticle_y) ->
  exists u : R,
    Layer.reticle_utilization fuel self area reticle_x reticle_y = Ok u
    /\ 0 < u <= 1.
Proof.
  intros Ha Hret Hfuel. unfold Layer.reticle_utilization.
  destruct (grow_reticle_terminates _ area Hret fuel _ Hfuel)
    as (r' & -> & H1 & H2).
  cbn [bind]. unfold py_floordiv. rewrite Reqb_false by lra. cbn [bind].
  rewrite py_div_ok by lra.
  eexists. split; [reflexivity |].
  pose proof (py_floor_spec (r' / area)) as [Hlo Hhi].
  assert (Hq : 1 <= r' / area).
  { apply (Rmult_le_reg_r area); [assumption |].
    unfold Rdiv. rewrite Rmult_assoc, Rinv_l by lra. lra. }
  assert (Hn : 1 <= IZR (py_floor (r' / area))).
  { apply IZR_le. apply Z.lt_succ_r. apply lt_IZR.
    rewrite succ_IZR. lra. }
  assert (Hle : IZR (py_floor (r' / area)) * area <= r').
  { apply (Rmult_le_compat_r area) in Hlo; [| lra].
    unfold Rdiv in Hlo at 2. rewrite Rmult_assoc, Rinv_l in Hlo by lra. lra. }
  replace (r' - (r' - IZR (py_floor (r' / area)) * area))
    with (IZR (py_floor (r' / area)) * area) by ring.
  split.
  - apply Rdiv_lt_0_compat; [| lra]. apply Rmult_lt_0_compat; lra.
  - apply (Rmult_le_reg_r r'); [lra |].
    unfold Rdiv. rewrite Rmult_assoc, Rinv_l by lra. lra.
Qed.

(** C6 (amended): [layer_cost(area, wafer_process)] returns 0 when
    [area == 0], whatever [litho_percent] is; calls [sys.exit(1)] when
    [area < 0]; and for [area > 0], once [compute_cost_per_mm2(area,
    wafer_process)] has returned [c] and with [base = area*c], it
    - calls [sys.exit(1)] when [litho_percent < 0],
    - returns [base*(1 - litho_percent) + base*litho_percent/1.0] when
      [litho_percent == 0],
    - returns [base*(1 - litho_percent) +
      base*litho_percent/reticle_utilization] when [litho_percent > 0], where
      the reticle utilization is in (0,1] and its loop ends as soon as the
      reticle area is positive and the fuel covers [area/reticle_area]
      iterations.
    With [area > 0] and [litho_percent < 0] no value is ever returned. *)
Theorem layer_cost_cases (fuel : nat) (self : Layer.t) (area : R)
    (wafer_process : WaferProcess.t) :
  (area = 0 -> Layer.layer_cost fuel self area wafer_process = Ok 0)
  /\ (area < 0 ->
      Layer.layer_cost fuel self area wafer_process = Raise (SystemExit 1))
  /\ (0 < area ->
      forall c : R,
        Layer.compute_cost_per_mm2 fuel self area wafer_process = Ok c ->
        let base := area * c in
        let litho_percent := Layer.litho_percent self in
        let reticle_x := WaferProcess.reticle_x wafer_process in
        let reticle_y := WaferProcess.reticle_y wafer_process in
        (litho_percent < 0 ->
         Layer.layer_cost fuel self area wafer_process
         = Raise (SystemExit 1))
        /\ (litho_percent = 0 ->
            Layer.layer_cost fuel self area wafer_process
            = Ok (base * (1 - litho_percent) + base * litho_percent / 1))
        /\ (0 < litho_percent ->
            0 < reticle_x * reticle_y ->
            area <= reticle_x * reticle_y
                    + INR fuel * (reticle_x * reticle_y) ->
            exists u : R,
              Layer.reticle_utilization fuel self area reticle_x reticle_y
              = Ok u
              /\ 0 < u <= 1
              /\ Layer.layer_cost fuel self area wafer_process
                 = Ok (base * (1 - litho_percent)
                       + base * litho_percent / u)))
  /\ (0 < area -> Layer.litho_percent self < 0 ->
      forall v : R, Layer.layer_cost fuel self area wafer_process <> Ok v).
Proof.
  split; [| split; [| split]].
  - intros ->. unfold Layer.layer_cost. now rewrite Reqb_true.
  - intros Ha. unfold Layer.layer_cost.
    rewrite Reqb_false by lra. now rewrite Rltb_false by lra.
  - intros Ha c Hc base litho_percent reticle_x reticle_y.
    unfold Layer.layer_cost.
    rewrite Reqb_false by lra. rewrite Rltb_true by lra.
    rewrite Hc. cbn [bind]. fold litho_percent.
    split; [| split].
    + intros Hl. rewrite Reqb_false by lra. now rewrite Rltb_false by lra.
    + intros Hl. rewrite Reqb_true by assumption. cbn [bind].
      now rewrite py_div_ok by lra.
    + intros Hl Hret Hfuel.
      destruct (reticle_utilization_terminates fuel self area reticle_x
                  reticle_y Ha Hret Hfuel) as (u & Hu & Hbounds).
      exists u. split; [assumption |]. split; [assumption |].
      rewrite Reqb_false by lra. rewrite Rltb_true by lra.
      fold reticle_x reticle_y. rewrite Hu. cbn [bind].
      now rewrite py_div_ok by lra.
  - intros Ha Hl v. unfold Layer.layer_cost.
    rewrite Reqb_false by lra. rewrite Rltb_true by lra.
    destruct (Layer.compute_cost_per_mm2 fuel self area wafer_process);
      cbn [bind]; try discriminate.
    rewrite Reqb_false by lra. rewrite Rltb_false by lra.
    cbn [bind]. discriminate.
Qed.

(** The fixture layer (litho_percent 0.3) on the fixture wafer process at
    area 40000, where the cost per mm2 is the sentinel: 100 iterations
    cover the 55 reticles the area needs. *)
Lemma layer_cost_cases_witness :
  exists u : R,
    Layer.reticle_utilization 100 fixture_layer 40000 32 23 = Ok u
    /\ 0 < u <= 1
    /\ Layer.layer_cost 100 fixture_layer 40000 fixture_wafer_process
       = Ok (40000 * 1000000000 * (1 - 3 / 10)
             + 40000 * 1000000000 * (3 / 10) / u).
Proof.
  destruct (layer_cost_cases 100 fixture_layer 40000 fixture_wafer_process)
    as (_ & _ & Hpos & _).
  destruct (Hpos ltac:(lra) 1000000000) as (_ & _ & Hlitho).
  - apply diagonal_guard_returns_sentinel;
      [lra | apply fixture_diagonal_too_long].
  - simpl in Hlitho. apply Hlitho.
    + lra.
    + lra.
    + replace (INR 100) with 100 by (simpl; ring). lra.
Defined.

(** C6 as stated fails: a negative [litho_percent] does not end the program
    when the area is 0; [layer_cost] returns 0. *)
Lemma layer_cost_negative_litho_zero_area :
  Layer.litho_percent negative_litho_layer < 0
  /\ Layer.layer_cost 0 negative_litho_layer 0 fixture_wafer_process = Ok 0.
Proof.
  split; [simpl; lra |].
  unfold Layer.layer_cost. now rewrite Reqb_true.
Qed.

(** ** Assembly yield *)

Lemma Rpower_le_1 (x y : R) : 0 < x <= 1 -> 0 <= y -> 0 < Rpower x y <= 1.
Proof.
  intros [Hx0 Hx1] Hy. split; [apply exp_pos |].
  unfold Rpower. rewrite <- exp_0.
  assert (Hln : ln x <= 0).
  { destruct Hx1 as [Hlt | ->]; [| rewrite ln_1; lra].
    rewrite <- ln_1. left. now apply ln_increasing. }
  assert (Hprod : y * ln x <= 0) by nra.
  destruct Hprod as [Hlt | ->]; [left; now apply exp_increasing | lra].
Qed.

Lemma Rpower_antitone_exponent (x y y' : R) :
  0 < x <= 1 -> y <= y' -> Rpower x y' <= Rpower x y.
Proof.
  intros [Hx0 Hx1] Hy. unfold Rpower.
  assert (Hln : ln x <= 0).
  { destruct Hx1 as [Hlt | ->]; [| rewrite ln_1; lra].
    rewrite <- ln_1. left. now apply ln_increasing. }
  assert (Hprod : y' * ln x <= y * ln x) by nra.
  destruct Hprod as [Hlt | ->]; [left; now apply exp_increasing | lra].
Qed.

Lemma assembly_yield_eval (self : Assembly.t) (ay bnd d n m a : R) :
  Assembly.alignment_yield self = Some ay ->
  Assembly.bonding_yield self = Some bnd ->
  Assembly.dielectric_bond_defect_density self = Some d ->
  0 < ay -> 0 < bnd ->
  Assembly.assembly_yield self n m a
  = Ok (Rpower ay n * Rpower bnd m * (1 - d * a)).
Proof.
  intros Hay Hby Hd Hay0 Hby0. unfold Assembly.assembly_yield.
  rewrite Hay, Hby, Hd. cbn [num bind].
  rewrite !py_pow_pos by assumption. cbn [bind].
  f_equal. ring.
Qed.

(** C4 (amended): for an Assembly whose alignment and bonding yields lie in
    (0,1] and whose dielectric bond defect density is not negative, and for
    all non-negative [n_chips], [n_bonds] and [area],
    [assembly_yield(n_chips, n_bonds, area)] returns
    [alignment_yield^n_chips * bonding_yield^n_bonds *
    (1 - dielectric_bond_defect_density*area)] and [assembly_yield(0,0,0)]
    is 1; the value does not grow with [area]; and as long as
    [dielectric_bond_defect_density*area <= 1] it lies in [0,1] and does
    not grow with [n_chips] or with [n_bonds]. *)
Theorem assembly_yield_product (self : Assembly.t)
    (ay bnd d n_chips n_bonds area : R) :
  Assembly.alignment_yield self = Some ay ->
  Assembly.bonding_yield self = Some bnd ->
  Assembly.dielectric_bond_defect_density self = Some d ->
  0 < ay <= 1 -> 0 < bnd <= 1 -> 0 <= d ->
  0 <= n_chips -> 0 <= n_bonds -> 0 <= area ->
  let Y := fun n m a : R => Rpower ay n * Rpower bnd m * (1 - d * a) in
  Assembly.assembly_yield self n_chips n_bonds area
  = Ok (Y n_chips n_bonds area)
  /\ Assembly.assembly_yield self 0 0 0 = Ok 1
  /\ (d * area <= 1 -> 0 <= Y n_chips n_bonds area <= 1)
  /\ (forall area' : R, area <= area' ->
        Assembly.assembly_yield self n_chips n_bonds area'
        = Ok (Y n_chips n_bonds area')
        /\ Y n_chips n_bonds area' <= Y n_chips n_bonds area)
  /\ (forall n_chips' : R, n_chips <= n_chips' -> d * area <= 1 ->
        Assembly.assembly_yield self n_chips' n_bonds area
        = Ok (Y n_chips' n_bonds area)
        /\ Y n_chips' n_bonds area <= Y n_chips n_bonds area)
  /\ (forall n_bonds' : R, n_bonds <= n_bonds' -> d * area <= 1 ->
        Assembly.assembly_yield self n_chips n_bonds' area
        = Ok (Y n_chips n_bonds' area)
        /\ Y n_chips n_bonds' area <= Y n_chips n_bonds area).
Proof.
  intros Hay Hby Hd Hay1 Hby1 Hd0 Hn Hm Ha Y.
  pose proof (fun n m a =>
                assembly_yield_eval self ay bnd d n m a Hay Hby Hd
                  (proj1 Hay1) (proj1 Hby1)) as Heval.
  pose proof (Rpower_le_1 ay n_chips Hay1 Hn) as Hpn.
  pose proof (Rpower_le_1 bnd n_bonds Hby1 Hm) as Hpm.
  split; [apply Heval |].
  split; [rewrite Heval; f_equal; rewrite !Rpower_O by lra; ring |].
  split.
  { intros Hda. unfold Y. split.
    - apply Rmult_le_pos; [apply Rmult_le_pos |]; lra.
    - assert (Rpower ay n_chips * Rpower bnd n_bonds <= 1) by nra.
      assert (0 <= d * area) by nra.
      assert (0 <= Rpower ay n_chips * Rpower bnd n_bonds) by nra.
      nra. }
  split.
  { intros area' Ha'. split; [apply Heval |]. unfold Y.
    assert (0 <= Rpower ay n_chips * Rpower bnd n_bonds) by nra.
    assert (d * area <= d * area') by nra.
    nra. }
  split.
  - intros n_chips' Hn' Hda. split; [apply Heval |]. unfold Y.
    pose proof (Rpower_antitone_exponent ay n_chips n_chips' Hay1 Hn').
    assert (0 <= Rpower bnd n_bonds * (1 - d * area)) by nra.
    rewrite !Rmult_assoc. apply Rmult_le_compat_r; assumption.
  - intros n_bonds' Hm' Hda. split; [apply Heval |]. unfold Y.
    pose proof (Rpower_antitone_exponent bnd n_bonds n_bonds' Hby1 Hm').
    assert (0 <= 1 - d * area) by lra.
    apply Rmult_le_compat_r; [assumption |].
    apply Rmult_le_compat_l; lra.
Qed.

Lemma assembly_yield_product_witness :
  let Y := fun n m a : R =>
             Rpower (987 / 1000) n * Rpower (999 / 1000) m
             * (1 - 3 / 10000 * a) in
  Assembly.assembly_yield fixture_assembly 1 1 10 = Ok (Y 1 1 10)
  /\ Assembly.assembly_yield fixture_assembly 0 0 0 = Ok 1
  /\ (3 / 10000 * 10 <= 1 -> 0 <= Y 1 1 10 <= 1)
  /\ (forall area' : R, 10 <= area' ->
        Assembly.assembly_yield fixture_assembly 1 1 area' = Ok (Y 1 1 area')
        /\ Y 1 1 area' <= Y 1 1 10)
  /\ (forall n_chips' : R, 1 <= n_chips' -> 3 / 10000 * 10 <= 1 ->
        Assembly.assembly_yield fixture_assembly n_chips' 1 10
        = Ok (Y n_chips' 1 10)
        /\ Y n_chips' 1 10 <= Y 1 1 10)
  /\ (forall n_bonds' : R, 1 <= n_bonds' -> 3 / 10000 * 10 <= 1 ->
        Assembly.assembly_yield fixture_assembly 1 n_bonds' 10
        = Ok (Y 1 n_bonds' 10)
        /\ Y 1 n_bonds' 10 <= Y 1 1 10).
Proof.
  apply (assembly_yield_product fixture_assembly (987 / 1000) (999 / 1000)
           (3 / 10000) 1 1 10); try reflexivity; lra.
Defined.

(** C4 as stated fails: [assembly_yield(0, 0, 2)] is -1, outside [0,1]. *)
Lemma assembly_yield_below_zero :
  Assembly.assembly_yield lossy_bond_assembly 0 0 2 = Ok (-1)
  /\ ~ (0 <= -1 <= 1).
Proof.
  split; [| lra].
  unfold Assembly.assembly_yield. cbn [lossy_bond_assembly
    Assembly.alignment_yield Assembly.bonding_yield
    Assembly.dielectric_bond_defect_density num bind].
  rewrite !py_pow_zero. cbn [bind]. f_equal. ring.
Qed.

(** ** Constructors of Assembly and IO *)

(** C9: [Assembly.__init__] never returns a static object. Whatever reading
    the four list attributes gives, an object that is returned has
    [static == False] (both branches assign it); with a name other than the
    empty string the completeness test reads [machine_cost_list] and the
    constructor raises AttributeError; with the empty name it returns an
    object that is not static, whatever the [static] argument is. *)
Theorem Assembly_init_never_static
    (name : string) (materials_cost_per_mm2 picknplace_machine_cost
       picknplace_machine_lifetime picknplace_machine_uptime
       picknplace_technician_yearly_cost picknplace_time : option R)
    (picknplace_group : option Z)
    (bonding_machine_cost bonding_machine_lifetime bonding_machine_uptime
       bonding_machine_technician_yearly_cost bonding_time : option R)
    (bonding_group : option Z)
    (die_separation edge_exclusion max_pad_current_density bonding_pitch
       alignment_yield bonding_yield dielectric_bond_defect_density : option R)
    (static : bool) :
  (forall (l1 l2 l3 l4 : result (list R)) (a : Assembly.t),
      Assembly.init_with l1 l2 l3 l4 name materials_cost_per_mm2
        picknplace_machine_cost picknplace_machine_lifetime
        picknplace_machine_uptime picknplace_technician_yearly_cost
        picknplace_time picknplace_group bonding_machine_cost
        bonding_machine_lifetime bonding_machine_uptime
        bonding_machine_technician_yearly_cost bonding_time bonding_group
        die_separation edge_exclusion max_pad_current_density bonding_pitch
        alignment_yield bonding_yield dielectric_bond_defect_density static
      = Ok a ->
      Assembly.static a = false)
  /\ (name <> ""%string ->
      Assembly.init name materials_cost_per_mm2
        picknplace_machine_cost picknplace_machine_lifetime
        picknplace_machine_uptime picknplace_technician_yearly_cost
        picknplace_time picknplace_group bonding_machine_cost
        bonding_machine_lifetime bonding_machine_uptime
        bonding_machine_technician_yearly_cost bonding_time bonding_group
        die_separation edge_exclusion max_pad_current_density bonding_pitch
        alignment_yield bonding_yield dielectric_bond_defect_density static
      = Raise AttributeError)
  /\ (name = ""%string ->
      exists a : Assembly.t,
        Assembly.init name materials_cost_per_mm2
          picknplace_machine_cost picknplace_machine_lifetime
          picknplace_machine_uptime picknplace_technician_yearly_cost
          picknplace_time picknplace_group bonding_machine_cost
          bonding_machine_lifetime bonding_machine_uptime
          bonding_machine_technician_yearly_cost bonding_time bonding_group
          die_separation edge_exclusion max_pad_current_density bonding_pitch
          alignment_yield bonding_yield dielectric_bond_defect_density static
        = Ok a
        /\ Assembly.static a = false).
Proof.
  split; [| split].
  - intros l1 l2 l3 l4 a. unfold Assembly.init_with.
    match goal with
    | |- bind ?c _ = _ -> _ => destruct c as [incomplete | | |]
    end; cbn [bind]; try discriminate.
    destruct incomplete.
    + intros [= <-]. reflexivity.
    + match goal with
      | |- bind ?c _ = _ -> _ => destruct c as [[v1 s1] | | |]
      end; cbn [bind]; try discriminate.
      match goal with
      | |- bind ?c _ = _ -> _ => destruct c as [[v2 s2] | | |]
      end; cbn [bind]; try discriminate.
      intros [= <-]. reflexivity.
  - intros Hname. unfold Assembly.init, Assembly.init_with.
    apply String.eqb_neq in Hname. rewrite Hname. reflexivity.
  - intros ->. unfold Assembly.init, Assembly.init_with.
    cbn [String.eqb or_else bind]. eexists. split; reflexivity.
Qed.

Lemma Assembly_init_never_static_witness :
  Assembly.init "test_assembly_process" (Some (1 / 10)) (Some 1000000)
    (Some 5) (Some (9 / 10)) (Some 200000) (Some 10) (Some 1%Z)
    (Some 2000000) (Some 5) (Some (8 / 10)) (Some 210000) (Some 20)
    (Some 2%Z) (Some (2 / 10)) (Some (3 / 10)) (Some (4 / 10))
    (Some (5 / 10)) (Some (987 / 1000)) (Some (999 / 1000))
    (Some (3 / 10000)) true
  = Raise AttributeError.
Proof.
  apply (Assembly_init_never_static "test_assembly_process").
  discriminate.
Defined.

(** ** The static latch *)

Ltac latched_setter c Hlatched Hstatic :=
  destruct c; cbn in Hlatched; try discriminate Hlatched;
  cbv beta iota delta [WaferProcess.run IO.run Layer.run Assembly.run
                       Test.run Chip.run];
  match goal with
  | |- Ok (?f _ _) = _ => unfold f
  | |- ?f _ _ = _ => unfold f
  end;
  rewrite Hstatic; reflexivity.

(** C8 (amended): on a record whose static flag is set (WaferProcess, IO,
    Layer, Assembly, Test, Chip), every setter whose body starts with the
    test of [self.static] returns 1 and leaves every field unchanged,
    without raising. These are all the setters except [set_static] of each
    class, [set_picknplace_cost_per_second] and
    [set_bonding_cost_per_second] of Assembly, and [set_stack_power],
    [set_area] and [set_nre_design_cost] of Chip. *)
Theorem static_record_rejects_latched_setters :
  (forall (c : WaferProcess.call) (self : WaferProcess.t),
      WaferProcess.latched c = true -> WaferProcess.static self = true ->
      WaferProcess.run c self = Ok (1%Z, self))
  /\ (forall (c : IO.call) (self : IO.t),
         IO.latched c = true -> IO.static self = true ->
         IO.run c self = Ok (1%Z, self))
  /\ (forall (c : Layer.call) (self : Layer.t),
         Layer.latched c = true -> Layer.static self = true ->
         Layer.run c self = Ok (1%Z, self))
  /\ (forall (c : Assembly.call) (self : Assembly.t),
         Assembly.latched c = true -> Assembly.static self = true ->
         Assembly.run c self = Ok (1%Z, self))
  /\ (forall (c : Test.call) (self : Test.t),
         Test.latched c = true -> Test.static self = true ->
         Test.run c self = Ok (1%Z, self))
  /\ (forall (c : Chip.call) (self : Chip.t),
         Chip.latched c = true -> Chip.static self = true ->
         Chip.run c self = Ok (1%Z, self)).
Proof.
  repeat split; intros c self Hlatched Hstatic;
    latched_setter c Hlatched Hstatic.
Qed.

Lemma static_record_rejects_latched_setters_witness :
  WaferProcess.run (WaferProcess.call_set_wafer_diameter 300)
                   fixture_wafer_process
  = Ok (1%Z, fixture_wafer_process)
  /\ Layer.run (Layer.call_set_litho_percent (-1)) fixture_layer
     = Ok (1%Z, fixture_layer)
  /\ Assembly.run (Assembly.call_set_bonding_yield 2) fixture_assembly
     = Ok (1%Z, fixture_assembly).
Proof.
  destruct static_record_rejects_latched_setters
    as (Hw & _ & Hl & Ha & _ & _).
  split; [| split].
  - apply Hw; reflexivity.
  - apply Hl; reflexivity.
  - apply Ha; reflexivity.
Defined.

(** C8 as stated fails: on a static Assembly,
    [set_picknplace_cost_per_second()] returns 0 and assigns
    [picknplace_cost_per_second]; and [set_static()] returns 0 on a static
    WaferProcess. *)
Lemma static_assembly_rate_setter_assigns :
  Assembly.static latched_assembly = true
  /\ Assembly.picknplace_cost_per_second latched_assembly = None
  /\ (exists (v : R) (self' : Assembly.t),
         Assembly.run Assembly.call_set_picknplace_cost_per_second
                      latched_assembly = Ok (0%Z, self')
         /\ Assembly.picknplace_cost_per_second self' = Some v)
  /\ WaferProcess.static fixture_wafer_process = true
  /\ WaferProcess.run WaferProcess.call_set_static fixture_wafer_process
     = Ok (0%Z, fixture_wafer_process).
Proof.
  split; [reflexivity |]. split; [reflexivity |]. split.
  - cbv beta iota delta [Assembly.run Assembly.set_picknplace_cost_per_second
                          Assembly.compute_picknplace_cost_per_second].
    cbn [latched_assembly Assembly.picknplace_machine_cost
         Assembly.picknplace_machine_lifetime
         Assembly.picknplace_technician_yearly_cost
         Assembly.picknplace_machine_uptime num bind].
    rewrite py_div_ok by lra. cbn [bind].
    eexists. eexists. split; reflexivity.
  - split; reflexivity.
Qed.

(** ** The chip constructor *)

Lemma bind_Ok {A B : Type} (m : result A) (k : A -> result B) (b : B) :
  bind m k = Ok b -> exists a : A, m = Ok a /\ k a = Ok b.
Proof. destruct m; cbn; try discriminate. intros H. eauto. Qed.

Ltac bind_inv H :=
  let a := fresh "v" in
  let Ha := fresh "E" in
  apply bind_Ok in H; destruct H as (a & Ha & H).

(** The setters of the constructor assign while the chip is not static. *)
Lemma set_io_power_open (self : Chip.t) (value : R) :
  Chip.static self = false ->
  Chip.set_io_power self value = (0%Z, Chip.with_io_power (Some value) self).
Proof. intros H. unfold Chip.set_io_power. now rewrite H. Qed.

Lemma set_total_power_open (self : Chip.t) (value : R) :
  Chip.static self = false ->
  Chip.set_total_power self value = (0%Z, Chip.with_total_power (Some value) self).
Proof. intros H. unfold Chip.set_total_power. now rewrite H. Qed.

Lemma set_self_true_yield_open (self : Chip.t) (value : R) :
  Chip.static self = false ->
  Chip.set_self_true_yield self value = (0%Z, Chip.with_self_true_yield (Some value) self).
Proof. intros H. unfold Chip.set_self_true_yield. now rewrite H. Qed.

Lemma set_self_test_yield_open (self : Chip.t) (value : R) :
  Chip.static self = false ->
  Chip.set_self_test_yield self value = (0%Z, Chip.with_self_test_yield (Some value) self).
Proof. intros H. unfold Chip.set_self_test_yield. now rewrite H. Qed.

Lemma set_self_quality_open (self : Chip.t) (value : R) :
  Chip.static self = false ->
  Chip.set_self_quality self value = (0%Z, Chip.with_self_quality (Some value) self).
Proof. intros H. unfold Chip.set_self_quality. now rewrite H. Qed.

Lemma set_chip_true_yield_open (self : Chip.t) (value : R) :
  Chip.static self = false ->
  Chip.set_chip_true_yield self value = (0%Z, Chip.with_chip_true_yield (Some value) self).
Proof. intros H. unfold Chip.set_chip_true_yield. now rewrite H. Qed.

Lemma set_chip_test_yield_open (self : Chip.t) (value : R) :
  Chip.static self = false ->
  Chip.set_chip_test_yield self value = (0%Z, Chip.with_chip_test_yield (Some value) self).
Proof. intros H. unfold Chip.set_chip_test_yield. now rewrite H. Qed.

Lemma set_quality_open (self : Chip.t) (value : R) :
  Chip.static self = false ->
  Chip.set_quality self value = (0%Z, Chip.with_quality (Some value) self).
Proof. intros H. unfold Chip.set_quality. now rewrite H. Qed.

Lemma set_self_cost_open (self : Chip.t) (value : R) :
  Chip.static self = false ->
  Chip.set_self_cost self value = (0%Z, Chip.with_self_cost (Some value) self).
Proof. intros H. unfold Chip.set_self_cost. now rewrite H. Qed.

Lemma set_cost_open (self : Chip.t) (value : R) :
  Chip.static self = false ->
  Chip.set_cost self value = (0%Z, Chip.with_cost (Some value) self).
Proof. intros H. unfold Chip.set_cost. now rewrite H. Qed.

Lemma set_stack_power_eq (self : Chip.t) (value : R) :
  Chip.set_stack_power self value
  = (stack_power <- Chip.compute_stack_power self ;;
     Ok (0%Z, Chip.with_stack_power (Some stack_power) self)).
Proof. reflexivity. Qed.

Lemma set_area_eq (self : Chip.t) :
  Chip.set_area self
  = (area <- Chip.compute_area self ;;
     Ok (0%Z, Chip.with_area (Some area) self)).
Proof. reflexivity. Qed.

Lemma set_nre_design_cost_eq (self : Chip.t) :
  Chip.set_nre_design_cost self
  = Ok (0%Z, Chip.with_nre_design_cost
               (Some (Chip.compute_nre_design_cost self)) self).
Proof. reflexivity. Qed.

Ltac open_setter H Hstatic :=
  match type of H with
  | context [?set ?s ?v] =>
      lazymatch type of (set s v) with
      | (Z * Chip.t)%type => idtac
      end;
      first
        [ rewrite (set_io_power_open s v) in H by exact Hstatic
        | rewrite (set_total_power_open s v) in H by exact Hstatic
        | rewrite (set_self_true_yield_open s v) in H by exact Hstatic
        | rewrite (set_self_test_yield_open s v) in H by exact Hstatic
        | rewrite (set_self_quality_open s v) in H by exact Hstatic
        | rewrite (set_chip_true_yield_open s v) in H by exact Hstatic
        | rewrite (set_chip_test_yield_open s v) in H by exact Hstatic
        | rewrite (set_quality_open s v) in H by exact Hstatic
        | rewrite (set_self_cost_open s v) in H by exact Hstatic
        | rewrite (set_cost_open s v) in H by exact Hstatic ]
  end.

Lemma init_yield_and_cost_inv (fuel : nat) (rnd : random_source)
    (static : bool) (self c : Chip.t) (seed seed' : nat) :
  Chip.static self = false ->
  Chip.init_yield_and_cost fuel rnd static self seed = Ok (c, seed') ->
  exists (y ty q sc v : R) (seed1 : nat),
    let self1 := Chip.with_chip_true_yield (Some y) self in
    let self2 := Chip.with_chip_test_yield (Some ty) self1 in
    let self3 := Chip.with_quality (Some q) self2 in
    let self4 := Chip.with_self_cost (Some sc) self3 in
    Chip.compute_chip_yield self = Ok y
    /\ Chip.Test_compute_assembly_test_yield (Chip.test_process self) self1
       = Ok ty
    /\ Chip.Test_compute_assembly_quality (Chip.test_process self) self2
       = Ok q
    /\ Chip.compute_self_cost fuel rnd self3 seed = Ok (sc, seed1)
    /\ Chip.compute_cost rnd self4 seed1 = Ok (v, seed')
    /\ c = Chip.with_static static (Chip.with_cost (Some v) self4).
Proof.
  intros Hs H. unfold Chip.init_yield_and_cost in H.
  bind_inv H. open_setter H Hs.
  bind_inv H. open_setter H Hs.
  bind_inv H. open_setter H Hs.
  bind_inv H. destruct v2 as [sc seed1]. open_setter H Hs.
  bind_inv H. destruct v2 as [v2 seed2]. open_setter H Hs.
  injection H as <- <-.
  exists v, v0, v1, sc, v2, seed1. cbv zeta.
  repeat split; assumption.
Qed.

Lemma init_self_metrics_static (self self' : Chip.t) :
  Chip.static self = false ->
  Chip.init_self_metrics self = Ok self' ->
  Chip.static self' = false.
Proof.
  intros Hs H. unfold Chip.init_self_metrics in H.
  bind_inv H. bind_inv H. destruct v0 as [z self1].
  rewrite set_stack_power_eq in E0. bind_inv E0. injection E0 as <- <-.
  bind_inv H. open_setter H Hs.
  bind_inv H. open_setter H Hs.
  bind_inv H. destruct v3 as [z self1].
  rewrite set_nre_design_cost_eq in E3. injection E3 as <- <-.
  bind_inv H. destruct v3 as [z self1].
  rewrite set_area_eq in E3. bind_inv E3. injection E3 as <- <-.
  bind_inv H. open_setter H Hs.
  bind_inv H. open_setter H Hs.
  bind_inv H. open_setter H Hs.
  injection H as <-. exact Hs.
Qed.

(** The yield and the cost of a chip do not read the attributes the
    constructor assigns after them. *)
Lemma compute_chip_yield_frame (self : Chip.t) (static : bool)
    (y ty q sc v : option R) :
  Chip.compute_chip_yield
    (Chip.with_static static
       (Chip.with_cost v
          (Chip.with_self_cost sc
             (Chip.with_quality q
                (Chip.with_chip_test_yield ty
                   (Chip.with_chip_true_yield y self))))))
  = Chip.compute_chip_yield self.
Proof. destruct self. reflexivity. Qed.

Lemma compute_cost_frame (rnd : random_source) (self : Chip.t)
    (static : bool) (v : option R) (seed : nat) :
  Chip.compute_cost rnd (Chip.with_static static (Chip.with_cost v self)) seed
  = Chip.compute_cost rnd self seed.
Proof. destruct self. reflexivity. Qed.

(** On the chip the constructor returns, the stored true yield and the
    stored cost are what [compute_chip_yield] and [compute_cost] give on
    that chip. *)
Lemma init_yield_and_cost_stored (fuel : nat) (rnd : random_source)
    (static : bool) (self c : Chip.t) (seed seed' : nat) :
  Chip.static self = false ->
  Chip.init_yield_and_cost fuel rnd static self seed = Ok (c, seed') ->
  (exists y : R,
      Chip.get_chip_true_yield c = Ok y /\ Chip.compute_chip_yield c = Ok y)
  /\ (exists (v : R) (seed1 : nat),
         Chip.get_cost c = Ok v
         /\ Chip.compute_cost rnd c seed1 = Ok (v, seed')).
Proof.
  intros Hs H.
  destruct (init_yield_and_cost_inv _ _ _ _ _ _ _ Hs H)
    as (y & ty & q & sc & v & seed1 & Hy & _ & _ & _ & Hv & ->).
  split.
  - exists y. split; [reflexivity |].
    rewrite compute_chip_yield_frame. exact Hy.
  - exists v, seed1. split; [reflexivity |].
    rewrite compute_cost_frame. exact Hv.
Qed.

Lemma build_inv (fuel : nat) (rnd : random_source) (root : Element.t)
    (parent_chip : option Assembly.t)
    (wafer_process_list : list WaferProcess.t)
    (assembly_process_list : list Assembly.t)
    (test_process_list : list Test.t) (layers : list Layer.t)
    (ios : list IO.t) (adjacency_matrix_definitions : list (string * matrix))
    (average_bandwidth_utilization : list (string * matrix))
    (block_names : list string) (static : bool) (seed seed' : nat)
    (c : Chip.t) :
  Chip.build fuel rnd root parent_chip wafer_process_list
    assembly_process_list test_process_list layers ios
    adjacency_matrix_definitions average_bandwidth_utilization block_names
    static seed = Ok (c, seed') ->
  exists (wafer_process : WaferProcess.t) (assembly_process : Assembly.t)
         (test_process : Test.t) (stackup : list Layer.t)
         (chips : list Chip.t) (seed1 : nat),
    Chip.init_self fuel rnd root parent_chip wafer_process assembly_process
      test_process stackup chips ios adjacency_matrix_definitions
      average_bandwidth_utilization block_names static seed1
    = Ok (c, seed').
Proof.
  intros H. destruct root. cbn [Chip.build] in H.
  do 4 bind_inv H.
  bind_inv H. destruct v3 as [chips seed1].
  eauto 10.
Qed.

Lemma init_self_inv (fuel : nat) (rnd : random_source)
    (attributes : Element.t) (parent_chip : option Assembly.t)
    (wafer_process : WaferProcess.t) (assembly_process : Assembly.t)
    (test_process : Test.t) (stackup : list Layer.t) (chips : list Chip.t)
    (ios : list IO.t) (adjacency_matrix_definitions : list (string * matrix))
    (average_bandwidth_utilization : list (string * matrix))
    (block_names : list string) (static : bool) (seed seed' : nat)
    (c : Chip.t) :
  Chip.init_self fuel rnd attributes parent_chip wafer_process
    assembly_process test_process stackup chips ios
    adjacency_matrix_definitions average_bandwidth_utilization block_names
    static seed = Ok (c, seed') ->
  exists self : Chip.t,
    Chip.static self = false
    /\ Chip.init_yield_and_cost fuel rnd static self seed = Ok (c, seed').
Proof.
  intros H. unfold Chip.init_self in H. bind_inv H.
  match type of H with
  | (if ?b then _ else _) = _ => destruct b; [discriminate |]
  end.
  bind_inv H. exists v0. split; [| exact H].
  eapply init_self_metrics_static; [| exact E0]. reflexivity.
Qed.

Lemma init_stored (fuel : nat) (rnd : random_source)
    (etree : option Element.t) (parent_chip : option Assembly.t)
    (catalogs : Catalogs.t) (static : bool) (seed seed' : nat) (c : Chip.t) :
  Chip.init fuel rnd etree parent_chip catalogs static seed = Ok (c, seed') ->
  (exists y : R,
      Chip.get_chip_true_yield c = Ok y /\ Chip.compute_chip_yield c = Ok y)
  /\ (exists (v : R) (seed1 : nat),
         Chip.get_cost c = Ok v
         /\ Chip.compute_cost rnd c seed1 = Ok (v, seed')).
Proof.
  intros H. unfold Chip.init in H.
  do 8 bind_inv H.
  destruct etree as [root |]; [| discriminate].
  apply build_inv in H.
  destruct H as (wp & ap & tp & stackup & chips & seed1 & H).
  apply init_self_inv in H. destruct H as (self & Hs & H).
  eapply init_yield_and_cost_stored; eassumption.
Qed.

Lemma py_div_Ok (x y v : R) : py_div x y = Ok v -> y <> 0 /\ v = x / y.
Proof.
  unfold py_div, Reqb. destruct (Req_dec_T y 0); [discriminate |].
  intros [= <-]. auto.
Qed.

Lemma py_sqrt_Ok (x v : R) : py_sqrt x = Ok v -> 0 <= x /\ v = sqrt x.
Proof.
  unfold py_sqrt, Rltb. destruct (Rlt_dec x 0); [discriminate |].
  intros [= <-]. split; [lra | reflexivity].
Qed.

Lemma product_quality_spec (chips : list Chip.t) :
  forall (acc v : R),
    Chip.product_quality chips acc = Ok v ->
    exists qs : list R,
      Forall2 (fun chip q => Chip.get_quality chip = Ok q) chips qs
      /\ v = fold_left Rmult qs acc.
Proof.
  induction chips as [| chip rest IH]; intros acc v H.
  - injection H as <-. exists []. split; [constructor | reflexivity].
  - cbn [Chip.product_quality] in H. bind_inv H.
    destruct (IH _ _ H) as (qs & Hall & ->).
    exists (v0 :: qs). split; [constructor; assumption | reflexivity].
Qed.

Lemma expandedArea_Ok (area aspect_ratio v : R) (border : option R) :
  Chip.expandedArea area border aspect_ratio = Ok v ->
  exists b : R,
    border = Some b /\ 0 <= area * aspect_ratio /\ aspect_ratio <> 0
    /\ 0 <= area / aspect_ratio
    /\ v = (sqrt (area * aspect_ratio) + 2 * b)
           * (sqrt (area / aspect_ratio) + 2 * b).
Proof.
  intros H. unfold Chip.expandedArea in H.
  bind_inv H. apply py_sqrt_Ok in E as [H1 ->].
  bind_inv H. apply py_div_Ok in E as [H2 ->].
  bind_inv H. apply py_sqrt_Ok in E as [H3 ->].
  bind_inv H. destruct border as [b |]; [| discriminate].
  injection E as <-. injection H as <-.
  exists b. auto.
Qed.

Lemma sqrt_aspect (a r : R) :
  0 < r -> 0 <= a -> sqrt (a * r) * sqrt (a / r) = a.
Proof.
  intros Hr Ha.
  rewrite <- sqrt_mult_alt by nra.
  replace (a * r * (a / r)) with (a * a) by (field; lra).
  now apply sqrt_square.
Qed.

(** With no separation between the dies and no edge exclusion, the stacked
    die area of a chip with one child that is not buried is the area of the
    child. *)
Lemma stacked_die_area_single_child (self child : Chip.t) (sda : R) :
  Chip.chips self = [child] ->
  Chip.get_stacked_die_area self = Ok sda ->
  Assembly.die_separation (Chip.assembly_process self) = Some 0 ->
  Assembly.edge_exclusion (Chip.assembly_process self) = Some 0 ->
  Chip.buried child = false ->
  0 < Chip.aspect_ratio child ->
  Chip.get_area child = Ok sda.
Proof.
  intros Hchips H Hsep Hedge Hburied Hratio.
  unfold Chip.get_stacked_die_area in H. rewrite Hchips in H.
  cbn [Chip.stack_dies] in H. unfold Chip.get_buried in H.
  rewrite Hburied in H. cbn [negb] in H.
  apply bind_Ok in H as (s & Hs & H).
  apply bind_Ok in Hs as (a & Ha & Hs).
  apply bind_Ok in Hs as (ds & Hds & Hs).
  apply bind_Ok in Hs as (e & He & Hs).
  cbn [Chip.stack_dies] in Hs. injection Hs as <-.
  rewrite Hsep in Hds. injection Hds as <-.
  rewrite Ha. f_equal.
  apply expandedArea_Ok in He.
  destruct He as (b & [= <-] & H1 & H2 & H3 & ->).
  unfold Chip.get_aspect_ratio in *.
  assert (Ha0 : 0 <= a) by nra.
  apply expandedArea_Ok in H.
  destruct H as (b & Hb & H4 & H5 & H6 & ->).
  rewrite Hedge in Hb. injection Hb as <-.
  replace (0 + (sqrt (a * Chip.aspect_ratio child) + 2 * (0 / 2))
               * (sqrt (a / Chip.aspect_ratio child) + 2 * (0 / 2)))
    with a.
  - replace (a * 1) with a by ring. replace (a / 1) with a by field.
    rewrite !Rmult_0_r, !Rplus_0_r. symmetry. now apply sqrt_sqrt.
  - replace (0 / 2) with 0 by field.
    rewrite !Rmult_0_r, !Rplus_0_r, Rplus_0_l.
    symmetry. now apply sqrt_aspect.
Qed.

(** C2 (amended): on a chip the constructor returns with exactly one child,
    that child being a leaf, and no IO connections in the global adjacency
    model, [get_cost()] is [(self_cost + child.cost + assembly_cost(1,
    stacked_die_area) + assembly_test_cost) / chip_test_yield], where
    [stacked_die_area] is [get_stacked_die_area()] and [assembly_test_cost]
    is what [compute_assembly_test_cost] returned in the constructor; the
    latter is 0 when the assembly test is disabled, and the former is the
    area of the child when the die separation and the edge exclusion of the
    assembly process are 0, the child is not buried and its aspect ratio is
    positive. *)
Theorem single_child_cost (fuel : nat) (rnd : random_source)
    (etree : option Element.t) (parent_chip : option Assembly.t)
    (catalogs : Catalogs.t) (static : bool) (seed seed' : nat)
    (c child : Chip.t) :
  Chip.init fuel rnd etree parent_chip catalogs static seed = Ok (c, seed') ->
  Chip.get_chips c = [child] ->
  Chip.get_chips child = [] ->
  Chip.global_adjacency_matrix c = [] ->
  exists (self_cost child_cost stacked_die_area assembly_cost
            assembly_test_cost chip_test_yield : R) (seed1 : nat),
    Chip.get_self_cost c = Ok self_cost
    /\ Chip.get_cost child = Ok child_cost
    /\ Chip.get_stacked_die_area c = Ok stacked_die_area
    /\ Assembly.assembly_cost (Chip.assembly_process c) 1 stacked_die_area
       = Ok assembly_cost
    /\ Chip.Test_compute_assembly_test_cost rnd (Chip.test_process c) c seed1
       = Ok (assembly_test_cost, seed')
    /\ Chip.get_chip_test_yield c = Ok chip_test_yield
    /\ Chip.get_cost c
       = Ok ((self_cost + child_cost + assembly_cost + assembly_test_cost)
             / chip_test_yield)
    /\ (Test.test_assembly (Chip.test_process c) = false ->
        assembly_test_cost = 0)
    /\ (Assembly.die_separation (Chip.assembly_process c) = Some 0 ->
        Assembly.edge_exclusion (Chip.assembly_process c) = Some 0 ->
        Chip.buried child = false ->
        0 < Chip.aspect_ratio child ->
        Chip.get_area child = Ok stacked_die_area).
Proof.
  intros H Hchips Hleaf Hio. unfold Chip.get_chips in Hchips.
  apply init_stored in H. destruct H as [_ (v & seed1 & Hget & Hv)].
  unfold Chip.compute_cost in Hv.
  apply bind_Ok in Hv as (self_cost & Hself & Hv).
  apply bind_Ok in Hv as (stack_cost & Hstack & Hv).
  apply bind_Ok in Hv as (sda & Hsda & Hv).
  apply bind_Ok in Hv as (ac & Hac & Hv).
  apply bind_Ok in Hv as ([atc seed2] & Hatc & Hv).
  apply bind_Ok in Hv as (cty & Hcty & Hv).
  apply bind_Ok in Hv as (cost & Hcost & Hv).
  injection Hv as <- <-.
  rewrite Hchips in Hstack. cbn [Chip.sum_cost] in Hstack.
  apply bind_Ok in Hstack as (child_cost & Hchild & Hstack).
  injection Hstack as <-.
  unfold Chip.get_chips_len in Hac. rewrite Hchips in Hac.
  change (IZR (Z.of_nat (List.length [child]))) with 1 in Hac.
  apply py_div_Ok in Hcost as [Hnz ->].
  unfold Chip.get_test_process in Hatc.
  exists self_cost, child_cost, sda, ac, atc, cty, seed1.
  repeat (split; [assumption |]).
  split; [| split].
  - rewrite Hget. f_equal. unfold Rdiv. ring.
  - intros Hoff. unfold Chip.Test_compute_assembly_test_cost in Hatc.
    rewrite Hoff in Hatc. now injection Hatc as <- _.
  - intros Hsep Hedge Hburied Hratio.
    eapply stacked_die_area_single_child; eassumption.
Qed.

(** ** Running the constructor on a black box without IO *)

Lemma py_ceil_unique (x : R) (z : Z) : IZR z - 1 < x <= IZR z -> py_ceil x = z.
Proof.
  intros [H1 H2]. unfold py_ceil.
  rewrite (py_floor_unique (- x) (- z)); [lia |].
  rewrite opp_IZR. lra.
Qed.

Lemma Rpower_1_base (y : R) : Rpower 1 y = 1.
Proof. unfold Rpower. rewrite ln_1, Rmult_0_r. apply exp_0. Qed.

Lemma expandedArea_unit_ratio (area border : R) :
  0 <= area ->
  Chip.expandedArea area (Some border) 1
  = Ok ((sqrt area + 2 * border) * (sqrt area + 2 * border)).
Proof.
  intros Ha. unfold Chip.expandedArea.
  rewrite py_sqrt_ok by lra. cbn [bind].
  rewrite py_div_ok by lra. cbn [bind].
  rewrite py_sqrt_ok by (unfold Rdiv; rewrite Rinv_1; lra). cbn [bind num].
  replace (area * 1) with area by ring.
  replace (area / 1) with area by field.
  reflexivity.
Qed.

Lemma get_signal_power_frame (self : Chip.t) (v : option R) :
  Chip.get_signal_power (Chip.with_stack_power v self)
    (Chip.get_chip_list (Chip.with_stack_power v self))
  = Chip.get_signal_power self (Chip.get_chip_list self).
Proof. destruct self. reflexivity. Qed.

Lemma init_self_metrics_black_box (self : Chip.t)
    (a p q sp iop total nre : R) :
  Chip.static self = false ->
  Chip.get_signal_power self (Chip.get_chip_list self) = Ok iop ->
  Chip.bb_area self = Some a ->
  Chip.bb_power self = Some p ->
  Chip.bb_quality self = Some q ->
  Chip.stackup self = [] ->
  Test.test_self (Chip.test_process self) = false ->
  Chip.compute_stack_power self = Ok sp ->
  total = p + sp ->
  nre = Chip.compute_nre_design_cost self ->
  Chip.init_self_metrics self
  = Ok (Chip.with_self_quality (Some q)
         (Chip.with_self_test_yield (Some 1)
           (Chip.with_self_true_yield (Some 1)
             (Chip.with_area (Some a)
               (Chip.with_nre_design_cost (Some nre)
                 (Chip.with_total_power (Some total)
                   (Chip.with_io_power (Some iop)
                     (Chip.with_stack_power (Some sp) self)))))))).
Proof.
  intros Hs Hio Ha Hp Hq Hst Hts Hsp -> ->.
  unfold Chip.init_self_metrics.
  rewrite Hsp. cbn [bind].
  rewrite set_stack_power_eq, Hsp. cbn [bind].
  rewrite get_signal_power_frame, Hio. cbn [bind].
  rewrite set_io_power_open by exact Hs.
  match goal with
  | |- context [Chip.bb_power ?s] =>
      replace (Chip.bb_power s) with (Some p) by (symmetry; exact Hp)
  end.
  cbn [bind Chip.get_stack_power attr Chip.stack_power Chip.with_io_power
       Chip.with_stack_power].
  rewrite set_total_power_open by exact Hs.
  rewrite set_nre_design_cost_eq. cbn [bind].
  rewrite set_area_eq. unfold Chip.compute_area at 1.
  match goal with
  | |- context [Chip.bb_area ?s] =>
      replace (Chip.bb_area s) with (Some a) by (symmetry; exact Ha)
  end.
  cbn [bind].
  unfold Chip.compute_layer_aware_yield at 1.
  match goal with
  | |- context [Chip.stackup ?s] =>
      replace (Chip.stackup s) with (@nil Layer.t) by (symmetry; exact Hst)
  end.
  cbn [bind Chip.layers_yield].
  rewrite set_self_true_yield_open by exact Hs.
  unfold Chip.Test_compute_self_test_yield at 1.
  match goal with
  | |- context [Test.test_self ?t] =>
      replace (Test.test_self t) with false by (symmetry; exact Hts)
  end.
  cbn [bind].
  rewrite set_self_test_yield_open by exact Hs.
  match goal with
  | |- context [Chip.bb_quality ?s] =>
      replace (Chip.bb_quality s) with (Some q) by (symmetry; exact Hq)
  end.
  cbn [bind].
  rewrite set_self_quality_open by exact Hs.
  reflexivity.
Qed.

Lemma init_yield_and_cost_run (fuel : nat) (rnd : random_source)
    (static : bool) (self : Chip.t) (seed seed1 seed' : nat)
    (y ty q sc v : R) :
  Chip.static self = false ->
  let self1 := Chip.with_chip_true_yield (Some y) self in
  let self2 := Chip.with_chip_test_yield (Some ty) self1 in
  let self3 := Chip.with_quality (Some q) self2 in
  let self4 := Chip.with_self_cost (Some sc) self3 in
  Chip.compute_chip_yield self = Ok y ->
  Chip.Test_compute_assembly_test_yield (Chip.test_process self) self1
  = Ok ty ->
  Chip.Test_compute_assembly_quality (Chip.test_process self) self2 = Ok q ->
  Chip.compute_self_cost fuel rnd self3 seed = Ok (sc, seed1) ->
  Chip.compute_cost rnd self4 seed1 = Ok (v, seed') ->
  Chip.init_yield_and_cost fuel rnd static self seed
  = Ok (Chip.with_static static (Chip.with_cost (Some v) self4), seed').
Proof.
  intros Hs self1 self2 self3 self4 Hy Hty Hq Hsc Hv.
  unfold Chip.init_yield_and_cost.
  rewrite Hy. cbn [bind].
  rewrite set_chip_true_yield_open by exact Hs.
  unfold Chip.get_test_process.
  change (Chip.test_process (Chip.with_chip_true_yield (Some y) self))
    with (Chip.test_process self).
  fold self1. rewrite Hty. cbn [bind].
  rewrite set_chip_test_yield_open by exact Hs.
  change (Chip.test_process (Chip.with_chip_test_yield (Some ty) self1))
    with (Chip.test_process self).
  fold self2. rewrite Hq. cbn [bind].
  rewrite set_quality_open by exact Hs.
  fold self3. rewrite Hsc. cbn [bind].
  rewrite set_self_cost_open by exact Hs.
  fold self4. rewrite Hv. cbn [bind].
  rewrite set_cost_open by exact Hs.
  reflexivity.
Qed.

Lemma compute_chip_yield_run (self : Chip.t) (sq qy nb sda ay y : R) :
  Chip.get_self_quality self = Ok sq ->
  Chip.quality_yield self = Ok qy ->
  Chip.get_chips_signal_count self = Ok nb ->
  Chip.get_stacked_die_area self = Ok sda ->
  Assembly.assembly_yield (Chip.assembly_process self)
    (IZR (Chip.get_chips_len self)) nb sda = Ok ay ->
  y = sq * (qy * ay * Chip.get_wafer_process_yield self) ->
  Chip.compute_chip_yield self = Ok y.
Proof.
  intros H1 H2 H3 H4 H5 ->. unfold Chip.compute_chip_yield.
  rewrite H1, H2, H3, H4. cbn [bind]. rewrite H5. reflexivity.
Qed.

Lemma compute_cost_run (rnd : random_source) (self : Chip.t)
    (seed seed' : nat) (sc stc sda ac atc cty v : R) :
  Chip.get_self_cost self = Ok sc ->
  Chip.sum_cost (Chip.chips self) 0 = Ok stc ->
  Chip.get_stacked_die_area self = Ok sda ->
  Assembly.assembly_cost (Chip.assembly_process self)
    (IZR (Chip.get_chips_len self)) sda = Ok ac ->
  Chip.Test_compute_assembly_test_cost rnd (Chip.test_process self) self seed
  = Ok (atc, seed') ->
  Chip.get_chip_test_yield self = Ok cty ->
  cty <> 0 ->
  v = (sc + stc + ac + atc) / cty ->
  Chip.compute_cost rnd self seed = Ok (v, seed').
Proof.
  intros H1 H2 H3 H4 H5 H6 H7 ->. unfold Chip.compute_cost.
  rewrite H1, H2, H3. cbn [bind]. rewrite H4. cbn [bind].
  unfold Chip.get_test_process. rewrite H5. cbn [bind].
  rewrite H6. cbn [bind]. rewrite py_div_ok by assumption. reflexivity.
Qed.

Lemma assembly_test_yield_run (self : Test.t) (chip : Chip.t) (y v : R) :
  Test.test_assembly self = true ->
  Chip.get_chip_true_yield chip = Ok y ->
  v = 1 - (1 - y) * Test.assembly_defect_coverage self ->
  Chip.Test_compute_assembly_test_yield self chip = Ok v.
Proof.
  intros Hon Hy ->. unfold Chip.Test_compute_assembly_test_yield.
  now rewrite Hy, Hon.
Qed.

Lemma assembly_quality_run (self : Test.t) (chip : Chip.t) (y ty v : R) :
  Chip.get_chip_true_yield chip = Ok y ->
  Chip.get_chip_test_yield chip = Ok ty ->
  ty <> 0 ->
  v = y / ty ->
  Chip.Test_compute_assembly_quality self chip = Ok v.
Proof.
  intros Hy Hty Hnz ->. unfold Chip.Test_compute_assembly_quality.
  rewrite Hy, Hty. cbn [bind]. now apply py_div_ok.
Qed.

Lemma self_cost_black_box (fuel : nat) (rnd : random_source) (self : Chip.t)
    (seed : nat) (bb_cost : R) :
  Chip.bb_cost self = Some bb_cost ->
  Chip.compute_self_cost fuel rnd self seed = Ok (bb_cost, seed).
Proof. intros H. unfold Chip.compute_self_cost. now rewrite H. Qed.

Lemma stacked_die_area_leaf (self : Chip.t) (edge v : R) :
  Chip.chips self = [] ->
  Assembly.edge_exclusion (Chip.assembly_process self) = Some edge ->
  v = 4 * edge * edge ->
  Chip.get_stacked_die_area self = Ok v.
Proof.
  intros Hchips Hedge ->. unfold Chip.get_stacked_die_area.
  rewrite Hchips, Hedge. cbn [Chip.stack_dies bind].
  rewrite expandedArea_unit_ratio by lra. rewrite sqrt_0. f_equal. ring.
Qed.

Lemma stacked_die_area_one (self child : Chip.t) (a sep edge v : R) :
  Chip.chips self = [child] ->
  Chip.buried child = false ->
  Chip.aspect_ratio child = 1 ->
  Chip.get_area child = Ok a ->
  0 <= a ->
  Assembly.die_separation (Chip.assembly_process self) = Some sep ->
  0 <= sep ->
  Assembly.edge_exclusion (Chip.assembly_process self) = Some edge ->
  v = (sqrt a + sep + 2 * edge) * (sqrt a + sep + 2 * edge) ->
  Chip.get_stacked_die_area self = Ok v.
Proof.
  intros Hchips Hburied Hratio Ha Ha0 Hsep Hsep0 Hedge ->.
  unfold Chip.get_stacked_die_area.
  rewrite Hchips, Hedge. cbn [Chip.stack_dies].
  unfold Chip.get_buried, Chip.get_aspect_ratio.
  rewrite Hburied, Hratio, Ha, Hsep. cbn [negb bind num].
  rewrite expandedArea_unit_ratio by assumption. cbn [bind].
  assert (Hs : 0 <= sqrt a) by apply sqrt_pos.
  replace (0 + (sqrt a + 2 * (sep / 2)) * (sqrt a + 2 * (sep / 2)))
    with ((sqrt a + sep) * (sqrt a + sep)) by field.
  rewrite expandedArea_unit_ratio by nra.
  rewrite sqrt_square by lra. reflexivity.
Qed.

(** The assembly process of the example. *)
Lemma unit_assembly_yield (n m a : R) :
  Assembly.assembly_yield unit_assembly n m a = Ok 1.
Proof.
  rewrite (assembly_yield_eval unit_assembly 1 1 0) by (reflexivity || lra).
  f_equal. rewrite !Rpower_1_base. ring.
Qed.

Lemma unit_assembly_cost (z : Z) (a : R) :
  Assembly.assembly_cost unit_assembly (IZR z) a = Ok (IZR z + IZR z + a).
Proof.
  unfold Assembly.assembly_cost, Assembly.get_picknplace_cost_per_second,
    Assembly.get_bonding_cost_per_second, Assembly.compute_picknplace_time,
    Assembly.compute_bonding_time.
  cbn [unit_assembly Assembly.picknplace_cost_per_second
       Assembly.bonding_cost_per_second Assembly.picknplace_group
       Assembly.bonding_group Assembly.picknplace_time Assembly.bonding_time
       Assembly.materials_cost_per_mm2 numZ num bind].
  rewrite py_div_ok by lra. cbn [bind].
  rewrite (py_ceil_unique (IZR z / 1) z)
    by (unfold Rdiv; rewrite Rinv_1, Rmult_1_r; lra).
  f_equal. ring.
Qed.

Lemma assembly_test_cost_gauss (rnd : random_source) (self : Test.t)
    (chip : Chip.t) (seed : nat) (y : R) :
  Test.test_assembly self = true ->
  Test.assembly_test_failure_dist self = 1%Z ->
  Chip.get_chip_true_yield chip = Ok y ->
  Chip.Test_compute_assembly_test_cost rnd self chip seed
  = Ok (rnd seed
        * (Chip.sum_core_area (Chip.chips chip) (Chip.core_area chip)
           * Test.assembly_test_cost_per_mm2 self
           * IZR (Test.assembly_pattern_count self)), S seed).
Proof.
  intros Hon Hdist Hy. unfold Chip.Test_compute_assembly_test_cost.
  rewrite Hon, Hdist, Hy. reflexivity.
Qed.

(** ** The example: a die on a package *)

Lemma build_leaf (fuel : nat) (rnd : random_source) (root : Element.t)
    (parent_chip : option Assembly.t)
    (wafer_process_list : list WaferProcess.t)
    (assembly_process_list : list Assembly.t)
    (test_process_list : list Test.t) (layers : list Layer.t)
    (ios : list IO.t) (adjacency_matrix_definitions : list (string * matrix))
    (average_bandwidth_utilization : list (string * matrix))
    (block_names : list string) (static : bool) (seed : nat) :
  Element.children root = [] ->
  Chip.build fuel rnd root parent_chip wafer_process_list
    assembly_process_list test_process_list layers ios
    adjacency_matrix_definitions average_bandwidth_utilization block_names
    static seed
  = (wafer_process <-
       Chip.find_wafer_process (Element.wafer_process root)
                               wafer_process_list ;;
     assembly_process <-
       Chip.find_assembly_process (Element.assembly_process root)
                                  assembly_process_list ;;
     test_process <-
       Chip.find_test_process (Element.test_process root)
                              test_process_list ;;
     stackup <- Chip.build_stackup (Element.stackup root) layers ;;
     Chip.init_self fuel rnd root parent_chip wafer_process assembly_process
       test_process stackup [] ios adjacency_matrix_definitions
       average_bandwidth_utilization block_names static seed).
Proof.
  destruct root. cbn [Element.children]. intros ->. reflexivity.
Qed.

Lemma build_single (fuel : nat) (rnd : random_source)
    (root chip_def : Element.t) (parent_chip : option Assembly.t)
    (wafer_process_list : list WaferProcess.t)
    (assembly_process_list : list Assembly.t)
    (test_process_list : list Test.t) (layers : list Layer.t)
    (ios : list IO.t) (adjacency_matrix_definitions : list (string * matrix))
    (average_bandwidth_utilization : list (string * matrix))
    (block_names : list string) (static : bool) (seed : nat) :
  Element.children root = [chip_def] ->
  Chip.contains "chip" (Element.tag chip_def) = true ->
  Chip.build fuel rnd root parent_chip wafer_process_list
    assembly_process_list test_process_list layers ios
    adjacency_matrix_definitions average_bandwidth_utilization block_names
    static seed
  = (wafer_process <-
       Chip.find_wafer_process (Element.wafer_process root)
                               wafer_process_list ;;
     assembly_process <-
       Chip.find_assembly_process (Element.assembly_process root)
                                  assembly_process_list ;;
     test_process <-
       Chip.find_test_process (Element.test_process root)
                              test_process_list ;;
     stackup <- Chip.build_stackup (Element.stackup root) layers ;;
     '(chip, seed) <-
       Chip.build fuel rnd chip_def (Some assembly_process)
         wafer_process_list assembly_process_list test_process_list layers
         ios adjacency_matrix_definitions average_bandwidth_utilization
         block_names static seed ;;
     Chip.init_self fuel rnd root parent_chip wafer_process assembly_process
       test_process stackup [chip] ios adjacency_matrix_definitions
       average_bandwidth_utilization block_names static seed).
Proof.
  destruct root. cbn [Element.children]. intros -> Htag.
  cbn [Chip.build Element.children].
  destruct (Chip.find_wafer_process _ _); try reflexivity. cbn [bind].
  destruct (Chip.find_assembly_process _ _); try reflexivity. cbn [bind].
  destruct (Chip.find_test_process _ _); try reflexivity. cbn [bind].
  destruct (Chip.build_stackup _ _); try reflexivity. cbn [bind].
  rewrite Htag.
  destruct (Chip.build _ _ _ _ _ _ _ _ _ _ _ _ _ _) as [[chip seed1] | | |];
    reflexivity.
Qed.

Lemma die_built :
  Chip.build 0 ones die_element (Some unit_assembly) [unit_wafer_process]
    [unit_assembly] [unit_test] [] [] [] [] [] true 0
  = Ok (die_chip, 1%nat).
Proof.
  rewrite build_leaf by reflexivity.
  change (Chip.find_wafer_process (Element.wafer_process die_element)
            [unit_wafer_process]) with (Ok unit_wafer_process).
  cbn [bind].
  change (Chip.find_assembly_process (Element.assembly_process die_element)
            [unit_assembly]) with (Ok unit_assembly).
  cbn [bind].
  change (Chip.find_test_process (Element.test_process die_element)
            [unit_test]) with (Ok unit_test).
  cbn [bind].
  change (Chip.build_stackup (Element.stackup die_element) [])
    with (Ok (@nil Layer.t)).
  cbn [bind].
  unfold Chip.init_self.
  change (String.eqb (Element.buried die_element) "True") with false.
  change (String.eqb (Element.buried die_element) "False") with true.
  cbn [bind].
  match goal with
  | |- context [String.eqb (Chip.name ?s) ""] =>
      change (String.eqb (Chip.name s) "") with false
  end.
  cbv iota.
  match goal with
  | |- context [Chip.init_self_metrics ?s] => set (self0 := s)
  end.
  rewrite (init_self_metrics_black_box self0 1 0 1 0 0 0 0);
    try reflexivity;
    [| lra
     | unfold Chip.compute_nre_design_cost, Chip.compute_nre_front_end_cost,
         Chip.compute_nre_back_end_cost; cbn; ring ].
  cbn [bind].
  match goal with
  | |- context [Chip.init_yield_and_cost _ _ _ ?s _] => set (self1 := s)
  end.
  rewrite (init_yield_and_cost_run 0 ones true self1 0 0 1 1 1 1 1 2);
    try reflexivity.
  - apply (compute_chip_yield_run self1 1 1 0 0 1); try reflexivity.
    + apply (stacked_die_area_leaf self1 0); [reflexivity .. | ring].
    + apply unit_assembly_yield.
    + cbn. ring.
  - apply (assembly_test_yield_run _ _ 1); [reflexivity .. | cbn; ring].
  - apply (assembly_quality_run _ _ 1 1); [reflexivity .. | lra | field].
  - apply (compute_cost_run ones _ 0 1 1 0 0 0 1 1); try reflexivity.
    + apply (stacked_die_area_leaf _ 0); [reflexivity .. | ring].
    + change (Assembly.assembly_cost unit_assembly (IZR 0) 0 = Ok 0).
      rewrite (unit_assembly_cost 0 0). f_equal. ring.
    + rewrite (assembly_test_cost_gauss ones _ _ 0 1) by reflexivity.
      unfold ones. cbn. do 2 f_equal. ring.
    + lra.
    + field.
Qed.

Lemma package_built :
  Chip.init 0 ones (Some package_element) None unit_catalogs true 0
  = Ok (package_chip, 2%nat).
Proof.
  unfold Chip.init.
  cbn [unit_catalogs Catalogs.wafer_process_list
       Catalogs.assembly_process_list Catalogs.test_process_list
       Catalogs.layers Catalogs.ios Catalogs.adjacency_matrix_definitions
       Catalogs.average_bandwidth_utilization Catalogs.block_names
       Chip.required bind].
  rewrite (build_single _ _ package_element die_element) by reflexivity.
  change (Chip.find_wafer_process (Element.wafer_process package_element)
            [unit_wafer_process]) with (Ok unit_wafer_process).
  cbn [bind].
  change (Chip.find_assembly_process
            (Element.assembly_process package_element) [unit_assembly])
    with (Ok unit_assembly).
  cbn [bind].
  change (Chip.find_test_process (Element.test_process package_element)
            [unit_test]) with (Ok unit_test).
  cbn [bind].
  change (Chip.build_stackup (Element.stackup package_element) [])
    with (Ok (@nil Layer.t)).
  cbn [bind].
  rewrite die_built. cbn [bind].
  unfold Chip.init_self.
  change (String.eqb (Element.buried package_element) "True") with false.
  change (String.eqb (Element.buried package_element) "False") with true.
  cbn [bind].
  match goal with
  | |- context [String.eqb (Chip.name ?s) ""] =>
      change (String.eqb (Chip.name s) "") with false
  end.
  cbv iota.
  match goal with
  | |- context [Chip.init_self_metrics ?s] => set (self0 := s)
  end.
  rewrite (init_self_metrics_black_box self0 4 0 1 0 0 0 0);
    try reflexivity;
    [| change (Ok (0 + 0) = Ok 0); f_equal; ring
     | lra
     | unfold Chip.compute_nre_design_cost, Chip.compute_nre_front_end_cost,
         Chip.compute_nre_back_end_cost; cbn; ring ].
  cbn [bind].
  match goal with
  | |- context [Chip.init_yield_and_cost _ _ _ ?s _] => set (self1 := s)
  end.
  rewrite (init_yield_and_cost_run 0 ones true self1 1 1 2 1 1 1 1 8);
    try reflexivity.
  - apply (compute_chip_yield_run self1 1 1 0 1 1); try reflexivity.
    + change (Ok (1 * 1) = Ok 1). f_equal. ring.
    + change (Ok (0 + 0) = Ok 0). f_equal. ring.
    + apply (stacked_die_area_one self1 die_chip 1 0 0);
        try reflexivity; try lra.
      rewrite sqrt_1. ring.
    + apply unit_assembly_yield.
    + cbn. ring.
  - apply (assembly_test_yield_run _ _ 1); [reflexivity .. | cbn; ring].
  - apply (assembly_quality_run _ _ 1 1); [reflexivity .. | lra | field].
  - apply (compute_cost_run ones _ 1 2 1 2 1 3 2 1); try reflexivity.
    + change (Ok (0 + 2) = Ok 2). f_equal. ring.
    + apply (stacked_die_area_one _ die_chip 1 0 0);
        try reflexivity; try lra.
      rewrite sqrt_1. ring.
    + change (Assembly.assembly_cost unit_assembly (IZR 1) 1 = Ok 3).
      rewrite (unit_assembly_cost 1 1). f_equal. ring.
    + rewrite (assembly_test_cost_gauss ones _ _ 1 1) by reflexivity.
      unfold ones. cbn. do 2 f_equal. ring.
    + lra.
    + field.
Qed.

(** ** IO area *)

Lemma fold_left_Rplus (row : list R) :
  forall a : R, fold_left Rplus row a = a + fold_right Rplus 0 row.
Proof.
  induction row as [| x row IH]; intros a; cbn [fold_left fold_right].
  - ring.
  - rewrite IH. ring.
Qed.

Lemma sum_over_map (f : nat -> R) (blocks : list nat) :
  Spec.sum_over f blocks = fold_right Rplus 0 (map f blocks).
Proof.
  unfold Spec.sum_over.
  induction blocks as [| j blocks IH]; cbn; [reflexivity | now rewrite IH].
Qed.

Lemma map_nth_seq (row : list R) :
  map (fun j => nth j row 0) (seq 0 (List.length row)) = row.
Proof.
  induction row as [| x row IH]; [reflexivity |].
  cbn [List.length seq map nth]. f_equal.
  rewrite <- seq_shift, map_map. exact IH.
Qed.

Lemma py_sum_sum_over (row : list R) :
  py_sum row
  = Spec.sum_over (fun j => nth j row 0) (seq 0 (List.length row)).
Proof.
  unfold py_sum. rewrite fold_left_Rplus, sum_over_map, map_nth_seq. ring.
Qed.

Lemma sum_over_ext (f g : nat -> R) (blocks : list nat) :
  (forall j, In j blocks -> f j = g j) ->
  Spec.sum_over f blocks = Spec.sum_over g blocks.
Proof.
  unfold Spec.sum_over.
  induction blocks as [| j blocks IH]; intros H; cbn; [reflexivity |].
  rewrite (H j) by (left; reflexivity).
  rewrite IH; [reflexivity |]. intros k Hk. apply H. now right.
Qed.

Lemma sum_over_weighted (f g : nat -> R) (c d : R) (blocks : list nat) :
  Spec.sum_over (fun j => f j * c + g j * d) blocks
  = Spec.sum_over f blocks * c + Spec.sum_over g blocks * d.
Proof.
  unfold Spec.sum_over.
  induction blocks as [| j blocks IH]; cbn; [ring |]. rewrite IH. ring.
Qed.

Lemma first_index_bound (block_names : list string) (name : string) :
  forall i b : nat,
    Chip.first_index block_names name i = Some b ->
    (i <= b < i + List.length block_names)%nat.
Proof.
  induction block_names as [| x rest IH]; intros i b H; [discriminate |].
  cbn [Chip.first_index] in H. cbn [List.length].
  destruct (String.eqb x name).
  - injection H as <-. lia.
  - apply IH in H. lia.
Qed.

Lemma io_area_types_all_blocks (self : Chip.t) (block_index : nat) :
  (block_index < List.length (Chip.block_names self))%nat ->
  forall (adjacency : list (string * matrix)) (io_area : R),
    Forall (Spec.symmetric_at self block_index) adjacency ->
    Chip.io_area_types (Chip.io_list self) block_index adjacency io_area
    = Ok (io_area
          + fold_right
              (fun (tm : string * matrix) acc =>
                 match Spec.io_of self (fst tm) with
                 | Some io =>
                     Spec.sum_over
                       (fun j =>
                          Spec.entry (snd tm) block_index j * IO.tx_area io
                          + Spec.entry (snd tm) j block_index
                            * IO.rx_area io)
                       (Spec.all_blocks self)
                 | None => 0
                 end + acc)
              0 adjacency).
Proof.
  intros Hb. induction adjacency as [| [io_type m] rest IH];
    intros io_area Hall.
  - cbn. f_equal. ring.
  - inversion Hall as [| tm l Hm Hrest]; subst.
    destruct Hm as ((io & Hio) & Hlen & Hrows & Hsym).
    cbn [fst snd] in *.
    cbn [Chip.io_area_types fold_right fst snd].
    unfold Chip.item, Chip.whole.
    assert (Hsel : Chip.select_io (Chip.io_list self) io_type = Ok io).
    { unfold Chip.select_io. unfold Spec.io_of in Hio. now rewrite Hio. }
    rewrite Hsel.
    destruct (nth_error m block_index) as [row |] eqn:Hrow.
    2:{ apply nth_error_None in Hrow. lia. }
    cbn [bind].
    cbn [bind]. rewrite IH by assumption. f_equal.
    rewrite Hio.
    assert (Hrow' : nth block_index m [] = row).
    { now apply nth_error_nth. }
    assert (Hrowlen : List.length row
                      = List.length (Chip.block_names self)).
    { apply Hrows. eapply nth_error_In. exact Hrow. }
    rewrite sum_over_weighted.
    rewrite (sum_over_ext
               (fun j => Spec.entry m j block_index)
               (fun j => Spec.entry m block_index j)).
    2:{ intros j Hj. apply Hsym. unfold Spec.all_blocks in Hj.
        apply in_seq in Hj. lia. }
    unfold Spec.entry. rewrite Hrow'.
    unfold Spec.all_blocks. rewrite <- Hrowlen, <- py_sum_sum_over. ring.
Qed.

(** C5 (amended): for every chip whose name appears in the global
    block-name list, when every adjacency matrix of the model has its
    interconnect type in the IO list, is square of the size of the block
    list and has equal row and column at the index of the chip,
    [get_io_area()] is the sum, over every interconnect type of the model
    and over every block (inside the subtree of the chip or not), of the
    row entries at the block index of the chip weighted by the tx pad area
    of that interconnect plus the column entries weighted by its rx pad
    area. *)
Theorem get_io_area_all_blocks (self : Chip.t) (block_index : nat) :
  Chip.first_index (Chip.block_names self) (Chip.get_name self) 0
  = Some block_index ->
  Forall (Spec.symmetric_at self block_index) (Chip.global_adjacency_matrix self) ->
  Chip.get_io_area self
  = Ok (Spec.io_area_over (Spec.all_blocks self) self block_index).
Proof.
  intros Hidx Hall. unfold Chip.get_io_area. rewrite Hidx.
  apply first_index_bound in Hidx.
  rewrite io_area_types_all_blocks by (assumption || lia).
  f_equal. unfold Spec.io_area_over. ring.
Qed.

Lemma linked_die_built :
  Chip.build 0 ones die_element (Some unit_assembly) [unit_wafer_process]
    [unit_assembly] [unit_test] [] [link_io]
    [("link"%string, link_matrix)] [("link"%string, zero_utilization)]
    ["package"%string; "die"%string] true 0
  = Ok (linked_die_chip, 1%nat).
Proof.
  rewrite build_leaf by reflexivity.
  change (Chip.find_wafer_process (Element.wafer_process die_element)
            [unit_wafer_process]) with (Ok unit_wafer_process).
  cbn [bind].
  change (Chip.find_assembly_process (Element.assembly_process die_element)
            [unit_assembly]) with (Ok unit_assembly).
  cbn [bind].
  change (Chip.find_test_process (Element.test_process die_element)
            [unit_test]) with (Ok unit_test).
  cbn [bind].
  change (Chip.build_stackup (Element.stackup die_element) [])
    with (Ok (@nil Layer.t)).
  cbn [bind].
  unfold Chip.init_self.
  change (String.eqb (Element.buried die_element) "True") with false.
  change (String.eqb (Element.buried die_element) "False") with true.
  cbn [bind].
  match goal with
  | |- context [String.eqb (Chip.name ?s) ""] =>
      change (String.eqb (Chip.name s) "") with false
  end.
  cbv iota.
  match goal with
  | |- context [Chip.init_self_metrics ?s] => set (self0 := s)
  end.
  assert (Hio : Chip.get_signal_power self0 (Chip.get_chip_list self0) = Ok 0).
  { cbn. f_equal. ring. }
  rewrite (init_self_metrics_black_box self0 1 0 1 0 0 0 0);
    try reflexivity;
    [| exact Hio
     | lra
     | unfold Chip.compute_nre_design_cost, Chip.compute_nre_front_end_cost,
         Chip.compute_nre_back_end_cost; cbn; ring ].
  cbn [bind].
  match goal with
  | |- context [Chip.init_yield_and_cost _ _ _ ?s _] => set (self1 := s)
  end.
  rewrite (init_yield_and_cost_run 0 ones true self1 0 0 1 1 1 1 1 2);
    try reflexivity.
  - apply (compute_chip_yield_run self1 1 1 0 0 1); try reflexivity.
    + apply (stacked_die_area_leaf self1 0); [reflexivity .. | ring].
    + apply unit_assembly_yield.
    + cbn. ring.
  - apply (assembly_test_yield_run _ _ 1); [reflexivity .. | cbn; ring].
  - apply (assembly_quality_run _ _ 1 1); [reflexivity .. | lra | field].
  - apply (compute_cost_run ones _ 0 1 1 0 0 0 1 1); try reflexivity.
    + apply (stacked_die_area_leaf _ 0); [reflexivity .. | ring].
    + change (Assembly.assembly_cost unit_assembly (IZR 0) 0 = Ok 0).
      rewrite (unit_assembly_cost 0 0). f_equal. ring.
    + rewrite (assembly_test_cost_gauss ones _ _ 0 1) by reflexivity.
      unfold ones. cbn. do 2 f_equal. ring.
    + lra.
    + field.
Qed.

Lemma linked_package_built :
  Chip.init 0 ones (Some package_element) None link_catalogs true 0
  = Ok (linked_package_chip, 2%nat).
Proof.
  unfold Chip.init.
  cbn [link_catalogs Catalogs.wafer_process_list
       Catalogs.assembly_process_list Catalogs.test_process_list
       Catalogs.layers Catalogs.ios Catalogs.adjacency_matrix_definitions
       Catalogs.average_bandwidth_utilization Catalogs.block_names
       Chip.required bind].
  rewrite (build_single _ _ package_element die_element) by reflexivity.
  change (Chip.find_wafer_process (Element.wafer_process package_element)
            [unit_wafer_process]) with (Ok unit_wafer_process).
  cbn [bind].
  change (Chip.find_assembly_process
            (Element.assembly_process package_element) [unit_assembly])
    with (Ok unit_assembly).
  cbn [bind].
  change (Chip.find_test_process (Element.test_process package_element)
            [unit_test]) with (Ok unit_test).
  cbn [bind].
  change (Chip.build_stackup (Element.stackup package_element) [])
    with (Ok (@nil Layer.t)).
  cbn [bind].
  rewrite linked_die_built. cbn [bind].
  unfold Chip.init_self.
  change (String.eqb (Element.buried package_element) "True") with false.
  change (String.eqb (Element.buried package_element) "False") with true.
  cbn [bind].
  match goal with
  | |- context [String.eqb (Chip.name ?s) ""] =>
      change (String.eqb (Chip.name s) "") with false
  end.
  cbv iota.
  match goal with
  | |- context [Chip.init_self_metrics ?s] => set (self0 := s)
  end.
  assert (Hio : Chip.get_signal_power self0 (Chip.get_chip_list self0) = Ok 0).
  { cbn. f_equal. ring. }
  rewrite (init_self_metrics_black_box self0 4 0 1 0 0 0 0);
    try reflexivity;
    [| exact Hio
     | change (Ok (0 + 0) = Ok 0); f_equal; ring
     | lra
     | unfold Chip.compute_nre_design_cost, Chip.compute_nre_front_end_cost,
         Chip.compute_nre_back_end_cost; cbn; ring ].
  cbn [bind].
  match goal with
  | |- context [Chip.init_yield_and_cost _ _ _ ?s _] => set (self1 := s)
  end.
  rewrite (init_yield_and_cost_run 0 ones true self1 1 1 2 1 1 1 1 8);
    try reflexivity.
  - apply (compute_chip_yield_run self1 1 1 0 1 1); try reflexivity.
    + change (Ok (1 * 1) = Ok 1). f_equal. ring.
    + cbn. f_equal. ring.
    + apply (stacked_die_area_one self1 linked_die_chip 1 0 0);
        try reflexivity; try lra.
      rewrite sqrt_1. ring.
    + apply unit_assembly_yield.
    + cbn. ring.
  - apply (assembly_test_yield_run _ _ 1); [reflexivity .. | cbn; ring].
  - apply (assembly_quality_run _ _ 1 1); [reflexivity .. | lra | field].
  - apply (compute_cost_run ones _ 1 2 1 2 1 3 2 1); try reflexivity.
    + change (Ok (0 + 2) = Ok 2). f_equal. ring.
    + apply (stacked_die_area_one _ linked_die_chip 1 0 0);
        try reflexivity; try lra.
      rewrite sqrt_1. ring.
    + change (Assembly.assembly_cost unit_assembly (IZR 1) 1 = Ok 3).
      rewrite (unit_assembly_cost 1 1). f_equal. ring.
    + rewrite (assembly_test_cost_gauss ones _ _ 1 1) by reflexivity.
      unfold ones. cbn. do 2 f_equal. ring.
    + lra.
    + field.
Qed.

(** ** The claims on the example *)

Lemma single_child_cost_witness :
  exists (self_cost child_cost stacked_die_area assembly_cost
            assembly_test_cost chip_test_yield : R) (seed1 : nat),
    Chip.get_self_cost package_chip = Ok self_cost
    /\ Chip.get_cost die_chip = Ok child_cost
    /\ Chip.get_stacked_die_area package_chip = Ok stacked_die_area
    /\ Assembly.assembly_cost (Chip.assembly_process package_chip) 1
         stacked_die_area = Ok assembly_cost
    /\ Chip.Test_compute_assembly_test_cost ones
         (Chip.test_process package_chip) package_chip seed1
       = Ok (assembly_test_cost, 2%nat)
    /\ Chip.get_chip_test_yield package_chip = Ok chip_test_yield
    /\ Chip.get_cost package_chip
       = Ok ((self_cost + child_cost + assembly_cost + assembly_test_cost)
             / chip_test_yield)
    /\ (Test.test_assembly (Chip.test_process package_chip) = false ->
        assembly_test_cost = 0)
    /\ (Assembly.die_separation (Chip.assembly_process package_chip)
        = Some 0 ->
        Assembly.edge_exclusion (Chip.assembly_process package_chip)
        = Some 0 ->
        Chip.buried die_chip = false ->
        0 < Chip.aspect_ratio die_chip ->
        Chip.get_area die_chip = Ok stacked_die_area).
Proof.
  exact (single_child_cost 0 ones (Some package_element) None unit_catalogs
           true 0 2 package_chip die_chip package_built eq_refl eq_refl
           eq_refl).
Defined.

(** C2 as stated fails: the package of the example has exactly one child, a
    leaf, and no IO connection; its self cost is 1, the cost of the child is
    2, the area of the child is 1, [assembly_cost(1, 1)] is 3 and the chip
    test yield is 1, yet [get_cost()] is 8 and not (1 + 2 + 3)/1: the cost
    of the assembly test is part of it. *)
Lemma single_child_cost_includes_assembly_test :
  Chip.init 0 ones (Some package_element) None unit_catalogs true 0
  = Ok (package_chip, 2%nat)
  /\ Chip.get_chips package_chip = [die_chip]
  /\ Chip.get_chips die_chip = []
  /\ Chip.global_adjacency_matrix package_chip = []
  /\ Chip.get_self_cost package_chip = Ok 1
  /\ Chip.get_cost die_chip = Ok 2
  /\ Chip.get_area die_chip = Ok 1
  /\ Assembly.assembly_cost (Chip.assembly_process package_chip) 1 1 = Ok 3
  /\ Chip.get_chip_test_yield package_chip = Ok 1
  /\ Chip.get_cost package_chip = Ok 8
  /\ 8 <> (1 + 2 + 3) / 1.
Proof.
  split; [exact package_built |].
  repeat (split; [reflexivity |]).
  split.
  - change (Assembly.assembly_cost unit_assembly (IZR 1) 1 = Ok 3).
    rewrite (unit_assembly_cost 1 1). f_equal. ring.
  - repeat (split; [reflexivity |]). lra.
Qed.

Lemma linked_package_symmetric :
  Forall (Spec.symmetric_at linked_package_chip 0)
         (Chip.global_adjacency_matrix linked_package_chip).
Proof.
  constructor; [| constructor].
  unfold Spec.symmetric_at. cbn [fst snd].
  split; [exists link_io; reflexivity |].
  split; [reflexivity |]. split.
  - intros row [<- | [<- | []]]; reflexivity.
  - intros j Hj. cbn in Hj.
    destruct j as [| [| j]]; [reflexivity | reflexivity | lia].
Qed.

Lemma get_io_area_all_blocks_witness :
  Chip.get_io_area linked_package_chip
  = Ok (Spec.io_area_over (Spec.all_blocks linked_package_chip)
                          linked_package_chip 0).
Proof.
  apply (get_io_area_all_blocks linked_package_chip 0).
  - reflexivity.
  - exact linked_package_symmetric.
Defined.

(** C5 as stated fails: the package of the linked example is in the block
    list and its only link goes to the die stacked on it, a block of its
    own subtree; the sum over the blocks outside the subtree is 0, yet
    [get_io_area()] is 4: the wires to the die are counted. *)
Lemma get_io_area_counts_subtree_blocks :
  Chip.init 0 ones (Some package_element) None link_catalogs true 0
  = Ok (linked_package_chip, 2%nat)
  /\ Chip.first_index (Chip.block_names linked_package_chip)
                      (Chip.get_name linked_package_chip) 0 = Some 0%nat
  /\ Spec.external_blocks linked_package_chip = []
  /\ Spec.io_area_over (Spec.external_blocks linked_package_chip)
                       linked_package_chip 0 = 0
  /\ Chip.get_io_area linked_package_chip = Ok 4
  /\ 4 <> 0.
Proof.
  split; [exact linked_package_built |].
  split; [reflexivity |]. split; [reflexivity |]. split; [| split].
  - cbn. ring.
  - cbn. f_equal. ring.
  - lra.
Qed.

(** ** Signal counts and bonds *)

Lemma item_Ok {A : Type} (l : list A) (i : nat) (a : A) :
  Chip.item l i = Ok a -> nth_error l i = Some a.
Proof.
  unfold Chip.item. destruct (nth_error l i); [| discriminate].
  now intros [= ->].
Qed.

Lemma item_lt {A : Type} (l : list A) (i : nat) :
  (i < List.length l)%nat -> exists a : A, Chip.item l i = Ok a.
Proof.
  intros H. unfold Chip.item.
  destruct (nth_error l i) as [a |] eqn:E; [eauto |].
  apply nth_error_None in E. lia.
Qed.

Lemma item_nth {A : Type} (l : list A) (i : nat) (a d : A) :
  Chip.item l i = Ok a -> (i < List.length l)%nat /\ nth i l d = a.
Proof.
  intros H. apply item_Ok in H. split.
  - apply nth_error_Some. congruence.
  - now apply nth_error_nth.
Qed.

Lemma square_item (n : nat) (m : matrix) (i : nat) :
  Shape.square n m -> (i < n)%nat ->
  exists row : list R, Chip.item m i = Ok row /\ List.length row = n.
Proof.
  intros [Hlen Hrows] Hi.
  destruct (item_lt m i) as (row & Hrow); [lia |].
  exists row. split; [exact Hrow |].
  apply item_Ok, nth_error_In in Hrow.
  rewrite Forall_forall in Hrows. now apply Hrows.
Qed.

Lemma last_index_bound (block_names : list string) (name : string) :
  forall (i : nat) (found : option nat) (b : nat),
    Chip.last_index block_names name i found = Some b ->
    found = Some b \/ (i <= b < i + List.length block_names)%nat.
Proof.
  induction block_names as [| x rest IH]; intros i found b H;
    cbn [Chip.last_index] in H; [now left |].
  cbn [List.length]. apply IH in H as [H | H]; [| right; lia].
  destruct (String.eqb x name); [| now left].
  injection H as <-. right. lia.
Qed.

Lemma in_items_names (b : string) (f : Chip.t -> list Chip.name_item)
    (chips : list Chip.t) :
  Chip.in_items b (map (fun chip => Chip.Names (f chip)) chips) = false.
Proof.
  unfold Chip.in_items. induction chips as [| c rest IH]; [reflexivity |].
  cbn [map existsb]. exact IH.
Qed.

Lemma in_items_get_chip_list (self : Chip.t) (b : string) :
  Chip.in_items b (Chip.get_chip_list self) = String.eqb b (Chip.name self).
Proof.
  destruct self. cbn [Chip.get_chip_list Chip.chips Chip.get_name Chip.name].
  unfold Chip.in_items. rewrite existsb_app.
  fold (Chip.in_items b
          (map (fun chip => Chip.Names (Chip.get_chip_list chip)) chips)).
  rewrite in_items_names. cbn. apply orb_false_r.
Qed.

Lemma internal_indices_spec (items : list Chip.name_item)
    (block_names : list string) :
  forall i j : nat,
    In j (Chip.internal_indices block_names items i) <->
    exists (k : nat) (b : string),
      j = (i + k)%nat /\ nth_error block_names k = Some b
      /\ Chip.in_items b items = true.
Proof.
  induction block_names as [| b rest IH]; intros i j;
    cbn [Chip.internal_indices].
  - split; [intros [] |]. intros (k & b & _ & H & _). destruct k; discriminate.
  - assert (Hrest : In j (Chip.internal_indices rest items (S i)) <->
                    exists (k : nat) (b' : string),
                      j = (i + S k)%nat /\ nth_error rest k = Some b'
                      /\ Chip.in_items b' items = true).
    { rewrite IH. split; intros (k & b' & Hj & H); exists k, b';
        (split; [lia | exact H]). }
    destruct (Chip.in_items b items) eqn:E.
    + cbn [In]. rewrite Hrest. split.
      * intros [<- | (k & b' & Hj & Hn & Hin)].
        -- exists 0%nat, b. repeat split; [lia | assumption].
        -- exists (S k), b'. auto.
      * intros (k & b' & Hj & Hn & Hin). destruct k as [| k].
        -- left. lia.
        -- right. exists k, b'. auto.
    + rewrite Hrest. split.
      * intros (k & b' & Hj & Hn & Hin). exists (S k), b'. auto.
      * intros (k & b' & Hj & Hn & Hin). destruct k as [| k].
        -- cbn in Hn. injection Hn as <-. congruence.
        -- exists k, b'. auto.
Qed.

Lemma sum_over_app (f : nat -> R) (l1 l2 : list nat) :
  Spec.sum_over f (l1 ++ l2) = Spec.sum_over f l1 + Spec.sum_over f l2.
Proof.
  unfold Spec.sum_over.
  induction l1 as [| j l1 IH]; cbn [app fold_right]; [ring |].
  rewrite IH. ring.
Qed.

(** The loop over the columns: the signal count grows by the wires to the
    columns that are not internal. *)
Lemma signal_count_columns_closed (n : nat) (m : matrix) (io : IO.t)
    (block_index : nat) (internal_block_list_indices : list nat) :
  Shape.square n m -> (block_index < n)%nat ->
  forall columns : list nat,
    Forall (fun j => (j < n)%nat) columns ->
    forall (signal_count : R) (signal_with_reach_count : list (R * R)),
    exists d : list (R * R),
      Chip.signal_count_columns m io block_index
        internal_block_list_indices columns signal_count
        signal_with_reach_count
      = Ok (signal_count
            + Spec.sum_over (Bond.signal_term m io block_index)
                (filter (fun j =>
                           negb (existsb (Nat.eqb j)
                                   internal_block_list_indices))
                        columns),
            d).
Proof.
  intros Hm Hb.
  induction columns as [| j rest IH]; intros Hall sc d;
    cbn [Chip.signal_count_columns filter].
  - exists d. do 2 f_equal. cbn. ring.
  - inversion Hall as [| ? ? Hj Hrest]; subst.
    destruct (negb (existsb (Nat.eqb j) internal_block_list_indices)).
    + destruct (square_item n m block_index Hm Hb) as (r & Hr & Hrlen).
      rewrite Hr. cbn [bind].
      destruct (item_lt r j) as (out & Hout); [lia |].
      rewrite Hout. cbn [bind].
      destruct (square_item n m j Hm Hj) as (r' & Hr' & Hrlen').
      rewrite Hr'. cbn [bind].
      destruct (item_lt r' block_index) as (inc & Hinc); [lia |].
      rewrite Hinc. cbn [bind].
      apply (item_nth _ _ _ []) in Hr as [_ Hr].
      apply (item_nth _ _ _ 0) in Hout as [_ Hout].
      apply (item_nth _ _ _ []) in Hr' as [_ Hr'].
      apply (item_nth _ _ _ 0) in Hinc as [_ Hinc].
      destruct (IH Hrest
                  (sc + (out + inc) * IZR (IO.wire_count io)
                        * Chip.bidirectional_factor io)
                  (Chip.reach_add d (IO.reach io)
                     ((out + inc) * IZR (IO.wire_count io)
                      * Chip.bidirectional_factor io))) as (d' & ->).
      exists d'. do 2 f_equal.
      assert (Hterm : Bond.signal_term m io block_index j
                      = (out + inc) * IZR (IO.wire_count io)
                        * Chip.bidirectional_factor io).
      { unfold Bond.signal_term, Spec.entry.
        now rewrite Hr, Hout, Hr', Hinc. }
      unfold Spec.sum_over. cbn [fold_right]. rewrite Hterm. ring.
    + apply IH. exact Hrest.
Qed.

(** The loop over the interconnect types. *)
Lemma signal_count_types_closed (n : nat) (io_list : list IO.t)
    (block_index : nat) (internal_block_list_indices : list nat) :
  (block_index < n)%nat ->
  forall adjacency : list (string * matrix),
    Forall (fun tm : string * matrix =>
              (exists io : IO.t,
                  find (fun io => String.eqb (IO.type io) (fst tm)) io_list
                  = Some io)
              /\ Shape.square n (snd tm)) adjacency ->
    forall (signal_count : R) (signal_with_reach_count : list (R * R)),
    exists d : list (R * R),
      Chip.signal_count_types io_list block_index
        internal_block_list_indices adjacency signal_count
        signal_with_reach_count
      = Ok (signal_count
            + fold_right
                (fun (tm : string * matrix) acc =>
                   match find (fun io => String.eqb (IO.type io) (fst tm))
                              io_list with
                   | Some io =>
                       Spec.sum_over
                         (Bond.signal_term (snd tm) io block_index)
                         (filter (fun j =>
                                    negb (existsb (Nat.eqb j)
                                            internal_block_list_indices))
                                 (seq 0 n))
                   | None => 0
                   end + acc)
                0 adjacency,
            d).
Proof.
  intros Hb.
  induction adjacency as [| [io_type m] rest IH]; intros Hall sc d;
    cbn [Chip.signal_count_types fold_right].
  - exists d. do 2 f_equal. ring.
  - inversion Hall as [| ? ? ((io & Hio) & Hm) Hrest]; subst.
    cbn [fst snd] in Hio, Hm. cbn [fst snd].
    unfold Chip.select_io. rewrite Hio. cbn [bind].
    destruct (square_item n m block_index Hm Hb) as (r & -> & Hr).
    cbn [bind]. unfold Chip.whole. rewrite Hr.
    destruct (signal_count_columns_closed n m io block_index
                internal_block_list_indices Hm Hb (seq 0 n)) with
      (signal_count := sc) (signal_with_reach_count := d) as (d1 & ->).
    { apply Forall_forall. intros j Hj. apply in_seq in Hj. lia. }
    cbn [bind].
    destruct (IH Hrest
                (sc + Spec.sum_over (Bond.signal_term m io block_index)
                        (filter (fun j =>
                                   negb (existsb (Nat.eqb j)
                                           internal_block_list_indices))
                                (seq 0 n))) d1) as (d2 & ->).
    exists d2. do 2 f_equal. ring.
Qed.

(** [get_signal_count] on a netlist that fits: the signals of the block of
    the chip towards the blocks that are not internal. *)
Lemma get_signal_count_closed (self : Chip.t)
    (internal_block_list : list Chip.name_item) (block_index : nat) :
  Chip.last_index (Chip.block_names self) (Chip.get_name self) 0 None
  = Some block_index ->
  Bond.netlist_fits self ->
  exists d : list (R * R),
    Chip.get_signal_count self internal_block_list
    = Ok (Bond.signal_count_over
            (Bond.counted_blocks self internal_block_list) self block_index,
          d).
Proof.
  intros Hidx Hfits. unfold Chip.get_signal_count. rewrite Hidx.
  apply last_index_bound in Hidx as [Hidx | Hidx]; [discriminate |].
  destruct (signal_count_types_closed
              (List.length (Chip.block_names self)) (Chip.io_list self)
              block_index
              (Chip.internal_indices (Chip.block_names self)
                 internal_block_list 0)
              ltac:(lia) (Chip.global_adjacency_matrix self) Hfits 0 [])
    as (d & ->).
  exists d. do 2 f_equal.
  unfold Bond.signal_count_over, Bond.counted_blocks, Spec.io_of,
    Spec.all_blocks. ring.
Qed.

(** C10: an IO that [IO.__init__] returns holds the constructor argument
    itself in [bidirectional]: [get_bidirectional()] returns it, not the
    boolean read from the string. Built with the string ["False"], the IO
    counts as bidirectional, the string being true in a condition, and
    [get_signal_count] halves the wires of its matrices: on a chip of the
    netlist whose interconnects are that IO, it returns the sum, over the
    matrices and over the blocks that are not internal, of the row entry
    plus the column entry at the block of the chip, times the wire count,
    times 0.5. *)
Theorem IO_bidirectional_is_raw_argument (type : option string)
    (rx_area tx_area shoreline bandwidth : option R) (wire_count : option Z)
    (bidirectional : pyval) (energy_per_bit reach : option R)
    (static : bool) (io : IO.t) :
  IO.init type rx_area tx_area shoreline bandwidth wire_count bidirectional
          energy_per_bit reach static = Ok io ->
  IO.get_bidirectional io = bidirectional
  /\ (bidirectional = PyStr "False" ->
      truthy (IO.get_bidirectional io) = true
      /\ forall (self : Chip.t) (internal_block_list : list Chip.name_item)
                (block_index : nat),
           Chip.last_index (Chip.block_names self) (Chip.get_name self)
                           0 None = Some block_index ->
           Forall (fun tm : string * matrix =>
                     Spec.io_of self (fst tm) = Some io
                     /\ Shape.square (List.length (Chip.block_names self))
                                     (snd tm))
                  (Chip.global_adjacency_matrix self) ->
           exists d : list (R * R),
             Chip.get_signal_count self internal_block_list
             = Ok (fold_right
                     (fun (tm : string * matrix) acc =>
                        Spec.sum_over
                          (fun j =>
                             (Spec.entry (snd tm) block_index j
                              + Spec.entry (snd tm) j block_index)
                             * IZR (IO.wire_count io) * (1 / 2))
                          (Bond.counted_blocks self internal_block_list)
                        + acc)
                     0 (Chip.global_adjacency_matrix self),
                   d)).
Proof.
  unfold IO.init.
  destruct type, rx_area, tx_area, shoreline, bandwidth, wire_count,
    energy_per_bit, reach; try discriminate;
    destruct (is_none bidirectional) eqn:Hnone; try discriminate.
  intros [= <-]. split; [reflexivity |].
  intros ->. split; [reflexivity |].
  intros self internal_block_list block_index Hidx Hall.
  match goal with
  | |- context [IO.wire_count ?x] => set (io := x) in *
  end.
  assert (Hfits : Bond.netlist_fits self).
  { unfold Bond.netlist_fits. revert Hall. apply Forall_impl.
    intros tm [Hio Hsq]. split; [now exists io | exact Hsq]. }
  destruct (get_signal_count_closed self internal_block_list block_index
              Hidx Hfits) as (d & ->).
  exists d. do 2 f_equal. unfold Bond.signal_count_over.
  induction Hall as [| tm rest [Hio _] _ IH]; [reflexivity |].
  cbn [fold_right]. rewrite Hio, IH. reflexivity.
Qed.

Lemma false_linked_die_signals :
  Chip.get_signal_count false_linked_die []
  = Ok (0 + (2 + 2) * 1 * (1 / 2) + (0 + 0) * 1 * (1 / 2),
        [(1, (2 + 2) * 1 * (1 / 2) + (0 + 0) * 1 * (1 / 2))]).
Proof.
  unfold Chip.get_signal_count.
  cbn -[Rplus Rmult Rdiv Rinv Rminus Ropp IZR Reqb Rltb Rleb].
  rewrite Reqb_true by reflexivity. reflexivity.
Qed.

Lemma IO_bidirectional_is_raw_argument_witness :
  IO.init (Some "link"%string) (Some 1) (Some 1) (Some 0) (Some 1)
          (Some 1%Z) (PyStr "False") (Some 1) (Some 1) true
  = Ok false_io
  /\ IO.get_bidirectional false_io = PyStr "False"
  /\ truthy (IO.get_bidirectional false_io) = true
  /\ Chip.get_signal_count false_linked_die []
     = Ok (0 + (2 + 2) * 1 * (1 / 2) + (0 + 0) * 1 * (1 / 2),
           [(1, (2 + 2) * 1 * (1 / 2) + (0 + 0) * 1 * (1 / 2))])
  /\ exists d : list (R * R),
       Chip.get_signal_count false_linked_die []
       = Ok (fold_right
               (fun (tm : string * matrix) acc =>
                  Spec.sum_over
                    (fun j =>
                       (Spec.entry (snd tm) 1 j + Spec.entry (snd tm) j 1)
                       * IZR (IO.wire_count false_io) * (1 / 2))
                    (Bond.counted_blocks false_linked_die [])
                  + acc)
               0 (Chip.global_adjacency_matrix false_linked_die),
             d).
Proof.
  split; [reflexivity |].
  destruct (IO_bidirectional_is_raw_argument
              (Some "link"%string) (Some 1) (Some 1) (Some 0) (Some 1)
              (Some 1%Z) (PyStr "False") (Some 1) (Some 1) true false_io
              eq_refl) as [H1 H2].
  split; [exact H1 |].
  destruct (H2 eq_refl) as [H3 H4].
  split; [exact H3 |].
  split; [exact false_linked_die_signals |].
  apply (H4 false_linked_die [] 1%nat); [reflexivity |].
  repeat constructor.
Defined.

(** *** The bonds of an assembly *)

Lemma sum_over_filter_agree (f : nat -> R) (P Q : nat -> bool)
    (l : list nat) :
  (forall j : nat, In j l ->
     P j = Q j \/ (P j = true /\ Q j = false /\ f j = 0)) ->
  Spec.sum_over f (filter P l) = Spec.sum_over f (filter Q l).
Proof.
  unfold Spec.sum_over.
  induction l as [| j l IH]; intros H; [reflexivity |].
  assert (IH' : fold_right (fun j acc => f j + acc) 0 (filter P l)
                = fold_right (fun j acc => f j + acc) 0 (filter Q l)).
  { apply IH. intros k Hk. apply H. now right. }
  cbn [filter].
  destruct (H j (or_introl eq_refl)) as [Heq | (HP & HQ & Hf)].
  - rewrite <- Heq. destruct (P j); cbn [fold_right]; now rewrite IH'.
  - rewrite HP, HQ. cbn [fold_right]. rewrite IH', Hf. ring.
Qed.

Lemma existsb_nat_In (j : nat) (l : list nat) :
  existsb (Nat.eqb j) l = true <-> In j l.
Proof.
  rewrite existsb_exists. split.
  - intros (x & Hin & Heq). apply Nat.eqb_eq in Heq. now subst x.
  - intros H. exists j. split; [assumption | apply Nat.eqb_refl].
Qed.

Lemma existsb_string_In (b : string) (l : list string) :
  existsb (String.eqb b) l = true <-> In b l.
Proof.
  rewrite existsb_exists. split.
  - intros (x & Hin & Heq). apply String.eqb_eq in Heq. now subst x.
  - intros H. exists b. split; [assumption | apply String.eqb_refl].
Qed.

(** With the chip list of [self] as the internal list, the blocks that
    [get_signal_count] lets through carry wires of [chip] only where they
    lie outside the subtree of [self]. *)
Lemma counted_blocks_outside (self chip : Chip.t) (block_index : nat) :
  Chip.last_index (Chip.block_names chip) (Chip.get_name chip) 0 None
  = Some block_index ->
  Bond.no_wire_inside self chip ->
  Bond.signal_count_over
    (Bond.counted_blocks chip (Chip.get_chip_list self)) chip block_index
  = Bond.signal_count_over (Bond.blocks_outside self chip) chip block_index.
Proof.
  intros Hidx Hno. unfold Bond.signal_count_over.
  assert (Hin : forall tm : string * matrix,
             In tm (Chip.global_adjacency_matrix chip) ->
             In tm (Chip.global_adjacency_matrix chip)) by auto.
  revert Hin.
  generalize (Chip.global_adjacency_matrix chip) at 1 3 4.
  induction l as [| tm rest IH]; intros Hin; [reflexivity |].
  cbn [fold_right]. rewrite IH by (intros x Hx; apply Hin; now right).
  f_equal. destruct (Spec.io_of chip (fst tm)) as [io |]; [| reflexivity].
  unfold Bond.counted_blocks, Bond.blocks_outside.
  apply sum_over_filter_agree. intros j Hj.
  unfold Spec.all_blocks in Hj. apply in_seq in Hj.
  set (names := Chip.block_names chip) in *.
  assert (Hname : nth_error names j = Some (nth j names ""%string)).
  { apply nth_error_nth'. lia. }
  set (b := nth j names ""%string) in *.
  destruct (String.eqb_spec b (Chip.name self)) as [Hself | Hother].
  - left.
    assert (H1 : existsb (Nat.eqb j)
                   (Chip.internal_indices names (Chip.get_chip_list self) 0)
                 = true).
    { apply existsb_nat_In, internal_indices_spec.
      exists j, b. repeat split; [assumption |].
      rewrite in_items_get_chip_list, Hself. apply String.eqb_refl. }
    assert (H2 : existsb (String.eqb b) (Spec.subtree_names self) = true).
    { apply existsb_string_In. destruct self. cbn. now left. }
    now rewrite H1, H2.
  - assert (H1 : existsb (Nat.eqb j)
                   (Chip.internal_indices names (Chip.get_chip_list self) 0)
                 = false).
    { destruct (existsb _ _) eqn:E; [| reflexivity].
      apply existsb_nat_In, internal_indices_spec in E.
      destruct E as (k & b' & Hk & Hn & Hitem). cbn in Hk. subst k.
      rewrite in_items_get_chip_list in Hitem.
      apply String.eqb_eq in Hitem. congruence. }
    rewrite H1. cbn [negb].
    destruct (existsb (String.eqb b) (Spec.subtree_names self)) eqn:E2;
      [| now left].
    right. split; [reflexivity |]. split; [reflexivity |].
    apply existsb_string_In in E2.
    assert (Hsub : In b (flat_map Spec.subtree_names (Chip.chips self))).
    { destruct self. cbn in E2, Hother |- *.
      destruct E2 as [E2 | E2]; [congruence | exact E2]. }
    assert (Hlt : (j < List.length (Chip.block_names chip))%nat)
      by (fold names; lia).
    destruct (Hno block_index j tm Hidx (Hin tm (or_introl eq_refl)) Hlt
                Hsub) as [Ha Hb].
    unfold Bond.signal_term. rewrite Ha, Hb. ring.
Qed.

Lemma sum_signal_count_closed (self : Chip.t) :
  forall chips : list Chip.t,
    Forall Bond.netlist_fits chips ->
    Forall (Bond.no_wire_inside self) chips ->
    forall signal_count : R,
      Chip.sum_signal_count (Chip.get_chip_list self) chips signal_count
      = Ok (signal_count
            + fold_right
                (fun (chip : Chip.t) acc =>
                   match Chip.last_index (Chip.block_names chip)
                                         (Chip.get_name chip) 0 None with
                   | Some block_index =>
                       Bond.signal_count_over
                         (Bond.blocks_outside self chip) chip block_index
                   | None => 0
                   end + acc)
                0 chips).
Proof.
  induction chips as [| chip rest IH]; intros Hfits Hno sc;
    cbn [Chip.sum_signal_count fold_right].
  - f_equal. ring.
  - inversion Hfits as [| ? ? Hfit Hfits']; subst.
    inversion Hno as [| ? ? Hno1 Hno']; subst.
    destruct (Chip.last_index (Chip.block_names chip) (Chip.get_name chip)
                0 None) as [b |] eqn:Hidx.
    + destruct (get_signal_count_closed chip (Chip.get_chip_list self) b
                  Hidx Hfit) as (d & ->).
      cbn [bind]. rewrite (IH Hfits' Hno').
      rewrite (counted_blocks_outside self chip b Hidx Hno1).
      f_equal. ring.
    + unfold Chip.get_signal_count. rewrite Hidx. cbn [bind].
      rewrite (IH Hfits' Hno'). f_equal. ring.
Qed.

Lemma get_chips_signal_count_closed (self : Chip.t) :
  Forall Bond.netlist_fits (Chip.chips self) ->
  Forall (Bond.no_wire_inside self) (Chip.chips self) ->
  Chip.get_chips_signal_count self = Ok (Bond.bond_count self).
Proof.
  intros Hfits Hno. unfold Chip.get_chips_signal_count.
  rewrite (sum_signal_count_closed self _ Hfits Hno).
  f_equal. unfold Bond.bond_count. ring.
Qed.

(** C1 (amended): on every chip the constructor returns,
    [get_chip_true_yield()] is [self_quality] times the product of the
    [quality] of the chips stacked on it, times
    [assembly_yield(number of children, bonds, stacked die area)] of its
    assembly process, times the yield of its wafer process. The bonds are
    the signals of the chips stacked on it towards the blocks outside its
    whole subtree: over every chip stacked on it that the block-name list
    names, every interconnect type and every block whose name is not the
    name of a chip of the subtree, the row entry plus the column entry at
    the block of the stacked chip, times the wire count, halved for a
    bidirectional interconnect. This is for netlists that fit (square
    matrices of the size of the block-name list, every type in the IO
    list) and have no wire between a stacked chip and a block of a
    stacked chip. *)
Theorem chip_true_yield_is_product (fuel : nat) (rnd : random_source)
    (etree : option Element.t) (parent_chip : option Assembly.t)
    (catalogs : Catalogs.t) (static : bool) (seed seed' : nat) (c : Chip.t) :
  Chip.init fuel rnd etree parent_chip catalogs static seed = Ok (c, seed') ->
  Forall Bond.netlist_fits (Chip.get_chips c) ->
  Forall (Bond.no_wire_inside c) (Chip.get_chips c) ->
  exists (self_quality : R) (qualities : list R)
         (stacked_die_area assembly_yield : R),
    Chip.get_self_quality c = Ok self_quality
    /\ Forall2 (fun chip q => Chip.get_quality chip = Ok q)
               (Chip.get_chips c) qualities
    /\ Chip.get_chips_signal_count c = Ok (Bond.bond_count c)
    /\ Chip.get_stacked_die_area c = Ok stacked_die_area
    /\ Assembly.assembly_yield (Chip.assembly_process c)
         (IZR (Z.of_nat (List.length (Chip.get_chips c))))
         (Bond.bond_count c) stacked_die_area = Ok assembly_yield
    /\ Chip.get_chip_true_yield c
       = Ok (self_quality * fold_left Rmult qualities 1 * assembly_yield
             * WaferProcess.wafer_process_yield (Chip.wafer_process c)).
Proof.
  intros H Hfits Hno. apply init_stored in H.
  destruct H as [(y & Hget & Hy) _].
  unfold Chip.compute_chip_yield in Hy.
  bind_inv Hy. bind_inv Hy. bind_inv Hy. bind_inv Hy. bind_inv Hy.
  injection Hy as <-.
  unfold Chip.quality_yield in E0.
  destruct (product_quality_spec _ _ _ E0) as (qs & Hall & ->).
  pose proof (get_chips_signal_count_closed c Hfits Hno) as Hbonds.
  rewrite Hbonds in E1. injection E1 as <-.
  exists v, qs, v2, v3.
  repeat (split; [assumption |]).
  rewrite Hget. f_equal. unfold Chip.get_wafer_process_yield. ring.
Qed.
(** * Further properties *)

(** ** More arithmetic *)

Lemma py_ceil_spec (x : R) : IZR (py_ceil x) - 1 < x <= IZR (py_ceil x).
Proof.
  unfold py_ceil. rewrite opp_IZR.
  pose proof (py_floor_spec (- x)) as [H1 H2]. lra.
Qed.

Lemma py_ceil_monotone (x y : R) : x <= y -> (py_ceil x <= py_ceil y)%Z.
Proof.
  intros Hxy.
  pose proof (py_ceil_spec x) as [H1 _].
  pose proof (py_ceil_spec y) as [_ H2].
  apply Z.lt_succ_r. apply lt_IZR. rewrite succ_IZR. lra.
Qed.

Lemma py_floor_nonneg (x : R) : 0 <= x -> (0 <= py_floor x)%Z.
Proof.
  intros Hx. pose proof (py_floor_spec x) as [_ H].
  apply Z.lt_succ_r. apply lt_IZR. rewrite succ_IZR. lra.
Qed.

Lemma Rpower_2 (x : R) : 0 < x -> Rpower x 2 = x * x.
Proof.
  intros Hx. replace 2 with (INR 2) by (simpl; lra).
  rewrite Rpower_pow by assumption. simpl. ring.
Qed.

(** [x ** 2] is the square of [x], whatever the sign of [x]. *)
Lemma py_pow_2 (x : R) : py_pow x 2 = Ok (x * x).
Proof.
  unfold py_pow. rewrite Reqb_false by lra.
  destruct (Rlt_dec 0 x) as [Hpos | Hneg].
  - rewrite Rltb_true by assumption. now rewrite Rpower_2.
  - rewrite Rltb_false by lra.
    destruct (Req_dec_T x 0) as [-> | Hx].
    + rewrite Reqb_true by reflexivity. rewrite Rltb_false by lra.
      f_equal. ring.
    + rewrite Reqb_false by assumption.
      assert (Hf : py_floor 2 = 2%Z) by (apply py_floor_unique; lra).
      unfold is_integral. rewrite Hf, Reqb_true by reflexivity.
      f_equal. unfold powerRZ. simpl. ring.
Qed.

(** ** Layer: cost per mm2 and layer cost *)

Lemma sqrt_between (a lo hi : R) :
  0 <= lo -> lo * lo <= a < hi * hi -> 0 < hi -> lo <= sqrt a < hi.
Proof.
  intros Hlo [H1 H2] Hhi. split.
  - rewrite <- (sqrt_square lo) by assumption. apply sqrt_le_1; nra.
  - rewrite <- (sqrt_square hi) by lra. apply sqrt_lt_1; nra.
Qed.

(** A run through the two row loops: seven squares of side 1 on the small
    wafer. *)
Lemma small_wafer_cost :
  exists c : R,
    Layer.compute_cost_per_mm2 1 fixture_layer 1 small_wafer_process = Ok c
    /\ c = Layer.cost_per_mm2 fixture_layer * (PI * 4) / 7.
Proof.
  unfold Layer.compute_cost_per_mm2, small_wafer_process.
  cbn [WaferProcess.wafer_diameter WaferProcess.wafer_fill_grid
       WaferProcess.edge_exclusion WaferProcess.dicing_distance].
  rewrite py_sqrt_ok by lra. cbn [bind]. rewrite sqrt_1.
  replace (4 - 2 * 0) with 4 by lra.
  replace (1 + 0) with 1 by lra.
  pose proof (sqrt_between 2 1 2 ltac:(lra) ltac:(lra) ltac:(lra)) as H2.
  pose proof (sqrt_between (4 / 2 * (4 / 2) - 1 / 2 * (1 / 2)) (3 / 2) 2
                ltac:(lra) ltac:(lra) ltac:(lra)) as Ha.
  pose proof (sqrt_between
                (4 / 2 * (4 / 2) - (1 / 2 + 1) * (1 / 2 + 1)) 1 (3 / 2)
                ltac:(lra) ltac:(lra) ltac:(lra)) as Hb.
  pose proof (sqrt_between (4 / 2 * (4 / 2) - 1 * 1) (3 / 2) 2
                ltac:(lra) ltac:(lra) ltac:(lra)) as Hc.
  rewrite Rltb_false by lra.
  rewrite !py_pow_2. cbn [bind].
  rewrite !py_sqrt_ok by lra. cbn [bind].
  rewrite !py_div_ok by lra. cbn [bind].
  rewrite (py_floor_unique _ 3) by (simpl; lra).
  rewrite (py_floor_unique (sqrt (4 / 2 * (4 / 2) - 1 * 1) * 2 / 1) 3)
    by (simpl; lra).
  cbn [Layer.rows_case_1 Layer.rows_case_2].
  rewrite (Rltb_true (1 / 2 + 1)) by lra.
  rewrite (Rltb_false (1 + 1)) by lra.
  unfold Layer.fill_row. cbn [negb].
  rewrite !py_pow_2. cbn [bind].
  rewrite !py_sqrt_ok by lra. cbn [bind].
  rewrite !py_div_ok by lra. cbn [bind].
  rewrite (py_floor_unique _ 2) by (simpl; lra).
  rewrite Rltb_false by lra. cbn [bind].
  rewrite Reqb_false by lra.
  change ((Z.max (0 + 3 + 2 * 2) (0 + 2 * 3) =? 0)%Z) with false.
  cbv iota.
  change (Z.max (0 + 3 + 2 * 2) (0 + 2 * 3)) with 7%Z.
  rewrite py_div_ok by lra.
  eexists. split; [reflexivity |]. field.
Qed.

(** X2: for a square of area 0, [compute_cost_per_mm2] gives no cost from
    its formula: whatever the wafer and the fuel, a value it returns is the
    sentinel of the diagonal guard; every other run ends in an exception,
    in [sys.exit] or not at all. *)
Theorem compute_cost_per_mm2_zero_area (fuel : nat) (self : Layer.t)
    (wafer_process : WaferProcess.t) (c : R) :
  Layer.compute_cost_per_mm2 fuel self 0 wafer_process = Ok c ->
  c = Layer.sentinel_cost.
Proof.
  intros H. unfold Layer.compute_cost_per_mm2 in H.
  rewrite py_sqrt_ok in H by lra. cbn [bind] in H.
  match type of H with
  | (if ?b then _ else _) = _ => destruct b
  end.
  - now injection H as <-.
  - do 10 bind_inv H.
    rewrite Reqb_true in H by reflexivity. discriminate.
Qed.

(** A wafer whose usable diameter is 0: no square fits. *)
Lemma compute_cost_per_mm2_zero_area_witness :
  Layer.compute_cost_per_mm2 0 fixture_layer 0
    (WaferProcess.with_wafer_diameter 0 fixture_wafer_process)
  = Ok Layer.sentinel_cost
  /\ Layer.sentinel_cost = Layer.sentinel_cost.
Proof.
  assert (H : Layer.compute_cost_per_mm2 0 fixture_layer 0
                (WaferProcess.with_wafer_diameter 0 fixture_wafer_process)
              = Ok Layer.sentinel_cost).
  { apply diagonal_guard_returns_sentinel; [lra |].
    rewrite sqrt_0. simpl. pose proof sqrt_2_ge_1. lra. }
  split; [exact H |].
  exact (compute_cost_per_mm2_zero_area 0 fixture_layer _ _ H).
Defined.

Lemma fill_row_from_none (grid_fill : bool)
    (usable_wafer_diameter square_side row_chord_height : R)
    (num_squares num_squares' : Z) (sdl : option R) :
  0 < square_side ->
  Layer.fill_row grid_fill usable_wafer_diameter square_side
    row_chord_height None num_squares = Ok (sdl, num_squares') ->
  (num_squares <= num_squares')%Z.
Proof.
  intros Hs H. unfold Layer.fill_row in H.
  do 3 bind_inv H.
  apply py_sqrt_Ok in E1. destruct E1 as [Hrad ->].
  assert (Hq : 0 <= sqrt (v - v0) * 2 / square_side).
  { apply Rmult_le_pos; [| left; now apply Rinv_0_lt_compat].
    pose proof (sqrt_pos (v - v0)). lra. }
  destruct grid_fill; cbn [negb] in H; bind_inv H;
    apply py_div_Ok in E1; destruct E1 as [_ ->];
    injection H as _ <-;
    pose proof (py_floor_nonneg _ Hq);
    match goal with
    | |- context [py_floor ?q] => destruct (py_floor q)
    end; lia.
Qed.

Lemma rows_case_1_grows (grid_fill : bool)
    (usable_wafer_diameter square_side : R) :
  0 < square_side ->
  forall (fuel : nat) (row_chord_height : R) (num_squares r : Z),
    Layer.rows_case_1 fuel grid_fill usable_wafer_diameter square_side
      row_chord_height num_squares = Ok r ->
    (num_squares <= r)%Z.
Proof.
  intros Hs. induction fuel as [| fuel IH]; intros h n r H.
  - cbn [Layer.rows_case_1] in H.
    destruct (Rltb h (usable_wafer_diameter / 2)); [discriminate |].
    injection H as <-. lia.
  - cbn [Layer.rows_case_1] in H.
    destruct (Rltb h (usable_wafer_diameter / 2)).
    + bind_inv H. destruct v as [sdl n'].
      apply fill_row_from_none in E; [| assumption].
      apply IH in H. lia.
    + injection H as <-. lia.
Qed.

(** X3: [compute_cost_per_mm2] never returns a negative cost for a square of
    positive area on a wafer with a non-negative dicing distance, when the
    cost per mm2 of the layer is not negative. *)
Theorem compute_cost_per_mm2_nonnegative (fuel : nat) (self : Layer.t)
    (wafer_process : WaferProcess.t) (square_area c : R) :
  0 < square_area ->
  0 <= WaferProcess.dicing_distance wafer_process ->
  0 <= Layer.cost_per_mm2 self ->
  Layer.compute_cost_per_mm2 fuel self square_area wafer_process = Ok c ->
  0 <= c.
Proof.
  intros Ha Hd Hcost H. unfold Layer.compute_cost_per_mm2 in H.
  rewrite py_sqrt_ok in H by lra. cbn [bind] in H.
  pose proof (sqrt_lt_R0 _ Ha) as Hsqrt.
  set (s := sqrt square_area + WaferProcess.dicing_distance wafer_process)
    in *.
  assert (Hs : 0 < s) by (unfold s; lra).
  match type of H with
  | (if ?b then _ else _) = _ => destruct b
  end.
  - injection H as <-. unfold Layer.sentinel_cost. lra.
  - do 3 bind_inv H.
    apply py_sqrt_Ok in E1. destruct E1 as [_ ->].
    bind_inv H. apply py_div_Ok in E1. destruct E1 as [_ ->].
    bind_inv H. apply rows_case_1_grows in E1; [| assumption].
    assert (Hq : 0 <= sqrt (v - v0) * 2 / s).
    { apply Rmult_le_pos; [| left; now apply Rinv_0_lt_compat].
      pose proof (sqrt_pos (v - v0)). lra. }
    pose proof (py_floor_nonneg _ Hq) as Hfl.
    do 5 bind_inv H.
    rewrite Reqb_false in H by lra.
    match type of H with
    | (if (?n =? 0)%Z then _ else _) = _ =>
        destruct (Z.eqb_spec n 0) as [| Hn]; [discriminate |];
        assert (Hpos : 1 <= IZR n) by (apply IZR_le; lia);
        set (k := IZR n) in *
    end.
    bind_inv H. rewrite py_pow_2 in E7. injection E7 as <-.
    apply py_div_Ok in H. destruct H as [_ ->].
    apply Rmult_le_pos.
    + apply Rmult_le_pos; [assumption |].
      apply Rmult_le_pos; [left; apply PI_RGT_0 |].
      apply Rle_0_sqr.
    + left. apply Rinv_0_lt_compat. apply Rmult_lt_0_compat; lra.
Qed.

Lemma compute_cost_per_mm2_nonnegative_witness :
  exists c : R,
    Layer.compute_cost_per_mm2 1 fixture_layer 1 small_wafer_process = Ok c
    /\ 0 <= c.
Proof.
  destruct small_wafer_cost as (c & Hc & _).
  exists c. split; [exact Hc |].
  apply (compute_cost_per_mm2_nonnegative 1 fixture_layer
           small_wafer_process 1 c); [lra | simpl; lra | simpl; lra |].
  exact Hc.
Defined.

(** ** WaferProcess: the setters *)

Lemma Rltb_false_inv (x y : R) : Rltb x y = false -> y <= x.
Proof. unfold Rltb. destruct (Rlt_dec x y); [discriminate | lra]. Qed.

Lemma Rltb_true_inv (x y : R) : Rltb x y = true -> x < y.
Proof. unfold Rltb. destruct (Rlt_dec x y); [auto | discriminate]. Qed.

(** X5: [set_wafer_fill_grid] stores [True] for the strings ["True"] and
    ["true"] only: every other argument, the boolean [True] included, is
    stored as [False]. *)
Theorem set_wafer_fill_grid_reads_strings (self : WaferProcess.t)
    (value : pyval) :
  WaferProcess.static self = false ->
  (WaferProcess.wafer_fill_grid
     (snd (WaferProcess.set_wafer_fill_grid self value)) = true
   <-> value = PyStr "True" \/ value = PyStr "true").
Proof.
  intros Hs. unfold WaferProcess.set_wafer_fill_grid. rewrite Hs.
  destruct self. destruct value as [| b | z | r | s];
    cbn [py_eq_str orb snd WaferProcess.with_wafer_fill_grid
         WaferProcess.wafer_fill_grid];
    try (split; [discriminate | intros [H | H]; discriminate]).
  destruct (String.eqb_spec s "True") as [-> | H1].
  - cbn. split; auto.
  - destruct (String.eqb_spec s "true") as [-> | H2].
    + cbn. split; auto.
    + cbn. split; [discriminate |].
      intros [H | H]; injection H as ->; contradiction.
Qed.

Lemma set_wafer_fill_grid_reads_strings_witness :
  WaferProcess.static open_wafer_process = false
  /\ WaferProcess.wafer_fill_grid
       (snd (WaferProcess.set_wafer_fill_grid open_wafer_process
               (PyBool true))) <> true.
Proof.
  split; [reflexivity |]. intros H.
  apply (set_wafer_fill_grid_reads_strings open_wafer_process (PyBool true)
           eq_refl) in H.
  destruct H as [H | H]; discriminate H.
Defined.

(** ** Assembly: times, rates and cost *)

Lemma py_ceil_IZR (z : Z) : py_ceil (IZR z) = z.
Proof. apply py_ceil_unique. lra. Qed.

(** X6: [compute_picknplace_time] counts pick-and-place steps of
    [picknplace_group] chips: a group of 0 raises ZeroDivisionError; with a
    positive group no chip takes no time, up to a full group takes one
    [picknplace_time], and more chips never take less time. *)
Theorem compute_picknplace_time_groups (self : Assembly.t) (g : Z) (t : R) :
  Assembly.picknplace_group self = Some g ->
  Assembly.picknplace_time self = Some t ->
  (g = 0%Z ->
   forall n : R,
     Assembly.compute_picknplace_time self n = Raise ZeroDivisionError)
  /\ ((0 < g)%Z ->
      0 <= t ->
      Assembly.compute_picknplace_time self 0 = Ok 0
      /\ (forall n : R,
             0 < n <= IZR g ->
             Assembly.compute_picknplace_time self n = Ok t)
      /\ (forall n1 n2 : R,
             n1 <= n2 ->
             exists v1 v2 : R,
               Assembly.compute_picknplace_time self n1 = Ok v1
               /\ Assembly.compute_picknplace_time self n2 = Ok v2
               /\ v1 <= v2)).
Proof.
  intros Hg Ht. unfold Assembly.compute_picknplace_time.
  rewrite Hg, Ht. cbn [numZ num bind]. split.
  - intros -> n. unfold py_div. now rewrite Reqb_true.
  - intros Hpos Ht0.
    assert (Hgr : 0 < IZR g) by (apply IZR_lt; assumption).
    split; [| split].
    + rewrite py_div_ok by lra. cbn [bind].
      replace (0 / IZR g) with (IZR 0) by (unfold Rdiv; ring).
      rewrite py_ceil_IZR. f_equal. ring.
    + intros n [Hn1 Hn2]. rewrite py_div_ok by lra. cbn [bind].
      assert (Hc : py_ceil (n / IZR g) = 1%Z).
      { apply py_ceil_unique.
        assert (Hq : n / IZR g * IZR g = n) by (field; lra).
        split.
        - replace (1 - 1) with 0 by ring.
          apply Rdiv_lt_0_compat; assumption.
        - apply (Rmult_le_reg_r (IZR g)); [assumption |]. lra. }
      rewrite Hc. f_equal. ring.
    + intros n1 n2 Hn. rewrite !py_div_ok by lra. cbn [bind].
      do 2 eexists. split; [reflexivity |]. split; [reflexivity |].
      apply Rmult_le_compat_l; [assumption |].
      apply IZR_le. apply py_ceil_monotone.
      unfold Rdiv. apply Rmult_le_compat_r; [| assumption].
      left. now apply Rinv_0_lt_compat.
Qed.

Lemma compute_picknplace_time_groups_witness :
  Assembly.compute_picknplace_time fixture_assembly 1 = Ok 10.
Proof.
  destruct (compute_picknplace_time_groups fixture_assembly 1 10
              eq_refl eq_refl) as [_ H].
  destruct (H ltac:(lia) ltac:(lra)) as (_ & Hone & _).
  apply Hone. lra.
Defined.

Lemma assembly_cost_rates (self self' : Assembly.t) (n a : R) :
  Assembly.picknplace_cost_per_second self'
  = Assembly.picknplace_cost_per_second self ->
  Assembly.bonding_cost_per_second self'
  = Assembly.bonding_cost_per_second self ->
  Assembly.picknplace_group self' = Assembly.picknplace_group self ->
  Assembly.picknplace_time self' = Assembly.picknplace_time self ->
  Assembly.bonding_group self' = Assembly.bonding_group self ->
  Assembly.bonding_time self' = Assembly.bonding_time self ->
  Assembly.materials_cost_per_mm2 self'
  = Assembly.materials_cost_per_mm2 self ->
  Assembly.picknplace_cost_per_second self <> None ->
  Assembly.bonding_cost_per_second self <> None ->
  Assembly.assembly_cost self' n a = Assembly.assembly_cost self n a.
Proof.
  intros H1 H2 H3 H4 H5 H6 H7 Hp Hb.
  unfold Assembly.assembly_cost, Assembly.get_picknplace_cost_per_second,
    Assembly.get_bonding_cost_per_second, Assembly.compute_picknplace_time,
    Assembly.compute_bonding_time.
  rewrite H1, H2, H3, H4, H5, H6, H7.
  destruct (Assembly.picknplace_cost_per_second self); [| contradiction].
  destruct (Assembly.bonding_cost_per_second self); [| contradiction].
  reflexivity.
Qed.

(** X7: once the two rates are stored, the setters of the machine
    parameters they were computed from do not change what [assembly_cost]
    returns: the getters of the rates return the stored values, and only
    [set_picknplace_cost_per_second] and [set_bonding_cost_per_second]
    compute them again. *)
Theorem assembly_cost_keeps_stored_rates (self : Assembly.t)
    (r b value n a : R) :
  Assembly.picknplace_cost_per_second self = Some r ->
  Assembly.bonding_cost_per_second self = Some b ->
  Assembly.assembly_cost
    (snd (Assembly.set_picknplace_machine_cost self value)) n a
  = Assembly.assembly_cost self n a
  /\ Assembly.assembly_cost
       (snd (Assembly.set_picknplace_machine_lifetime self value)) n a
     = Assembly.assembly_cost self n a
  /\ Assembly.assembly_cost
       (snd (Assembly.set_picknplace_machine_uptime self value)) n a
     = Assembly.assembly_cost self n a
  /\ Assembly.assembly_cost
       (snd (Assembly.set_picknplace_technician_yearly_cost self value)) n a
     = Assembly.assembly_cost self n a
  /\ Assembly.assembly_cost
       (snd (Assembly.set_bonding_machine_cost self value)) n a
     = Assembly.assembly_cost self n a
  /\ Assembly.assembly_cost
       (snd (Assembly.set_bonding_machine_lifetime self value)) n a
     = Assembly.assembly_cost self n a
  /\ Assembly.assembly_cost
       (snd (Assembly.set_bonding_machine_uptime self value)) n a
     = Assembly.assembly_cost self n a
  /\ Assembly.assembly_cost
       (snd (Assembly.set_bonding_technician_yearly_cost self value)) n a
     = Assembly.assembly_cost self n a.
Proof.
  intros Hp Hb.
  assert (Hp' : Assembly.picknplace_cost_per_second self <> None)
    by (rewrite Hp; discriminate).
  assert (Hb' : Assembly.bonding_cost_per_second self <> None)
    by (rewrite Hb; discriminate).
  unfold Assembly.set_picknplace_machine_cost,
    Assembly.set_picknplace_machine_lifetime,
    Assembly.set_picknplace_machine_uptime,
    Assembly.set_picknplace_technician_yearly_cost,
    Assembly.set_bonding_machine_cost, Assembly.set_bonding_machine_lifetime,
    Assembly.set_bonding_machine_uptime,
    Assembly.set_bonding_technician_yearly_cost.
  destruct (Assembly.static self); cbn [snd];
    repeat split; try reflexivity;
    apply assembly_cost_rates; try assumption;
    destruct self; reflexivity.
Qed.

Lemma assembly_cost_keeps_stored_rates_witness :
  Assembly.assembly_cost
    (snd (Assembly.set_picknplace_machine_cost rated_assembly 5)) 1 1
  = Assembly.assembly_cost rated_assembly 1 1.
Proof.
  apply (assembly_cost_keeps_stored_rates rated_assembly 1 1 5 1 1);
    reflexivity.
Defined.

(** ** Test: yield, quality and cost of a test *)

Lemma get_self_true_yield_after_test_yield (chip : Chip.t) (v : option R) :
  Chip.get_self_true_yield (Chip.with_self_test_yield v chip)
  = Chip.get_self_true_yield chip.
Proof. destruct chip. reflexivity. Qed.

Lemma get_self_test_yield_stored (chip : Chip.t) (v : R) :
  Chip.get_self_test_yield (Chip.with_self_test_yield (Some v) chip) = Ok v.
Proof. destruct chip. reflexivity. Qed.

(** X8: the self test never makes a chip look worse than it is. For a chip
    whose own true yield [y] is in (0,1] and a defect coverage in [0,1],
    the test yield [compute_self_test_yield] returns is at most 1, and no
    quality [compute_self_quality] returns with that test yield stored is
    below [y]; without the self test the test yield is 1 and the quality
    is [y]. *)
Theorem self_test_never_lowers_quality (self : Test.t) (chip : Chip.t)
    (y : R) :
  Chip.self_true_yield chip = Some y ->
  0 < y <= 1 ->
  0 <= Test.self_defect_coverage self <= 1 ->
  exists test_yield : R,
    Chip.Test_compute_self_test_yield self chip = Ok test_yield
    /\ test_yield <= 1
    /\ (forall quality : R,
           Chip.Test_compute_self_quality self
             (Chip.with_self_test_yield (Some test_yield) chip) = Ok quality ->
           y <= quality)
    /\ (Test.test_self self = false ->
        test_yield = 1
        /\ Chip.Test_compute_self_quality self
             (Chip.with_self_test_yield (Some test_yield) chip) = Ok y).
Proof.
  intros Hy Hy01 Hcov.
  set (cov := Test.self_defect_coverage self) in *.
  assert (Hty : exists ty : R,
             Chip.Test_compute_self_test_yield self chip = Ok ty
             /\ y <= ty <= 1
             /\ (Test.test_self self = false -> ty = 1)).
  { unfold Chip.Test_compute_self_test_yield, Chip.get_self_true_yield.
    rewrite Hy. cbn [attr bind]. fold cov.
    destruct (Test.test_self self).
    - eexists. split; [reflexivity |]. split; [nra | discriminate].
    - exists 1. split; [reflexivity |]. split; [lra | reflexivity]. }
  destruct Hty as (ty & Hrun & Hty & Hoff).
  assert (Hq : Chip.Test_compute_self_quality self
                 (Chip.with_self_test_yield (Some ty) chip) = Ok (y / ty)).
  { unfold Chip.Test_compute_self_quality.
    rewrite get_self_test_yield_stored, get_self_true_yield_after_test_yield.
    unfold Chip.get_self_true_yield. rewrite Hy. cbn [attr bind].
    apply py_div_ok. lra. }
  exists ty. split; [exact Hrun |]. split; [lra |]. split.
  - intros quality H. rewrite Hq in H. injection H as <-.
    assert (Hmul : y / ty * ty = y) by (field; lra).
    assert (0 <= y / ty).
    { apply Rmult_le_pos; [lra |]. left. apply Rinv_0_lt_compat. lra. }
    nra.
  - intros Hs. split; [exact (Hoff Hs) |].
    rewrite Hq. f_equal. rewrite (Hoff Hs). field.
Qed.

Lemma self_test_never_lowers_quality_witness :
  exists test_yield : R,
    Chip.Test_compute_self_test_yield fixture_test tested_die = Ok test_yield
    /\ test_yield <= 1
    /\ Chip.Test_compute_self_quality fixture_test
         (Chip.with_self_test_yield (Some test_yield) tested_die)
       = Ok (1 / 2 / test_yield)
    /\ 1 / 2 <= 1 / 2 / test_yield.
Proof.
  destruct (self_test_never_lowers_quality fixture_test tested_die (1 / 2))
    as (ty & H1 & H2 & H3 & _).
  - reflexivity.
  - lra.
  - simpl. lra.
  - assert (Hq : Chip.Test_compute_self_quality fixture_test
                   (Chip.with_self_test_yield (Some ty) tested_die)
                 = Ok (1 / 2 / ty)).
    { unfold Chip.Test_compute_self_test_yield in H1. simpl in H1.
      injection H1 as <-.
      unfold Chip.Test_compute_self_quality.
      rewrite get_self_test_yield_stored,
        get_self_true_yield_after_test_yield.
      change (Chip.get_self_true_yield tested_die) with (Ok (A := R) (1 / 2)).
      cbn [bind]. apply py_div_ok. lra. }
    exists ty. split; [exact H1 |]. split; [exact H2 |].
    split; [exact Hq | exact (H3 _ Hq)].
Defined.

(** X9: with the assembly test enabled, [compute_assembly_test_cost] always
    takes one value from the random source and scales the cost by it: the
    branch of the source that would give the factor 1.0 repeats the test
    [== 1] of the branch before it and is never taken. The distribution
    codes that return are 1, 2 and 3; every other code raises
    UnboundLocalError. *)
Theorem assembly_test_cost_draws (rnd : random_source) (self : Test.t)
    (chip : Chip.t) (seed : nat) :
  Test.test_assembly self = true ->
  (forall (c : R) (seed' : nat),
      Chip.Test_compute_assembly_test_cost rnd self chip seed
      = Ok (c, seed') ->
      seed' = S seed
      /\ c = rnd seed
             * (Chip.sum_core_area (Chip.chips chip) (Chip.core_area chip)
                * Test.assembly_test_cost_per_mm2 self
                * IZR (Test.assembly_pattern_count self))
      /\ (Test.assembly_test_failure_dist self = 1
          \/ Test.assembly_test_failure_dist self = 2
          \/ Test.assembly_test_failure_dist self = 3)%Z)
  /\ (Test.assembly_test_failure_dist self <> 1%Z ->
      Test.assembly_test_failure_dist self <> 2%Z ->
      Test.assembly_test_failure_dist self <> 3%Z ->
      Chip.Test_compute_assembly_test_cost rnd self chip seed
      = Raise UnboundLocalError).
Proof.
  intros Hon. unfold Chip.Test_compute_assembly_test_cost.
  rewrite Hon. cbn [negb]. unfold Chip.get_chips, Chip.get_core_area.
  set (d := Test.assembly_test_failure_dist self).
  split.
  - intros c seed' H. bind_inv H. destruct v as [f s].
    injection H as <- <-.
    destruct (Z.eqb_spec d 1) as [H1 | H1].
    + do 2 bind_inv E. injection E as <- <-. auto.
    + destruct (Z.eqb_spec d 2) as [H2 | H2].
      * do 2 bind_inv E. injection E as <- <-. auto.
      * destruct (Z.eqb_spec d 3) as [H3 | H3]; [| discriminate].
        do 2 bind_inv E. injection E as <- <-. auto.
  - intros H1 H2 H3.
    destruct (Z.eqb_spec d 1); [contradiction |].
    destruct (Z.eqb_spec d 2); [contradiction |].
    destruct (Z.eqb_spec d 3); [contradiction |].
    reflexivity.
Qed.

Lemma assembly_test_cost_draws_witness :
  Chip.Test_compute_assembly_test_cost ones unit_test package_chip 1
  = Ok (1 * ((1 + 1) * 1 * 1), 2%nat)
  /\ 2%nat = S 1.
Proof.
  assert (Hrun : Chip.Test_compute_assembly_test_cost ones unit_test
                   package_chip 1
                 = Ok (1 * ((1 + 1) * 1 * 1), 2%nat)).
  { now rewrite (assembly_test_cost_gauss ones unit_test package_chip 1 1). }
  split; [exact Hrun |].
  destruct (assembly_test_cost_draws ones unit_test package_chip 1 eq_refl)
    as [H _].
  destruct (H _ _ Hrun) as (H1 & _). exact H1.
Defined.

(** ** Chip: the catalogs and the stackup *)

Lemma find_process_some {A : Type} (get_name : A -> string)
    (process_name : string) (process_list : list A) (p : A) :
  Chip.find_process get_name process_name process_list = Some p <->
  exists l1 l2 : list A,
    process_list = l1 ++ p :: l2
    /\ get_name p = process_name
    /\ Forall (fun q => get_name q <> process_name) l1.
Proof.
  induction process_list as [| q rest IH]; cbn [Chip.find_process].
  - split; [discriminate |].
    intros (l1 & l2 & H & _). destruct l1; discriminate.
  - destruct (String.eqb_spec (get_name q) process_name) as [Heq | Hne].
    + split.
      * intros [= ->]. exists [], rest. auto.
      * intros (l1 & l2 & H & Hp & Hall).
        destruct l1 as [| x l1].
        -- now injection H as ->.
        -- injection H as -> _. inversion Hall; subst. contradiction.
    + rewrite IH. split.
      * intros (l1 & l2 & -> & Hp & Hall).
        exists (q :: l1), l2. auto.
      * intros (l1 & l2 & H & Hp & Hall).
        destruct l1 as [| x l1].
        -- injection H as -> _. contradiction.
        -- injection H as -> ->. inversion Hall; subst.
           exists l1, l2. auto.
Qed.

Lemma find_process_none {A : Type} (get_name : A -> string)
    (process_name : string) (process_list : list A) :
  Chip.find_process get_name process_name process_list = None <->
  Forall (fun q => get_name q <> process_name) process_list.
Proof.
  induction process_list as [| q rest IH]; cbn [Chip.find_process].
  - split; auto.
  - destruct (String.eqb_spec (get_name q) process_name) as [Heq | Hne].
    + split; [discriminate |]. intros H. inversion H; subst. contradiction.
    + rewrite IH. split.
      * intros H. now constructor.
      * intros H. now inversion H.
Qed.

(** X10: [find_wafer_process] returns the first wafer process of the catalog
    that has the name asked for, also when a later one has the same name,
    and calls [sys.exit(1)] exactly when no process of the catalog has the
    name. *)
Theorem find_wafer_process_first_match (wafer_process_name : string)
    (wafer_process_list : list WaferProcess.t) :
  (forall p : WaferProcess.t,
      Chip.find_wafer_process wafer_process_name wafer_process_list = Ok p
      <-> exists l1 l2 : list WaferProcess.t,
            wafer_process_list = l1 ++ p :: l2
            /\ WaferProcess.name p = wafer_process_name
            /\ Forall (fun q => WaferProcess.name q <> wafer_process_name)
                      l1)
  /\ (Chip.find_wafer_process wafer_process_name wafer_process_list
      = Raise (SystemExit 1)
      <-> Forall (fun q => WaferProcess.name q <> wafer_process_name)
                 wafer_process_list).
Proof.
  unfold Chip.find_wafer_process. split.
  - intros p. rewrite <- find_process_some.
    destruct (Chip.find_process _ _ _); split; intros H;
      try discriminate; congruence.
  - rewrite <- find_process_none.
    destruct (Chip.find_process _ _ _); split; intros H;
      try discriminate; reflexivity.
Qed.

Lemma stackup_names_spec (stackup_string : list (Z * string)) :
  forall names : list string,
    Chip.stackup_names stackup_string = Ok names ->
    names = flat_map (fun cn => repeat (snd cn) (Z.to_nat (fst cn)))
                     stackup_string
    /\ Forall (fun cn => (0 <= fst cn)%Z) stackup_string.
Proof.
  induction stackup_string as [| [count layer_name] rest IH];
    intros names H; cbn [Chip.stackup_names] in H.
  - injection H as <-. auto.
  - destruct (Z.leb_spec 0 count) as [Hc | Hc]; [| discriminate].
    bind_inv H. injection H as <-.
    destruct (IH _ E) as [-> Hall]. auto.
Qed.

Lemma stackup_names_negative (stackup_string : list (Z * string)) :
  Exists (fun cn => (fst cn < 0)%Z) stackup_string ->
  Chip.stackup_names stackup_string = Raise (SystemExit 1).
Proof.
  induction stackup_string as [| [count layer_name] rest IH]; intros H.
  - inversion H.
  - cbn [Chip.stackup_names].
    destruct (Z.leb_spec 0 count) as [Hc | Hc]; [| reflexivity].
    inversion H as [? ? Hneg | ? ? Hex]; subst.
    + cbn in Hneg. lia.
    + now rewrite (IH Hex).
Qed.

Lemma find_layers_spec (layers : list Layer.t) (names : list string) :
  forall stackup : list Layer.t,
    Chip.find_layers names layers = Ok stackup ->
    map Layer.name stackup = names
    /\ Forall (fun l => In l layers) stackup.
Proof.
  induction names as [| n rest IH]; intros stackup H;
    cbn [Chip.find_layers] in H.
  - injection H as <-. auto.
  - destruct (Chip.find_process Layer.name n layers) as [l |] eqn:E;
      [| discriminate].
    bind_inv H. injection H as <-.
    apply find_process_some in E. destruct E as (l1 & l2 & -> & Hn & _).
    destruct (IH _ E0) as [Hm Hall]. cbn [map]. rewrite Hm, Hn.
    split; [reflexivity |]. constructor; [| assumption].
    apply in_or_app. right. now left.
Qed.

Lemma build_stackup_follows_string_names (stackup_string : list (Z * string))
    (layers stackup : list Layer.t) :
  Chip.build_stackup stackup_string layers = Ok stackup ->
  map Layer.name stackup
  = flat_map (fun cn => repeat (snd cn) (Z.to_nat (fst cn))) stackup_string
  /\ Forall (fun l => In l layers) stackup
  /\ Forall (fun cn => (0 <= fst cn)%Z) stackup_string.
Proof.
  unfold Chip.build_stackup. intros H. bind_inv H.
  destruct (stackup_names_spec _ _ E) as [-> Hpos].
  destruct (find_layers_spec _ _ _ H) as [Hm Hin]. auto.
Qed.

(** X11: the stackup [build_stackup] returns has, in order, one layer of the
    catalog for every name of the stackup string, each name as many times
    as its count says; no count of the string is negative then, and a
    negative count anywhere in the string makes it call [sys.exit(1)]. *)
Theorem build_stackup_follows_string (stackup_string : list (Z * string))
    (layers : list Layer.t) :
  (forall stackup : list Layer.t,
      Chip.build_stackup stackup_string layers = Ok stackup ->
      map Layer.name stackup
      = flat_map (fun cn => repeat (snd cn) (Z.to_nat (fst cn)))
                 stackup_string
      /\ Forall (fun l => In l layers) stackup
      /\ Forall (fun cn => (0 <= fst cn)%Z) stackup_string)
  /\ (Exists (fun cn => (fst cn < 0)%Z) stackup_string ->
      Chip.build_stackup stackup_string layers = Raise (SystemExit 1)).
Proof.
  split.
  - intros stackup H. now apply build_stackup_follows_string_names.
  - intros H. unfold Chip.build_stackup.
    now rewrite (stackup_names_negative _ H).
Qed.

Lemma build_stackup_follows_string_witness :
  Chip.build_stackup [(2%Z, "test_layer_process"%string)] [fixture_layer]
  = Ok [fixture_layer; fixture_layer]
  /\ map Layer.name [fixture_layer; fixture_layer]
     = ["test_layer_process"%string; "test_layer_process"%string].
Proof.
  assert (Hrun : Chip.build_stackup [(2%Z, "test_layer_process"%string)]
                                    [fixture_layer]
                 = Ok [fixture_layer; fixture_layer]) by reflexivity.
  split; [exact Hrun |].
  destruct (build_stackup_follows_string
              [(2%Z, "test_layer_process"%string)] [fixture_layer])
    as [H _].
  destruct (H _ Hrun) as (Hm & _). exact Hm.
Defined.

(** ** Chip: areas *)

Lemma stack_dies_filter (assembly_process : Assembly.t)
    (chips : list Chip.t) :
  forall stacked_die_area : R,
    Chip.stack_dies assembly_process chips stacked_die_area
    = Chip.stack_dies assembly_process
        (filter (fun chip => negb (Chip.get_buried chip)) chips)
        stacked_die_area.
Proof.
  induction chips as [| chip rest IH]; intros acc; [reflexivity |].
  cbn [Chip.stack_dies filter].
  destruct (negb (Chip.get_buried chip)) eqn:E.
  - cbn [Chip.stack_dies]. rewrite E.
    destruct (Chip.get_area chip); cbn [bind]; try reflexivity.
    destruct (num _); cbn [bind]; try reflexivity.
    destruct (Chip.expandedArea _ _ _); cbn [bind]; try reflexivity.
    apply IH.
  - apply IH.
Qed.

Lemma assembly_process_with_chips (chips : list Chip.t) (self : Chip.t) :
  Chip.assembly_process (Chip.with_chips chips self)
  = Chip.assembly_process self.
Proof. destruct self. reflexivity. Qed.

Lemma chips_with_chips (chips : list Chip.t) (self : Chip.t) :
  Chip.chips (Chip.with_chips chips self) = chips.
Proof. destruct self. reflexivity. Qed.

(** X13: a buried chip adds nothing to the stacked die area, and its area is
    not even read: [get_stacked_die_area] gives the same outcome on the
    chip with its buried chips taken off the list. *)
Theorem stacked_die_area_skips_buried (self : Chip.t) :
  Chip.get_stacked_die_area self
  = Chip.get_stacked_die_area
      (Chip.with_chips
         (filter (fun chip => negb (Chip.get_buried chip)) (Chip.chips self))
         self).
Proof.
  unfold Chip.get_stacked_die_area.
  rewrite assembly_process_with_chips, chips_with_chips.
  now rewrite <- stack_dies_filter.
Qed.

(** ** Chip: the blocks of a chip in the netlist *)

(** X14: the list [get_chip_list] returns holds the lists of the stacked
    chips as nested lists, so the only name the membership tests of
    [get_signal_count] and [get_signal_power] find in it is the name of
    the chip itself: a block is internal exactly when it carries the name
    of the chip, never because it names a chip stacked on it. *)
Theorem internal_blocks_carry_own_name (self : Chip.t) (j : nat) :
  In j (Chip.internal_indices (Chip.block_names self)
          (Chip.get_chip_list self) 0)
  <-> nth_error (Chip.block_names self) j = Some (Chip.name self).
Proof.
  rewrite internal_indices_spec. split.
  - intros (k & b & -> & Hn & Hin).
    rewrite in_items_get_chip_list in Hin.
    apply String.eqb_eq in Hin. now subst b.
  - intros H. exists j, (Chip.name self). repeat split; [assumption |].
    rewrite in_items_get_chip_list. apply String.eqb_refl.
Qed.

Lemma first_index_none (block_names : list string) (name : string) :
  ~ In name block_names ->
  forall i : nat, Chip.first_index block_names name i = None.
Proof.
  induction block_names as [| b rest IH]; intros Hn i; [reflexivity |].
  cbn [Chip.first_index].
  destruct (String.eqb_spec b name) as [-> | Hne].
  - exfalso. apply Hn. now left.
  - apply IH. intros H. apply Hn. now right.
Qed.

Lemma last_index_none (block_names : list string) (name : string) :
  ~ In name block_names ->
  forall i : nat, Chip.last_index block_names name i None = None.
Proof.
  induction block_names as [| b rest IH]; intros Hn i; [reflexivity |].
  cbn [Chip.last_index].
  destruct (String.eqb_spec b name) as [-> | Hne].
  - exfalso. apply Hn. now left.
  - apply IH. intros H. apply Hn. now right.
Qed.

Lemma internal_indices_none (items : list Chip.name_item)
    (block_names : list string) :
  (forall b : string, In b block_names -> Chip.in_items b items = false) ->
  forall i : nat, Chip.internal_indices block_names items i = [].
Proof.
  induction block_names as [| b rest IH]; intros H i; [reflexivity |].
  cbn [Chip.internal_indices]. rewrite (H b) by now left.
  apply IH. intros b' Hb'. apply H. now right.
Qed.

Lemma select_io_some (io_list : list IO.t) (io_type : string) :
  io_list <> [] -> exists io : IO.t, Chip.select_io io_list io_type = Ok io.
Proof.
  intros Hne. unfold Chip.select_io.
  destruct (find _ io_list) as [io |]; [eauto |].
  destruct (rev io_list) as [| io rest] eqn:E; [| eauto].
  apply (f_equal (@rev IO.t)) in E. rewrite rev_involutive in E.
  contradiction.
Qed.

Lemma signal_power_types_no_indices (io_list : list IO.t)
    (utilization adjacency : list (string * matrix)) :
  io_list <> [] ->
  forall signal_power : R,
    Chip.signal_power_types io_list utilization [] adjacency signal_power
    = Ok signal_power.
Proof.
  intros Hne. induction adjacency as [| [io_type m] rest IH]; intros acc;
    [reflexivity |].
  cbn [Chip.signal_power_types].
  destruct (select_io_some io_list io_type Hne) as (io & ->).
  cbn [bind Chip.link_weighted]. rewrite IH. f_equal. ring.
Qed.

(** X15: a chip whose name is not in the block names of the netlist, such as
    an interposer that only passes signals through, has no signal pads, no
    IO area and, when the IO list is not empty, no IO power. *)
Theorem chip_outside_netlist (self : Chip.t)
    (internal_block_list : list Chip.name_item) :
  ~ In (Chip.name self) (Chip.block_names self) ->
  Chip.get_signal_count self internal_block_list = Ok (0, [])
  /\ Chip.get_io_area self = Ok 0
  /\ (Chip.io_list self <> [] ->
      Chip.get_signal_power self (Chip.get_chip_list self) = Ok 0).
Proof.
  intros Hn. split; [| split].
  - unfold Chip.get_signal_count, Chip.get_name.
    now rewrite last_index_none.
  - unfold Chip.get_io_area, Chip.get_name. now rewrite first_index_none.
  - intros Hio. unfold Chip.get_signal_power.
    rewrite internal_indices_none.
    + now apply signal_power_types_no_indices.
    + intros b Hb. rewrite in_items_get_chip_list.
      apply String.eqb_neq. intros ->. contradiction.
Qed.

Lemma chip_outside_netlist_witness :
  Chip.get_signal_count interposer_chip (Chip.get_chip_list interposer_chip)
  = Ok (0, [])
  /\ Chip.get_io_area interposer_chip = Ok 0
  /\ Chip.get_signal_power interposer_chip
       (Chip.get_chip_list interposer_chip) = Ok 0.
Proof.
  destruct (chip_outside_netlist interposer_chip
              (Chip.get_chip_list interposer_chip)) as (H1 & H2 & H3).
  - cbn. intros [H | [H | []]]; discriminate H.
  - split; [exact H1 |]. split; [exact H2 |]. apply H3. discriminate.
Defined.

(** ** Chip: pads *)

Lemma unit_power_per_pad :
  Assembly.get_power_per_pad unit_assembly 1
  = Ok (1 * (PI * (1 / 4 * (1 / 4))) * 1).
Proof.
  unfold Assembly.get_power_per_pad. cbn [unit_assembly Assembly.bonding_pitch
    Assembly.max_pad_current_density num bind].
  rewrite py_pow_2. reflexivity.
Qed.

Lemma place_reach_grows (aspect_ratio : R) (die_separation : option R)
    (bonding_pitch area_per_pad : R)
    (signal_with_reach_count : list (R * R)) (reach : R)
    (x y c x' y' c' : R) :
  Chip.place_reach aspect_ratio die_separation bonding_pitch area_per_pad
    signal_with_reach_count reach (x, y, c) = Ok (x', y', c') ->
  x <= x' /\ y <= y'.
Proof.
  intros H. unfold Chip.place_reach in H.
  bind_inv H.
  destruct (Rltb (reach - v) 0); [discriminate |].
  do 2 bind_inv H.
  destruct (Rleb v1 _).
  - do 4 bind_inv H. destruct v5 as [nx ny]. do 2 bind_inv H.
    injection H as <- <- _.
    split.
    + destruct (Rltb x _) eqn:Ex; [apply Rltb_true_inv in Ex |]; lra.
    + destruct (Rltb y _) eqn:Ey; [apply Rltb_true_inv in Ey |]; lra.
  - injection H as <- <- _. lra.
Qed.

Lemma place_reaches_grow (aspect_ratio : R) (die_separation : option R)
    (bonding_pitch area_per_pad : R)
    (signal_with_reach_count : list (R * R)) (reaches : list R) :
  forall x y c x' y' c' : R,
    Chip.place_reaches aspect_ratio die_separation bonding_pitch
      area_per_pad signal_with_reach_count reaches (x, y, c)
    = Ok (x', y', c') ->
    x <= x' /\ y <= y'.
Proof.
  induction reaches as [| reach rest IH]; intros x y c x' y' c' H;
    cbn [Chip.place_reaches] in H.
  - injection H as <- <- _. lra.
  - bind_inv H. destruct v as [[x1 y1] c1].
    apply place_reach_grows in E. apply IH in H. lra.
Qed.

Lemma ceil_times_pitch (v p : R) :
  0 < p -> v <= IZR (py_ceil (v / p)) * p.
Proof.
  intros Hp. pose proof (py_ceil_spec (v / p)) as [_ H].
  assert (Hq : v / p * p = v) by (field; lra).
  set (q := v / p) in *. set (k := IZR (py_ceil q)) in *. nra.
Qed.

Lemma pad_grid_holds (bonding_pitch required_area current_x current_y : R)
    (grid_x grid_y : Z) :
  0 < bonding_pitch ->
  0 <= current_x ->
  0 <= current_y ->
  Chip.pad_grid bonding_pitch required_area current_x current_y
  = Ok (grid_x, grid_y) ->
  required_area <= IZR (grid_x * grid_y) * (bonding_pitch * bonding_pitch).
Proof.
  intros Hp Hx Hy H. rewrite mult_IZR.
  assert (Hside : forall g : Z,
             0 <= required_area ->
             g = py_ceil (sqrt required_area / bonding_pitch) ->
             required_area <= IZR g * IZR g * (bonding_pitch * bonding_pitch)).
  { intros g Hr ->.
    pose proof (ceil_times_pitch (sqrt required_area) bonding_pitch Hp) as Hc.
    pose proof (sqrt_pos required_area) as Hs.
    pose proof (sqrt_sqrt required_area Hr) as Hss.
    set (s := sqrt required_area) in *.
    set (G := IZR (py_ceil (s / bonding_pitch))) in *.
    replace (G * G * (bonding_pitch * bonding_pitch))
      with ((G * bonding_pitch) * (G * bonding_pitch)) by ring.
    nra. }
  assert (Hlong : forall (long : R) (gl gs : Z),
             0 < long ->
             long * long <= required_area ->
             gl = py_ceil (long / bonding_pitch) ->
             gs = py_ceil (required_area / long / bonding_pitch) ->
             required_area
             <= IZR gl * IZR gs * (bonding_pitch * bonding_pitch)).
  { intros long gl gs Hl Hsq -> ->.
    pose proof (ceil_times_pitch long bonding_pitch Hp) as H1.
    pose proof (ceil_times_pitch (required_area / long) bonding_pitch Hp)
      as H2.
    assert (Hq : required_area / long * long = required_area)
      by (field; lra).
    assert (Hq0 : 0 <= required_area / long).
    { apply Rmult_le_pos; [nra |]. left. now apply Rinv_0_lt_compat. }
    set (q := required_area / long) in *.
    set (A := IZR (py_ceil (long / bonding_pitch))) in *.
    set (B := IZR (py_ceil (q / bonding_pitch))) in *.
    replace (A * B * (bonding_pitch * bonding_pitch))
      with ((A * bonding_pitch) * (B * bonding_pitch)) by ring.
    nra. }
  unfold Chip.pad_grid in H.
  destruct (Rle_dec required_area (current_x * current_y)) as [Hfit | Hbig].
  - rewrite Rleb_true in H by assumption.
    rewrite !py_div_ok in H by lra. cbn [bind] in H.
    injection H as <- <-.
    pose proof (ceil_times_pitch current_x bonding_pitch Hp) as H1.
    pose proof (ceil_times_pitch current_y bonding_pitch Hp) as H2.
    set (A := IZR (py_ceil (current_x / bonding_pitch))) in *.
    set (B := IZR (py_ceil (current_y / bonding_pitch))) in *.
    replace (A * B * (bonding_pitch * bonding_pitch))
      with ((A * bonding_pitch) * (B * bonding_pitch)) by ring.
    nra.
  - rewrite Rleb_false in H by lra.
    assert (Hr : 0 <= required_area) by nra.
    destruct (Rlt_dec current_x current_y) as [Hxy | Hxy].
    + rewrite Rltb_true in H by assumption.
      rewrite py_pow_2 in H. cbn [bind] in H.
      destruct (Rle_dec (current_y * current_y) required_area) as [Hsq | Hsq].
      * rewrite Rleb_true in H by assumption.
        rewrite !py_div_ok in H by lra. cbn [bind] in H.
        rewrite py_div_ok in H by lra. cbn [bind] in H.
        injection H as <- <-. rewrite (Rmult_comm (IZR _) (IZR _)).
        apply (Hlong current_y); auto; lra.
      * rewrite Rleb_false in H by lra.
        rewrite py_sqrt_ok in H by assumption. cbn [bind] in H.
        rewrite py_div_ok in H by lra. cbn [bind] in H.
        injection H as <- <-. now apply Hside.
    + rewrite Rltb_false in H by lra.
      destruct (Rlt_dec current_y current_x) as [Hyx | Hyx].
      * rewrite Rltb_true in H by assumption.
        rewrite py_pow_2 in H. cbn [bind] in H.
        destruct (Rle_dec (current_x * current_x) required_area)
          as [Hsq | Hsq].
        -- rewrite Rleb_true in H by assumption.
           rewrite !py_div_ok in H by lra. cbn [bind] in H.
           rewrite py_div_ok in H by lra. cbn [bind] in H.
           injection H as <- <-.
           apply (Hlong current_x); auto; lra.
        -- rewrite Rleb_false in H by lra.
           rewrite py_sqrt_ok in H by assumption. cbn [bind] in H.
           rewrite py_div_ok in H by lra. cbn [bind] in H.
           injection H as <- <-. now apply Hside.
      * rewrite Rltb_false in H by lra.
        rewrite py_sqrt_ok in H by assumption. cbn [bind] in H.
        rewrite py_div_ok in H by lra. cbn [bind] in H.
        injection H as <- <-. now apply Hside.
Qed.

(** X17: the grid of pads [get_pad_area] lays out has room for every pad:
    with a positive bonding pitch, the area it returns is at least the
    number of signal and power pads times the square of the pitch. *)
Theorem get_pad_area_holds_pads (self : Chip.t) (pad_area signal_pads : R)
    (num_power_pads : Z) (signal_with_reach_count : list (R * R))
    (bonding_pitch : R) :
  Chip.get_pad_area self = Ok pad_area ->
  Chip.get_power_pads self = Ok num_power_pads ->
  Chip.get_signal_count self (Chip.get_chip_list self)
  = Ok (signal_pads, signal_with_reach_count) ->
  Assembly.bonding_pitch
    match Chip.get_parent_chip self with
    | Some parent_assembly_process => parent_assembly_process
    | None => Chip.assembly_process self
    end = Some bonding_pitch ->
  0 < bonding_pitch ->
  bonding_pitch * bonding_pitch * (signal_pads + IZR num_power_pads)
  <= pad_area.
Proof.
  intros H Hn Hs Hp Hpos. unfold Chip.get_pad_area in H.
  rewrite Hn, Hs in H. cbn [bind] in H. rewrite Hp in H. cbn [num bind] in H.
  rewrite py_pow_2 in H. cbn [bind] in H.
  bind_inv H. destruct v as [[x y] c].
  apply place_reaches_grow in E. destruct E as [Hx Hy].
  bind_inv H. destruct v as [gx gy]. injection H as <-.
  apply pad_grid_holds in E; assumption.
Qed.

(** The die of the linked package: two signal pads of reach 1 and no power
    pad, on a grid of two by two. *)
Lemma linked_die_signals :
  Chip.get_signal_count linked_die_chip (Chip.get_chip_list linked_die_chip)
  = Ok (0 + (2 + 2) * 1 * (1 / 2), [(1, (2 + 2) * 1 * (1 / 2))]).
Proof.
  unfold Chip.get_signal_count.
  cbn -[Rplus Rmult Rdiv Rinv Rminus Ropp IZR Reqb Rltb Rleb].
  reflexivity.
Qed.

Lemma linked_die_power_pads : Chip.get_power_pads linked_die_chip = Ok 0%Z.
Proof.
  unfold Chip.get_power_pads.
  change (Chip.get_total_power linked_die_chip) with (Ok (A := R) 0).
  cbn [bind].
  change (Chip.assembly_process linked_die_chip) with unit_assembly.
  change (Chip.get_core_voltage linked_die_chip) with 1.
  rewrite unit_power_per_pad. cbn [bind].
  rewrite py_div_ok by (pose proof PI_RGT_0; lra). cbn [bind].
  replace (0 / (1 * (PI * (1 / 4 * (1 / 4))) * 1)) with (IZR 0)
    by (unfold Rdiv; ring).
  now rewrite py_ceil_IZR.
Qed.

Lemma linked_die_pad_area : Chip.get_pad_area linked_die_chip = Ok 4.
Proof.
  unfold Chip.get_pad_area.
  rewrite linked_die_power_pads, linked_die_signals. cbn [bind].
  change (Chip.get_parent_chip linked_die_chip) with (Some unit_assembly).
  change (Chip.get_aspect_ratio linked_die_chip) with 1.
  cbn [unit_assembly Assembly.bonding_pitch Assembly.die_separation num bind].
  rewrite py_pow_2.
  cbn [bind map fst Chip.sort_reaches fold_right Chip.insert_sorted
       Chip.place_reaches].
  unfold Chip.place_reach. cbn [num bind].
  rewrite !(Rltb_false (1 - 0) 0) by lra.
  cbn [Chip.reach_get andb]. rewrite Reqb_true by reflexivity.
  cbn [bind]. rewrite Rleb_true by lra.
  pose proof (sqrt_between ((0 + (2 + 2) * 1 * (1 / 2)) * (1 * 1) * 1)
                (5 / 4) 2 ltac:(lra) ltac:(lra) ltac:(lra)) as Hx.
  pose proof (sqrt_between ((0 + (2 + 2) * 1 * (1 / 2)) * (1 * 1) / 1)
                (5 / 4) 2 ltac:(lra) ltac:(lra) ltac:(lra)) as Hy.
  rewrite py_sqrt_ok by lra. cbn [bind].
  rewrite py_div_ok by lra. cbn [bind].
  rewrite py_sqrt_ok by lra. cbn [bind].
  rewrite !Rltb_true by lra. cbn [andb].
  repeat (rewrite py_div_ok by lra; cbn [bind]).
  rewrite !(py_ceil_unique _ 2) by (simpl; lra).
  rewrite !Rltb_true by (simpl; lra).
  unfold Chip.pad_grid. rewrite Rleb_true by (simpl; lra).
  rewrite !py_div_ok by lra. cbn [bind].
  rewrite !(py_ceil_unique _ 2) by (simpl; lra).
  f_equal. simpl. lra.
Qed.

Lemma get_pad_area_holds_pads_witness :
  Chip.get_pad_area linked_die_chip = Ok 4
  /\ 1 * 1 * (0 + (2 + 2) * 1 * (1 / 2) + IZR 0) <= 4.
Proof.
  split; [exact linked_die_pad_area |].
  apply (get_pad_area_holds_pads linked_die_chip 4
           (0 + (2 + 2) * 1 * (1 / 2)) 0%Z [(1, (2 + 2) * 1 * (1 / 2))] 1).
  - exact linked_die_pad_area.
  - exact linked_die_power_pads.
  - exact linked_die_signals.
  - reflexivity.
  - lra.
Defined.

(** ** Chip: area and yield *)

(** X18: a black-box area is returned as it is, before the IO area, the pads
    and the stacked dies are looked at; without one, the area
    [compute_area] returns is one of the three areas it computes, the core
    area with the IO area, the pad area and the stacked die area, and no
    smaller than any of them. *)
Theorem compute_area_covers (self : Chip.t) :
  (forall bb_area : R,
      Chip.bb_area self = Some bb_area ->
      Chip.compute_area self = Ok bb_area)
  /\ (Chip.bb_area self = None ->
      forall area : R,
        Chip.compute_area self = Ok area ->
        exists io_area pad_area stacked_die_area : R,
          Chip.get_io_area self = Ok io_area
          /\ Chip.get_pad_area self = Ok pad_area
          /\ Chip.get_stacked_die_area self = Ok stacked_die_area
          /\ Chip.core_area self + io_area <= area
          /\ pad_area <= area
          /\ stacked_die_area <= area
          /\ (area = Chip.core_area self + io_area \/ area = pad_area
              \/ area = stacked_die_area)).
Proof.
  unfold Chip.compute_area. split.
  - now intros b ->.
  - intros -> area H. do 3 bind_inv H. injection H as <-.
    exists v, v0, v1. repeat (split; [assumption |]).
    unfold Chip.get_core_area.
    set (a := Chip.core_area self + v).
    pose proof (Rmax_l (Rmax v1 v0) a) as H1.
    pose proof (Rmax_r (Rmax v1 v0) a) as H2.
    pose proof (Rmax_l v1 v0) as H3.
    pose proof (Rmax_r v1 v0) as H4.
    split; [lra |]. split; [lra |]. split; [lra |].
    destruct (Rle_dec (Rmax v1 v0) a) as [Hle | Hgt].
    + left. now apply Rmax_right.
    + right. rewrite (Rmax_left (Rmax v1 v0) a) by lra.
      destruct (Rle_dec v1 v0).
      * left. now apply Rmax_right.
      * right. apply Rmax_left. lra.
Qed.

Lemma compute_area_covers_witness : Chip.compute_area die_chip = Ok 1.
Proof.
  destruct (compute_area_covers die_chip) as [H _]. now apply H.
Defined.

Lemma layers_yield_bounds (self : Chip.t) (io_area : R) :
  Chip.get_io_area self = Ok io_area ->
  0 <= Chip.core_area self + io_area ->
  forall stackup : list Layer.t,
    Forall (fun layer =>
              0 <= Layer.defect_density layer
              /\ 0 <= Layer.critical_area_ratio layer
              /\ 0 < Layer.clustering_factor layer) stackup ->
    forall layer_yield : R,
      0 <= layer_yield ->
      exists y : R,
        Chip.layers_yield self stackup layer_yield = Ok y
        /\ 0 <= y <= layer_yield.
Proof.
  intros Hio Ha. induction stackup as [| layer rest IH]; intros Hall acc Hacc.
  - exists acc. split; [reflexivity | lra].
  - inversion Hall as [| ? ? (Hd & Hr & Hc) Hrest]; subst.
    cbn [Chip.layers_yield]. rewrite Hio. cbn [bind].
    unfold Chip.get_core_area.
    rewrite (layer_yield_eval layer Hd Hr Hc _ Ha). cbn [bind].
    pose proof (defect_yield_bounds layer Hd Hr Hc _ Ha) as [Hy0 Hy1].
    match goal with
    | |- context [1 * ?p] => set (y := p) in *
    end.
    destruct (IH Hrest (acc * (1 * y))) as (v & Hv & Hv0 & Hv1); [nra |].
    exists v. split; [exact Hv |]. split; [exact Hv0 | nra].
Qed.

(** X19: the own yield of a chip, [compute_layer_aware_yield], is the product
    of the yields of the layers of its stackup at the core area plus the IO
    area; with layers of non-negative defect density and of positive
    critical area ratio and clustering factor it lies in [0,1], and it is
    1 for an empty stackup. *)
Theorem compute_layer_aware_yield_in_unit_interval (self : Chip.t)
    (io_area : R) :
  Chip.get_io_area self = Ok io_area ->
  0 <= Chip.core_area self + io_area ->
  Forall (fun layer =>
            0 <= Layer.defect_density layer
            /\ 0 < Layer.critical_area_ratio layer
            /\ 0 < Layer.clustering_factor layer) (Chip.stackup self) ->
  (exists y : R,
      Chip.compute_layer_aware_yield self = Ok y /\ 0 <= y <= 1)
  /\ (Chip.stackup self = [] -> Chip.compute_layer_aware_yield self = Ok 1).
Proof.
  intros Hio Ha Hall. unfold Chip.compute_layer_aware_yield. split.
  - apply (layers_yield_bounds self io_area Hio Ha); [| lra].
    apply (Forall_impl _ (P := fun layer =>
                                 0 <= Layer.defect_density layer
                                 /\ 0 < Layer.critical_area_ratio layer
                                 /\ 0 < Layer.clustering_factor layer));
      [| exact Hall].
    intros layer (Hd & Hr & Hc). repeat split; lra.
  - now intros ->.
Qed.

Lemma compute_layer_aware_yield_in_unit_interval_witness :
  exists y : R,
    Chip.compute_layer_aware_yield layered_die = Ok y /\ 0 <= y <= 1.
Proof.
  destruct (compute_layer_aware_yield_in_unit_interval layered_die 0)
    as [H _].
  - reflexivity.
  - simpl. lra.
  - repeat constructor; simpl; lra.
  - exact H.
Defined.

Lemma sum_signal_count_nil (internal_chip_list : list Chip.name_item)
    (signal_count : R) :
  Chip.sum_signal_count internal_chip_list [] signal_count = Ok signal_count.
Proof. reflexivity. Qed.

(** X20: a chip with nothing stacked on it still goes through the yield of
    its assembly process: no chip and no bond leave the alignment and
    bonding factors at 1, whatever the two yields are, but the dielectric
    bond factor is taken over the square the edge exclusion alone spans,
    [(2*edge_exclusion)^2]; the true yield is the own quality times that
    factor times the wafer process yield. *)
Theorem leaf_chip_yield (self : Chip.t)
    (self_quality edge_exclusion density alignment_yield bonding_yield : R) :
  Chip.chips self = [] ->
  Chip.self_quality self = Some self_quality ->
  Assembly.edge_exclusion (Chip.assembly_process self) = Some edge_exclusion ->
  Assembly.dielectric_bond_defect_density (Chip.assembly_process self)
  = Some density ->
  Assembly.alignment_yield (Chip.assembly_process self)
  = Some alignment_yield ->
  Assembly.bonding_yield (Chip.assembly_process self) = Some bonding_yield ->
  Chip.compute_chip_yield self
  = Ok (self_quality
        * (1 - density * ((2 * edge_exclusion) * (2 * edge_exclusion)))
        * WaferProcess.wafer_process_yield (Chip.wafer_process self)).
Proof.
  intros Hchips Hq He Hd Hal Hb. unfold Chip.compute_chip_yield.
  unfold Chip.get_self_quality. rewrite Hq. cbn [attr bind].
  unfold Chip.quality_yield, Chip.get_chips_signal_count, Chip.get_chips_len.
  rewrite Hchips. cbn [Chip.product_quality bind].
  rewrite sum_signal_count_nil. cbn [bind].
  rewrite (stacked_die_area_leaf self edge_exclusion
             (4 * edge_exclusion * edge_exclusion) Hchips He eq_refl).
  cbn [bind List.length Z.of_nat].
  unfold Assembly.assembly_yield. rewrite Hal, Hb, Hd. cbn [num bind].
  rewrite !py_pow_zero. cbn [bind].
  unfold Chip.get_wafer_process_yield. f_equal. ring.
Qed.

Lemma leaf_chip_yield_witness :
  Chip.compute_chip_yield leaf_die
  = Ok (1 * (1 - 3 / 10000 * ((2 * (3 / 10)) * (2 * (3 / 10)))) * 1).
Proof.
  apply (leaf_chip_yield leaf_die 1 (3 / 10) (3 / 10000) (987 / 1000)
           (999 / 1000)); reflexivity.
Defined.

(** ** The chip constructor: what it stores *)

Lemma init_self_metrics_inv (self self' : Chip.t) :
  Chip.static self = false ->
  Chip.init_self_metrics self = Ok self' ->
  exists sp iop tp nre a sty sy sq : R,
    self' = Chip.with_self_quality (Some sq)
              (Chip.with_self_test_yield (Some sy)
                (Chip.with_self_true_yield (Some sty)
                  (Chip.with_area (Some a)
                    (Chip.with_nre_design_cost (Some nre)
                      (Chip.with_total_power (Some tp)
                        (Chip.with_io_power (Some iop)
                          (Chip.with_stack_power (Some sp) self)))))))
    /\ (forall b : R, Chip.bb_power self = Some b -> tp = b + sp)
    /\ (forall b : R, Chip.bb_area self = Some b -> a = b)
    /\ (forall b : R, Chip.bb_quality self = Some b -> sq = b).
Proof.
  intros Hs H. unfold Chip.init_self_metrics in H.
  apply bind_Ok in H as (sp0 & _ & H).
  apply bind_Ok in H as ([z self1] & Esp & H).
  rewrite set_stack_power_eq in Esp.
  apply bind_Ok in Esp as (sp & _ & Esp). injection Esp as <- <-.
  apply bind_Ok in H as (iop & _ & H). open_setter H Hs.
  apply bind_Ok in H as (tp & Etp & H). open_setter H Hs.
  apply bind_Ok in H as ([z self1] & Enre & H).
  rewrite set_nre_design_cost_eq in Enre. injection Enre as <- <-.
  apply bind_Ok in H as ([z self1] & Earea & H).
  rewrite set_area_eq in Earea.
  apply bind_Ok in Earea as (a & Ea & Earea). injection Earea as <- <-.
  apply bind_Ok in H as (sty & _ & H). open_setter H Hs.
  apply bind_Ok in H as (sy & _ & H). open_setter H Hs.
  apply bind_Ok in H as (sq & Eq & H). open_setter H Hs.
  injection H as <-.
  do 8 eexists. split; [reflexivity |]. split; [| split].
  - intros b Hb.
    change (Chip.bb_power
              (Chip.with_io_power (Some iop)
                 (Chip.with_stack_power (Some sp) self)))
      with (Chip.bb_power self) in Etp.
    rewrite Hb in Etp.
    change (Chip.get_stack_power
              (Chip.with_io_power (Some iop)
                 (Chip.with_stack_power (Some sp) self)))
      with (Ok (A := R) sp) in Etp.
    cbn [bind] in Etp. now injection Etp as <-.
  - intros b Hb. unfold Chip.compute_area in Ea.
    match type of Ea with
    | context [Chip.bb_area ?s] =>
        change (Chip.bb_area s) with (Chip.bb_area self) in Ea
    end.
    rewrite Hb in Ea. now injection Ea as <-.
  - intros b Hb.
    match type of Eq with
    | context [Chip.bb_quality ?s] =>
        change (Chip.bb_quality s) with (Chip.bb_quality self) in Eq
    end.
    rewrite Hb in Eq. now injection Eq as <-.
Qed.

Section Constructor.

Variable fuel : nat.
Variable rnd : random_source.
Variable wafer_process_list : list WaferProcess.t.
Variable assembly_process_list : list Assembly.t.
Variable test_process_list : list Test.t.
Variable layers : list Layer.t.
Variable ios : list IO.t.
Variable adjacency_matrix_definitions : list (string * matrix).
Variable average_bandwidth_utilization : list (string * matrix).
Variable block_names : list string.
Variable static : bool.

Local Abbreviation build_node root parent_chip seed :=
  (Chip.build fuel rnd root parent_chip wafer_process_list
     assembly_process_list test_process_list layers ios
     adjacency_matrix_definitions average_bandwidth_utilization block_names
     static seed).

Local Abbreviation init_node attributes parent_chip wafer_process
    assembly_process test_process stackup chips seed :=
  (Chip.init_self fuel rnd attributes parent_chip wafer_process
     assembly_process test_process stackup chips ios
     adjacency_matrix_definitions average_bandwidth_utilization block_names
     static seed).

(** The chip [init_self] returns: the attributes of the node and the
    arguments, with [static] last. *)
Lemma init_self_fields (attributes : Element.t)
    (parent_chip : option Assembly.t) (wafer_process : WaferProcess.t)
    (assembly_process : Assembly.t) (test_process : Test.t)
    (stackup : list Layer.t) (chips : list Chip.t) (seed seed' : nat)
    (c : Chip.t) :
  init_node attributes parent_chip wafer_process assembly_process
    test_process stackup chips seed = Ok (c, seed') ->
  (Chip.static c = static
   /\ Chip.name c = Element.name attributes
   /\ Element.name attributes <> ""%string
   /\ Chip.parent_chip c = parent_chip
   /\ Chip.wafer_process c = wafer_process
   /\ Chip.assembly_process c = assembly_process
   /\ Chip.test_process c = test_process
   /\ Chip.stackup c = stackup
   /\ Chip.chips c = chips
   /\ Element.buried attributes
      = (if Chip.buried c then "True" else "False")%string)
  /\ (forall b : R, Chip.bb_area c = Some b -> Chip.area c = Some b)
  /\ (forall b : R,
         Chip.bb_quality c = Some b -> Chip.self_quality c = Some b)
  /\ (forall b : R, Chip.bb_cost c = Some b -> Chip.self_cost c = Some b)
  /\ (forall b : R,
         Chip.bb_power c = Some b ->
         exists sp : R,
           Chip.stack_power c = Some sp
           /\ Chip.total_power c = Some (b + sp)).
Proof.
  intros H. unfold Chip.init_self in H.
  bind_inv H. rename E into Eburied.
  match type of H with
  | (if String.eqb ?n ?e then _ else _) = _ =>
      destruct (String.eqb_spec n e) as [| Hname]; [discriminate |]
  end.
  bind_inv H. rename v into buried. rename v0 into self8.
  apply init_self_metrics_inv in E; [| reflexivity].
  destruct E as (sp & iop & tp & nre & a & sty & sy & sq & -> & Hbp & Hba
                 & Hbq).
  apply init_yield_and_cost_inv in H; [| reflexivity].
  destruct H as (y & ty & q & sc & v & seed1 & _ & _ & _ & Hsc & _ & ->).
  split; [| split; [| split; [| split]]].
  - repeat (split; [reflexivity |]).
    split; [exact Hname |].
    repeat (split; [reflexivity |]).
    change (Chip.buried _) with buried.
    destruct (String.eqb_spec (Element.buried attributes) "True") as [Ht | Ht].
    + injection Eburied as <-. exact Ht.
    + destruct (String.eqb_spec (Element.buried attributes) "False")
        as [Hf | Hf]; [| discriminate].
      injection Eburied as <-. exact Hf.
  - intros b Hb. change (Chip.area _) with (Some a).
    f_equal. apply Hba. exact Hb.
  - intros b Hb. change (Chip.self_quality _) with (Some sq).
    f_equal. apply Hbq. exact Hb.
  - intros b Hb. change (Chip.self_cost _) with (Some sc).
    assert (Hb' : Element.bb_cost attributes = Some b) by exact Hb.
    rewrite (self_cost_black_box fuel rnd _ seed b) in Hsc by exact Hb'.
    now injection Hsc as <- _.
  - intros b Hb. exists sp. split; [reflexivity |].
    change (Chip.total_power _) with (Some tp).
    f_equal. apply Hbp. exact Hb.
Qed.

Lemma build_chips_inv (F : Element.t -> nat -> result (Chip.t * nat))
    (chip_defs : list Element.t) :
  forall (seed seed' : nat) (chips : list Chip.t),
    (fix build_chips (chip_defs : list Element.t) (seed : nat)
       : result (list Chip.t * nat) :=
       match chip_defs with
       | [] => Ok ([], seed)
       | chip_def :: rest =>
           if Chip.contains "chip" (Element.tag chip_def) then
             '(chip, seed) <- F chip_def seed ;;
             '(chips, seed) <- build_chips rest seed ;;
             Ok (chip :: chips, seed)
           else build_chips rest seed
       end) chip_defs seed = Ok (chips, seed') ->
    Forall2 (fun chip_def chip =>
               exists s s' : nat, F chip_def s = Ok (chip, s'))
            (filter (fun chip_def =>
                       Chip.contains "chip" (Element.tag chip_def))
                    chip_defs)
            chips.
Proof.
  induction chip_defs as [| chip_def rest IH]; intros seed seed' chips H.
  - injection H as <- _. constructor.
  - cbn [filter].
    destruct (Chip.contains "chip" (Element.tag chip_def)).
    + bind_inv H. destruct v as [chip seed1].
      bind_inv H. destruct v as [chips1 seed2]. injection H as <- _.
      constructor; [eauto |]. eapply IH. exact E0.
    + eapply IH. exact H.
Qed.

Lemma build_inv_full (root : Element.t) (parent_chip : option Assembly.t)
    (seed seed' : nat) (c : Chip.t) :
  build_node root parent_chip seed = Ok (c, seed') ->
  exists (wafer_process : WaferProcess.t) (assembly_process : Assembly.t)
         (test_process : Test.t) (stackup : list Layer.t)
         (chips : list Chip.t) (seed1 : nat),
    Chip.find_wafer_process (Element.wafer_process root) wafer_process_list
    = Ok wafer_process
    /\ Chip.find_assembly_process (Element.assembly_process root)
         assembly_process_list = Ok assembly_process
    /\ Chip.find_test_process (Element.test_process root) test_process_list
       = Ok test_process
    /\ Chip.build_stackup (Element.stackup root) layers = Ok stackup
    /\ Forall2 (fun chip_def chip =>
                  exists s s' : nat,
                    build_node chip_def (Some assembly_process) s
                    = Ok (chip, s'))
               (filter (fun chip_def =>
                          Chip.contains "chip" (Element.tag chip_def))
                       (Element.children root))
               chips
    /\ init_node root parent_chip wafer_process assembly_process
         test_process stackup chips seed1 = Ok (c, seed').
Proof.
  intros H. destruct root. cbn [Chip.build Element.children] in H.
  do 4 bind_inv H.
  bind_inv H. destruct v3 as [chips seed1].
  exists v, v0, v1, v2, chips, seed1.
  repeat (split; [assumption |]). split; [| exact H].
  cbn [Element.children].
  exact (build_chips_inv
           (fun chip_def s => build_node chip_def (Some v0) s) _ _ _ _ E3).
Qed.

End Constructor.

(** X21: the black-box attributes of a node override what the constructor
    would compute. On every chip [Chip.__init__] returns, a black-box area
    is the stored area, a black-box quality the stored own quality, a
    black-box cost the stored own cost, and with a black-box power the
    stored total power is that power plus the power of the stack. *)
Theorem init_stores_black_box_values (fuel : nat) (rnd : random_source)
    (etree : option Element.t) (parent_chip : option Assembly.t)
    (catalogs : Catalogs.t) (static : bool) (seed seed' : nat)
    (c : Chip.t) :
  Chip.init fuel rnd etree parent_chip catalogs static seed = Ok (c, seed') ->
  (forall b : R, Chip.bb_area c = Some b -> Chip.area c = Some b)
  /\ (forall b : R,
         Chip.bb_quality c = Some b -> Chip.self_quality c = Some b)
  /\ (forall b : R, Chip.bb_cost c = Some b -> Chip.self_cost c = Some b)
  /\ (forall b : R,
         Chip.bb_power c = Some b ->
         exists sp : R,
           Chip.stack_power c = Some sp
           /\ Chip.total_power c = Some (b + sp)).
Proof.
  intros H. unfold Chip.init in H.
  do 8 bind_inv H.
  destruct etree as [root |]; [| discriminate].
  apply build_inv in H.
  destruct H as (wp & ap & tp & stackup & chips & seed1 & H).
  apply init_self_fields in H. exact (proj2 H).
Qed.

Lemma init_stores_black_box_values_witness :
  Chip.init 0 ones (Some package_element) None unit_catalogs true 0
  = Ok (package_chip, 2%nat)
  /\ Chip.area package_chip = Some 4
  /\ Chip.self_cost package_chip = Some 1.
Proof.
  split; [exact package_built |].
  destruct (init_stores_black_box_values 0 ones (Some package_element) None
              unit_catalogs true 0 2 package_chip package_built)
    as (Ha & _ & Hc & _).
  split; [apply Ha | apply Hc]; reflexivity.
Defined.

Lemma find_wafer_process_name (wafer_process_name : string)
    (wafer_process_list : list WaferProcess.t) (p : WaferProcess.t) :
  Chip.find_wafer_process wafer_process_name wafer_process_list = Ok p ->
  WaferProcess.name p = wafer_process_name.
Proof.
  unfold Chip.find_wafer_process.
  destruct (Chip.find_process _ _ _) as [q |] eqn:E; [| discriminate].
  intros [= <-]. apply find_process_some in E.
  now destruct E as (_ & _ & _ & H & _).
Qed.

Lemma find_assembly_process_name (assembly_process_name : string)
    (assembly_process_list : list Assembly.t) (p : Assembly.t) :
  Chip.find_assembly_process assembly_process_name assembly_process_list
  = Ok p ->
  Assembly.name p = assembly_process_name.
Proof.
  unfold Chip.find_assembly_process.
  destruct (Chip.find_process _ _ _) as [q |] eqn:E; [| discriminate].
  intros [= <-]. apply find_process_some in E.
  now destruct E as (_ & _ & _ & H & _).
Qed.

Lemma find_test_process_name (test_process_name : string)
    (test_process_list : list Test.t) (p : Test.t) :
  Chip.find_test_process test_process_name test_process_list = Ok p ->
  Test.name p = test_process_name.
Proof.
  unfold Chip.find_test_process.
  destruct (Chip.find_process _ _ _) as [q |] eqn:E; [| discriminate].
  intros [= <-]. apply find_process_some in E.
  now destruct E as (_ & _ & _ & H & _).
Qed.

(** X22: the chip [Chip.__init__] returns mirrors its node: it has the name
    of the node, which is not empty, the [static] flag and the parent it
    was given, the processes of the catalogs that carry the names the node
    asks for, a stackup that follows the stackup string, and one chip for
    every child node whose tag contains ["chip"], in the order of the
    nodes, each with the same [static] flag and with this chip as its
    parent. *)
Theorem init_mirrors_the_node (fuel : nat) (rnd : random_source)
    (root : Element.t) (parent_chip : option Assembly.t)
    (catalogs : Catalogs.t) (static : bool) (seed seed' : nat)
    (c : Chip.t) :
  Chip.init fuel rnd (Some root) parent_chip catalogs static seed
  = Ok (c, seed') ->
  Chip.static c = static
  /\ Chip.name c = Element.name root
  /\ Chip.name c <> ""%string
  /\ Chip.parent_chip c = parent_chip
  /\ WaferProcess.name (Chip.wafer_process c) = Element.wafer_process root
  /\ Assembly.name (Chip.assembly_process c) = Element.assembly_process root
  /\ Test.name (Chip.test_process c) = Element.test_process root
  /\ map Layer.name (Chip.stackup c)
     = flat_map (fun cn => repeat (snd cn) (Z.to_nat (fst cn)))
                (Element.stackup root)
  /\ map Chip.name (Chip.chips c)
     = map Element.name
           (filter (fun chip_def =>
                      Chip.contains "chip" (Element.tag chip_def))
                   (Element.children root))
  /\ Forall (fun chip =>
               Chip.static chip = static
               /\ Chip.parent_chip chip = Some (Chip.assembly_process c))
            (Chip.chips c).
Proof.
  intros H. unfold Chip.init in H.
  apply bind_Ok in H as (wpl & _ & H). apply bind_Ok in H as (apl & _ & H).
  apply bind_Ok in H as (tpl & _ & H). apply bind_Ok in H as (ls & _ & H).
  apply bind_Ok in H as (ios & _ & H). apply bind_Ok in H as (adj & _ & H).
  apply bind_Ok in H as (abu & _ & H). apply bind_Ok in H as (bn & _ & H).
  apply build_inv_full in H.
  destruct H as (wp & ap & tp & stackup & chips & seed1 & Hwp & Hap & Htp
                 & Hst & Hall & H).
  apply init_self_fields in H.
  destruct H as ((Hs & Hn & Hne & Hp & -> & -> & -> & -> & -> & _) & _).
  split; [exact Hs |]. split; [exact Hn |].
  split; [now rewrite Hn |]. split; [exact Hp |].
  split; [exact (find_wafer_process_name _ _ _ Hwp) |].
  split; [exact (find_assembly_process_name _ _ _ Hap) |].
  split; [exact (find_test_process_name _ _ _ Htp) |].
  split.
  { destruct (build_stackup_follows_string_names _ _ _ Hst) as [Hm _].
    exact Hm. }
  clear Hwp Hap Htp Hst Hs Hn Hne Hp.
  induction Hall as [| chip_def chip defs chips' (s & s' & Hb) Hrest IH].
  - split; constructor.
  - apply build_inv_full in Hb.
    destruct Hb as (wp' & ap' & tp' & st' & ch' & s1 & _ & _ & _ & _ & _
                    & Hb).
    apply init_self_fields in Hb.
    destruct Hb as ((Hs & Hn & _ & Hp & _) & _).
    destruct IH as [IH1 IH2]. split.
    + cbn [map]. now rewrite Hn, IH1.
    + constructor; [split; assumption | exact IH2].
Qed.

Lemma init_mirrors_the_node_witness :
  Chip.init 0 ones (Some package_element) None unit_catalogs true 0
  = Ok (package_chip, 2%nat)
  /\ map Chip.name (Chip.chips package_chip) = ["die"%string].
Proof.
  split; [exact package_built |].
  destruct (init_mirrors_the_node 0 ones package_element None unit_catalogs
              true 0 2 package_chip package_built)
    as (_ & _ & _ & _ & _ & _ & _ & _ & H & _).
  exact H.
Defined.

(** * readDesignFromFile.py *)

(** ** The library files *)

Import readDesignFromFile.

(** X23: a wafer process read from a file is static and has the attributes
    of its node, with two exceptions: a yield outside [0, 1] is turned down
    by its setter, whose returned 1 the reader drops, and the yield stays
    at the 0.0 the object was created with; the wafer is filled in a grid
    only for the strings ["True"] and ["true"]. *)
Theorem read_wafer_process_fields (attributes : WaferProcessDef.t) :
  read_wafer_process attributes
  = WaferProcess.mk
      (WaferProcessDef.name attributes)
      (WaferProcessDef.wafer_diameter attributes)
      (WaferProcessDef.edge_exclusion attributes)
      (if Rltb (WaferProcessDef.wafer_process_yield attributes) 0
          || Rltb 1 (WaferProcessDef.wafer_process_yield attributes)
       then 0 else WaferProcessDef.wafer_process_yield attributes)
      (WaferProcessDef.dicing_distance attributes)
      (WaferProcessDef.reticle_x attributes)
      (WaferProcessDef.reticle_y attributes)
      (String.eqb (WaferProcessDef.wafer_fill_grid attributes) "True"
       || String.eqb (WaferProcessDef.wafer_fill_grid attributes) "true")
      (WaferProcessDef.nre_front_end_cost_per_mm2_memory attributes)
      (WaferProcessDef.nre_back_end_cost_per_mm2_memory attributes)
      (WaferProcessDef.nre_front_end_cost_per_mm2_logic attributes)
      (WaferProcessDef.nre_back_end_cost_per_mm2_logic attributes)
      (WaferProcessDef.nre_front_end_cost_per_mm2_analog attributes)
      (WaferProcessDef.nre_back_end_cost_per_mm2_analog attributes)
      true.
Proof.
  unfold read_wafer_process, WaferProcess.init,
    WaferProcess.set_wafer_process_yield, WaferProcess.set_wafer_fill_grid.
  cbn [py_eq_str orb WaferProcess.set_name WaferProcess.set_wafer_diameter
       WaferProcess.set_edge_exclusion WaferProcess.static
       WaferProcess.with_name WaferProcess.with_wafer_diameter
       WaferProcess.with_edge_exclusion WaferProcess.name
       WaferProcess.wafer_diameter WaferProcess.edge_exclusion
       WaferProcess.wafer_process_yield WaferProcess.dicing_distance
       WaferProcess.reticle_x WaferProcess.reticle_y
       WaferProcess.wafer_fill_grid
       WaferProcess.nre_front_end_cost_per_mm2_memory
       WaferProcess.nre_back_end_cost_per_mm2_memory
       WaferProcess.nre_front_end_cost_per_mm2_logic
       WaferProcess.nre_back_end_cost_per_mm2_logic
       WaferProcess.nre_front_end_cost_per_mm2_analog
       WaferProcess.nre_back_end_cost_per_mm2_analog].
  destruct (Rltb (WaferProcessDef.wafer_process_yield attributes) 0
            || Rltb 1 (WaferProcessDef.wafer_process_yield attributes));
    destruct (String.eqb (WaferProcessDef.wafer_fill_grid attributes) "True"
              || String.eqb (WaferProcessDef.wafer_fill_grid attributes)
                            "true");
    reflexivity.
Qed.

(** X24: every IO read from a file is static, has the attributes of its node
    and is not bidirectional, whatever its [bidirectional] attribute says:
    the reader hands [bool(attribute)] to [set_bidirectional], which keeps
    [True] for the strings ["True"] and ["true"] only. So no IO of a file
    gets the factor 0.5 of [get_signal_count]. *)
Theorem read_io_is_unidirectional (attributes : IODef.t) :
  read_io attributes
  = Ok (IO.mk (IODef.type attributes) (IODef.rx_area attributes)
          (IODef.tx_area attributes) (IODef.shoreline attributes)
          (IODef.bandwidth attributes) (IODef.wire_count attributes)
          (PyBool false) (IODef.energy_per_bit attributes)
          (IODef.reach attributes) true)
  /\ forall io : IO.t,
       read_io attributes = Ok io ->
       IO.get_bidirectional io = PyBool false
       /\ Chip.bidirectional_factor io = 1.
Proof.
  assert (H : read_io attributes
              = Ok (IO.mk (IODef.type attributes) (IODef.rx_area attributes)
                      (IODef.tx_area attributes) (IODef.shoreline attributes)
                      (IODef.bandwidth attributes)
                      (IODef.wire_count attributes) (PyBool false)
                      (IODef.energy_per_bit attributes)
                      (IODef.reach attributes) true)) by reflexivity.
  split; [exact H |].
  intros io Hio. rewrite H in Hio. injection Hio as <-.
  split; reflexivity.
Qed.

(** X25: reading an assembly process computes its two rates from the machine
    parameters of the node and stores them before the object is made
    static; a machine lifetime of 0 in the node ends the reading with a
    ZeroDivisionError. *)
Theorem read_assembly_process_rates (attributes : AssemblyDef.t) :
  (AssemblyDef.picknplace_machine_lifetime attributes = 0
   \/ AssemblyDef.bonding_machine_lifetime attributes = 0 ->
   read_assembly_process attributes = Raise ZeroDivisionError)
  /\ (AssemblyDef.picknplace_machine_lifetime attributes <> 0 ->
      AssemblyDef.bonding_machine_lifetime attributes <> 0 ->
      exists assembly_process : Assembly.t,
        read_assembly_process attributes = Ok assembly_process
        /\ Assembly.static assembly_process = true
        /\ Assembly.name assembly_process = AssemblyDef.name attributes
        /\ Assembly.picknplace_cost_per_second assembly_process
           = Some ((AssemblyDef.picknplace_machine_cost attributes
                    / AssemblyDef.picknplace_machine_lifetime attributes
                    + AssemblyDef.picknplace_technician_yearly_cost
                        attributes)
                   / (365 * 24 * 60 * 60)
                   * AssemblyDef.picknplace_machine_uptime attributes)
        /\ Assembly.bonding_cost_per_second assembly_process
           = Some ((AssemblyDef.bonding_machine_cost attributes
                    / AssemblyDef.bonding_machine_lifetime attributes
                    + AssemblyDef.bonding_technician_yearly_cost attributes)
                   / (365 * 24 * 60 * 60)
                   * AssemblyDef.bonding_machine_uptime attributes)
        /\ Assembly.get_picknplace_cost_per_second assembly_process
           = Ok ((AssemblyDef.picknplace_machine_cost attributes
                  / AssemblyDef.picknplace_machine_lifetime attributes
                  + AssemblyDef.picknplace_technician_yearly_cost attributes)
                 / (365 * 24 * 60 * 60)
                 * AssemblyDef.picknplace_machine_uptime attributes)).
Proof.
  unfold read_assembly_process.
  set (pl := AssemblyDef.picknplace_machine_lifetime attributes).
  set (bl := AssemblyDef.bonding_machine_lifetime attributes).
  cbv -[Rplus Rmult Rdiv Rinv Rminus Ropp IZR py_div pl bl].
  fold pl bl.
  split.
  - intros Hzero.
    destruct (Req_dec_T pl 0) as [Hp | Hp].
    + unfold py_div at 1. rewrite (Reqb_true pl 0) by assumption.
      reflexivity.
    + rewrite (py_div_ok _ pl) by assumption.
      destruct Hzero as [Hz | Hz]; [contradiction |].
      unfold py_div at 1. rewrite (Reqb_true bl 0) by assumption.
      reflexivity.
  - intros Hp Hb.
    rewrite (py_div_ok _ pl) by assumption.
    rewrite (py_div_ok _ bl) by assumption.
    eexists. split; [reflexivity |].
    repeat split; reflexivity.
Qed.

(** ** The netlist: dicts and matrices *)

Lemma lookup_In {A : Type} (d : list (string * A)) (key : string) (v : A) :
  Chip.lookup d key = Ok v -> In (key, v) d.
Proof.
  induction d as [| [k x] rest IH]; cbn [Chip.lookup]; [discriminate |].
  destruct (String.eqb_spec k key) as [-> | Hne].
  - intros [= ->]. now left.
  - intros H. right. now apply IH.
Qed.

Lemma lookup_has_key (d : matrices) (key : string) (v : matrix) :
  Chip.lookup d key = Ok v -> has_key d key = true.
Proof.
  unfold has_key.
  induction d as [| [k x] rest IH]; cbn [Chip.lookup existsb fst];
    [discriminate |].
  destruct (String.eqb k key); [reflexivity |]. exact IH.
Qed.

Lemma has_key_In (d : matrices) (key : string) :
  has_key d key = true <-> In key (map fst d).
Proof.
  unfold has_key. rewrite existsb_exists. split.
  - intros ([k x] & Hin & Heq). cbn in Heq. apply String.eqb_eq in Heq.
    subst k. apply in_map_iff. now exists (key, x).
  - intros H. apply in_map_iff in H. destruct H as ([k x] & Hk & Hin).
    cbn in Hk. subst k. exists (key, x). split; [assumption |].
    apply String.eqb_refl.
Qed.

Lemma has_key_same_keys (d d' : matrices) (key : string) :
  map fst d = map fst d' -> has_key d key = has_key d' key.
Proof.
  intros H. destruct (has_key d key) eqn:E.
  - symmetry. apply has_key_In. rewrite <- H. now apply has_key_In.
  - symmetry. destruct (has_key d' key) eqn:E'; [| reflexivity].
    apply has_key_In in E'. rewrite <- H in E'. apply has_key_In in E'.
    congruence.
Qed.

Lemma assign_keys (d : matrices) (key : string) (m : matrix) :
  map fst (assign d key m)
  = if has_key d key then map fst d else map fst d ++ [key].
Proof.
  unfold has_key.
  induction d as [| [k x] rest IH]; cbn [assign existsb map fst app];
    [reflexivity |].
  destruct (String.eqb k key); cbn [orb map fst]; [reflexivity |].
  rewrite IH. now destruct (existsb _ rest).
Qed.

Lemma assign_values (P : matrix -> Prop) (d : matrices) (key : string)
    (m : matrix) :
  Forall P (map snd d) -> P m -> Forall P (map snd (assign d key m)).
Proof.
  intros Hall Hm.
  induction d as [| [k x] rest IH]; cbn [assign map snd].
  - now constructor.
  - inversion Hall; subst.
    destruct (String.eqb k key); cbn [map snd]; constructor; auto.
Qed.

Lemma lookup_value (P : matrix -> Prop) (d : matrices) (key : string)
    (m : matrix) :
  Forall P (map snd d) -> Chip.lookup d key = Ok m -> P m.
Proof.
  intros Hall H. apply lookup_In in H.
  rewrite Forall_forall in Hall. apply Hall.
  apply in_map_iff. now exists (key, m).
Qed.

Lemma lookup_middle (pre post : matrices) (key : string) (m : matrix) :
  ~ In key (map fst pre) ->
  Chip.lookup (pre ++ (key, m) :: post) key = Ok m.
Proof.
  induction pre as [| [k x] rest IH]; intros Hn; cbn [app Chip.lookup].
  - now rewrite String.eqb_refl.
  - destruct (String.eqb_spec k key) as [-> | Hne].
    + exfalso. apply Hn. now left.
    + apply IH. intros H. apply Hn. now right.
Qed.

Lemma assign_middle (pre post : matrices) (key : string) (m m' : matrix) :
  ~ In key (map fst pre) ->
  assign (pre ++ (key, m) :: post) key m' = pre ++ (key, m') :: post.
Proof.
  induction pre as [| [k x] rest IH]; intros Hn; cbn [app assign].
  - now rewrite String.eqb_refl.
  - destruct (String.eqb_spec k key) as [-> | Hne].
    + exfalso. apply Hn. now left.
    + f_equal. apply IH. intros H. apply Hn. now right.
Qed.

Lemma square_np_zeros (n : nat) : Shape.square n (np_zeros n).
Proof.
  unfold Shape.square, np_zeros. split; [apply repeat_length |].
  apply Forall_forall. intros row Hrow. apply repeat_spec in Hrow.
  subst row. apply repeat_length.
Qed.

Lemma square_np_pad (n : nat) (m : matrix) :
  Shape.square n m -> Shape.square (S n) (np_pad m).
Proof.
  intros [Hlen Hrows]. unfold Shape.square, np_pad. split.
  - rewrite length_app, length_map. cbn. lia.
  - apply Forall_app. split.
    + apply Forall_forall. intros row Hrow. apply in_map_iff in Hrow.
      destruct Hrow as (r & <- & Hr). rewrite length_app. cbn.
      rewrite Forall_forall in Hrows. rewrite (Hrows r Hr). lia.
    + constructor; [| constructor]. rewrite repeat_length.
      destruct m as [| row rest].
      * cbn in Hlen. now subst n.
      * inversion Hrows; subst. congruence.
Qed.

Lemma length_set_nth {A : Type} (l : list A) (i : nat) (v : A) :
  List.length (set_nth l i v) = List.length l.
Proof.
  revert i. induction l as [| x rest IH]; intros i; [reflexivity |].
  destruct i; cbn [set_nth List.length]; [reflexivity |].
  now rewrite IH.
Qed.

Lemma Forall_set_nth {A : Type} (P : A -> Prop) (l : list A) (i : nat)
    (v : A) :
  Forall P l -> P v -> Forall P (set_nth l i v).
Proof.
  intros Hall Hv. revert i.
  induction Hall as [| x rest Hx Hrest IH]; intros i; [constructor |].
  destruct i; cbn [set_nth]; constructor; auto.
Qed.

Lemma square_set_entry (n : nat) (m m' : matrix) (i j : nat) (v : R) :
  Shape.square n m -> set_entry m i j v = Ok m' -> Shape.square n m'.
Proof.
  intros [Hlen Hrows] H. unfold set_entry in H.
  bind_inv H. bind_inv H. injection H as <-.
  apply item_Ok in E. apply nth_error_In in E.
  split.
  - now rewrite length_set_nth.
  - apply Forall_set_nth; [assumption |].
    rewrite length_set_nth. rewrite Forall_forall in Hrows. now apply Hrows.
Qed.

(** ** The netlist: the invariant of the loop *)

Lemma pad_keys_all :
  forall post_g post_a pre_g pre_a : matrices,
    map fst post_g = map fst post_a ->
    map fst pre_g = map fst pre_a ->
    NoDup (map fst (pre_g ++ post_g)) ->
    pad_keys (map fst post_g) (pre_g ++ post_g) (pre_a ++ post_a)
    = Ok (pre_g ++ map (fun kv => (fst kv, np_pad (snd kv))) post_g,
          pre_a ++ map (fun kv => (fst kv, np_pad (snd kv))) post_a).
Proof.
  induction post_g as [| [k m] pg IH]; intros post_a pre_g pre_a Hpost Hpre
    Hnd.
  - destruct post_a; [| discriminate]. reflexivity.
  - destruct post_a as [| [k' u] pa]; [discriminate |].
    cbn [map fst] in Hpost. injection Hpost as <- Hpost.
    assert (Hk : ~ In k (map fst pre_g)).
    { rewrite map_app in Hnd. cbn [map fst] in Hnd.
      apply NoDup_remove_2 in Hnd. intros H. apply Hnd.
      apply in_or_app. now left. }
    assert (Hk' : ~ In k (map fst pre_a)) by now rewrite <- Hpre.
    cbn [map fst snd pad_keys].
    rewrite lookup_middle by assumption. cbn [bind].
    rewrite assign_middle by assumption.
    rewrite lookup_middle by assumption. cbn [bind].
    rewrite assign_middle by assumption.
    change ((k, np_pad m) :: pg) with ([(k, np_pad m)] ++ pg).
    change ((k, np_pad u) :: pa) with ([(k, np_pad u)] ++ pa).
    rewrite !app_assoc. rewrite IH.
    + rewrite <- !app_assoc. reflexivity.
    + assumption.
    + rewrite !map_app. cbn [map fst]. now rewrite Hpre.
    + rewrite <- app_assoc. rewrite !map_app in *. exact Hnd.
Qed.

Lemma consistent_pad (n : nat) (gam abu : matrices) :
  Shape.consistent n gam abu ->
  Shape.consistent (S n)
    (map (fun kv => (fst kv, np_pad (snd kv))) gam)
    (map (fun kv => (fst kv, np_pad (snd kv))) abu).
Proof.
  intros (Hk & Hnd & Hg & Ha). unfold Shape.consistent.
  rewrite !map_map. cbn [fst snd]. repeat split; try assumption.
  - rewrite <- (map_map snd np_pad). apply Forall_map.
    eapply Forall_impl; [| exact Hg]. intros m. apply square_np_pad.
  - rewrite <- (map_map snd np_pad). apply Forall_map.
    eapply Forall_impl; [| exact Ha]. intros m. apply square_np_pad.
Qed.

Lemma add_block_ok (n : nat) (gam abu : matrices) (block_names : list string)
    (block : string) :
  Shape.consistent n gam abu ->
  List.length block_names = n ->
  exists (gam' abu' : matrices) (block_names' : list string),
    add_block block (gam, abu, block_names)
    = Ok (gam', abu', block_names')
    /\ Shape.consistent (List.length block_names') gam' abu'
    /\ block_names'
       = (if existsb (String.eqb block) block_names then block_names
          else block_names ++ [block])
    /\ map fst gam' = map fst gam.
Proof.
  intros Hc Hn. unfold add_block.
  destruct (existsb (String.eqb block) block_names) eqn:E; cbn [negb].
  - exists gam, abu, block_names. subst n. auto.
  - destruct Hc as (Hk & Hnd & Hg & Ha).
    pose proof (pad_keys_all gam abu [] [] Hk eq_refl Hnd) as Hpad.
    cbn [app] in Hpad. rewrite Hpad. cbn [bind].
    do 3 eexists. split; [reflexivity |].
    split; [| split; [reflexivity |]].
    + rewrite length_app. cbn [List.length].
      replace (List.length block_names + 1)%nat with (S n) by lia.
      apply consistent_pad. repeat split; assumption.
    + rewrite map_map. reflexivity.
Qed.

Lemma add_link_consistent (n : nat) (gam abu gam' abu' : matrices)
    (link_type : string) (i j : nat) (u : R) (ios_to_add : Z) :
  Shape.consistent n gam abu ->
  add_link gam abu link_type i j u ios_to_add = Ok (gam', abu') ->
  Shape.consistent n gam' abu' /\ map fst gam' = map fst gam.
Proof.
  intros (Hk & Hnd & Hg & Ha) H. unfold add_link in H.
  apply bind_Ok in H as (um & Hum & H).
  apply bind_Ok in H as (old & _ & H).
  apply bind_Ok in H as (v & _ & H).
  apply bind_Ok in H as (um' & Hset & H).
  apply bind_Ok in H as (m & Hm & H).
  apply bind_Ok in H as (count & _ & H).
  apply bind_Ok in H as (m' & Hset' & H).
  injection H as <- <-.
  pose proof (lookup_has_key _ _ _ Hum) as Hku.
  pose proof (lookup_has_key _ _ _ Hm) as Hkm.
  assert (Hkeys : map fst (assign gam link_type m') = map fst gam).
  { rewrite assign_keys. now rewrite Hkm. }
  assert (Hkeys' : map fst (assign abu link_type um') = map fst abu).
  { rewrite assign_keys. now rewrite Hku. }
  split; [| exact Hkeys]. unfold Shape.consistent.
  rewrite Hkeys, Hkeys'. repeat split; try assumption.
  - apply assign_values; [assumption |].
    eapply square_set_entry; [| exact Hset'].
    exact (lookup_value _ _ _ _ Hg Hm).
  - apply assign_values; [assumption |].
    eapply square_set_entry; [| exact Hset].
    exact (lookup_value _ _ _ _ Ha Hum).
Qed.

Lemma consistent_new_key (n : nat) (gam abu : matrices) (key : string) :
  Shape.consistent n gam abu ->
  has_key gam key = false ->
  Shape.consistent n (assign gam key (np_zeros n))
                     (assign abu key (np_zeros n)).
Proof.
  intros (Hk & Hnd & Hg & Ha) Hnew.
  assert (Hnew' : has_key abu key = false)
    by now rewrite <- (has_key_same_keys gam abu key Hk).
  unfold Shape.consistent. rewrite !assign_keys, Hnew, Hnew'.
  repeat split.
  - now rewrite Hk.
  - apply NoDup_app; [assumption | repeat constructor; intros [] |].
    intros k Hin [<- | []].
    apply has_key_In in Hin. congruence.
  - apply assign_values; [assumption | apply square_np_zeros].
  - apply assign_values; [assumption | apply square_np_zeros].
Qed.

(** The state after one net, when the net is accepted. *)
Lemma add_net_consistent (io_list : list IO.t) (net_def : Net.t)
    (gam abu gam' abu' : matrices) (block_names block_names' : list string) :
  Shape.consistent (List.length block_names) gam abu ->
  add_net io_list net_def (gam, abu, block_names)
  = Ok (gam', abu', block_names') ->
  Shape.consistent (List.length block_names') gam' abu'
  /\ block_names'
     = (let names0 :=
          if existsb (String.eqb (Net.block0 net_def)) block_names
          then block_names else block_names ++ [Net.block0 net_def] in
        if existsb (String.eqb (Net.block1 net_def)) names0 then names0
        else names0 ++ [Net.block1 net_def]).
Proof.
  intros Hc H. unfold add_net in H.
  set (n := List.length block_names) in *.
  assert (Hc0 : exists gam0 abu0 : matrices,
             (if negb (has_key gam (Net.type net_def))
              then (assign gam (Net.type net_def) (np_zeros n),
                    assign abu (Net.type net_def) (np_zeros n))
              else (gam, abu)) = (gam0, abu0)
             /\ Shape.consistent n gam0 abu0).
  { destruct (has_key gam (Net.type net_def)) eqn:E; cbn [negb].
    - eauto.
    - do 2 eexists. split; [reflexivity |]. now apply consistent_new_key. }
  destruct Hc0 as (gam0 & abu0 & Heq & Hc0). rewrite Heq in H. clear Heq.
  destruct (add_block_ok n gam0 abu0 block_names (Net.block0 net_def) Hc0
              eq_refl) as (gam1 & abu1 & names1 & Hrun1 & Hc1 & Hn1 & _).
  rewrite Hrun1 in H. cbn [bind] in H.
  destruct (add_block_ok _ gam1 abu1 names1 (Net.block1 net_def) Hc1 eq_refl)
    as (gam2 & abu2 & names2 & Hrun2 & Hc2 & Hn2 & _).
  rewrite Hrun2 in H. cbn [bind] in H.
  destruct (match_io io_list (Net.type net_def) None PyNone)
    as [io_bandwidth bidirectional].
  destruct io_bandwidth as [io_bandwidth |]; [| discriminate].
  destruct (is_none bidirectional); [discriminate |].
  apply bind_Ok in H as (b1 & _ & H). apply bind_Ok in H as (b2 & _ & H).
  apply bind_Ok in H as (ios & _ & H). apply bind_Ok in H as (peak & _ & H).
  assert (Hnames : names2
                   = (let names0 :=
                        if existsb (String.eqb (Net.block0 net_def))
                                   block_names
                        then block_names
                        else block_names ++ [Net.block0 net_def] in
                      if existsb (String.eqb (Net.block1 net_def)) names0
                      then names0 else names0 ++ [Net.block1 net_def])).
  { cbv zeta. rewrite <- Hn1. exact Hn2. }
  destruct (negb (truthy bidirectional)).
  - apply bind_Ok in H as ([g3 a3] & Hl & H). injection H as <- <- <-.
    split; [| exact Hnames].
    exact (proj1 (add_link_consistent _ _ _ _ _ _ _ _ _ _ Hc2 Hl)).
  - apply bind_Ok in H as ([g3 a3] & Hl & H).
    apply bind_Ok in H as ([g4 a4] & Hl' & H). injection H as <- <- <-.
    split; [| exact Hnames].
    pose proof (proj1 (add_link_consistent _ _ _ _ _ _ _ _ _ _ Hc2 Hl))
      as Hc3.
    exact (proj1 (add_link_consistent _ _ _ _ _ _ _ _ _ _ Hc3 Hl')).
Qed.

Lemma add_nets_consistent (io_list : list IO.t) (root : list Net.t) :
  forall (gam abu gam' abu' : matrices)
         (block_names block_names' : list string),
    Shape.consistent (List.length block_names) gam abu ->
    add_nets io_list root (gam, abu, block_names)
    = Ok (gam', abu', block_names') ->
    Shape.consistent (List.length block_names') gam' abu'.
Proof.
  induction root as [| net_def rest IH];
    intros gam abu gam' abu' names names' Hc H; cbn [add_nets] in H.
  - injection H as <- <- <-. exact Hc.
  - apply bind_Ok in H as ([[g1 a1] n1] & Hnet & H).
    apply add_net_consistent in Hnet; [| exact Hc].
    eapply IH; [exact (proj1 Hnet) | exact H].
Qed.

Lemma consistent_empty : Shape.consistent 0 [] [].
Proof. repeat split; constructor. Qed.

(** X26: the matrices [global_adjacency_matrix_from_file] returns fit the
    block names it returns: the adjacency dict and the utilization dict
    have the same IO types as keys, in the same order and each once, and
    every matrix of both is square with one row and one column per block
    name. *)
Theorem netlist_matrices_are_square (root : list Net.t)
    (io_list : list IO.t) (global_adjacency_matrix
       average_bandwidth_utilization : matrices)
    (block_names : list string) :
  global_adjacency_matrix_from_file root io_list
  = Ok (global_adjacency_matrix, average_bandwidth_utilization,
        block_names) ->
  map fst global_adjacency_matrix = map fst average_bandwidth_utilization
  /\ NoDup (map fst global_adjacency_matrix)
  /\ Forall (fun km => Shape.square (List.length block_names) (snd km))
            global_adjacency_matrix
  /\ Forall (fun km => Shape.square (List.length block_names) (snd km))
            average_bandwidth_utilization.
Proof.
  intros H. unfold global_adjacency_matrix_from_file in H.
  apply add_nets_consistent in H; [| exact consistent_empty].
  destruct H as (Hk & Hnd & Hg & Ha).
  repeat split; try assumption; now apply Forall_map.
Qed.

(** ** The netlist: block names and IO types *)

Lemma existsb_eqb_In (b : string) (l : list string) :
  existsb (String.eqb b) l = true <-> In b l.
Proof.
  rewrite existsb_exists. split.
  - intros (x & Hin & Heq). apply String.eqb_eq in Heq. now subst x.
  - intros H. exists b. split; [assumption | apply String.eqb_refl].
Qed.

Lemma names_after_In (b x : string) (names : list string) :
  In b (if existsb (String.eqb x) names then names else names ++ [x])
  <-> In b names \/ b = x.
Proof.
  destruct (existsb (String.eqb x) names) eqn:E.
  - apply existsb_eqb_In in E. split; [auto |].
    intros [H | ->]; assumption.
  - rewrite in_app_iff. cbn [In]. split.
    + intros [H | [<- | []]]; auto.
    + intros [H | ->]; auto.
Qed.

Lemma names_after_NoDup (x : string) (names : list string) :
  NoDup names ->
  NoDup (if existsb (String.eqb x) names then names else names ++ [x]).
Proof.
  intros Hnd. destruct (existsb (String.eqb x) names) eqn:E; [assumption |].
  apply NoDup_app; [assumption | repeat constructor; intros [] |].
  intros b Hin [<- | []].
  apply existsb_eqb_In in Hin. congruence.
Qed.

Lemma add_nets_names (io_list : list IO.t) (root : list Net.t) :
  forall (gam abu gam' abu' : matrices)
         (block_names block_names' : list string),
    Shape.consistent (List.length block_names) gam abu ->
    NoDup block_names ->
    add_nets io_list root (gam, abu, block_names)
    = Ok (gam', abu', block_names') ->
    NoDup block_names'
    /\ forall b : string,
         In b block_names' <->
         In b block_names
         \/ exists net_def : Net.t,
              In net_def root
              /\ (b = Net.block0 net_def \/ b = Net.block1 net_def).
Proof.
  induction root as [| net_def rest IH];
    intros gam abu gam' abu' names names' Hc Hnd H; cbn [add_nets] in H.
  - injection H as <- <- <-. split; [assumption |].
    intros b. split; [auto |]. intros [H | (n & [] & _)]. exact H.
  - apply bind_Ok in H as ([[g1 a1] n1] & Hnet & H).
    apply add_net_consistent in Hnet; [| exact Hc].
    destruct Hnet as [Hc1 Hn1]. cbv zeta in Hn1.
    assert (Hnd1 : NoDup n1).
    { rewrite Hn1. now do 2 apply names_after_NoDup. }
    destruct (IH _ _ _ _ _ _ Hc1 Hnd1 H) as [Hnd' Hin'].
    split; [exact Hnd' |].
    intros b. rewrite Hin'. rewrite Hn1, !names_after_In. split.
    + intros [[[Hb | ->] | ->] | (n & Hn & Hb)].
      * now left.
      * right. exists net_def. split; [now left | now left].
      * right. exists net_def. split; [now left | now right].
      * right. exists n. split; [now right | exact Hb].
    + intros [Hb | (n & [<- | Hn] & Hb)].
      * left. left. now left.
      * left. destruct Hb as [-> | ->]; [left; now right | now right].
      * right. exists n. auto.
Qed.

(** X27: the block names [global_adjacency_matrix_from_file] returns are the
    blocks the nets of the netlist connect, each listed once. *)
Theorem netlist_block_names (root : list Net.t) (io_list : list IO.t)
    (global_adjacency_matrix average_bandwidth_utilization : matrices)
    (block_names : list string) :
  global_adjacency_matrix_from_file root io_list
  = Ok (global_adjacency_matrix, average_bandwidth_utilization,
        block_names) ->
  NoDup block_names
  /\ forall b : string,
       In b block_names <->
       exists net_def : Net.t,
         In net_def root
         /\ (b = Net.block0 net_def \/ b = Net.block1 net_def).
Proof.
  intros H. unfold global_adjacency_matrix_from_file in H.
  apply add_nets_names in H; [| exact consistent_empty | constructor].
  destruct H as [Hnd Hin]. split; [exact Hnd |].
  intros b. rewrite Hin. split; [| auto]. now intros [[] | H].
Qed.

Lemma add_nets_app (io_list : list IO.t) (pre rest : list Net.t) :
  forall state : matrices * matrices * list string,
    add_nets io_list (pre ++ rest) state
    = (state <- add_nets io_list pre state ;; add_nets io_list rest state).
Proof.
  induction pre as [| net_def pre IH]; intros state; cbn [app add_nets].
  - reflexivity.
  - destruct (add_net io_list net_def state); cbn [bind]; try reflexivity.
    apply IH.
Qed.

Lemma match_io_no_type (link_type : string) (io_list : list IO.t) :
  (forall io : IO.t, In io io_list -> IO.type io <> link_type) ->
  forall (io_bandwidth : option R) (bidirectional : pyval),
    match_io io_list link_type io_bandwidth bidirectional
    = (io_bandwidth, bidirectional).
Proof.
  induction io_list as [| io rest IH]; intros Hno bw bd; [reflexivity |].
  cbn [match_io].
  destruct (String.eqb_spec link_type (IO.type io)) as [Heq | Hne].
  - exfalso. apply (Hno io); [now left | now symmetry].
  - apply IH. intros io' Hin. apply Hno. now right.
Qed.

(** X28: a net whose type no IO of the list has makes
    [global_adjacency_matrix_from_file] call [sys.exit(1)], once the nets
    before it are read: no matrix is returned for a netlist with an
    unknown IO type. *)
Theorem netlist_unknown_type_exits (io_list : list IO.t)
    (pre rest : list Net.t) (net_def : Net.t)
    (state : matrices * matrices * list string) :
  global_adjacency_matrix_from_file pre io_list = Ok state ->
  (forall io : IO.t, In io io_list -> IO.type io <> Net.type net_def) ->
  global_adjacency_matrix_from_file (pre ++ net_def :: rest) io_list
  = Raise (SystemExit 1).
Proof.
  unfold global_adjacency_matrix_from_file. intros Hpre Hno.
  rewrite add_nets_app, Hpre. cbn [bind add_nets].
  destruct state as [[gam abu] names].
  apply add_nets_consistent in Hpre; [| exact consistent_empty].
  unfold add_net.
  set (n := List.length names) in *.
  assert (Hc0 : exists gam0 abu0 : matrices,
             (if negb (has_key gam (Net.type net_def))
              then (assign gam (Net.type net_def) (np_zeros n),
                    assign abu (Net.type net_def) (np_zeros n))
              else (gam, abu)) = (gam0, abu0)
             /\ Shape.consistent n gam0 abu0).
  { destruct (has_key gam (Net.type net_def)) eqn:E; cbn [negb].
    - eauto.
    - do 2 eexists. split; [reflexivity |]. now apply consistent_new_key. }
  destruct Hc0 as (gam0 & abu0 & -> & Hc0).
  destruct (add_block_ok n gam0 abu0 names (Net.block0 net_def) Hc0 eq_refl)
    as (gam1 & abu1 & names1 & -> & Hc1 & _). cbn [bind].
  destruct (add_block_ok _ gam1 abu1 names1 (Net.block1 net_def) Hc1 eq_refl)
    as (gam2 & abu2 & names2 & -> & _). cbn [bind].
  now rewrite (match_io_no_type _ _ Hno).
Qed.

Lemma link_netlist_read :
  global_adjacency_matrix_from_file [link_net] [link_io]
  = Ok ([("link"%string, [[0; 0 + 2]; [0 + 2; 0]])],
        [("link"%string, [[0; 1 * (2 / (2 * 1))]; [1 * (2 / (2 * 1)); 0]])],
        ["package"%string; "die"%string]).
Proof.
  unfold global_adjacency_matrix_from_file.
  cbn [add_nets add_net link_net Net.type Net.block0 Net.block1 Net.bandwidth
       Net.bb_count Net.average_bandwidth_utilization has_key existsb negb
       assign np_zeros repeat List.length add_block app map fst pad_keys
       Chip.lookup String.eqb Ascii.eqb Bool.eqb bind np_pad snd match_io
       link_io IO.type IO.bandwidth IO.get_bidirectional IO.bidirectional
       is_none truthy index Chip.first_index orb Nat.add].
  rewrite py_div_ok by lra. cbn [bind].
  unfold add_link.
  cbn [Chip.lookup String.eqb Ascii.eqb Bool.eqb bind get_entry set_entry
       Chip.item nth_error set_nth assign].
  rewrite (Reqb_true 0 0) by reflexivity.
  cbn [Chip.lookup String.eqb Ascii.eqb Bool.eqb bind get_entry set_entry
       Chip.item nth_error set_nth assign].
  rewrite (Reqb_true 0 0) by reflexivity.
  reflexivity.
Qed.

Lemma netlist_matrices_are_square_witness :
  global_adjacency_matrix_from_file [link_net] [link_io]
  = Ok ([("link"%string, [[0; 0 + 2]; [0 + 2; 0]])],
        [("link"%string, [[0; 1 * (2 / (2 * 1))]; [1 * (2 / (2 * 1)); 0]])],
        ["package"%string; "die"%string])
  /\ Forall (fun km => Shape.square 2 (snd km))
            [("link"%string, [[0; 0 + 2]; [0 + 2; 0]])].
Proof.
  split; [exact link_netlist_read |].
  exact (proj1 (proj2 (proj2
           (netlist_matrices_are_square _ _ _ _ _ link_netlist_read)))).
Defined.

Lemma netlist_block_names_witness :
  global_adjacency_matrix_from_file [link_net] [link_io]
  = Ok ([("link"%string, [[0; 0 + 2]; [0 + 2; 0]])],
        [("link"%string, [[0; 1 * (2 / (2 * 1))]; [1 * (2 / (2 * 1)); 0]])],
        ["package"%string; "die"%string])
  /\ NoDup ["package"%string; "die"%string].
Proof.
  split; [exact link_netlist_read |].
  exact (proj1 (netlist_block_names _ _ _ _ _ link_netlist_read)).
Defined.

Lemma netlist_unknown_type_exits_witness :
  (forall io : IO.t, In io [link_io] -> IO.type io <> Net.type optical_net)
  /\ global_adjacency_matrix_from_file ([link_net] ++ [optical_net]) [link_io]
     = Raise (SystemExit 1).
Proof.
  assert (H : forall io : IO.t,
             In io [link_io] -> IO.type io <> Net.type optical_net).
  { intros io [<- | []]. discriminate. }
  split; [exact H |].
  exact (netlist_unknown_type_exits [link_io] [link_net] [] optical_net _
           link_netlist_read H).
Defined.

(** ** The netlist: symmetric matrices *)

Lemma nth_singleton_zero (k : nat) : nth k [0] 0 = 0.
Proof. destruct k as [| [|]]; reflexivity. Qed.

Lemma entry_np_pad (m : matrix) (i j : nat) :
  Spec.entry (np_pad m) i j = Spec.entry m i j.
Proof.
  unfold Spec.entry, np_pad.
  destruct (Nat.lt_ge_cases i (List.length m)) as [Hi | Hi].
  - rewrite app_nth1 by now rewrite length_map.
    rewrite (nth_indep _ [] ([] ++ [0])) by now rewrite length_map.
    rewrite (map_nth (fun row => row ++ [0])).
    set (row := nth i m []).
    destruct (Nat.lt_ge_cases j (List.length row)) as [Hj | Hj].
    + now rewrite app_nth1.
    + rewrite app_nth2 by assumption. rewrite nth_singleton_zero.
      symmetry. now apply nth_overflow.
  - rewrite app_nth2 by now rewrite length_map.
    rewrite (nth_overflow m) by assumption.
    rewrite length_map.
    destruct (i - List.length m)%nat as [| k]; cbn [nth].
    + rewrite nth_repeat. now destruct j.
    + now destruct k.
Qed.

Lemma entry_np_zeros (n i j : nat) : Spec.entry (np_zeros n) i j = 0.
Proof.
  unfold Spec.entry, np_zeros.
  destruct (Nat.lt_ge_cases i n) as [Hi | Hi].
  - rewrite (nth_indep _ [] (repeat 0 n)) by now rewrite repeat_length.
    rewrite nth_repeat. apply nth_repeat.
  - rewrite (nth_overflow (repeat (repeat 0 n) n))
      by now rewrite repeat_length.
    now destruct j.
Qed.

Lemma nth_set_nth {A : Type} (l : list A) (i a : nat) (x d : A) :
  (i < List.length l)%nat ->
  nth a (set_nth l i x) d = if (a =? i)%nat then x else nth a l d.
Proof.
  revert i a. induction l as [| y rest IH]; intros i a Hi;
    cbn [List.length] in Hi; [lia |].
  destruct i as [| i]; destruct a as [| a]; cbn [set_nth nth Nat.eqb];
    try reflexivity.
  apply IH. lia.
Qed.

Lemma get_entry_entry (m : matrix) (i j : nat) (c : R) :
  get_entry m i j = Ok c -> c = Spec.entry m i j.
Proof.
  unfold get_entry, Spec.entry. intros H.
  apply bind_Ok in H as (row & Hrow & H).
  apply (item_nth _ _ _ []) in Hrow as [_ ->].
  apply (item_nth _ _ _ 0) in H as [_ H]. now symmetry.
Qed.

Lemma entry_set_entry (m m' : matrix) (i j : nat) (v : R) :
  set_entry m i j v = Ok m' ->
  forall a b : nat,
    Spec.entry m' a b
    = if ((a =? i) && (b =? j))%nat then v else Spec.entry m a b.
Proof.
  unfold set_entry, Spec.entry. intros H a b.
  apply bind_Ok in H as (row & Hrow & H).
  apply bind_Ok in H as (old & Hold & H). injection H as <-.
  apply (item_nth _ _ _ []) in Hrow as [Hi Hrow].
  apply (item_nth _ _ _ 0) in Hold as [Hj _].
  rewrite nth_set_nth by assumption.
  destruct (Nat.eqb_spec a i) as [-> | Hne]; cbn [andb]; [| reflexivity].
  rewrite nth_set_nth by assumption.
  destruct (b =? j)%nat; [reflexivity |]. now rewrite Hrow.
Qed.

Lemma symmetric_np_zeros (n : nat) : Shape.symmetric (np_zeros n).
Proof. intros i j. now rewrite !entry_np_zeros. Qed.

Lemma symmetric_np_pad (m : matrix) :
  Shape.symmetric m -> Shape.symmetric (np_pad m).
Proof. intros H i j. rewrite !entry_np_pad. apply H. Qed.

Lemma symmetric_two_updates (m m1 m2 : matrix) (i j : nat) (c : R) :
  Shape.symmetric m ->
  set_entry m i j (Spec.entry m i j + c) = Ok m1 ->
  set_entry m1 j i (Spec.entry m1 j i + c) = Ok m2 ->
  Shape.symmetric m2.
Proof.
  intros Hs H1 H2 a b.
  rewrite !(entry_set_entry _ _ _ _ _ H2), !(entry_set_entry _ _ _ _ _ H1).
  repeat match goal with
         | |- context [(?x =? ?y)%nat] =>
             destruct (Nat.eqb_spec x y); subst
         end; cbn [andb]; try contradiction;
    first [reflexivity | apply Hs | f_equal; apply Hs | congruence].
Qed.

Lemma lookup_assign (d : matrices) (key : string) (m : matrix) :
  Chip.lookup (assign d key m) key = Ok m.
Proof.
  induction d as [| [k x] rest IH]; cbn [assign Chip.lookup].
  - now rewrite String.eqb_refl.
  - destruct (String.eqb k key) eqn:E; cbn [Chip.lookup]; rewrite E;
      [reflexivity | exact IH].
Qed.

Lemma assign_assign (d : matrices) (key : string) (m m' : matrix) :
  assign (assign d key m) key m' = assign d key m'.
Proof.
  induction d as [| [k x] rest IH]; cbn [assign].
  - now rewrite String.eqb_refl.
  - destruct (String.eqb k key) eqn:E; cbn [assign]; rewrite E;
      [reflexivity | now rewrite IH].
Qed.

Lemma add_link_adjacency (gam abu gam' abu' : matrices) (link_type : string)
    (i j : nat) (u : R) (ios_to_add : Z) :
  add_link gam abu link_type i j u ios_to_add = Ok (gam', abu') ->
  exists m m' : matrix,
    Chip.lookup gam link_type = Ok m
    /\ set_entry m i j (Spec.entry m i j + IZR ios_to_add) = Ok m'
    /\ gam' = assign gam link_type m'.
Proof.
  intros H. unfold add_link in H.
  apply bind_Ok in H as (um & _ & H). apply bind_Ok in H as (old & _ & H).
  apply bind_Ok in H as (v & _ & H). apply bind_Ok in H as (u' & _ & H).
  apply bind_Ok in H as (m & Hm & H). apply bind_Ok in H as (count & Hc & H).
  apply bind_Ok in H as (m' & Hm' & H). injection H as <- <-.
  apply get_entry_entry in Hc. subst count. eauto.
Qed.

Lemma add_block_values (P : matrix -> Prop) (n : nat) (gam abu : matrices)
    (block_names : list string) (block : string)
    (state : matrices * matrices * list string) :
  Shape.consistent n gam abu ->
  (forall m : matrix, P m -> P (np_pad m)) ->
  Forall P (map snd gam) ->
  add_block block (gam, abu, block_names) = Ok state ->
  Forall P (map snd (fst (fst state))).
Proof.
  intros (Hk & Hnd & _) Hpad Hall H. unfold add_block in H.
  destruct (existsb (String.eqb block) block_names); cbn [negb] in H.
  - injection H as <-. exact Hall.
  - pose proof (pad_keys_all gam abu [] [] Hk eq_refl Hnd) as Hrun.
    cbn [app] in Hrun. rewrite Hrun in H. cbn [bind] in H.
    injection H as <-. cbn [fst]. rewrite map_map. cbn [snd].
    rewrite <- (map_map snd np_pad). apply Forall_map.
    revert Hall. apply Forall_impl. exact Hpad.
Qed.

Lemma match_io_bidirectional (link_type : string) (io_list : list IO.t) :
  Forall (fun io => truthy (IO.get_bidirectional io) = true) io_list ->
  forall (bw0 bw : option R) (bd0 bd : pyval),
    match_io io_list link_type bw0 bd0 = (bw, bd) ->
    (bw = bw0 /\ bd = bd0) \/ truthy bd = true.
Proof.
  induction 1 as [| io rest Hio _ IH]; intros bw0 bw bd0 bd H;
    cbn [match_io] in H.
  - injection H as <- <-. now left.
  - destruct (String.eqb link_type (IO.type io)).
    + apply IH in H as [[_ ->] | H]; right; assumption.
    + now apply IH in H.
Qed.

Lemma add_net_symmetric (io_list : list IO.t) (net_def : Net.t)
    (gam abu gam' abu' : matrices) (block_names block_names' : list string) :
  Forall (fun io => truthy (IO.get_bidirectional io) = true) io_list ->
  Shape.consistent (List.length block_names) gam abu ->
  Forall Shape.symmetric (map snd gam) ->
  add_net io_list net_def (gam, abu, block_names)
  = Ok (gam', abu', block_names') ->
  Forall Shape.symmetric (map snd gam').
Proof.
  intros Hbi Hc Hs H. unfold add_net in H.
  set (n := List.length block_names) in *.
  assert (Hc0 : exists gam0 abu0 : matrices,
             (if negb (has_key gam (Net.type net_def))
              then (assign gam (Net.type net_def) (np_zeros n),
                    assign abu (Net.type net_def) (np_zeros n))
              else (gam, abu)) = (gam0, abu0)
             /\ Shape.consistent n gam0 abu0
             /\ Forall Shape.symmetric (map snd gam0)).
  { destruct (has_key gam (Net.type net_def)) eqn:E; cbn [negb].
    - eauto.
    - do 2 eexists. split; [reflexivity |]. split.
      + now apply consistent_new_key.
      + apply assign_values; [exact Hs | apply symmetric_np_zeros]. }
  destruct Hc0 as (gam0 & abu0 & Heq & Hc0 & Hs0). rewrite Heq in H.
  clear Heq.
  destruct (add_block_ok n gam0 abu0 block_names (Net.block0 net_def) Hc0
              eq_refl) as (gam1 & abu1 & names1 & Hrun1 & Hc1 & _).
  pose proof (add_block_values _ _ _ _ _ _ _ Hc0 symmetric_np_pad Hs0 Hrun1)
    as Hs1. cbn [fst] in Hs1.
  rewrite Hrun1 in H. cbn [bind] in H.
  destruct (add_block_ok _ gam1 abu1 names1 (Net.block1 net_def) Hc1 eq_refl)
    as (gam2 & abu2 & names2 & Hrun2 & Hc2 & _).
  pose proof (add_block_values _ _ _ _ _ _ _ Hc1 symmetric_np_pad Hs1 Hrun2)
    as Hs2. cbn [fst] in Hs2.
  rewrite Hrun2 in H. cbn [bind] in H.
  destruct (match_io io_list (Net.type net_def) None PyNone)
    as [io_bandwidth bidirectional] eqn:Hio.
  destruct io_bandwidth as [io_bandwidth |]; [| discriminate].
  apply (match_io_bidirectional _ _ Hbi) in Hio.
  destruct Hio as [[Hio _] | Hio]; [discriminate |].
  destruct (is_none bidirectional); [discriminate |].
  apply bind_Ok in H as (b1 & _ & H). apply bind_Ok in H as (b2 & _ & H).
  apply bind_Ok in H as (ios & _ & H). apply bind_Ok in H as (peak & _ & H).
  rewrite Hio in H. cbn [negb] in H.
  apply bind_Ok in H as ([g3 a3] & Hl & H).
  apply bind_Ok in H as ([g4 a4] & Hl' & H). injection H as <- <- <-.
  apply add_link_adjacency in Hl as (m & m1 & Hm & Hm1 & ->).
  apply add_link_adjacency in Hl' as (m1' & m2 & Hm1' & Hm2 & ->).
  rewrite lookup_assign in Hm1'. injection Hm1' as <-.
  rewrite assign_assign. apply assign_values; [exact Hs2 |].
  apply (symmetric_two_updates m m1 m2 b1 b2 (IZR ios));
    [| exact Hm1 | exact Hm2].
  exact (lookup_value _ _ _ _ Hs2 Hm).
Qed.

Lemma add_nets_symmetric (io_list : list IO.t) (root : list Net.t) :
  Forall (fun io => truthy (IO.get_bidirectional io) = true) io_list ->
  forall (gam abu gam' abu' : matrices)
         (block_names block_names' : list string),
    Shape.consistent (List.length block_names) gam abu ->
    Forall Shape.symmetric (map snd gam) ->
    add_nets io_list root (gam, abu, block_names)
    = Ok (gam', abu', block_names') ->
    Forall Shape.symmetric (map snd gam').
Proof.
  intros Hbi.
  induction root as [| net_def rest IH];
    intros gam abu gam' abu' names names' Hc Hs H; cbn [add_nets] in H.
  - injection H as <- <- <-. exact Hs.
  - apply bind_Ok in H as ([[g1 a1] n1] & Hnet & H).
    pose proof (add_net_symmetric _ _ _ _ _ _ _ _ Hbi Hc Hs Hnet) as Hs1.
    apply add_net_consistent in Hnet; [| exact Hc].
    exact (IH _ _ _ _ _ _ (proj1 Hnet) Hs1 H).
Qed.

(** X29: when every IO of the list is bidirectional, each adjacency matrix
    [global_adjacency_matrix_from_file] returns is symmetric: a net adds
    its IO count to the entry of its two blocks in both orders. *)
Theorem netlist_bidirectional_symmetric (root : list Net.t)
    (io_list : list IO.t)
    (global_adjacency_matrix average_bandwidth_utilization : matrices)
    (block_names : list string) :
  Forall (fun io => truthy (IO.get_bidirectional io) = true) io_list ->
  global_adjacency_matrix_from_file root io_list
  = Ok (global_adjacency_matrix, average_bandwidth_utilization,
        block_names) ->
  forall (io_type : string) (m : matrix) (i j : nat),
    In (io_type, m) global_adjacency_matrix ->
    Spec.entry m i j = Spec.entry m j i.
Proof.
  intros Hbi H io_type m i j Hin.
  unfold global_adjacency_matrix_from_file in H.
  apply (add_nets_symmetric _ _ Hbi) in H;
    [| exact consistent_empty | constructor].
  rewrite Forall_forall in H. apply (H m).
  apply in_map_iff. now exists (io_type, m).
Qed.

Lemma netlist_bidirectional_symmetric_witness :
  Forall (fun io => truthy (IO.get_bidirectional io) = true) [link_io]
  /\ Spec.entry [[0; 0 + 2]; [0 + 2; 0]] 0 1
     = Spec.entry [[0; 0 + 2]; [0 + 2; 0]] 1 0.
Proof.
  assert (H : Forall (fun io => truthy (IO.get_bidirectional io) = true)
                     [link_io]).
  { constructor; [reflexivity | constructor]. }
  split; [exact H |].
  apply (netlist_bidirectional_symmetric [link_net] [link_io] _ _ _ H
           link_netlist_read "link"%string).
  now left.
Defined.

(** ** The netlist and the chips that read it *)

Lemma add_nets_no_io (root : list Net.t)
    (state state' : matrices * matrices * list string) :
  add_nets [] root state = Ok state' -> root = [].
Proof.
  destruct root as [| net_def rest]; [reflexivity |].
  cbn [add_nets]. intros H. exfalso.
  apply bind_Ok in H as (s1 & H & _).
  destruct state as [[gam abu] names]. unfold add_net in H.
  destruct (negb (has_key gam (Net.type net_def)));
    apply bind_Ok in H as ([[g1 a1] n1] & _ & H);
    apply bind_Ok in H as ([[g2 a2] n2] & _ & H);
    cbn [match_io] in H; discriminate.
Qed.

Lemma internal_indices_bound (items : list Chip.name_item)
    (block_names : list string) :
  Forall (fun j => (j < List.length block_names)%nat)
         (Chip.internal_indices block_names items 0).
Proof.
  apply Forall_forall. intros j Hj.
  apply internal_indices_spec in Hj as (k & b & -> & Hk & _).
  cbn [Nat.add]. apply nth_error_Some. congruence.
Qed.

Lemma In_lookup {A : Type} (d : list (string * A)) (key : string) :
  In key (map fst d) -> exists v : A, Chip.lookup d key = Ok v.
Proof.
  induction d as [| [k x] rest IH]; cbn [map fst In Chip.lookup];
    [intros [] |].
  destruct (String.eqb_spec k key) as [-> | Hne]; [eauto |].
  intros [H | H]; [contradiction | now apply IH].
Qed.

Lemma io_area_types_ok (n : nat) (io_list : list IO.t) (block_index : nat) :
  (block_index < n)%nat -> io_list <> [] ->
  forall (adjacency : matrices) (io_area : R),
    Forall (Shape.square n) (map snd adjacency) ->
    exists v : R,
      Chip.io_area_types io_list block_index adjacency io_area = Ok v.
Proof.
  intros Hb Hio.
  induction adjacency as [| [io_type m] rest IH]; intros io_area Hall;
    cbn [Chip.io_area_types]; [eauto |].
  cbn [map snd] in Hall. inversion Hall as [| ? ? Hm Hrest]; subst.
  destruct (square_item n m block_index Hm Hb) as (row & Hrow & _).
  unfold Chip.whole. rewrite Hrow. cbn [bind].
  destruct (select_io_some io_list io_type Hio) as (io & ->). cbn [bind].
  now apply IH.
Qed.

Lemma signal_count_columns_ok (n : nat) (m : matrix) (io : IO.t)
    (block_index : nat) (internal_block_list_indices : list nat) :
  Shape.square n m -> (block_index < n)%nat ->
  forall columns : list nat,
    Forall (fun j => (j < n)%nat) columns ->
    forall (signal_count : R) (signal_with_reach_count : list (R * R)),
    exists r : R * list (R * R),
      Chip.signal_count_columns m io block_index
        internal_block_list_indices columns signal_count
        signal_with_reach_count = Ok r.
Proof.
  intros Hm Hb.
  induction columns as [| j rest IH]; intros Hall sc d;
    cbn [Chip.signal_count_columns]; [eauto |].
  inversion Hall as [| ? ? Hj Hrest]; subst.
  destruct (negb (existsb (Nat.eqb j) internal_block_list_indices));
    [| now apply IH].
  destruct (square_item n m block_index Hm Hb) as (r & -> & Hr).
  cbn [bind].
  destruct (item_lt r j) as (out & ->); [lia |]. cbn [bind].
  destruct (square_item n m j Hm Hj) as (r' & -> & Hr'). cbn [bind].
  destruct (item_lt r' block_index) as (inc & ->); [lia |]. cbn [bind].
  now apply IH.
Qed.

Lemma signal_count_types_ok (n : nat) (io_list : list IO.t)
    (block_index : nat) (internal_block_list_indices : list nat) :
  (block_index < n)%nat -> io_list <> [] ->
  forall adjacency : matrices,
    Forall (Shape.square n) (map snd adjacency) ->
    forall (signal_count : R) (signal_with_reach_count : list (R * R)),
    exists r : R * list (R * R),
      Chip.signal_count_types io_list block_index
        internal_block_list_indices adjacency signal_count
        signal_with_reach_count = Ok r.
Proof.
  intros Hb Hio.
  induction adjacency as [| [io_type m] rest IH]; intros Hall sc d;
    cbn [Chip.signal_count_types]; [eauto |].
  cbn [map snd] in Hall. inversion Hall as [| ? ? Hm Hrest]; subst.
  destruct (select_io_some io_list io_type Hio) as (io & ->). cbn [bind].
  destruct (square_item n m block_index Hm Hb) as (r & -> & Hr).
  cbn [bind]. unfold Chip.whole. rewrite Hr.
  destruct (signal_count_columns_ok n m io block_index
              internal_block_list_indices Hm Hb (seq 0 n)) with
    (signal_count := sc) (signal_with_reach_count := d) as ([sc' d'] & ->).
  { apply Forall_forall. intros j Hj. apply in_seq in Hj. lia. }
  cbn [bind]. now apply IH.
Qed.

Lemma np_mul_ok (a b : list R) :
  List.length a = List.length b -> exists p : list R, Chip.np_mul a b = Ok p.
Proof.
  intros H. unfold Chip.np_mul. rewrite H, Nat.eqb_refl. eauto.
Qed.

Lemma link_weighted_ok (n : nat) (m u : matrix) :
  Shape.square n m -> Shape.square n u ->
  forall indices : list nat,
    Forall (fun j => (j < n)%nat) indices ->
    forall link_weighted_sum : R,
    exists v : R,
      Chip.link_weighted m (Ok u) indices link_weighted_sum = Ok v.
Proof.
  intros Hm Hu.
  induction indices as [| index rest IH]; intros Hall acc;
    cbn [Chip.link_weighted]; [eauto |].
  inversion Hall as [| ? ? Hj Hrest]; subst. unfold Chip.whole.
  destruct (square_item n m index Hm Hj) as (a & -> & Ha). cbn [bind].
  destruct (square_item n u index Hu Hj) as (b & -> & Hb). cbn [bind].
  destruct (np_mul_ok a b) as (p & ->); [congruence |]. cbn [bind].
  now apply IH.
Qed.

Lemma signal_power_types_ok (n : nat) (io_list : list IO.t)
    (utilization : matrices) (internal_block_list_indices : list nat) :
  io_list <> [] ->
  Forall (fun j => (j < n)%nat) internal_block_list_indices ->
  forall adjacency : matrices,
    Forall (fun km =>
              Shape.square n (snd km)
              /\ exists u : matrix,
                   Chip.lookup utilization (fst km) = Ok u
                   /\ Shape.square n u) adjacency ->
    forall signal_power : R,
    exists v : R,
      Chip.signal_power_types io_list utilization
        internal_block_list_indices adjacency signal_power = Ok v.
Proof.
  intros Hio Hidx.
  induction adjacency as [| [io_type m] rest IH]; intros Hall acc;
    cbn [Chip.signal_power_types]; [eauto |].
  inversion Hall as [| ? ? (Hm & u & Hu & Hsq) Hrest]; subst.
  cbn [fst snd] in Hm, Hu.
  destruct (select_io_some io_list io_type Hio) as (io & ->). cbn [bind].
  rewrite Hu.
  destruct (link_weighted_ok n m u Hm Hsq internal_block_list_indices Hidx 0)
    as (w & ->).
  cbn [bind]. now apply IH.
Qed.

(** X30: a chip that carries the matrices and block names that
    [global_adjacency_matrix_from_file] returned for its IO list can always
    index them: [get_io_area], [get_signal_count] and [get_signal_power]
    return a value, whatever the name of the chip and the list of internal
    blocks. *)
Theorem netlist_fits_the_chip (root : list Net.t) (self : Chip.t)
    (internal_block_list : list Chip.name_item) :
  global_adjacency_matrix_from_file root (Chip.io_list self)
  = Ok (Chip.global_adjacency_matrix self,
        Chip.average_bandwidth_utilization self, Chip.block_names self) ->
  (exists io_area : R, Chip.get_io_area self = Ok io_area)
  /\ (exists c : R * list (R * R),
         Chip.get_signal_count self internal_block_list = Ok c)
  /\ (exists p : R, Chip.get_signal_power self internal_block_list = Ok p).
Proof.
  unfold global_adjacency_matrix_from_file. intros H.
  unfold Chip.get_io_area, Chip.get_signal_count, Chip.get_signal_power.
  destruct (Chip.io_list self) as [| io ios] eqn:Eio.
  - pose proof (add_nets_no_io _ _ _ H) as ->. cbn [add_nets] in H.
    injection H as <- <- <-.
    cbn [Chip.first_index Chip.last_index Chip.internal_indices
         Chip.signal_power_types].
    repeat split; eexists; reflexivity.
  - assert (Hio : io :: ios <> []) by discriminate.
    apply add_nets_consistent in H; [| exact consistent_empty].
    destruct H as (Hk & Hnd & Hg & Ha).
    set (n := List.length (Chip.block_names self)) in *.
    split; [| split].
    + destruct (Chip.first_index _ _ 0) as [b |] eqn:E; [| eauto].
      apply first_index_bound in E.
      apply (io_area_types_ok n); [lia | exact Hio | exact Hg].
    + destruct (Chip.last_index _ _ 0 None) as [b |] eqn:E; [| eauto].
      apply last_index_bound in E as [E | E]; [discriminate |].
      apply (signal_count_types_ok n); [lia | exact Hio | exact Hg].
    + apply (signal_power_types_ok n);
        [exact Hio | apply internal_indices_bound |].
      apply Forall_forall. intros [io_type m] Hin. cbn [fst snd].
      split.
      * rewrite Forall_forall in Hg. apply Hg.
        apply in_map_iff. now exists (io_type, m).
      * assert (Hkey : In io_type
                         (map fst (Chip.average_bandwidth_utilization self))).
        { rewrite <- Hk. apply in_map_iff. now exists (io_type, m). }
        apply In_lookup in Hkey as (u & Hu). exists u.
        split; [exact Hu |]. exact (lookup_value _ _ _ _ Ha Hu).
Qed.

Lemma idle_netlist_read :
  global_adjacency_matrix_from_file [idle_net] [link_io]
  = Ok ([("link"%string, link_matrix)], [("link"%string, zero_utilization)],
        ["package"%string; "die"%string]).
Proof.
  unfold global_adjacency_matrix_from_file.
  cbn [add_nets add_net idle_net Net.type Net.block0 Net.block1 Net.bandwidth
       Net.bb_count Net.average_bandwidth_utilization has_key existsb negb
       assign np_zeros repeat List.length add_block app map fst pad_keys
       Chip.lookup String.eqb Ascii.eqb Bool.eqb bind np_pad snd match_io
       link_io IO.type IO.bandwidth IO.get_bidirectional IO.bidirectional
       is_none truthy index Chip.first_index orb Nat.add].
  rewrite py_div_ok by lra. cbn [bind].
  unfold add_link.
  cbn [Chip.lookup String.eqb Ascii.eqb Bool.eqb bind get_entry set_entry
       Chip.item nth_error set_nth assign].
  rewrite (Reqb_true 0 0) by reflexivity.
  cbn [Chip.lookup String.eqb Ascii.eqb Bool.eqb bind get_entry set_entry
       Chip.item nth_error set_nth assign].
  rewrite (Reqb_true 0 0) by reflexivity.
  cbn [bind]. unfold link_matrix, zero_utilization.
  replace (0 + 2) with 2 by ring.
  replace (0 * (2 / (2 * 1))) with 0 by (unfold Rdiv; ring).
  reflexivity.
Qed.

Lemma netlist_fits_the_chip_witness :
  global_adjacency_matrix_from_file [idle_net] (Chip.io_list linked_die_chip)
  = Ok (Chip.global_adjacency_matrix linked_die_chip,
        Chip.average_bandwidth_utilization linked_die_chip,
        Chip.block_names linked_die_chip)
  /\ exists io_area : R, Chip.get_io_area linked_die_chip = Ok io_area.
Proof.
  split; [exact idle_netlist_read |].
  exact (proj1 (netlist_fits_the_chip [idle_net] linked_die_chip []
                  idle_netlist_read)).
Defined.

(** ** The package and the die on a board *)

Lemma lossy_assembly_yield (n m a : R) :
  Assembly.assembly_yield lossy_assembly n m a = Ok (Rpower (1 / 2) m).
Proof.
  rewrite (assembly_yield_eval lossy_assembly 1 (1 / 2) 0)
    by (reflexivity || lra).
  f_equal. rewrite Rpower_1_base. ring.
Qed.

Lemma Rpower_half_0 : Rpower (1 / 2) 0 = 1.
Proof. apply Rpower_O. lra. Qed.

Lemma Rpower_half_2 : Rpower (1 / 2) 2 = 1 / 4.
Proof. rewrite Rpower_2 by lra. field. Qed.

Lemma Rpower_half_4 : Rpower (1 / 2) 4 = 1 / 16.
Proof.
  replace 4 with (2 + 2) by ring.
  rewrite Rpower_plus, Rpower_half_2. field.
Qed.

Lemma lossy_assembly_cost (z : Z) (a : R) :
  Assembly.assembly_cost lossy_assembly (IZR z) a = Ok (IZR z + IZR z + a).
Proof.
  unfold Assembly.assembly_cost, Assembly.get_picknplace_cost_per_second,
    Assembly.get_bonding_cost_per_second, Assembly.compute_picknplace_time,
    Assembly.compute_bonding_time.
  change (Assembly.picknplace_cost_per_second lossy_assembly)
    with (Some 1).
  change (Assembly.bonding_cost_per_second lossy_assembly) with (Some 1).
  change (Assembly.picknplace_group lossy_assembly) with (Some 1%Z).
  change (Assembly.bonding_group lossy_assembly) with (Some 1%Z).
  change (Assembly.picknplace_time lossy_assembly) with (Some 1).
  change (Assembly.bonding_time lossy_assembly) with (Some 1).
  change (Assembly.materials_cost_per_mm2 lossy_assembly) with (Some 1).
  cbn [numZ num bind].
  rewrite py_div_ok by lra. cbn [bind].
  rewrite (py_ceil_unique (IZR z / 1) z)
    by (unfold Rdiv; rewrite Rinv_1, Rmult_1_r; lra).
  f_equal. ring.
Qed.

(** The steps of the constructor on a die of the example with black-box
    area, cost, quality and power, from the seed [seed]. *)
Ltac build_black_box_die element seed :=
  rewrite build_leaf by reflexivity;
  change (Chip.find_wafer_process (Element.wafer_process element)
            [unit_wafer_process]) with (Ok unit_wafer_process);
  cbn [bind];
  change (Chip.find_assembly_process (Element.assembly_process element)
            [lossy_assembly]) with (Ok lossy_assembly);
  cbn [bind];
  change (Chip.find_test_process (Element.test_process element)
            [unit_test]) with (Ok unit_test);
  cbn [bind];
  change (Chip.build_stackup (Element.stackup element) [])
    with (Ok (@nil Layer.t));
  cbn [bind];
  unfold Chip.init_self;
  change (String.eqb (Element.buried element) "True") with false;
  change (String.eqb (Element.buried element) "False") with true;
  cbn [bind];
  match goal with
  | |- context [String.eqb (Chip.name ?s) ""] =>
      change (String.eqb (Chip.name s) "") with false
  end;
  cbv iota;
  match goal with
  | |- context [Chip.init_self_metrics ?s] =>
      let Hio := fresh "Hio" in
      assert (Hio : Chip.get_signal_power s (Chip.get_chip_list s) = Ok 0)
        by (cbn; f_equal; ring);
      rewrite (init_self_metrics_black_box s 1 0 1 0 0 0 0);
      try reflexivity;
      [| exact Hio
       | lra
       | unfold Chip.compute_nre_design_cost,
           Chip.compute_nre_front_end_cost, Chip.compute_nre_back_end_cost;
         cbn; ring ]
  end;
  cbn [bind];
  match goal with
  | |- context [Chip.init_yield_and_cost _ _ _ ?s _] =>
      rewrite (init_yield_and_cost_run 0 ones true s seed seed (S seed)
                 1 1 1 1 2);
      try reflexivity;
      [ apply (compute_chip_yield_run s 1 1 0 0 1); try reflexivity;
        [ apply (stacked_die_area_leaf s 0); [reflexivity .. | ring]
        | change (Assembly.assembly_yield lossy_assembly (IZR 0) 0 0 = Ok 1);
          rewrite lossy_assembly_yield; f_equal; apply Rpower_half_0
        | cbn; ring ]
      | apply (assembly_test_yield_run _ _ 1); [reflexivity .. | cbn; ring]
      | apply (assembly_quality_run _ _ 1 1); [reflexivity .. | lra | field]
      | apply (compute_cost_run ones _ seed (S seed) 1 0 0 0 1 1);
        try reflexivity;
        [ apply (stacked_die_area_leaf _ 0); [reflexivity .. | ring]
        | change (Assembly.assembly_cost lossy_assembly (IZR 0) 0 = Ok 0);
          rewrite (lossy_assembly_cost 0 0); f_equal; ring
        | rewrite (assembly_test_cost_gauss ones _ _ seed 1) by reflexivity;
          unfold ones; cbn; do 2 f_equal; ring
        | lra
        | field ] ]
  end.

Lemma boarded_die_built :
  Chip.build 0 ones die_element (Some lossy_assembly) [unit_wafer_process]
    [lossy_assembly] [unit_test] [] [link_io]
    [("link"%string, board_matrix)] [("link"%string, board_utilization)]
    board_names true 0
  = Ok (boarded_die_chip, 1%nat).
Proof. build_black_box_die die_element 0%nat. Qed.

Lemma boarded_package_built :
  Chip.init 0 ones (Some package_element) None board_catalogs true 0
  = Ok (boarded_package_chip, 2%nat).
Proof.
  unfold Chip.init.
  cbn [board_catalogs Catalogs.wafer_process_list
       Catalogs.assembly_process_list Catalogs.test_process_list
       Catalogs.layers Catalogs.ios Catalogs.adjacency_matrix_definitions
       Catalogs.average_bandwidth_utilization Catalogs.block_names
       Chip.required bind].
  rewrite (build_single _ _ package_element die_element) by reflexivity.
  change (Chip.find_wafer_process (Element.wafer_process package_element)
            [unit_wafer_process]) with (Ok unit_wafer_process).
  cbn [bind].
  change (Chip.find_assembly_process
            (Element.assembly_process package_element) [lossy_assembly])
    with (Ok lossy_assembly).
  cbn [bind].
  change (Chip.find_test_process (Element.test_process package_element)
            [unit_test]) with (Ok unit_test).
  cbn [bind].
  change (Chip.build_stackup (Element.stackup package_element) [])
    with (Ok (@nil Layer.t)).
  cbn [bind].
  rewrite boarded_die_built. cbn [bind].
  unfold Chip.init_self.
  change (String.eqb (Element.buried package_element) "True") with false.
  change (String.eqb (Element.buried package_element) "False") with true.
  cbn [bind].
  match goal with
  | |- context [String.eqb (Chip.name ?s) ""] =>
      change (String.eqb (Chip.name s) "") with false
  end.
  cbv iota.
  match goal with
  | |- context [Chip.init_self_metrics ?s] => set (self0 := s)
  end.
  assert (Hio : Chip.get_signal_power self0 (Chip.get_chip_list self0) = Ok 0).
  { cbn. f_equal. ring. }
  rewrite (init_self_metrics_black_box self0 4 0 1 0 0 0 0);
    try reflexivity;
    [| exact Hio
     | change (Ok (0 + 0) = Ok 0); f_equal; ring
     | lra
     | unfold Chip.compute_nre_design_cost, Chip.compute_nre_front_end_cost,
         Chip.compute_nre_back_end_cost; cbn; ring ].
  cbn [bind].
  match goal with
  | |- context [Chip.init_yield_and_cost _ _ _ ?s _] => set (self1 := s)
  end.
  rewrite (init_yield_and_cost_run 0 ones true self1 1 1 2 (1 / 4) 1 (1 / 4)
             1 8);
    try reflexivity.
  - apply (compute_chip_yield_run self1 1 1 2 1 (1 / 4)); try reflexivity.
    + change (Ok (1 * 1) = Ok 1). f_equal. ring.
    + cbn. f_equal. field.
    + apply (stacked_die_area_one self1 boarded_die_chip 1 0 0);
        try reflexivity; try lra.
      rewrite sqrt_1. ring.
    + change (Assembly.assembly_yield lossy_assembly (IZR 1) 2 1
              = Ok (1 / 4)).
      rewrite lossy_assembly_yield. f_equal. apply Rpower_half_2.
    + cbn. field.
  - apply (assembly_test_yield_run _ _ (1 / 4));
      [reflexivity .. | cbn; ring].
  - apply (assembly_quality_run _ _ (1 / 4) 1);
      [reflexivity .. | lra | field].
  - apply (compute_cost_run ones _ 1 2 1 2 1 3 2 1); try reflexivity.
    + change (Ok (0 + 2) = Ok 2). f_equal. ring.
    + apply (stacked_die_area_one _ boarded_die_chip 1 0 0);
        try reflexivity; try lra.
      rewrite sqrt_1. ring.
    + change (Assembly.assembly_cost lossy_assembly (IZR 1) 1 = Ok 3).
      rewrite (lossy_assembly_cost 1 1). f_equal. ring.
    + rewrite (assembly_test_cost_gauss ones _ _ 1 (1 / 4)) by reflexivity.
      unfold ones. cbn. do 2 f_equal. ring.
    + lra.
    + field.
Qed.

Lemma boarded_netlist_fits : Bond.netlist_fits boarded_die_chip.
Proof.
  constructor; [| constructor].
  split; [exists link_io; reflexivity |].
  split; [reflexivity |].
  repeat constructor.
Qed.

Lemma boarded_no_wire_inside :
  Bond.no_wire_inside boarded_package_chip boarded_die_chip.
Proof.
  intros block_index j tm Hb Htm Hj Hin.
  cbn in Hb. injection Hb as <-.
  destruct Htm as [<- | []].
  destruct j as [| [| [| j]]]; cbn in Hin.
  - destruct Hin as [Hin | []]. discriminate Hin.
  - split; reflexivity.
  - destruct Hin as [Hin | []]. discriminate Hin.
  - cbn in Hj. lia.
Qed.

Lemma boarded_bond_count : Bond.bond_count boarded_package_chip = 2.
Proof.
  unfold Bond.bond_count, Bond.signal_count_over, Bond.signal_term,
    Spec.sum_over, Chip.bidirectional_factor.
  cbn -[Rplus Rmult Rdiv Rinv Rminus Ropp IZR Reqb Rltb Rleb].
  field.
Qed.

Lemma chip_true_yield_is_product_witness :
  Chip.init 0 ones (Some package_element) None board_catalogs true 0
  = Ok (boarded_package_chip, 2%nat)
  /\ Forall Bond.netlist_fits (Chip.get_chips boarded_package_chip)
  /\ Forall (Bond.no_wire_inside boarded_package_chip)
            (Chip.get_chips boarded_package_chip)
  /\ Bond.bond_count boarded_package_chip = 2
  /\ exists (self_quality : R) (qualities : list R)
            (stacked_die_area assembly_yield : R),
       Chip.get_self_quality boarded_package_chip = Ok self_quality
       /\ Forall2 (fun chip q => Chip.get_quality chip = Ok q)
                  (Chip.get_chips boarded_package_chip) qualities
       /\ Chip.get_chips_signal_count boarded_package_chip
          = Ok (Bond.bond_count boarded_package_chip)
       /\ Chip.get_stacked_die_area boarded_package_chip
          = Ok stacked_die_area
       /\ Assembly.assembly_yield
            (Chip.assembly_process boarded_package_chip)
            (IZR (Z.of_nat
                    (List.length (Chip.get_chips boarded_package_chip))))
            (Bond.bond_count boarded_package_chip) stacked_die_area
          = Ok assembly_yield
       /\ Chip.get_chip_true_yield boarded_package_chip
          = Ok (self_quality * fold_left Rmult qualities 1 * assembly_yield
                * WaferProcess.wafer_process_yield
                    (Chip.wafer_process boarded_package_chip)).
Proof.
  split; [exact boarded_package_built |].
  split; [constructor; [exact boarded_netlist_fits | constructor] |].
  split; [constructor; [exact boarded_no_wire_inside | constructor] |].
  split; [exact boarded_bond_count |].
  apply (chip_true_yield_is_product 0 ones (Some package_element) None
           board_catalogs true 0 2 boarded_package_chip
           boarded_package_built).
  - constructor; [exact boarded_netlist_fits | constructor].
  - constructor; [exact boarded_no_wire_inside | constructor].
Defined.

(** ** Two dies on the package *)

Lemma build_pair (fuel : nat) (rnd : random_source)
    (root first second : Element.t) (parent_chip : option Assembly.t)
    (wafer_process_list : list WaferProcess.t)
    (assembly_process_list : list Assembly.t)
    (test_process_list : list Test.t) (layers : list Layer.t)
    (ios : list IO.t) (adjacency_matrix_definitions : list (string * matrix))
    (average_bandwidth_utilization : list (string * matrix))
    (block_names : list string) (static : bool) (seed : nat) :
  Element.children root = [first; second] ->
  Chip.contains "chip" (Element.tag first) = true ->
  Chip.contains "chip" (Element.tag second) = true ->
  Chip.build fuel rnd root parent_chip wafer_process_list
    assembly_process_list test_process_list layers ios
    adjacency_matrix_definitions average_bandwidth_utilization block_names
    static seed
  = (wafer_process <-
       Chip.find_wafer_process (Element.wafer_process root)
                               wafer_process_list ;;
     assembly_process <-
       Chip.find_assembly_process (Element.assembly_process root)
                                  assembly_process_list ;;
     test_process <-
       Chip.find_test_process (Element.test_process root)
                              test_process_list ;;
     stackup <- Chip.build_stackup (Element.stackup root) layers ;;
     '(chip1, seed) <-
       Chip.build fuel rnd first (Some assembly_process)
         wafer_process_list assembly_process_list test_process_list layers
         ios adjacency_matrix_definitions average_bandwidth_utilization
         block_names static seed ;;
     '(chip2, seed) <-
       Chip.build fuel rnd second (Some assembly_process)
         wafer_process_list assembly_process_list test_process_list layers
         ios adjacency_matrix_definitions average_bandwidth_utilization
         block_names static seed ;;
     Chip.init_self fuel rnd root parent_chip wafer_process assembly_process
       test_process stackup [chip1; chip2] ios adjacency_matrix_definitions
       average_bandwidth_utilization block_names static seed).
Proof.
  destruct root. cbn [Element.children]. intros -> Htag1 Htag2.
  cbn [Chip.build Element.children].
  destruct (Chip.find_wafer_process _ _); try reflexivity. cbn [bind].
  destruct (Chip.find_assembly_process _ _); try reflexivity. cbn [bind].
  destruct (Chip.find_test_process _ _); try reflexivity. cbn [bind].
  destruct (Chip.build_stackup _ _); try reflexivity. cbn [bind].
  rewrite Htag1, Htag2.
  destruct (Chip.build _ _ first _ _ _ _ _ _ _ _ _ _ _)
    as [[chip1 seed1] | | |]; try reflexivity.
  cbn [bind].
  destruct (Chip.build _ _ second _ _ _ _ _ _ _ _ _ _ _)
    as [[chip2 seed2] | | |]; reflexivity.
Qed.

Lemma first_die_built :
  Chip.build 0 ones die_element (Some lossy_assembly) [unit_wafer_process]
    [lossy_assembly] [unit_test] [] [link_io]
    [("link"%string, board_matrix)] [("link"%string, board_utilization)]
    twin_names true 0
  = Ok (first_die_chip, 1%nat).
Proof. build_black_box_die die_element 0%nat. Qed.

Lemma second_die_built :
  Chip.build 0 ones twin_element (Some lossy_assembly) [unit_wafer_process]
    [lossy_assembly] [unit_test] [] [link_io]
    [("link"%string, board_matrix)] [("link"%string, board_utilization)]
    twin_names true 1
  = Ok (second_die_chip, 2%nat).
Proof. build_black_box_die twin_element 1%nat. Qed.

Lemma twin_stacked_die_area (self : Chip.t) :
  Chip.chips self = [first_die_chip; second_die_chip] ->
  Chip.assembly_process self = lossy_assembly ->
  Chip.get_stacked_die_area self = Ok 2.
Proof.
  intros Hchips Hap. unfold Chip.get_stacked_die_area.
  rewrite Hchips, Hap. cbn [Chip.stack_dies].
  change (Chip.get_buried first_die_chip) with false.
  change (Chip.get_buried second_die_chip) with false.
  change (Chip.get_area first_die_chip) with (Ok (A := R) 1).
  change (Chip.get_area second_die_chip) with (Ok (A := R) 1).
  change (Chip.get_aspect_ratio first_die_chip) with 1.
  change (Chip.get_aspect_ratio second_die_chip) with 1.
  change (Assembly.die_separation lossy_assembly) with (Some 0).
  change (Assembly.edge_exclusion lossy_assembly) with (Some 0).
  cbn [negb bind num].
  rewrite !expandedArea_unit_ratio by lra. cbn [bind].
  rewrite sqrt_1.
  replace (0 + (1 + 2 * (0 / 2)) * (1 + 2 * (0 / 2))
           + (1 + 2 * (0 / 2)) * (1 + 2 * (0 / 2))) with 2 by field.
  rewrite expandedArea_unit_ratio by lra.
  f_equal. replace (sqrt 2 + 2 * 0) with (sqrt 2) by ring.
  apply sqrt_sqrt. lra.
Qed.

Lemma first_die_bonds :
  Chip.get_signal_count first_die_chip (Chip.get_chip_list twin_package_chip)
  = Ok (0 + (0 + 0) * 1 * (1 / 2) + (2 + 2) * 1 * (1 / 2),
        [(1, (0 + 0) * 1 * (1 / 2) + (2 + 2) * 1 * (1 / 2))]).
Proof.
  unfold Chip.get_signal_count.
  cbn -[Rplus Rmult Rdiv Rinv Rminus Ropp IZR Reqb Rltb Rleb].
  rewrite Reqb_true by reflexivity. reflexivity.
Qed.

Lemma second_die_bonds :
  Chip.get_signal_count second_die_chip
    (Chip.get_chip_list twin_package_chip)
  = Ok (0 + (2 + 2) * 1 * (1 / 2) + (0 + 0) * 1 * (1 / 2),
        [(1, (2 + 2) * 1 * (1 / 2) + (0 + 0) * 1 * (1 / 2))]).
Proof.
  unfold Chip.get_signal_count.
  cbn -[Rplus Rmult Rdiv Rinv Rminus Ropp IZR Reqb Rltb Rleb].
  rewrite Reqb_true by reflexivity. reflexivity.
Qed.

Lemma first_die_external_signals :
  Chip.get_signal_count first_die_chip (Chip.get_chip_list first_die_chip)
  = Ok (0 + (2 + 2) * 1 * (1 / 2) + (2 + 2) * 1 * (1 / 2),
        [(1, (2 + 2) * 1 * (1 / 2) + (2 + 2) * 1 * (1 / 2))]).
Proof.
  unfold Chip.get_signal_count.
  cbn -[Rplus Rmult Rdiv Rinv Rminus Ropp IZR Reqb Rltb Rleb].
  rewrite Reqb_true by reflexivity. reflexivity.
Qed.

Lemma second_die_external_signals :
  Chip.get_signal_count second_die_chip (Chip.get_chip_list second_die_chip)
  = Ok (0 + (0 + 0) * 1 * (1 / 2) + (2 + 2) * 1 * (1 / 2),
        [(1, (0 + 0) * 1 * (1 / 2) + (2 + 2) * 1 * (1 / 2))]).
Proof.
  unfold Chip.get_signal_count.
  cbn -[Rplus Rmult Rdiv Rinv Rminus Ropp IZR Reqb Rltb Rleb].
  rewrite Reqb_true by reflexivity. reflexivity.
Qed.

Lemma twin_package_bonds (self : Chip.t) :
  Chip.chips self = [first_die_chip; second_die_chip] ->
  Chip.get_chip_list self = Chip.get_chip_list twin_package_chip ->
  Chip.get_chips_signal_count self = Ok 4.
Proof.
  intros Hchips Hlist. unfold Chip.get_chips_signal_count.
  rewrite Hchips, Hlist. cbn [Chip.sum_signal_count].
  rewrite first_die_bonds. cbn [bind].
  rewrite second_die_bonds. cbn [bind].
  f_equal. field.
Qed.

Lemma twin_package_built :
  Chip.init 0 ones (Some twin_package_element) None twin_catalogs true 0
  = Ok (twin_package_chip, 3%nat).
Proof.
  unfold Chip.init.
  cbn [twin_catalogs Catalogs.wafer_process_list
       Catalogs.assembly_process_list Catalogs.test_process_list
       Catalogs.layers Catalogs.ios Catalogs.adjacency_matrix_definitions
       Catalogs.average_bandwidth_utilization Catalogs.block_names
       Chip.required bind].
  rewrite (build_pair _ _ twin_package_element die_element twin_element)
    by reflexivity.
  change (Chip.find_wafer_process
            (Element.wafer_process twin_package_element)
            [unit_wafer_process]) with (Ok unit_wafer_process).
  cbn [bind].
  change (Chip.find_assembly_process
            (Element.assembly_process twin_package_element)
            [lossy_assembly])
    with (Ok lossy_assembly).
  cbn [bind].
  change (Chip.find_test_process (Element.test_process twin_package_element)
            [unit_test]) with (Ok unit_test).
  cbn [bind].
  change (Chip.build_stackup (Element.stackup twin_package_element) [])
    with (Ok (@nil Layer.t)).
  cbn [bind].
  rewrite first_die_built. cbn [bind].
  rewrite second_die_built. cbn [bind].
  unfold Chip.init_self.
  change (String.eqb (Element.buried twin_package_element) "True")
    with false.
  change (String.eqb (Element.buried twin_package_element) "False")
    with true.
  cbn [bind].
  match goal with
  | |- context [String.eqb (Chip.name ?s) ""] =>
      change (String.eqb (Chip.name s) "") with false
  end.
  cbv iota.
  match goal with
  | |- context [Chip.init_self_metrics ?s] => set (self0 := s)
  end.
  assert (Hio : Chip.get_signal_power self0 (Chip.get_chip_list self0) = Ok 0).
  { cbn. f_equal. ring. }
  rewrite (init_self_metrics_black_box self0 4 0 1 0 0 0 0);
    try reflexivity;
    [| exact Hio
     | change (Ok (0 + 0 + 0) = Ok 0); f_equal; ring
     | lra
     | unfold Chip.compute_nre_design_cost, Chip.compute_nre_front_end_cost,
         Chip.compute_nre_back_end_cost; cbn; ring ].
  cbn [bind].
  match goal with
  | |- context [Chip.init_yield_and_cost _ _ _ ?s _] => set (self1 := s)
  end.
  rewrite (init_yield_and_cost_run 0 ones true self1 2 2 3 (1 / 16) 1
             (1 / 16) 1 14);
    try reflexivity.
  - apply (compute_chip_yield_run self1 1 1 4 2 (1 / 16)); try reflexivity.
    + change (Ok (1 * 1 * 1) = Ok 1). f_equal. ring.
    + apply twin_package_bonds; reflexivity.
    + apply twin_stacked_die_area; reflexivity.
    + change (Assembly.assembly_yield lossy_assembly (IZR 2) 4 2
              = Ok (1 / 16)).
      rewrite lossy_assembly_yield. f_equal. apply Rpower_half_4.
    + cbn. field.
  - apply (assembly_test_yield_run _ _ (1 / 16));
      [reflexivity .. | cbn; ring].
  - apply (assembly_quality_run _ _ (1 / 16) 1);
      [reflexivity .. | lra | field].
  - apply (compute_cost_run ones _ 2 3 1 4 2 6 3 1); try reflexivity.
    + change (Ok (0 + 2 + 2) = Ok 4). f_equal. ring.
    + apply twin_stacked_die_area; reflexivity.
    + change (Assembly.assembly_cost lossy_assembly (IZR 2) 2 = Ok 6).
      rewrite (lossy_assembly_cost 2 2). f_equal. ring.
    + rewrite (assembly_test_cost_gauss ones _ _ 2 (1 / 16)) by reflexivity.
      unfold ones. cbn. do 2 f_equal. ring.
    + lra.
    + field.
Qed.

(** C1 as stated fails. The package of the example carries two dies; the
    netlist has two wires each way between the first die and the package
    and between the two dies, on a bidirectional interconnect of one wire.
    The signals of the dies towards the blocks outside their own subtrees,
    [get_signal_count(get_chip_list())] of each die, are 4 and 2; no
    signal of a die leaves the subtree of the package. The count
    [compute_chip_yield] hands to [assembly_yield] is neither 6 nor 0 but
    4: the list of the package ends with the name of the package, so the
    wires between the first die and the package are left out, and it holds
    the lists of the dies as lists, so the wires between the two dies are
    counted, once for each die. With a bonding yield of 1/2 the true yield
    of the package is 1/16, and neither
    1 * (1 * 1) * assembly_yield(2, 6, 2) * 1 = 1/64 nor
    1 * (1 * 1) * assembly_yield(2, 0, 2) * 1 = 1. *)
Lemma chip_true_yield_bonds_are_not_external :
  Chip.init 0 ones (Some twin_package_element) None twin_catalogs true 0
  = Ok (twin_package_chip, 3%nat)
  /\ Chip.get_chips twin_package_chip = [first_die_chip; second_die_chip]
  /\ Chip.get_self_quality twin_package_chip = Ok 1
  /\ Chip.get_quality first_die_chip = Ok 1
  /\ Chip.get_quality second_die_chip = Ok 1
  /\ (exists d : list (R * R),
        Chip.get_signal_count first_die_chip
          (Chip.get_chip_list first_die_chip) = Ok (4, d))
  /\ (exists d : list (R * R),
        Chip.get_signal_count second_die_chip
          (Chip.get_chip_list second_die_chip) = Ok (2, d))
  /\ Bond.signal_count_over (Spec.external_blocks first_die_chip)
       first_die_chip 1 = 4
  /\ Bond.signal_count_over (Spec.external_blocks second_die_chip)
       second_die_chip 2 = 2
  /\ Bond.bond_count twin_package_chip = 0
  /\ Chip.get_chips_signal_count twin_package_chip = Ok 4
  /\ Chip.get_stacked_die_area twin_package_chip = Ok 2
  /\ Assembly.assembly_yield (Chip.assembly_process twin_package_chip)
       2 (4 + 2) 2 = Ok (1 / 64)
  /\ Assembly.assembly_yield (Chip.assembly_process twin_package_chip)
       2 0 2 = Ok 1
  /\ Assembly.assembly_yield (Chip.assembly_process twin_package_chip)
       2 4 2 = Ok (1 / 16)
  /\ WaferProcess.wafer_process_yield
       (Chip.wafer_process twin_package_chip) = 1
  /\ Chip.get_chip_true_yield twin_package_chip = Ok (1 / 16)
  /\ 1 / 16 <> 1 * (1 * 1) * (1 / 64) * 1
  /\ 1 / 16 <> 1 * (1 * 1) * 1 * 1.
Proof.
  split; [exact twin_package_built |].
  do 4 (split; [reflexivity |]).
  split.
  { eexists. rewrite first_die_external_signals.
    apply f_equal. apply f_equal2; [field | reflexivity]. }
  split.
  { eexists. rewrite second_die_external_signals.
    apply f_equal. apply f_equal2; [field | reflexivity]. }
  split.
  { unfold Bond.signal_count_over, Bond.signal_term, Spec.sum_over,
      Chip.bidirectional_factor.
    cbn -[Rplus Rmult Rdiv Rinv Rminus Ropp IZR Reqb Rltb Rleb].
    field. }
  split.
  { unfold Bond.signal_count_over, Bond.signal_term, Spec.sum_over,
      Chip.bidirectional_factor.
    cbn -[Rplus Rmult Rdiv Rinv Rminus Ropp IZR Reqb Rltb Rleb].
    field. }
  split.
  { unfold Bond.bond_count, Bond.signal_count_over, Bond.signal_term,
      Spec.sum_over, Chip.bidirectional_factor.
    cbn -[Rplus Rmult Rdiv Rinv Rminus Ropp IZR Reqb Rltb Rleb].
    ring. }
  split; [apply twin_package_bonds; reflexivity |].
  split; [apply twin_stacked_die_area; reflexivity |].
  change (Chip.assembly_process twin_package_chip) with lossy_assembly.
  rewrite !lossy_assembly_yield.
  split.
  { f_equal. rewrite Rpower_plus, Rpower_half_4, Rpower_half_2. field. }
  split; [f_equal; apply Rpower_half_0 |].
  split; [f_equal; apply Rpower_half_4 |].
  split; [reflexivity |].
  split; [reflexivity |].
  split; lra.
Qed.
